(** * The ranking and query-understanding core of ui-ux-pro-mcp

    A shallow embedding of the BM25 engine ([search/bm25.ts]), of the
    classifiers, the validator, the search tools and the index state of
    [tools/handlers.ts] and of the loaders of [data/loader.ts], followed
    by the properties proved about them.

    Modelling conventions.
    - A JavaScript string is a [string]: a sequence of code units below 256
      (ASCII and the Latin-1 range).  [\w] is [A-Za-z0-9_]; [\s] is the
      white space of that range (tab, line feed, vertical tab, form feed,
      carriage return, space, no-break space).
    - A JavaScript [number] is an exact number: classifier weights and
      confidences, which are finite decimals combined by [+], [*], [min],
      [max], [round] and [ceil], are rationals ([Q]) and evaluate; BM25
      scores, which go through [Math.log], are real numbers ([R]).
      Rounding errors of binary floating point are not modelled; where the
      last bit of a double decides an outcome (which of two scores that
      are equal as decimals is the larger, whether a product that is a
      whole number comes out just above it), the statements leave that
      outcome open.
    - A [Map] or object used as a dictionary is a [gmap]; where the
      iteration order of the keys is observable it is an association list
      in insertion order.
    - [Array.prototype.sort] is a stable sort (ECMAScript 2019).
    - A module variable is an argument of the functions that read it;
      [initializeIndexes], which assigns them, is a function from the
      state before to the state after.  Reading and parsing a file
      ([loadCSV]) is an argument of the loaders. *)

From Stdlib Require Import QArith Qround Qminmax Lqa Reals Lra Lia ZArith List
  String Ascii Bool Sorted Permutation.
From stdpp Require Import gmap strings list pretty.
Import ListNotations.
Local Open Scope string_scope.

(* ================================================================== *)
(** * Part I: the embedding *)
(* ================================================================== *)

(** ** JavaScript strings and arrays *)

Module JS.

Definition code (c : ascii) : N := N_of_ascii c.

Definition between (lo hi : N) (c : ascii) : bool :=
  ((lo <=? code c) && (code c <=? hi))%N.

(** [\w] without the unicode flag. *)
Definition isWordChar (c : ascii) : bool :=
  between 97 122 c || between 65 90 c || between 48 57 c || (code c =? 95)%N.

(** [\s] restricted to code units below 256. *)
Definition isSpaceChar (c : ascii) : bool :=
  between 9 13 c || (code c =? 32)%N || (code c =? 160)%N.

(** Characters with a lower-case counterpart 32 positions up: [A-Z] and
    the Latin-1 capitals (all but the multiplication sign at 215). *)
Definition isUpperChar (c : ascii) : bool :=
  between 65 90 c || (between 192 222 c && negb (code c =? 215)%N).

Definition toLowerChar (c : ascii) : ascii :=
  if isUpperChar c then ascii_of_N (code c + 32) else c.

Fixpoint mapChars (f : ascii -> ascii) (s : string) : string :=
  match s with
  | EmptyString => EmptyString
  | String c s' => String (f c) (mapChars f s')
  end.

Fixpoint allChars (p : ascii -> bool) (s : string) : bool :=
  match s with
  | EmptyString => true
  | String c s' => p c && allChars p s'
  end.

(** [s.toLowerCase()] *)
Definition toLowerCase (s : string) : string := mapChars toLowerChar s.

(** [s.includes(k)] and [s.indexOf(k)]; [None] stands for [-1]. *)
Definition indexOf (s k : string) : option nat := String.index 0 k s.

Definition includes (s k : string) : bool :=
  match indexOf s k with Some _ => true | None => false end.

(** [s.split(/\s+/)]: the pieces between maximal runs of white space.
    A run at either end leaves an empty piece there, and the empty string
    splits into one empty piece.  [insep] records that the previous
    character was white space; [cur] is the piece being read. *)
Fixpoint splitGo (insep : bool) (cur : string) (s : string) : list string :=
  match s with
  | EmptyString => [cur]
  | String c s' =>
      if isSpaceChar c
      then (if insep then splitGo true "" s' else cur :: splitGo true "" s')
      else splitGo false (cur ++ String c "") s'
  end.

Definition splitWs (s : string) : list string := splitGo false "" s.

(** [a.join(sep)] *)
Definition join (sep : string) (a : list string) : string := String.concat sep a.

Fixpoint dropSpaces (s : string) : string :=
  match s with
  | String c s' => if isSpaceChar c then dropSpaces s' else s
  | EmptyString => EmptyString
  end.

Fixpoint revString (acc s : string) : string :=
  match s with
  | EmptyString => acc
  | String c s' => revString (String c acc) s'
  end.

(** [s.trim()] *)
Definition trim (s : string) : string :=
  revString "" (dropSpaces (revString "" (dropSpaces s))).

(** [a.slice(0, stop)] for an integer [stop]: a negative [stop] counts
    from the end of the array. *)
Definition slice0 {A} (stop : Z) (a : list A) : list A :=
  let len := Z.of_nat (List.length a) in
  let k := if (stop <? 0)%Z then Z.max (len + stop) 0 else Z.min stop len in
  firstn (Z.to_nat k) a.

(** [a.sort(cmp)], where [after x y] says that [cmp(x, y) > 0], that is,
    that [x] has to come after [y].  The sort is stable: an element moves
    left only past elements that have to come after it. *)
Section Sort.
Context {A : Type} (after : A -> A -> bool).

Fixpoint insertSorted (x : A) (a : list A) : list A :=
  match a with
  | [] => [x]
  | y :: a' => if after x y then y :: insertSorted x a' else x :: a
  end.

Definition sort (a : list A) : list A := fold_right insertSorted [] a.
End Sort.

(** What a stable sort establishes between an element [x] and a later
    element [y]: [x] does not have to come after [y], and if they tie, [x]
    was before [y] in the input ([before]). *)
Definition sortedStable {A} (after : A -> A -> bool) (before : A -> A -> Prop)
    (x y : A) : Prop :=
  after x y = false /\ (after y x = false -> before x y).

(** [a.find(p)] *)
Definition find {A} (p : A -> bool) (a : list A) : option A := List.find p a.

(** [Math.round(x)]: the nearest integer, halves upwards. *)
Definition round (x : Q) : Z := Qfloor (x + (1 # 2))%Q.

(** [Math.ceil(x)] *)
Definition ceil (x : Q) : Z := Qceiling x.

(** [x > y] on the numbers that are reals. *)
Definition Rgtb (x y : R) : bool := if Rgt_dec x y then true else false.

(** [x >= y] and [x > y] on the numbers that are rationals. *)
Definition Qgeb (x y : Q) : bool := Qle_bool y x.
Definition Qgtb (x y : Q) : bool := negb (Qle_bool x y).

End JS.

(** ** [search/bm25.ts] *)

Module BM25.

Record Document := {
  id : string;
  content : string;
  data : gmap string string
}.

(** [tokenize]: lower-case, blank out what is neither a word character
    nor white space, split on white space, keep tokens longer than one
    character. *)
Definition blankOther (c : ascii) : ascii :=
  if JS.isWordChar c || JS.isSpaceChar c then c else " "%char.

Definition tokenize (text : string) : list string :=
  List.filter (fun token => (1 <? String.length token)%nat)
    (JS.splitWs (JS.mapChars blankOther (JS.toLowerCase text))).

Module SearchResult.
Record t := {
  document : Document;
  score : R
}.
End SearchResult.

(** The state of a [BM25] object.  It is computed once by the constructor
    and never changes afterwards. *)
Record t := {
  documents : list Document;
  avgDocLength : R;
  docFrequencies : gmap string nat;
  tokenizedDocs : list (list string)
}.

(** BM25 parameters *)
Definition k1 : R := 1.5.
Definition b : R := 0.75.

(** [m.set(token, (m.get(token) || 0) + 1)] *)
Definition countUp (m : gmap string nat) (token : string) : gmap string nat :=
  <[token := (default 0 (m !! token) + 1)%nat]> m.

(** [calculateDocFrequencies]: every document counts once for each of its
    distinct tokens ([new Set(tokens)]; the order in which the set is
    walked does not change the counts). *)
Definition calculateDocFrequencies (tokenizedDocs : list (list string))
  : gmap string nat :=
  fold_left
    (fun df tokens =>
       let uniqueTokens : gset string := list_to_set tokens in
       fold_left countUp (elements uniqueTokens) df)
    tokenizedDocs ∅.

(** [calculateAvgDocLength]: never zero. *)
Definition calculateAvgDocLength (tokenizedDocs : list (list string)) : R :=
  if (List.length tokenizedDocs =? 0)%nat then 1%R
  else
    let totalLength :=
      fold_left (fun sum tokens => (sum + List.length tokens)%nat) tokenizedDocs 0%nat in
    let avg := (INR totalLength / INR (List.length tokenizedDocs))%R in
    if Req_dec_T avg 0 then 1%R else avg.

(** [constructor(documents)] *)
Definition new (documents : list Document) : t :=
  let tokenizedDocs := List.map (fun doc => tokenize (content doc)) documents in
  {| documents := documents;
     avgDocLength := calculateAvgDocLength tokenizedDocs;
     docFrequencies := calculateDocFrequencies tokenizedDocs;
     tokenizedDocs := tokenizedDocs |}.

Definition idf (self : t) (term : string) : R :=
  let N := INR (List.length (documents self)) in
  let df := INR (default 0%nat (docFrequencies self !! term)) in
  ln ((N - df + 0.5) / (df + 0.5) + 1).

(** [score(queryTokens, docIndex)].  [docIndex] is always an index of
    [tokenizedDocs] when [search] calls it; an index out of range (a
    [TypeError] in JavaScript) reads as the empty document here. *)
Definition score (self : t) (queryTokens : list string) (docIndex : nat) : R :=
  let docTokens := default [] (tokenizedDocs self !! docIndex) in
  let docLength := INR (List.length docTokens) in
  let termFrequencies := fold_left countUp docTokens (∅ : gmap string nat) in
  fold_left
    (fun score term =>
       let tf := default 0%nat (termFrequencies !! term) in
       if (tf =? 0)%nat then score
       else
         let idfValue := idf self term in
         let numerator := (INR tf * (k1 + 1))%R in
         let denominator :=
           (INR tf + k1 * (1 - b + b * (docLength / avgDocLength self)))%R in
         (score + idfValue * (numerator / denominator))%R)
    queryTokens 0%R.

(** [search(query, maxResults = 3)] *)
Definition search (self : t) (query : string) (maxResults : option Z)
  : list SearchResult.t :=
  let maxResults := default 3%Z maxResults in
  let queryTokens := tokenize query in
  let results :=
    imap (fun index doc =>
            {| SearchResult.document := doc;
               SearchResult.score := score self queryTokens index |})
         (documents self) in
  JS.slice0 maxResults
    (JS.sort (fun a b => JS.Rgtb (SearchResult.score b - SearchResult.score a) 0)
       (List.filter (fun r => JS.Rgtb (SearchResult.score r) 0) results)).

(** What one character becomes on its way through [tokenize]. *)
Definition normChar (c : ascii) : ascii := blankOther (JS.toLowerChar c).

(** The characters of a token: lower-case word characters. *)
Definition tokenChar (c : ascii) : bool :=
  JS.isWordChar c && negb (JS.isSpaceChar c) && Ascii.eqb (normChar c) c.

End BM25.

(** ** [data/mappings.ts]

    The later of the two versions of the table, the one with the page
    types and the platform key words that [handlers.ts] detects. *)

Module Mappings.

Definition DOMAIN_MAPPINGS : list (string * string) :=
  [ ("crypto",
     "dashboard numbers metrics chart dark mode");
    ("fintech",
     "pricing table trust security calculator data");
    ("modern",
     "clean minimal bento gradient");
    ("ecommerce",
     "gallery image search filter pricing plans reviews hero cart");
    ("healthcare",
     "dashboard metrics table trust profile form clean medical");
    ("education",
     "dashboard profile search gallery clean learning course");
    ("realestate",
     "map location gallery image search filter property listing");
    ("travel",
     "map location gallery image search filter reviews destination booking");
    ("saas",
     "dashboard chart metrics pricing plans table modern analytics toggle dark mode theme switch scroll navigation footer utility back-to-top accessibility");
    ("gaming",
     "dark mode social profile feed gallery modern stream immersive");
    ("social",
     "feed profile social gallery search modern community chat");
    ("news",
     "feed search bento clean modern image article trending");
    ("portfolio",
     "gallery image profile clean modern bento showcase creative");
    ("landing",
     "hero cta testimonials pricing features section toggle navigation header footer utility scroll dark-mode light-mode theme accessibility back-to-top");
    ("dashboard",
     "analytics chart metrics kpi toggle dark mode theme panel sidebar navigation utility");
    ("page",
     "landing hero section toggle dark mode navigation footer header utility accessibility");
    ("security",
     "authentication password validation privacy alerts trust shield");
    ("trust",
     "reviews testimonials badges secure verified");
    ("analytics",
     "dashboard chart metrics table data visualization report");
    ("onboarding",
     "form profile clean modern step guide welcome");
    ("conversion",
     "pricing plans reviews trust hero cta signup");
    ("hero",
     "hero-centric headline visual banner above-fold primary");
    ("pricing",
     "pricing-focused plans tiers comparison subscription");
    ("testimonials",
     "social-proof reviews trust badges authority");
    ("features",
     "feature-grid benefits highlights showcase");
    ("cta",
     "call-to-action button conversion signup");
    ("website",
     "landing page hero cta testimonials features section");
    ("web",
     "landing page hero cta section");
    ("site",
     "landing page hero cta section");
    ("homepage",
     "landing hero features cta testimonials pricing");
    ("admin",
     "dashboard panel analytics metrics sidebar");
    ("panel",
     "dashboard admin analytics metrics sidebar");
    ("metrics",
     "dashboard analytics chart kpi data");
    ("kpi",
     "dashboard metrics analytics chart data");
    ("ios",
     "hig human interface guidelines iphone ipad sf symbols cupertino design system apple guidelines swiftui like mobile native");
    ("platform",
     "ios hig human interface iphone ipad sf symbols cupertino apple design swiftui style android material flutter native mobile");
    ("iphone",
     "ios mobile hig human interface guidelines apple native cupertino sf symbols");
    ("ipad",
     "ios tablet hig human interface guidelines apple native cupertino sf symbols");
    ("apple",
     "ios hig human interface guidelines iphone ipad sf symbols cupertino design system swiftui native");
    ("cupertino",
     "ios apple hig human interface guidelines sf symbols iphone ipad flutter native");
    ("hig",
     "ios apple human interface guidelines cupertino sf symbols design system native mobile");
    ("ios style",
     "cupertino hig human interface sf symbols apple design flutter react-native without swift");
    ("swiftui style",
     "ios cupertino hig sf symbols apple design flutter react-native");
    ("cupertino style",
     "ios hig flutter react-native apple design sf symbols");
    ("ios without swift",
     "cupertino flutter react-native ios style hig sf symbols");
    ("ios flutter",
     "cupertino hig sf symbols apple design ios style cross-platform");
    ("ios react native",
     "cupertino hig sf symbols apple design ios style cross-platform");
    ("android",
     "material material design m3 material you google design jetpack compose kotlin ui dynamic color tonal elevation");
    ("material",
     "android material design m3 material 3 material you google design dynamic color tonal elevation");
    ("material 3",
     "android material design m3 material you google design jetpack compose dynamic color");
    ("material design",
     "android m3 material 3 material you google design dynamic color tonal elevation");
    ("m3",
     "android material material 3 material design material you google design dynamic color");
    ("jetpack compose",
     "android material m3 kotlin ui compose google design native");
    ("compose",
     "android jetpack compose kotlin ui material m3 google design native");
    ("kotlin ui",
     "android jetpack compose compose material m3 google design native");
    ("google design",
     "android material m3 material design material you dynamic color tonal elevation");
    ("android hig",
     "material material design m3 material you google design jetpack compose");
    ("material you",
     "android material m3 material design dynamic color personalization google design");
    ("dynamic color",
     "android material you m3 material 3 personalization theming google design");
    ("tonal elevation",
     "android material m3 surface elevation depth google design");
    ("android style",
     "material m3 material design jetpack compose flutter react-native without kotlin");
    ("material style",
     "android m3 material design flutter react-native google design");
    ("android flutter",
     "material m3 material design android style cross-platform flutter");
    ("android react native",
     "material m3 material design android style cross-platform react-native") ].

End Mappings.

(** ** [tools/handlers.ts]: keyword tables *)

Module Tables.

Record KeywordEntry := {
  keyword : string;
  weight : Q  (* 0.0 - 1.0, higher = more specific/confident *)
}.

Definition kw (keyword : string) (weight : Q) : KeywordEntry :=
  {| keyword := keyword; weight := weight |}.

(** An object literal is the list of its entries in insertion order, the
    order of [Object.entries]; its keys are distinct. *)
Definition domainKeywordsWeighted : list (string * list KeywordEntry) :=
  [ ("color", [
      kw "color palette" 1.0;
      kw "color scheme" 1.0;
      kw "hex code" 0.95;
      kw "palette" 0.9;
      kw "color" 0.7;
      kw "hex" 0.6;
      kw "rgb" 0.5;
      kw "#" 0.3 ]);
    ("chart", [
      kw "chart type" 1.0;
      kw "data visualization" 1.0;
      kw "visualization" 0.9;
      kw "chart" 0.85;
      kw "graph" 0.8;
      kw "pie chart" 0.95;
      kw "bar chart" 0.95;
      kw "scatter plot" 0.95;
      kw "heatmap" 0.9;
      kw "funnel" 0.7;
      kw "trend" 0.5;
      kw "bar" 0.4;
      kw "pie" 0.4;
      kw "scatter" 0.5 ]);
    ("landing", [
      kw "landing page" 1.0;
      kw "landing pattern" 1.0;
      kw "hero section" 0.95;
      kw "cta button" 0.9;
      kw "conversion" 0.8;
      kw "landing" 0.75;
      kw "hero" 0.7;
      kw "testimonial" 0.7;
      kw "pricing section" 0.8;
      kw "cta" 0.6;
      kw "section" 0.3 ]);
    ("product", [
      kw "product type" 1.0;
      kw "saas design" 1.0;
      kw "ecommerce design" 1.0;
      kw "fintech" 0.9;
      kw "healthcare" 0.85;
      kw "saas" 0.8;
      kw "ecommerce" 0.8;
      kw "e-commerce" 0.8;
      kw "gaming" 0.7;
      kw "portfolio" 0.6;
      kw "crypto" 0.7;
      kw "dashboard" 0.6 ]);
    ("prompt", [
      kw "ai prompt" 1.0;
      kw "prompt template" 1.0;
      kw "css snippet" 0.9;
      kw "implementation checklist" 0.9;
      kw "design system variable" 0.85;
      kw "prompt" 0.7;
      kw "checklist" 0.5;
      kw "variable" 0.3 ]);
    ("style", [
      kw "ui style" 1.0;
      kw "design style" 1.0;
      kw "glassmorphism" 0.95;
      kw "neumorphism" 0.95;
      kw "brutalism" 0.95;
      kw "minimalism" 0.9;
      kw "dark mode" 0.85;
      kw "flat design" 0.9;
      kw "aurora" 0.7;
      kw "style" 0.5;
      kw "design" 0.3;
      kw "ui" 0.3 ]);
    ("ux", [
      kw "ux guideline" 1.0;
      kw "ux best practice" 1.0;
      kw "usability" 0.9;
      kw "accessibility" 0.9;
      kw "wcag" 0.95;
      kw "a11y" 0.9;
      kw "ux" 0.75;
      kw "user experience" 0.85;
      kw "touch target" 0.8;
      kw "scroll" 0.4;
      kw "animation" 0.4;
      kw "keyboard" 0.5;
      kw "navigation" 0.4;
      kw "mobile" 0.3 ]);
    ("typography", [
      kw "font pairing" 1.0;
      kw "typography" 0.9;
      kw "google fonts" 0.85;
      kw "font family" 0.85;
      kw "heading font" 0.9;
      kw "body font" 0.9;
      kw "font" 0.6;
      kw "serif" 0.5;
      kw "sans-serif" 0.5;
      kw "sans" 0.4;
      kw "heading" 0.3 ]);
    ("icons", [
      kw "lucide icon" 1.0;
      kw "icon search" 1.0;
      kw "lucide" 0.95;
      kw "heroicons" 0.9;
      kw "svg icon" 0.9;
      kw "icons" 0.8;
      kw "icon" 0.7;
      kw "symbol" 0.4;
      kw "glyph" 0.5;
      kw "pictogram" 0.6 ]);
    ("platform", [
      kw "ios guideline" 1.0;
      kw "ios hig" 1.0;
      kw "human interface" 0.95;
      kw "apple design" 0.95;
      kw "ios native" 0.9;
      kw "ios pattern" 0.9;
      kw "cupertino" 0.85;
      kw "uikit" 0.85;
      kw "ios color" 0.8;
      kw "ios typography" 0.8;
      kw "ios navigation" 0.8;
      kw "safe area" 0.75;
      kw "notch" 0.7;
      kw "home indicator" 0.75;
      kw "dynamic island" 0.8;
      kw "android guideline" 1.0;
      kw "material design" 1.0;
      kw "material 3" 1.0;
      kw "m3" 0.95;
      kw "material you" 0.95;
      kw "google design" 0.9;
      kw "android native" 0.9;
      kw "android pattern" 0.9;
      kw "jetpack compose" 0.95;
      kw "compose" 0.7;
      kw "kotlin ui" 0.85;
      kw "android hig" 0.9;
      kw "android color" 0.8;
      kw "android typography" 0.8;
      kw "android navigation" 0.8;
      kw "dynamic color" 0.85;
      kw "tonal elevation" 0.8;
      kw "material" 0.6;
      kw "android" 0.6 ]) ].

Definition stackKeywordsWeighted : list (string * list KeywordEntry) :=
  [ ("react", [
      kw "react hooks" 1.0;
      kw "usestate" 0.95;
      kw "useeffect" 0.95;
      kw "usememo" 0.95;
      kw "usecallback" 0.95;
      kw "useref" 0.95;
      kw "usecontext" 0.95;
      kw "jsx" 0.85;
      kw "react component" 0.9;
      kw "react" 0.7 ]);
    ("nextjs", [
      kw "next.js" 1.0;
      kw "nextjs" 1.0;
      kw "app router" 0.95;
      kw "server components" 0.95;
      kw "server actions" 0.95;
      kw "getserversideprops" 0.95;
      kw "getstaticprops" 0.95;
      kw "pages router" 0.9;
      kw "next/image" 0.9;
      kw "next/link" 0.9 ]);
    ("vue", [
      kw "vue 3" 1.0;
      kw "vuejs" 1.0;
      kw "vue.js" 1.0;
      kw "composition api" 0.95;
      kw "options api" 0.9;
      kw "pinia" 0.95;
      kw "vuex" 0.9;
      kw "ref(" 0.85;
      kw "reactive(" 0.85;
      kw "vue" 0.6 ]);
    ("svelte", [
      kw "sveltekit" 1.0;
      kw "svelte 5" 1.0;
      kw "svelte store" 0.95;
      kw "$:" 0.7;
      kw "svelte" 0.8 ]);
    ("flutter", [
      kw "flutter widget" 1.0;
      kw "flutter" 0.9;
      kw "dart" 0.7;
      kw "statefulwidget" 0.95;
      kw "statelesswidget" 0.95;
      kw "buildcontext" 0.9;
      kw "widget" 0.4 ]);
    ("swiftui", [
      kw "swiftui" 1.0;
      kw "swift ui" 1.0;
      kw "ios development" 0.8;
      kw "@state" 0.9;
      kw "@binding" 0.9;
      kw "@observedobject" 0.9;
      kw "ios" 0.5 ]);
    ("react-native", [
      kw "react native" 1.0;
      kw "react-native" 1.0;
      kw "expo" 0.85;
      kw "expo router" 0.95;
      kw "native module" 0.8 ]);
    ("html-tailwind", [
      kw "tailwind css" 1.0;
      kw "tailwindcss" 1.0;
      kw "tailwind" 0.85;
      kw "utility css" 0.9;
      kw "utility class" 0.8;
      kw "utility-first" 0.9 ]);
    ("shadcn", [
      kw "shadcn/ui" 1.0;
      kw "shadcn" 0.95;
      kw "radix ui" 0.85;
      kw "radix" 0.7 ]);
    ("nuxtjs", [
      kw "nuxt 3" 1.0;
      kw "nuxtjs" 1.0;
      kw "nuxt.js" 1.0;
      kw "nuxt" 0.85;
      kw "usefetch" 0.9;
      kw "useasyncdata" 0.9 ]);
    ("nuxt-ui", [
      kw "nuxt ui" 1.0;
      kw "@nuxt/ui" 1.0 ]) ].

Definition PLATFORM_KEYWORDS : list (string * list KeywordEntry) :=
  [ ("web", [
      kw "viewport" 0.7;
      kw "responsive" 0.7;
      kw "navbar" 0.7;
      kw "header" 0.6;
      kw "footer" 0.6;
      kw "sidebar" 0.7;
      kw "hero section" 0.8;
      kw "mega menu" 0.8;
      kw "breadcrumbs" 0.7;
      kw "modal" 0.5;
      kw "popup" 0.6;
      kw "carousel" 0.6;
      kw "hover states" 0.8;
      kw "above the fold" 0.8;
      kw "page" 0.4;
      kw "sticky header" 0.8;
      kw "multi-column" 0.7;
      kw "css grid" 0.7;
      kw "media queries" 0.8;
      kw "hamburger menu" 0.6;
      kw "seo" 0.8;
      kw "lighthouse" 0.9;
      kw "web vitals" 0.9;
      kw "pwa" 0.8;
      kw "progressive web app" 0.9;
      kw "landing page" 0.7;
      kw "website" 0.6;
      kw "web app" 0.7;
      kw "browser" 0.6 ]);
    ("mobile-ios", [
      kw "tab bar" 0.8;
      kw "navigation bar" 0.6;
      kw "bottom sheet" 0.7;
      kw "segmented control" 0.9;
      kw "sf symbols" 1.0;
      kw "swipe gesture" 0.6;
      kw "edge swipe" 0.8;
      kw "haptic feedback" 0.7;
      kw "safe area" 0.9;
      kw "navigationstack" 1.0;
      kw "navigationlink" 1.0;
      kw "hig" 0.9;
      kw "human interface guidelines" 1.0;
      kw "pull-to-refresh" 0.6;
      kw "long-press" 0.5;
      kw "touch target" 0.5;
      kw "hit area" 0.6;
      kw "dynamic type" 0.9;
      kw "ios app" 1.0;
      kw "iphone" 0.9;
      kw "ipad" 0.9;
      kw "uikit" 1.0;
      kw "swiftui" 1.0;
      kw "ios" 1.0;
      kw "cupertino" 1.0 ]);
    ("mobile-android", [
      kw "bottom navigation" 0.8;
      kw "navigation drawer" 0.9;
      kw "fab" 0.8;
      kw "floating action button" 0.9;
      kw "top app bar" 0.9;
      kw "snackbar" 0.9;
      kw "chips" 0.6;
      kw "material 3" 1.0;
      kw "material you" 1.0;
      kw "adaptive layouts" 0.8;
      kw "gesture navigation" 0.7;
      kw "up arrow" 0.7;
      kw "foldable" 0.9;
      kw "multi-window" 0.8;
      kw "dynamic color" 0.9;
      kw "surface" 0.5;
      kw "scaffold" 0.8;
      kw "android app" 0.9;
      kw "jetpack compose" 1.0;
      kw "material design" 0.8;
      kw "android" 0.7;
      kw "kotlin" 0.8 ]);
    ("cross-platform", [
      kw "react native" 1.0;
      kw "flutter" 1.0;
      kw "expo" 0.9;
      kw "kotlin multiplatform" 1.0;
      kw "cross-platform" 0.9;
      kw "shared codebase" 0.9;
      kw "hot reload" 0.8;
      kw "platform-specific" 0.7;
      kw "widget" 0.5;
      kw "component tree" 0.6;
      kw "declarative" 0.5;
      kw "state management" 0.5;
      kw "navigator" 0.6;
      kw "stack navigator" 0.9;
      kw "tab navigator" 0.9;
      kw "drawer navigator" 0.9 ]);
    ("mobile-generic", [
      kw "mobile" 0.6;
      kw "app" 0.4;
      kw "native" 0.6;
      kw "touch" 0.5;
      kw "gesture" 0.5;
      kw "swipe" 0.5;
      kw "bottom tabs" 0.7;
      kw "screen" 0.4;
      kw "view" 0.3;
      kw "modal presentation" 0.6;
      kw "push navigation" 0.7;
      kw "pop navigation" 0.7;
      kw "mobile ui" 0.8;
      kw "mobile design" 0.8 ]) ].

(** Map domain names to their document type prefixes *)
Definition domainToTypeMap : list (string * string) :=
  [ ("color", "color"); ("chart", "chart"); ("landing", "landing");
    ("product", "product"); ("prompt", "prompt"); ("style", "style");
    ("ux", "ux-guideline"); ("typography", "typography");
    ("icons", "icon"); ("platform", "platform") ].

Record IntentGroup := {
  keywords : list string;
  groupWeight : Q
}.

Definition group (keywords : list string) (weight : Q) : IntentGroup :=
  {| keywords := keywords; groupWeight := weight |}.

Definition PAGE_INTENT_KEYWORDS : list (string * list IntentGroup) :=
  [ ("landing", [
      group ["landing page"] 1.0;
      group ["landing"] 0.95;
      group ["homepage"; "home page"] 0.9;
      group ["website"; "web site"] 0.85;
      group ["hero"] 0.8;
      group ["cta"; "call to action"] 0.75;
      group ["site"] 0.7;
      group ["web"] 0.6 ]);
    ("dashboard", [
      group ["dashboard"] 1.0;
      group ["admin panel"; "admin dashboard"] 0.95;
      group ["analytics"] 0.9;
      group ["metrics"] 0.85;
      group ["kpi"; "kpis"] 0.8;
      group ["admin"] 0.75;
      group ["panel"] 0.7 ]);
    ("page", [
      group ["page"] 0.6 ]) ].

(** Framework name mapping for detected platforms: (keyword, framework) *)
Definition FRAMEWORK_KEYWORDS : list (string * list (string * string)) :=
  [ ("mobile-ios", [
      ("swiftui", "swiftui");
      ("uikit", "uikit") ]);
    ("mobile-android", [
      ("jetpack compose", "jetpack-compose");
      ("kotlin", "jetpack-compose");
      ("material 3", "jetpack-compose") ]);
    ("cross-platform", [
      ("flutter", "flutter");
      ("react native", "react-native");
      ("react-native", "react-native");
      ("expo", "react-native");
      ("kotlin multiplatform", "kotlin-multiplatform") ]) ].

(** [table[key]] *)
Definition lookup {V} (table : list (string * V)) (key : string) : option V :=
  option_map snd (List.find (fun e => String.eqb (fst e) key) table).

End Tables.

(** ** [data/loader.ts] *)

Module Loader.

(** Available stack names *)
Definition AVAILABLE_STACKS : list string :=
  [ "flutter"; "html-tailwind"; "jetpack-compose"; "nextjs"; "nuxt-ui";
    "nuxtjs"; "react-native"; "react"; "shadcn"; "svelte"; "swiftui"; "vue" ].

(** Available platform names *)
Definition AVAILABLE_PLATFORMS : list string := [ "ios"; "android" ].

Definition getAvailableStacks : list string := AVAILABLE_STACKS.

Definition getAvailablePlatforms : list string := AVAILABLE_PLATFORMS.

(** A record of a data file: a dictionary from the column names to the
    values of one line. *)
Definition Row : Type := gmap string string.

(** [m.set(key, value)] on a [Map] kept as the list of its entries in
    insertion order: a key that is there keeps its place. *)
Fixpoint mapSet {V} (m : list (string * V)) (key : string) (value : V)
  : list (string * V) :=
  match m with
  | [] => [(key, value)]
  | (k, v) :: m' =>
      if String.eqb k key then (key, value) :: m'
      else (k, v) :: mapSet m' key value
  end.

Section Load.

(** [loadCSV(filename)]: the records of a file of the data directory, none
    when the file is missing.  Reading the file and parsing it are not
    modelled. *)
Variable loadCSV : string -> list Row.

Definition loadStyles : list Row := loadCSV "styles.csv".
Definition loadColors : list Row := loadCSV "colors.csv".
Definition loadTypography : list Row := loadCSV "typography.csv".
Definition loadCharts : list Row := loadCSV "charts.csv".
Definition loadUXGuidelines : list Row := loadCSV "ux-guidelines.csv".
Definition loadIcons : list Row := loadCSV "icons.csv".
Definition loadLanding : list Row := loadCSV "landing.csv".
Definition loadProducts : list Row := loadCSV "products.csv".
Definition loadPrompts : list Row := loadCSV "prompts.csv".

Definition loadStack (stackName : string) : list Row :=
  let normalizedName := JS.trim (JS.toLowerCase stackName) in
  if negb (existsb (String.eqb normalizedName) AVAILABLE_STACKS) then []
  else loadCSV ("stacks/" ++ normalizedName ++ ".csv").

Definition loadAllStacks : list (string * list Row) :=
  fold_left
    (fun stacks stackName =>
       let data := loadStack stackName in
       if (0 <? List.length data)%nat then mapSet stacks stackName data
       else stacks)
    AVAILABLE_STACKS [].

Definition loadPlatform (platformName : string) : list Row :=
  let normalizedName := JS.trim (JS.toLowerCase platformName) in
  if negb (existsb (String.eqb normalizedName) AVAILABLE_PLATFORMS) then []
  else loadCSV ("platforms/" ++ normalizedName ++ ".csv").

Definition loadAllPlatforms : list (string * list Row) :=
  fold_left
    (fun platforms platformName =>
       let data := loadPlatform platformName in
       if (0 <? List.length data)%nat then mapSet platforms platformName data
       else platforms)
    AVAILABLE_PLATFORMS [].

End Load.

End Loader.

(** ** [tools/handlers.ts]: keyword matching and the classifiers *)

Module Handlers.
Import JS Tables.

Module DomainMatch.
Record t := {
  domain : string;
  confidence : Q
}.
End DomainMatch.

(** *** [matchesKeyword]

    A key word without a space is tested with the regular expression
    [\bKEYWORD\b], flag [i]; [escapeRegex] makes every character of the
    key word stand for itself.  [\b] holds between two characters (or a
    character and an end of the string) of which exactly one is a word
    character. *)

Definition wordAt (c : option ascii) : bool :=
  match c with Some c => isWordChar c | None => false end.

Definition isBoundary (before after : option ascii) : bool :=
  xorb (wordAt before) (wordAt after).

Definition firstChar (s : string) : option ascii :=
  match s with String c _ => Some c | EmptyString => None end.

(** Reads [keyword] at the start of [s], ignoring case, and returns the
    last character read (or [last] when there is none) and the rest. *)
Fixpoint readKeyword (last : option ascii) (keyword s : string)
  : option (option ascii * string) :=
  match keyword with
  | EmptyString => Some (last, s)
  | String k keyword' =>
      match s with
      | EmptyString => None
      | String c s' =>
          if Ascii.eqb (toLowerChar k) (toLowerChar c)
          then readKeyword (Some c) keyword' s'
          else None
      end
  end.

(** [\bKEYWORD\b] matches at the start of [s], [prev] being the character
    before. *)
Definition matchHere (prev : option ascii) (keyword s : string) : bool :=
  isBoundary prev (firstChar s)
  && match readKeyword prev keyword s with
     | Some (last, rest) => isBoundary last (firstChar rest)
     | None => false
     end.

(** [regex.test(s)]: a match at some position. *)
Fixpoint regexTest (prev : option ascii) (keyword s : string) : bool :=
  matchHere prev keyword s
  || match s with
     | EmptyString => false
     | String c s' => regexTest (Some c) keyword s'
     end.

Definition matchesKeyword (query keyword : string) : bool :=
  if includes keyword " " then includes query keyword
  else regexTest None keyword query.

(** *** [detectDomains], [detectStacks] *)

(** The inner loop over the key words of one category: the largest weight
    matched so far and the number of matches. *)
Definition scanKeywords (lowerQuery : string) (keywords : list KeywordEntry)
  : Q * nat :=
  fold_left
    (fun '(maxScore, matchCount) entry =>
       if matchesKeyword lowerQuery (keyword entry)
       then (Qmax maxScore (weight entry), S matchCount)
       else (maxScore, matchCount))
    keywords (0%Q, 0%nat).

(** The outer loop.  The [Map] of scores is the list of its entries in
    insertion order: the categories are distinct, so every [set] adds an
    entry at the end.  [boostMax] and [boostStep] are 0.1 and 0.03 in
    [detectDomains] and [detectStacks], 0.15 and 0.05 in
    [detectPlatformIntent].  The sum is exact; the sum of the doubles can
    differ from it in the last bit ([0.7 + 0.1] is [0.7999999999999999]),
    which shows in the order of two scores that are equal as decimals. *)
Definition finalScore (boostMax boostStep : Q) (maxScore : Q) (matchCount : nat) : Q :=
  let multiMatchBoost :=
    Qmin boostMax ((inject_Z (Z.of_nat matchCount) - 1) * boostStep) in
  Qmin 1.0 (maxScore + multiMatchBoost).

Definition scoreCategories (table : list (string * list KeywordEntry))
    (lowerQuery : string) : list (string * Q) :=
  fold_left
    (fun scores '(category, keywords) =>
       let '(maxScore, matchCount) := scanKeywords lowerQuery keywords in
       if (0 <? matchCount)%nat
       then (scores ++ [(category, finalScore 0.1 0.03 maxScore matchCount)])%list
       else scores)
    table [].

(** Convert to array and sort by confidence descending *)
Definition rankedMatches (scores : list (string * Q)) : list DomainMatch.t :=
  sort (fun a b => Qgtb (DomainMatch.confidence b - DomainMatch.confidence a) 0)
    (List.map (fun '(domain, confidence) =>
                 {| DomainMatch.domain := domain;
                    DomainMatch.confidence := confidence |})
       scores).

Definition detectDomains (query : string) : list DomainMatch.t :=
  let lowerQuery := toLowerCase query in
  let domainScores := scoreCategories domainKeywordsWeighted lowerQuery in
  let results := rankedMatches domainScores in
  (* Filter out very low confidence matches (below 0.2) *)
  List.filter (fun r => Qgeb (DomainMatch.confidence r) 0.2) results.

Definition detectStacks (query : string) : list DomainMatch.t :=
  let lowerQuery := toLowerCase query in
  let stackScores := scoreCategories stackKeywordsWeighted lowerQuery in
  let results := rankedMatches stackScores in
  List.filter (fun r => Qgeb (DomainMatch.confidence r) 0.3) results.

(** [detectDomain] (legacy) *)
Definition detectDomain (query : string) : option string :=
  match detectDomains query with
  | m :: _ =>
      if Qgeb (DomainMatch.confidence m) 0.3 then Some (DomainMatch.domain m)
      else None
  | [] => None
  end.

(** *** [classifyPageIntent] *)

Module PageIntentResult.
Record t := {
  intent : string;  (* 'landing' | 'dashboard' | 'page' | 'unknown' *)
  confidence : Q;
  matchedKeyword : option string;
  position : Z;  (* Position of keyword in query (0-indexed) *)
  warnings : list string
}.
End PageIntentResult.

Module PhraseMatch.
Record t := {
  phrase : string;
  intent : string;
  weight : Q;
  position : nat
}.
End PhraseMatch.

(** PHASE 1: the multi-word phrases found in the query, in the order of
    the three nested loops. *)
Definition phraseMatches (lowerQuery : string) : list PhraseMatch.t :=
  flat_map
    (fun '(intentType, keywordGroups) =>
       flat_map
         (fun group =>
            flat_map
              (fun keyword =>
                 if includes keyword " "
                 then match indexOf lowerQuery keyword with
                      | Some pos =>
                          [ {| PhraseMatch.phrase := keyword;
                               PhraseMatch.intent := intentType;
                               PhraseMatch.weight := groupWeight group;
                               PhraseMatch.position := pos |} ]
                      | None => []
                      end
                 else [])
              (keywords group))
         keywordGroups)
    PAGE_INTENT_KEYWORDS.

(** [(a, b) => a.position - b.position || b.weight - a.weight] is
    positive. *)
Definition phraseAfter (a b : PhraseMatch.t) : bool :=
  if (PhraseMatch.position a =? PhraseMatch.position b)%nat
  then Qgtb (PhraseMatch.weight b - PhraseMatch.weight a) 0
  else (PhraseMatch.position b <? PhraseMatch.position a)%nat.

(** The confidence of a match of weight [weight] at word [wordPosition]
    (the same three lines in both phases). *)
Definition positionConfidence (weight : Q) (wordPosition : nat) : Q :=
  let positionPenalty := Qmin 0.3 (inject_Z (Z.of_nat wordPosition) * 0.05) in
  let finalConfidence := Qmax 0.3 (weight - positionPenalty) in
  inject_Z (round (finalConfidence * 100)) / 100.

(** [lowerQuery.substring(0, pos).split(/\s+/).filter(w => w.length > 0).length] *)
Definition wordsBefore (lowerQuery : string) (pos : nat) : nat :=
  List.length
    (List.filter (fun w => (0 <? String.length w)%nat)
       (splitWs (String.substring 0 pos lowerQuery))).

(** PHASE 2, for one token: the first single-word key word equal to the
    token, in the order of the three nested loops. *)
Definition singleWordMatch (token : string) : option (string * string * Q) :=
  List.find
    (fun '(intentType, keyword, weight) =>
       negb (includes keyword " ") && String.eqb token keyword
       && Qgeb weight 0.6)
    (flat_map
       (fun '(intentType, keywordGroups) =>
          flat_map
            (fun group =>
               List.map (fun keyword => (intentType, keyword, groupWeight group))
                 (keywords group))
            keywordGroups)
       PAGE_INTENT_KEYWORDS).

(** The loop over [tokens], from index [i]. *)
Fixpoint scanTokens (i : nat) (tokens : list string)
  : option PageIntentResult.t :=
  match tokens with
  | [] => None
  | token :: tokens' =>
      match singleWordMatch token with
      | Some (intentType, keyword, weight) =>
          Some {| PageIntentResult.intent := intentType;
                  PageIntentResult.confidence := positionConfidence weight i;
                  PageIntentResult.matchedKeyword := Some keyword;
                  PageIntentResult.position := Z.of_nat i;
                  PageIntentResult.warnings := [] |}
      | None => scanTokens (S i) tokens'
      end
  end.

Definition classifyPageIntent (query : string) : PageIntentResult.t :=
  let lowerQuery := trim (toLowerCase query) in
  (* sorting keeps the length, so the sorted array is empty exactly when
     no phrase matched *)
  match sort phraseAfter (phraseMatches lowerQuery) with
  | best :: _ =>
      let wordPosition := wordsBefore lowerQuery (PhraseMatch.position best) in
      {| PageIntentResult.intent := PhraseMatch.intent best;
         PageIntentResult.confidence :=
           positionConfidence (PhraseMatch.weight best) wordPosition;
         PageIntentResult.matchedKeyword := Some (PhraseMatch.phrase best);
         PageIntentResult.position := Z.of_nat wordPosition;
         PageIntentResult.warnings := [] |}
  | [] =>
      match scanTokens 0 (splitWs lowerQuery) with
      | Some result => result
      | None =>
          (* No strong match found *)
          {| PageIntentResult.intent := "unknown";
             PageIntentResult.confidence := 0;
             PageIntentResult.matchedKeyword := None;
             PageIntentResult.position := -1;
             PageIntentResult.warnings :=
               ["No page intent keywords detected in query"] |}
      end
  end.

(** *** [detectPlatformIntent] *)

Module PlatformIntentResult.
Record t := {
  platform : string;
  confidence : Q;  (* 0-1 *)
  matched_keywords : list string;
  framework : option string
}.
End PlatformIntentResult.

(** The inner loop over the key words of one platform. *)
Definition scanPlatformKeywords (lowerQuery : string)
    (keywords : list KeywordEntry) : Q * list string :=
  fold_left
    (fun '(maxWeight, matchedKeywords) entry =>
       if matchesKeyword lowerQuery (keyword entry)
       then (Qmax maxWeight (weight entry),
             (matchedKeywords ++ [keyword entry])%list)
       else (maxWeight, matchedKeywords))
    keywords (0%Q, []).

(** [platformScores] after the scoring loop.  The [Map] is initialised
    with [{ score: 0, keywords: [] }] for every platform, in the order of
    the table, and a later [set] keeps the place of its key. *)
Definition platformScores (lowerQuery : string)
  : list (string * (Q * list string)) :=
  List.map
    (fun '(platform, keywords) =>
       let '(maxWeight, matchedKeywords) :=
         scanPlatformKeywords lowerQuery keywords in
       if (0 <? List.length matchedKeywords)%nat
       then (platform,
             (finalScore 0.15 0.05 maxWeight (List.length matchedKeywords),
              matchedKeywords))
       else (platform, (0%Q, [])))
    PLATFORM_KEYWORDS.

(** Find the highest scoring platform.  Scores that are equal here can
    differ in the last bit as doubles, and the loop then takes the larger
    double, not the first. *)
Definition bestPlatform (scores : list (string * (Q * list string)))
  : string * Q * list string :=
  fold_left
    (fun '(bestPlatform, bestScore, bestKeywords) '(platform, (score, keywords)) =>
       if Qgtb score bestScore
       then (platform, score, keywords)
       else (bestPlatform, bestScore, bestKeywords))
    scores ("web", 0%Q, []).

Definition detectPlatformIntent (query : string) : PlatformIntentResult.t :=
  let lowerQuery := toLowerCase query in
  let '(bestPlatform, bestScore, bestKeywords) :=
    bestPlatform (platformScores lowerQuery) in
  (* Detect framework if applicable *)
  let framework :=
    match lookup FRAMEWORK_KEYWORDS bestPlatform with
    | Some frameworkKeywords =>
        option_map snd
          (List.find (fun '(keyword, _) => matchesKeyword lowerQuery keyword)
             frameworkKeywords)
    | None => None
    end in
  (* If no platform detected (score is 0), default to web with low confidence *)
  if Qeq_bool bestScore 0
  then {| PlatformIntentResult.platform := "web";
          PlatformIntentResult.confidence := 0.3;
          PlatformIntentResult.matched_keywords := [];
          PlatformIntentResult.framework := None |}
  else {| PlatformIntentResult.platform := bestPlatform;
          PlatformIntentResult.confidence :=
            inject_Z (round (bestScore * 100)) / 100;
          PlatformIntentResult.matched_keywords := bestKeywords;
          PlatformIntentResult.framework := framework |}.

(** *** Input validation *)

Module ValidationResult.
Record t := {
  valid : bool;
  query : string;
  originalQuery : string;
  maxResults : Z;
  error : option string
}.
End ValidationResult.

Definition DOMAIN_EXPANSION : list (string * string) := Mappings.DOMAIN_MAPPINGS.

(** [expandQuery].  The message written to the console when the query
    grows is not modelled. *)
Definition expandQuery (query : string) : string :=
  let lowerQuery := toLowerCase query in
  (* Sort keys by length (descending) to match longer phrases first *)
  let sortedKeys :=
    sort (fun a b => (String.length a <? String.length b)%nat)
      (List.map fst DOMAIN_EXPANSION) in
  fold_left
    (fun expanded key =>
       if includes lowerQuery key
       then expanded ++ " " ++ default "undefined" (lookup DOMAIN_EXPANSION key)
       else expanded)
    sortedKeys query.

(** [Number.isInteger(x)] *)
Definition isInteger (x : Q) : bool := Qeq_bool x (inject_Z (Qfloor x)).

Definition invalid (query : string) (error : string) : ValidationResult.t :=
  {| ValidationResult.valid := false;
     ValidationResult.query := query;
     ValidationResult.originalQuery := query;
     ValidationResult.maxResults := 3;
     ValidationResult.error := Some error |}.

(** [validateSearchInput(query, maxResults = 3)].  [query] is absent
    ([undefined] or [null]) or a string, [maxResults] is absent or a
    finite number; [NaN] and the infinities are not integers and take the
    path of the other non-integers. *)
Definition validateSearchInput (query : option string) (maxResults : option Q)
  : ValidationResult.t :=
  match query with
  | None => invalid "" "Query is required"
  | Some query =>
      let queryStr := trim query in
      if (String.length queryStr =? 0)%nat
      then invalid "" "Query cannot be empty"
      else if (500 <? String.length queryStr)%nat
      then invalid "" "Query exceeds maximum length of 500 characters"
      else
        let valid maxResultsNum :=
          {| ValidationResult.valid := true;
             ValidationResult.query := expandQuery queryStr;
             ValidationResult.originalQuery := queryStr;
             ValidationResult.maxResults := maxResultsNum;
             ValidationResult.error := None |} in
        match maxResults with
        | None => valid 3%Z
        | Some maxResultsNum =>
            if negb (isInteger maxResultsNum)
            then invalid queryStr "max_results must be a positive integer"
            else if Qgtb 1 maxResultsNum
            then invalid queryStr "max_results must be at least 1"
            else if Qgtb maxResultsNum 50
            then invalid queryStr "max_results cannot exceed 50"
            else valid (Qfloor maxResultsNum)
        end
  end.

(** *** [searchAll] *)

(** One record of the answer: the data of the document, the detection
    metadata spread into it ([_detectedDomains] and [_detectedStacks],
    present when not empty) and the score. *)
Module ResultItem.
Record t := {
  data : gmap string string;
  _detectedDomains : list DomainMatch.t;
  _detectedStacks : list DomainMatch.t;
  score : R
}.
End ResultItem.

Inductive SearchResponse :=
| Results (items : list ResultItem.t)
| Error (error : string).

(** [result.document.data?.type] *)
Definition resultType (result : BM25.SearchResult.t) : option string :=
  BM25.data (BM25.SearchResult.document result) !! "type".

Definition withMetadata (detectedDomains detectedStacks : list DomainMatch.t)
    (r : BM25.SearchResult.t) : ResultItem.t :=
  {| ResultItem.data := BM25.data (BM25.SearchResult.document r);
     ResultItem._detectedDomains := detectedDomains;
     ResultItem._detectedStacks := detectedStacks;
     ResultItem.score := BM25.SearchResult.score r |}.

Definition scoreAfter (a b : BM25.SearchResult.t) : bool :=
  JS.Rgtb (BM25.SearchResult.score b - BM25.SearchResult.score a) 0.

(** Strategies 1 and 3 (the same lines in both): the results of the
    target type first, up to [domainSlots], then the others. *)
Definition prioritize (results : list BM25.SearchResult.t)
    (targetType : string) (domainSlots maxResults : Z)
  : list BM25.SearchResult.t :=
  let '(domainResults, otherResults) :=
    List.partition
      (fun result => bool_decide (resultType result = Some targetType))
      results in
  let otherSlots :=
    (maxResults - Z.min domainSlots (Z.of_nat (List.length domainResults)))%Z in
  slice0 maxResults
    (slice0 domainSlots domainResults ++ slice0 otherSlots otherResults)%list.

(** Strategy 2: group results by domain.  In [balance] the product
    [resultsPerDomain * confidence] is exact; the product of the doubles
    can lie just above a whole number ([25 * 0.56] is
    [14.000000000000002]), and [Math.ceil] then gives one more. *)
Definition groupByDomain (targetTypes : list string)
    (results : list BM25.SearchResult.t)
  : gmap string (list BM25.SearchResult.t) * list BM25.SearchResult.t :=
  fold_left
    (fun '(resultsByDomain, otherResults) result =>
       match resultType result with
       | Some ty =>
           if negb (String.length ty =? 0)%nat && bool_decide (ty ∈ targetTypes)
           then
             let existing := default [] (resultsByDomain !! ty) in
             (<[ty := (existing ++ [result])%list]> resultsByDomain, otherResults)
           else (resultsByDomain, (otherResults ++ [result])%list)
       | None => (resultsByDomain, (otherResults ++ [result])%list)
       end)
    results (∅, []).

Definition balance (multipleDomains : list DomainMatch.t)
    (results : list BM25.SearchResult.t) (maxResults : Z)
  : list BM25.SearchResult.t :=
  let targetTypes :=
    omap (fun d => lookup domainToTypeMap (DomainMatch.domain d)) multipleDomains in
  let resultsPerDomain :=
    Z.max 2 (maxResults / Z.of_nat (List.length multipleDomains)) in
  let '(resultsByDomain, otherResults) := groupByDomain targetTypes results in
  (* Take top results from each domain, proportional to confidence *)
  let balancedResults :=
    fold_left
      (fun balancedResults domainMatch =>
         let domainRes :=
           match lookup domainToTypeMap (DomainMatch.domain domainMatch) with
           | Some targetType => default [] (resultsByDomain !! targetType)
           | None => []
           end in
         let slotsForDomain :=
           ceil (inject_Z resultsPerDomain * DomainMatch.confidence domainMatch) in
         (balancedResults ++ slice0 slotsForDomain domainRes)%list)
      multipleDomains [] in
  (* Fill remaining slots with other results *)
  let remainingSlots := (maxResults - Z.of_nat (List.length balancedResults))%Z in
  let balancedResults :=
    if (0 <? remainingSlots)%Z
    then (balancedResults ++ slice0 remainingSlots otherResults)%list
    else balancedResults in
  (* Sort by score and trim to maxResults *)
  slice0 maxResults (sort scoreAfter balancedResults).

(** [searchAll(query, maxResults = 10)].  [unifiedIndex] is the module
    variable of that name, [None] while the index is not built. *)
Definition searchAll (unifiedIndex : option BM25.t) (query : option string)
    (maxResults : option Q) : SearchResponse :=
  let maxResults := match maxResults with None => Some 10%Q | m => m end in
  let validation := validateSearchInput query maxResults in
  if negb (ValidationResult.valid validation)
  then Error (default "" (ValidationResult.error validation))
  else
    match unifiedIndex with
    | None => Error "Unified index not initialized"
    | Some unifiedIndex =>
        let maxResults := ValidationResult.maxResults validation in
        (* Auto-detect domains from query with confidence scores *)
        let detectedDomains := detectDomains (ValidationResult.query validation) in
        let detectedStacks := detectStacks (ValidationResult.query validation) in
        (* Determine search strategy based on detection results *)
        let highConfidenceDomain :=
          find (fun d => Qgeb (DomainMatch.confidence d) 0.7) detectedDomains in
        let multipleDomains :=
          List.filter (fun d => Qgeb (DomainMatch.confidence d) 0.5) detectedDomains in
        (* Get more results than needed for potential re-ranking *)
        let searchLimit :=
          if (0 <? List.length detectedDomains)%nat
          then (maxResults * 3)%Z else maxResults in
        let results :=
          BM25.search unifiedIndex (ValidationResult.query validation)
            (Some searchLimit) in
        let respond chosen :=
          Results (List.map (withMetadata detectedDomains detectedStacks) chosen) in
        (* Strategy 1: High confidence single domain *)
        let strategy1 :=
          match highConfidenceDomain with
          | Some high =>
              match lookup domainToTypeMap (DomainMatch.domain high) with
              | Some targetType =>
                  let domainSlots := ceil (inject_Z maxResults * 0.8) in
                  Some (respond (prioritize results targetType domainSlots maxResults))
              | None => None
              end
          | None => None
          end in
        (* Strategy 3: Single low-medium confidence domain *)
        let strategy3 :=
          match detectedDomains with
          | [only] =>
              if Qgeb (DomainMatch.confidence only) 0.3
              then
                match lookup domainToTypeMap (DomainMatch.domain only) with
                | Some targetType =>
                    let domainSlots :=
                      ceil (inject_Z maxResults
                            * (0.5 + DomainMatch.confidence only * 0.3)) in
                    Some (respond (prioritize results targetType domainSlots maxResults))
                | None => None
                end
              else None
          | _ => None
          end in
        match strategy1 with
        | Some response => response
        | None =>
            (* Strategy 2: Multiple domains detected *)
            if (1 <? List.length multipleDomains)%nat
            then respond (balance multipleDomains results maxResults)
            else
              match strategy3 with
              | Some response => response
              | None =>
                  (* Strategy 4: No domain detected - return standard results *)
                  Results (List.map (withMetadata [] []) (slice0 maxResults results))
              end
        end
    end.

(** *** [applyPlatformBoost] *)

Module Scored.
Record t := {
  data : gmap string string;
  score : R
}.
End Scored.

Module PlatformBoostConfig.
Record t := {
  boostFactor : R;  (* Multiplier for matching platform results *)
  penaltyFactor : R;  (* Penalty multiplier for non-matching results *)
  enabled : bool
}.
End PlatformBoostConfig.

(** [Partial<PlatformBoostConfig>] *)
Module PartialConfig.
Record t := {
  boostFactor : option R;
  penaltyFactor : option R;
  enabled : option bool
}.
Definition empty : t :=
  {| boostFactor := None; penaltyFactor := None; enabled := None |}.
End PartialConfig.

Definition DEFAULT_PLATFORM_BOOST_CONFIG : PlatformBoostConfig.t :=
  {| PlatformBoostConfig.boostFactor := 1.5;
     PlatformBoostConfig.penaltyFactor := 0.5;
     PlatformBoostConfig.enabled := true |}.

(** [(result.data['Platform_Support'] || 'web').toLowerCase().trim()] *)
Definition platformSupport (data : gmap string string) : string :=
  let tag :=
    match data !! "Platform_Support" with
    | Some tag => if (String.length tag =? 0)%nat then "web" else tag
    | None => "web"
    end in
  trim (toLowerCase tag).

Definition boostedAfter (a b : Scored.t) : bool :=
  JS.Rgtb (Scored.score b - Scored.score a) 0.

Definition applyPlatformBoost (results : list Scored.t)
    (detectedPlatform : string) (config : PartialConfig.t) : list Scored.t :=
  let boostFactor :=
    default (PlatformBoostConfig.boostFactor DEFAULT_PLATFORM_BOOST_CONFIG)
      (PartialConfig.boostFactor config) in
  let penaltyFactor :=
    default (PlatformBoostConfig.penaltyFactor DEFAULT_PLATFORM_BOOST_CONFIG)
      (PartialConfig.penaltyFactor config) in
  let enabled :=
    default (PlatformBoostConfig.enabled DEFAULT_PLATFORM_BOOST_CONFIG)
      (PartialConfig.enabled config) in
  (* If boosting is disabled, return results as-is *)
  if negb enabled then results
  (* If no platform detected or empty results, return as-is *)
  else if (String.length detectedPlatform =? 0)%nat
          || (List.length results =? 0)%nat
  then results
  else
    (* Normalize platform to category *)
    let isMobilePlatform :=
      includes detectedPlatform "mobile"
      || String.eqb detectedPlatform "mobile-ios"
      || String.eqb detectedPlatform "mobile-android"
      || String.eqb detectedPlatform "mobile-generic" in
    let isWebPlatform := String.eqb detectedPlatform "web" in
    let isCrossPlatform := String.eqb detectedPlatform "cross-platform" in
    sort boostedAfter
      (List.map
         (fun result =>
            let platformSupport := platformSupport (Scored.data result) in
            let boost :=
              if isWebPlatform
              then
                if String.eqb platformSupport "web"
                   || String.eqb platformSupport "both"
                then boostFactor
                else if String.eqb platformSupport "mobile"
                then penaltyFactor else 1.0%R
              else if isMobilePlatform
              then
                if String.eqb platformSupport "mobile"
                   || String.eqb platformSupport "both"
                then boostFactor
                else if String.eqb platformSupport "web"
                then penaltyFactor else 1.0%R
              else if isCrossPlatform
              then
                if String.eqb platformSupport "both" then boostFactor
                else if String.eqb platformSupport "mobile"
                then 1.2%R (* Slight boost for mobile *)
                else 1.0%R
              else 1.0%R in
            {| Scored.data := Scored.data result;
               Scored.score := (Scored.score result * boost)%R |})
         results).

(** *** [escapeRegex] *)

Definition backslash : ascii := "092"%char.

(** The characters of the class that [escapeRegex] replaces: the dot, the
    star, the plus, the question mark, the caret, the dollar, the braces,
    the parentheses, the bar, the brackets and the backslash. *)
Definition isEscaped (c : ascii) : bool :=
  existsb (Ascii.eqb c)
    [ "."%char; "*"%char; "+"%char; "?"%char; "^"%char; "$"%char; "{"%char;
      "}"%char; "("%char; ")"%char; "|"%char; "["%char; "]"%char; backslash ].

(** [str.replace(CLASS, '\\$&')] with the flag [g]: every character of the
    class gets a backslash in front. *)
Fixpoint escapeRegex (str : string) : string :=
  match str with
  | EmptyString => EmptyString
  | String c str' =>
      if isEscaped c then String backslash (String c (escapeRegex str'))
      else String c (escapeRegex str')
  end.

(** *** The searchable content of a record

    A record of a CSV file is a dictionary from column names to strings.
    [[a || '', b || '', ...].filter(Boolean).join(' ')]: the columns that
    are present and not empty, separated by single spaces. *)

Definition column (row : gmap string string) (name : string) : string :=
  default "" (row !! name).

Definition joinColumns (row : gmap string string) (names : list string)
  : string :=
  join " "
    (List.filter (fun value => negb (String.length value =? 0)%nat)
       (List.map (column row) names)).

Definition createStyleContent (style : gmap string string) : string :=
  joinColumns style
    [ "Style Category"; "Type"; "Keywords"; "Best For"; "Do Not Use For";
      "Effects & Animation"; "Framework Compatibility"; "Era/Origin";
      "CSS_Code"; "Motion_Config"; "Animation_Variants" ].

Definition createColorContent (color : gmap string string) : string :=
  joinColumns color
    [ "Product Type"; "Keywords"; "Notes"; "Tailwind_Config"; "Glow_Effects";
      "Dark_Mode_Colors"; "Semantic_Mapping"; "Data_Viz_Palette";
      "Semantic_Tokens" ].

Definition createTypographyContent (typo : gmap string string) : string :=
  joinColumns typo
    [ "Font Pairing Name"; "Category"; "Heading Font"; "Body Font";
      "Mood/Style Keywords"; "Best For"; "Notes" ].

Definition createChartContent (chart : gmap string string) : string :=
  joinColumns chart
    [ "Data Type"; "Keywords"; "Best Chart Type"; "Secondary Options";
      "Accessibility Notes"; "Library Recommendation"; "ChartJS_Config";
      "Recharts_Config"; "Data_Schema"; "Mock_Data_Example" ].

Definition createUXGuidelineContent (ux : gmap string string) : string :=
  joinColumns ux
    [ "Category"; "Issue"; "Platform"; "Description"; "Do"; "Don't" ].

Definition createIconContent (icon : gmap string string) : string :=
  joinColumns icon
    [ "Category"; "Icon Name"; "Keywords"; "Best For"; "Style";
      "Animation_Class" ].

(** Three columns are listed twice in the source. *)
Definition createLandingContent (landing : gmap string string) : string :=
  joinColumns landing
    [ "Pattern Name"; "Keywords"; "Section Order"; "Primary CTA Placement";
      "Color Strategy"; "Recommended Effects"; "Primary CTA Placement";
      "Color Strategy"; "Recommended Effects"; "Conversion Optimization";
      "Layout_CSS"; "Responsive_Strategy"; "Grid_System_Config";
      "Bento_Layout_Map" ].

Definition createProductContent (product : gmap string string) : string :=
  joinColumns product
    [ "Product Type"; "Keywords"; "Primary Style Recommendation";
      "Secondary Styles"; "Key Considerations" ].

Definition createPromptContent (prompt : gmap string string) : string :=
  joinColumns prompt
    [ "Style Category"; "AI Prompt Keywords (Copy-Paste Ready)";
      "CSS/Technical Keywords"; "Implementation Checklist";
      "Design System Variables" ].

Definition createStackContent (stack : gmap string string) : string :=
  joinColumns stack
    [ "Category"; "Guideline"; "Description"; "Do"; "Don't"; "Code Good";
      "Code Bad" ].

Definition createPlatformContent (platform : gmap string string) : string :=
  joinColumns platform
    [ "Category"; "Pattern"; "Description"; "Do"; "Don't"; "iOS_Value";
      "Flutter_Equiv"; "RN_Equiv" ].

(** *** The search tools of one index

    [SearchResult[] | SearchError]; a [SearchResult] of these tools is a
    [Scored.t].  The indexes are the module variables of the source,
    [None] or absent from the map while they are not built. *)

Inductive Answer (A : Type) :=
| Hits (items : list A)
| Failure (error : string).
Arguments Hits {A} items.
Arguments Failure {A} error.

(** [r => ({ data: r.document.data, score: r.score })] *)
Definition asScored (r : BM25.SearchResult.t) : Scored.t :=
  {| Scored.data := BM25.data (BM25.SearchResult.document r);
     Scored.score := BM25.SearchResult.score r |}.

(** The body shared by the tools of one index, which differ in the index
    and in the message. *)
Definition searchIndex (index : option BM25.t) (notInitialized : string)
    (query : option string) (maxResults : option Q) : Answer Scored.t :=
  let validation := validateSearchInput query maxResults in
  if negb (ValidationResult.valid validation)
  then Failure (default "" (ValidationResult.error validation))
  else
    match index with
    | None => Failure notInitialized
    | Some index =>
        let results :=
          BM25.search index (ValidationResult.query validation)
            (Some (ValidationResult.maxResults validation)) in
        Hits (List.map asScored results)
    end.

Definition searchStylesOnly (stylesIndex : option BM25.t) :=
  searchIndex stylesIndex "Styles index not initialized".

Definition searchColors (colorsIndex : option BM25.t) :=
  searchIndex colorsIndex "Colors index not initialized".

Definition searchTypography (typographyIndex : option BM25.t) :=
  searchIndex typographyIndex "Typography index not initialized".

Definition searchCharts (chartsIndex : option BM25.t) :=
  searchIndex chartsIndex "Charts index not initialized".

Definition searchUXGuidelines (uxGuidelinesIndex : option BM25.t) :=
  searchIndex uxGuidelinesIndex "UX Guidelines index not initialized".

Definition searchIcons (iconsIndex : option BM25.t) :=
  searchIndex iconsIndex "Icons index not initialized".

Definition searchLanding (landingIndex : option BM25.t) :=
  searchIndex landingIndex "Landing index not initialized".

Definition searchProducts (productsIndex : option BM25.t) :=
  searchIndex productsIndex "Products index not initialized".

Definition searchPrompts (promptsIndex : option BM25.t) :=
  searchIndex promptsIndex "Prompts index not initialized".

(** The double quote of the messages. *)
Definition dquote : string := String "034"%char "".

(** [searchStack(stackName, query, maxResults = 3)] *)
Definition searchStack (stackIndexes : gmap string BM25.t)
    (stackName : option string) (query : option string)
    (maxResults : option Q) : Answer Scored.t :=
  match stackName with
  | None => Failure "Stack name is required"
  | Some stackName =>
      let stackNameStr := trim (toLowerCase stackName) in
      if negb (existsb (String.eqb stackNameStr) Loader.AVAILABLE_STACKS)
      then Failure ("Unknown stack: " ++ dquote ++ stackNameStr ++ dquote
                    ++ ". Available stacks: "
                    ++ join ", " Loader.AVAILABLE_STACKS)
      else
        let validation := validateSearchInput query maxResults in
        if negb (ValidationResult.valid validation)
        then Failure (default "" (ValidationResult.error validation))
        else
          match stackIndexes !! stackNameStr with
          | None => Failure ("Stack index not initialized for: " ++ stackNameStr)
          | Some index =>
              Hits (List.map asScored
                      (BM25.search index (ValidationResult.query validation)
                         (Some (ValidationResult.maxResults validation))))
          end
  end.

(** [listAvailableStacks], [listAvailablePlatforms] *)
Definition listAvailableStacks : list string := Loader.getAvailableStacks.
Definition listAvailablePlatforms : list string := Loader.getAvailablePlatforms.

(** *** The merged search tools *)

(** A result with the name of its domain beside the data and the score. *)
Module Tagged.
Record t := {
  data : gmap string string;
  score : R;
  _domain : string
}.
End Tagged.

Definition taggedAfter (a b : Tagged.t) : bool :=
  JS.Rgtb (Tagged.score b - Tagged.score a) 0.

Definition asTagged (domainName : string) (r : BM25.SearchResult.t) : Tagged.t :=
  {| Tagged.data := BM25.data (BM25.SearchResult.document r);
     Tagged.score := BM25.SearchResult.score r;
     Tagged._domain := domainName |}.

(** [type ? maxResults : Math.max(2, Math.ceil(maxResults / count))] *)
Definition resultsPer (filtered : bool) (maxResults : Z) (count : nat) : Z :=
  if filtered then maxResults
  else Z.max 2 (ceil (inject_Z maxResults / inject_Z (Z.of_nat count))).

(** [searchComponents(query, type, maxResults = 5)]: icons and charts. *)
Definition searchComponents (iconsIndex chartsIndex : option BM25.t)
    (query : option string) (type : option string) (maxResults : option Q)
  : Answer Tagged.t :=
  let maxResults := match maxResults with None => Some 5%Q | m => m end in
  let validation := validateSearchInput query maxResults in
  if negb (ValidationResult.valid validation)
  then Failure (default "" (ValidationResult.error validation))
  else
    let invalidType :=
      match type with
      | Some t => negb (String.eqb t "icon") && negb (String.eqb t "chart")
      | None => false
      end in
    if invalidType
    then Failure ("Invalid type: " ++ default "" type
                  ++ ". Must be 'icon' or 'chart'")
    else
      let searchTypes :=
        match type with Some t => [t] | None => ["icon"; "chart"] end in
      let resultsPerType :=
        resultsPer (bool_decide (is_Some type))
          (ValidationResult.maxResults validation) (List.length searchTypes) in
      let results :=
        fold_left
          (fun results t =>
             let '(index, domainName) :=
               if String.eqb t "icon" then (iconsIndex, "icon")
               else if String.eqb t "chart" then (chartsIndex, "chart")
               else (None, "") in
             match index with
             | None => results (* Skip if index not initialized *)
             | Some index =>
                 let typeResults :=
                   BM25.search index (ValidationResult.query validation)
                     (Some resultsPerType) in
                 (results ++ List.map (asTagged domainName) typeResults)%list
             end)
          searchTypes [] in
      (* Sort by score descending and limit to maxResults *)
      Hits (slice0 (ValidationResult.maxResults validation)
              (sort taggedAfter results)).

(** [searchPatterns(query, type, maxResults = 5)]: landing layouts, UX
    guidelines and products; the layouts are boosted by the platform of the
    query. *)
Definition searchPatterns (landingIndex uxGuidelinesIndex productsIndex
                           : option BM25.t)
    (query : option string) (type : option string) (maxResults : option Q)
  : Answer Tagged.t :=
  let maxResults := match maxResults with None => Some 5%Q | m => m end in
  let validation := validateSearchInput query maxResults in
  if negb (ValidationResult.valid validation)
  then Failure (default "" (ValidationResult.error validation))
  else
    let invalidType :=
      match type with
      | Some t =>
          negb (String.eqb t "layout") && negb (String.eqb t "ux")
          && negb (String.eqb t "product")
      | None => false
      end in
    if invalidType
    then Failure ("Invalid type: " ++ default "" type
                  ++ ". Must be 'layout', 'ux', or 'product'")
    else
      (* Detect platform intent from query for boosting layout results *)
      let platformResult :=
        detectPlatformIntent (ValidationResult.originalQuery validation) in
      let searchTypes :=
        match type with Some t => [t] | None => ["layout"; "ux"; "product"] end in
      let resultsPerType :=
        resultsPer (bool_decide (is_Some type))
          (ValidationResult.maxResults validation) (List.length searchTypes) in
      let results :=
        fold_left
          (fun results t =>
             let '(index, domainName) :=
               if String.eqb t "layout" then (landingIndex, "layout")
               else if String.eqb t "ux" then (uxGuidelinesIndex, "ux")
               else if String.eqb t "product" then (productsIndex, "product")
               else (None, "") in
             match index with
             | None => results
             | Some index =>
                 (* Get more for potential boosting *)
                 let typeResults :=
                   BM25.search index (ValidationResult.query validation)
                     (Some (resultsPerType * 2)%Z) in
                 if String.eqb t "layout"
                    && Qgeb (PlatformIntentResult.confidence platformResult) 0.5
                 then
                   let boostedResults :=
                     applyPlatformBoost (List.map asScored typeResults)
                       (PlatformIntentResult.platform platformResult)
                       PartialConfig.empty in
                   (results
                    ++ List.map
                         (fun r =>
                            {| Tagged.data := Scored.data r;
                               Tagged.score := Scored.score r;
                               Tagged._domain := domainName |})
                         (slice0 resultsPerType boostedResults))%list
                 else
                   (results
                    ++ List.map (asTagged domainName)
                         (slice0 resultsPerType typeResults))%list
             end)
          searchTypes [] in
      Hits (slice0 (ValidationResult.maxResults validation)
              (sort taggedAfter results)).

(** [searchStyles(query, domainOrMaxResults, maxResults = 5)]: styles,
    colors, typography and prompts.  The second argument is absent, a
    number (the old call pattern: it is the limit) or a string (the
    domain); an empty string counts as absent. *)
Definition searchStyles
    (stylesIndex colorsIndex typographyIndex promptsIndex : option BM25.t)
    (query : option string) (domainOrMaxResults : option (Q + string))
    (maxResults : option Q) : Answer Scored.t :=
  let maxResults := match maxResults with None => Some 5%Q | m => m end in
  let '(domain, effectiveMaxResults) :=
    match domainOrMaxResults with
    | Some (inl number) => (None, Some number)
    | Some (inr name) => (Some name, maxResults)
    | None => (None, maxResults)
    end in
  let validation := validateSearchInput query effectiveMaxResults in
  if negb (ValidationResult.valid validation)
  then Failure (default "" (ValidationResult.error validation))
  else
    let domain :=
      match domain with
      | Some name => if (String.length name =? 0)%nat then None else Some name
      | None => None
      end in
    let known := ["style"; "color"; "typography"; "prompt"] in
    match domain with
    | Some name =>
        if negb (existsb (String.eqb name) known)
        then Failure ("Invalid domain: " ++ dquote ++ name ++ dquote
                      ++ ". Must be one of: style, color, typography, prompt")
        else
          let index :=
            if String.eqb name "style" then stylesIndex
            else if String.eqb name "color" then colorsIndex
            else if String.eqb name "typography" then typographyIndex
            else promptsIndex in
          let domainResults :=
            match index with
            | Some index =>
                List.map
                  (fun r =>
                     {| Scored.data :=
                          <["_domain" := name]>
                            (BM25.data (BM25.SearchResult.document r));
                        Scored.score := BM25.SearchResult.score r |})
                  (BM25.search index (ValidationResult.query validation)
                     (Some (ValidationResult.maxResults validation)))
            | None => []
            end in
          Hits (slice0 (ValidationResult.maxResults validation)
                  (sort boostedAfter domainResults))
    | None =>
        let resultsPerDomain :=
          resultsPer false (ValidationResult.maxResults validation)
            (List.length known) in
        let results :=
          fold_left
            (fun results d =>
               let index :=
                 if String.eqb d "style" then stylesIndex
                 else if String.eqb d "color" then colorsIndex
                 else if String.eqb d "typography" then typographyIndex
                 else promptsIndex in
               let domainResults :=
                 match index with
                 | Some index =>
                     List.map
                       (fun r =>
                          {| Scored.data :=
                               <["_domain" := d]>
                                 (BM25.data (BM25.SearchResult.document r));
                             Scored.score := BM25.SearchResult.score r |})
                       (BM25.search index (ValidationResult.query validation)
                          (Some resultsPerDomain))
                 | None => []
                 end in
               (results ++ domainResults)%list)
            known [] in
        (* Sort by score, limit to maxResults *)
        Hits (slice0 (ValidationResult.maxResults validation)
                (sort boostedAfter results))
    end.

(** [searchPlatforms(query, platformName, maxResults = 5)].
    [platformIndexes] is the [Map] of that name: the list of its entries
    in insertion order, with distinct keys.  Over an empty map the
    division by its size is by zero, and its result is not used: the loop
    over the entries does not run. *)
Definition searchPlatforms (platformIndexes : list (string * BM25.t))
    (query : option string) (platformName : option string)
    (maxResults : option Q) : Answer Scored.t :=
  let maxResults := match maxResults with None => Some 5%Q | m => m end in
  let validation := validateSearchInput query maxResults in
  if negb (ValidationResult.valid validation)
  then Failure (default "" (ValidationResult.error validation))
  else
    match platformName with
    | Some platformName =>
        (* If platform specified, validate and search that platform only *)
        let platformNameStr := trim (toLowerCase platformName) in
        if negb (existsb (String.eqb platformNameStr) Loader.AVAILABLE_PLATFORMS)
        then Failure ("Unknown platform: " ++ dquote ++ platformNameStr
                      ++ dquote ++ ". Available platforms: "
                      ++ join ", " Loader.AVAILABLE_PLATFORMS)
        else
          match lookup platformIndexes platformNameStr with
          | None =>
              Failure ("Platform index not initialized for: " ++ platformNameStr)
          | Some index =>
              Hits (List.map asScored
                      (BM25.search index (ValidationResult.query validation)
                         (Some (ValidationResult.maxResults validation))))
          end
    | None =>
        (* Search across all platforms *)
        let resultsPerPlatform :=
          resultsPer false (ValidationResult.maxResults validation)
            (List.length platformIndexes) in
        let results :=
          fold_left
            (fun results '(name, index) =>
               (results
                ++ List.map
                     (fun r =>
                        {| Scored.data :=
                             <["_platform" := name]>
                               (BM25.data (BM25.SearchResult.document r));
                           Scored.score := BM25.SearchResult.score r |})
                     (BM25.search index (ValidationResult.query validation)
                        (Some resultsPerPlatform)))%list)
            platformIndexes [] in
        Hits (slice0 (ValidationResult.maxResults validation)
                (sort boostedAfter results))
    end.

(** *** [hasConflictingIntents] *)

(** The two nested loops with their [break]s: some key word of some group
    occurs in the query. *)
Definition mentions (normalizedQuery : string) (groups : list IntentGroup)
  : bool :=
  existsb
    (fun group =>
       existsb (fun keyword => includes normalizedQuery keyword)
         (keywords group))
    groups.

Definition hasConflictingIntents (query : string) : bool :=
  let normalizedQuery := toLowerCase query in
  let hasLanding :=
    mentions normalizedQuery
      (default [] (lookup PAGE_INTENT_KEYWORDS "landing")) in
  let hasDashboard :=
    mentions normalizedQuery
      (default [] (lookup PAGE_INTENT_KEYWORDS "dashboard")) in
  hasLanding && hasDashboard.

(** *** [calculateContrastText] *)

(** The value of a digit in base 16. *)
Definition hexDigit (c : ascii) : option Z :=
  if between 48 57 c then Some (Z.of_N (code c) - 48)%Z
  else if between 97 102 c then Some (Z.of_N (code c) - 87)%Z
  else if between 65 70 c then Some (Z.of_N (code c) - 55)%Z
  else None.

(** The longest prefix of digits, read in base 16; [None] if it is
    empty. *)
Fixpoint readHex (acc : option Z) (s : string) : option Z :=
  match s with
  | EmptyString => acc
  | String c s' =>
      match hexDigit c with
      | Some d => readHex (Some (16 * default 0%Z acc + d)%Z) s'
      | None => acc
      end
  end.

(** [parseInt(s, 16)]: leading white space is skipped, then a sign, then
    [0x] or [0X], and the digits that follow are read; [None] stands for
    [NaN]. *)
Definition parseInt16 (s : string) : option Z :=
  let s := dropSpaces s in
  let '(sign, s) :=
    match s with
    | String "-"%char s' => ((-1)%Z, s')
    | String "+"%char s' => (1%Z, s')
    | _ => (1%Z, s)
    end in
  let s :=
    match s with
    | String "0"%char (String x s') =>
        if Ascii.eqb x "x"%char || Ascii.eqb x "X"%char then s' else s
    | _ => s
    end in
  option_map (Z.mul sign) (readHex None s).

(** [hex.split('').map(c => c + c).join('')] *)
Fixpoint doubleChars (hex : string) : string :=
  match hex with
  | EmptyString => EmptyString
  | String c hex' => String c (String c (doubleChars hex'))
  end.

(** [calculateContrastText].  The luminance is exact; as a double it is on
    the other side of 0.5 for one colour, [#da3af8], whose exact luminance
    is 0.5. *)
Definition calculateContrastText (bgColor : string) : string :=
  match bgColor with
  | String "#"%char hex =>
      (* Handle both 3-digit and 6-digit hex *)
      let fullHex :=
        if (String.length hex =? 3)%nat then doubleChars hex else hex in
      let r := parseInt16 (String.substring 0 2 fullHex) in
      let g := parseInt16 (String.substring 2 2 fullHex) in
      let b := parseInt16 (String.substring 4 2 fullHex) in
      match r, g, b with
      | Some r, Some g, Some b =>
          let luminance :=
            ((0.299 * inject_Z r + 0.587 * inject_Z g + 0.114 * inject_Z b)
             / 255)%Q in
          if Qgtb luminance 0.5 then "#0F172A" else "#FFFFFF"
      | _, _, _ => "#FFFFFF" (* a comparison with NaN is false *)
      end
  | _ => "#0F172A" (* Default dark text *)
  end.

(** *** The platform parameter *)

(** [platformMap[platform] || 'web'] *)
Definition mapPlatformParameter (platform : string) : string :=
  default "web"
    (lookup
       [ ("web", "web"); ("mobile-ios", "mobile-ios");
         ("mobile-android", "mobile-android"); ("mobile", "mobile-generic");
         ("react-native", "cross-platform"); ("flutter", "cross-platform");
         ("swiftui", "mobile-ios"); ("expo", "cross-platform") ]
       platform).

Definition mapPlatformToFramework (platform : string) : option string :=
  lookup
    [ ("react-native", "react-native"); ("flutter", "flutter");
      ("swiftui", "swiftui"); ("expo", "react-native") ]
    platform.

Module PlatformOutput.
Record t := {
  safe_area_insets : option string;
  navigation_type : string;
  primary_navigation : string;
  touch_target_min : option string
}.
End PlatformOutput.

(** [getPlatformSpecificOutput(platform, colors, typography)]; the last
    two arguments are not used by the source. *)
Definition getPlatformSpecificOutput (platform : string) : PlatformOutput.t :=
  let isWeb := String.eqb platform "web" in
  let isIOS := String.eqb platform "mobile-ios" in
  let isAndroid := String.eqb platform "mobile-android" in
  {| PlatformOutput.safe_area_insets :=
       if negb isWeb
       then Some "env(safe-area-inset-top), env(safe-area-inset-bottom)"
       else None;
     PlatformOutput.navigation_type :=
       if negb isWeb then "stack" else "page-based";
     PlatformOutput.primary_navigation :=
       if isIOS then "tab-bar"
       else if isAndroid then "bottom-navigation" else "navbar";
     PlatformOutput.touch_target_min :=
       if negb isWeb then Some "44px" else None |}.

(** *** The platform of [getDesignSystem]

    The part of [getDesignSystem(query, style, mode, maxResults, platform,
    ...)] that deals with the [platform] argument: its check, which comes
    after the checks of the query and of the mode, and the platform fields
    of [_meta].  [platform] is absent or a string; [autoDetectedPlatform]
    is [detectPlatformIntent(validation.originalQuery)]. *)

Module PlatformMeta.
Record t := {
  detected_platform : string;
  platform_confidence : Q;
  platform_keywords : list string;
  detected_framework : option string;
  specified_platform : option string;
  resolved_platform : string;
  platform_output : PlatformOutput.t
}.
End PlatformMeta.

Inductive PlatformAnswer :=
| Resolved (meta : PlatformMeta.t)
| Rejected (error : string).

Definition platformMeta (platform : option string)
    (autoDetectedPlatform : PlatformIntentResult.t) : PlatformAnswer :=
  (* Validate platform if provided *)
  let validPlatforms :=
    [ "web"; "mobile-ios"; "mobile-android"; "mobile"; "react-native";
      "flutter"; "swiftui"; "expo" ] in
  (* [platform ? String(platform).toLowerCase() : undefined]: the empty
     string counts as absent *)
  let platformStr :=
    match platform with
    | Some platform =>
        if (0 <? String.length platform)%nat
        then Some (toLowerCase platform) else None
    | None => None
    end in
  match platformStr with
  | Some platformStr =>
      if negb (existsb (String.eqb platformStr) validPlatforms)
      then Rejected ("platform must be one of: " ++ join ", " validPlatforms)
      else
        let isCrossPlatformFramework :=
          existsb (String.eqb platformStr) ["flutter"; "react-native"; "expo"] in
        (* Resolved platform: For cross-platform frameworks, use keyword
           detection; otherwise use specified platform *)
        let resolvedPlatform :=
          if isCrossPlatformFramework
          then PlatformIntentResult.platform autoDetectedPlatform
          else mapPlatformParameter platformStr in
        (* Framework: Use specified framework, or infer from platform
           parameter *)
        let resolvedFramework :=
          match mapPlatformToFramework platformStr with
          | Some framework => Some framework
          | None => PlatformIntentResult.framework autoDetectedPlatform
          end in
        let platformConfidence :=
          if isCrossPlatformFramework
          then PlatformIntentResult.confidence autoDetectedPlatform
          else 1.0%Q in
        (* Keywords: ALWAYS include query keywords, plus specified platform
           if any *)
        let platformKeywords :=
          (PlatformIntentResult.matched_keywords autoDetectedPlatform
           ++ (if negb (existsb (String.eqb platformStr)
                          (PlatformIntentResult.matched_keywords
                             autoDetectedPlatform))
               then [platformStr] else []))%list in
        Resolved
          {| PlatformMeta.detected_platform := resolvedPlatform;
             PlatformMeta.platform_confidence := platformConfidence;
             PlatformMeta.platform_keywords := platformKeywords;
             PlatformMeta.detected_framework := resolvedFramework;
             PlatformMeta.specified_platform := Some platformStr;
             PlatformMeta.resolved_platform := resolvedPlatform;
             PlatformMeta.platform_output :=
               getPlatformSpecificOutput resolvedPlatform |}
  | None =>
      let resolvedPlatform :=
        PlatformIntentResult.platform autoDetectedPlatform in
      Resolved
        {| PlatformMeta.detected_platform := resolvedPlatform;
           PlatformMeta.platform_confidence :=
             PlatformIntentResult.confidence autoDetectedPlatform;
           PlatformMeta.platform_keywords :=
             PlatformIntentResult.matched_keywords autoDetectedPlatform;
           PlatformMeta.detected_framework :=
             PlatformIntentResult.framework autoDetectedPlatform;
           PlatformMeta.specified_platform := None;
           PlatformMeta.resolved_platform := resolvedPlatform;
           PlatformMeta.platform_output :=
             getPlatformSpecificOutput resolvedPlatform |}
  end.

(** *** The module state, [initializeIndexes] and [getDataStats]

    The [console.error] lines of [initializeIndexes] are left out. *)

Module State.
Record t := {
  stylesIndex : option BM25.t;
  colorsIndex : option BM25.t;
  typographyIndex : option BM25.t;
  chartsIndex : option BM25.t;
  uxGuidelinesIndex : option BM25.t;
  iconsIndex : option BM25.t;
  landingIndex : option BM25.t;
  productsIndex : option BM25.t;
  promptsIndex : option BM25.t;
  stackIndexes : gmap string BM25.t;
  platformIndexes : list (string * BM25.t);
  allDocuments : list BM25.Document;
  unifiedIndex : option BM25.t;
  stylesData : list Loader.Row;
  colorsData : list Loader.Row;
  typographyData : list Loader.Row;
  chartsData : list Loader.Row;
  uxGuidelinesData : list Loader.Row;
  iconsData : list Loader.Row;
  landingData : list Loader.Row;
  productsData : list Loader.Row;
  promptsData : list Loader.Row;
  stacksData : list (string * list Loader.Row);
  platformsData : list (string * list Loader.Row)
}.

Definition initial : t :=
  {| stylesIndex := None; colorsIndex := None; typographyIndex := None;
     chartsIndex := None; uxGuidelinesIndex := None; iconsIndex := None;
     landingIndex := None; productsIndex := None; promptsIndex := None;
     stackIndexes := ∅; platformIndexes := [];
     allDocuments := []; unifiedIndex := None;
     stylesData := []; colorsData := []; typographyData := [];
     chartsData := []; uxGuidelinesData := []; iconsData := [];
     landingData := []; productsData := []; promptsData := [];
     stacksData := []; platformsData := [] |}.
End State.

(** [rows.map((row, idx) => ({ id: `${prefix}-${idx}`, content:
    createContent(row), data: { ...fields, ...row } }))]: a column of the
    row wins over a field of the same name. *)
Definition documentsOf (prefix : string)
    (createContent : Loader.Row -> string) (fields : gmap string string)
    (rows : list Loader.Row) : list BM25.Document :=
  imap (fun idx row =>
          {| BM25.id := prefix ++ "-" ++ pretty idx;
             BM25.content := createContent row;
             BM25.data := row ∪ fields |})
       rows.

(** [if (docs.length > 0) { index = new BM25(docs); }] *)
Definition built (docs : list BM25.Document) (index : option BM25.t)
  : option BM25.t :=
  if (0 <? List.length docs)%nat then Some (BM25.new docs) else index.

(** The loop over [stacksData]: the index of each stack and the documents
    of all stacks ([stackIndexes.clear()] comes first). *)
Definition indexStacks (stacksData : list (string * list Loader.Row))
  : gmap string BM25.t * list BM25.Document :=
  fold_left
    (fun '(stackIndexes, allStackDocs) '(stackName, stackData) =>
       let stackDocs :=
         documentsOf ("stack-" ++ stackName) createStackContent
           (<["type" := "stack"]> {[ "stackName" := stackName ]}) stackData in
       if (0 <? List.length stackDocs)%nat
       then (<[stackName := BM25.new stackDocs]> stackIndexes,
             (allStackDocs ++ stackDocs)%list)
       else (stackIndexes, allStackDocs))
    stacksData (∅, []).

(** The loop over [platformsData], after [platformIndexes.clear()]. *)
Definition indexPlatforms (platformsData : list (string * list Loader.Row))
  : list (string * BM25.t) * list BM25.Document :=
  fold_left
    (fun '(platformIndexes, allPlatformDocs) '(platformName, platformData) =>
       let platformDocs :=
         documentsOf ("platform-" ++ platformName) createPlatformContent
           (<["type" := "platform"]> {[ "platformName" := platformName ]})
           platformData in
       if (0 <? List.length platformDocs)%nat
       then (Loader.mapSet platformIndexes platformName (BM25.new platformDocs),
             (allPlatformDocs ++ platformDocs)%list)
       else (platformIndexes, allPlatformDocs))
    platformsData ([], []).

Definition initializeIndexes (loadCSV : string -> list Loader.Row)
    (state : State.t) : State.t :=
  (* Load all data *)
  let stylesData := Loader.loadStyles loadCSV in
  let colorsData := Loader.loadColors loadCSV in
  let typographyData := Loader.loadTypography loadCSV in
  let chartsData := Loader.loadCharts loadCSV in
  let uxGuidelinesData := Loader.loadUXGuidelines loadCSV in
  let iconsData := Loader.loadIcons loadCSV in
  let landingData := Loader.loadLanding loadCSV in
  let productsData := Loader.loadProducts loadCSV in
  let promptsData := Loader.loadPrompts loadCSV in
  let stacksData := Loader.loadAllStacks loadCSV in
  let platformsData := Loader.loadAllPlatforms loadCSV in
  let styleDocs :=
    documentsOf "style" createStyleContent {[ "type" := "style" ]} stylesData in
  let colorDocs :=
    documentsOf "color" createColorContent {[ "type" := "color" ]} colorsData in
  let typographyDocs :=
    documentsOf "typography" createTypographyContent
      {[ "type" := "typography" ]} typographyData in
  let chartDocs :=
    documentsOf "chart" createChartContent {[ "type" := "chart" ]} chartsData in
  let uxDocs :=
    documentsOf "ux" createUXGuidelineContent {[ "type" := "ux-guideline" ]}
      uxGuidelinesData in
  let iconDocs :=
    documentsOf "icon" createIconContent {[ "type" := "icon" ]} iconsData in
  let landingDocs :=
    documentsOf "landing" createLandingContent {[ "type" := "landing" ]}
      landingData in
  let productDocs :=
    documentsOf "product" createProductContent {[ "type" := "product" ]}
      productsData in
  let promptDocs :=
    documentsOf "prompt" createPromptContent {[ "type" := "prompt" ]}
      promptsData in
  let '(stackIndexes, allStackDocs) := indexStacks stacksData in
  let '(platformIndexes, allPlatformDocs) := indexPlatforms platformsData in
  let allDocuments :=
    (styleDocs ++ colorDocs ++ typographyDocs ++ chartDocs ++ uxDocs
     ++ iconDocs ++ landingDocs ++ productDocs ++ promptDocs
     ++ allStackDocs ++ allPlatformDocs)%list in
  {| State.stylesIndex := built styleDocs (State.stylesIndex state);
     State.colorsIndex := built colorDocs (State.colorsIndex state);
     State.typographyIndex := built typographyDocs (State.typographyIndex state);
     State.chartsIndex := built chartDocs (State.chartsIndex state);
     State.uxGuidelinesIndex := built uxDocs (State.uxGuidelinesIndex state);
     State.iconsIndex := built iconDocs (State.iconsIndex state);
     State.landingIndex := built landingDocs (State.landingIndex state);
     State.productsIndex := built productDocs (State.productsIndex state);
     State.promptsIndex := built promptDocs (State.promptsIndex state);
     State.stackIndexes := stackIndexes;
     State.platformIndexes := platformIndexes;
     State.allDocuments := allDocuments;
     State.unifiedIndex := built allDocuments (State.unifiedIndex state);
     State.stylesData := stylesData;
     State.colorsData := colorsData;
     State.typographyData := typographyData;
     State.chartsData := chartsData;
     State.uxGuidelinesData := uxGuidelinesData;
     State.iconsData := iconsData;
     State.landingData := landingData;
     State.productsData := productsData;
     State.promptsData := promptsData;
     State.stacksData := stacksData;
     State.platformsData := platformsData |}.

Module DataStats.
Record t := {
  styles : nat;
  colors : nat;
  typography : nat;
  charts : nat;
  uxGuidelines : nat;
  icons : nat;
  landing : nat;
  products : nat;
  prompts : nat;
  stacks : list (string * nat);
  platforms : list (string * nat);
  total : nat
}.
End DataStats.

(** [getDataStats]; the two objects of counts are the lists of their
    entries. *)
Definition getDataStats (state : State.t) : DataStats.t :=
  let stackStats :=
    fold_left (fun stackStats '(name, data) =>
                 Loader.mapSet stackStats name (List.length data))
      (State.stacksData state) [] in
  let platformStats :=
    fold_left (fun platformStats '(name, data) =>
                 Loader.mapSet platformStats name (List.length data))
      (State.platformsData state) [] in
  {| DataStats.styles := List.length (State.stylesData state);
     DataStats.colors := List.length (State.colorsData state);
     DataStats.typography := List.length (State.typographyData state);
     DataStats.charts := List.length (State.chartsData state);
     DataStats.uxGuidelines := List.length (State.uxGuidelinesData state);
     DataStats.icons := List.length (State.iconsData state);
     DataStats.landing := List.length (State.landingData state);
     DataStats.products := List.length (State.productsData state);
     DataStats.prompts := List.length (State.promptsData state);
     DataStats.stacks := stackStats;
     DataStats.platforms := platformStats;
     DataStats.total := List.length (State.allDocuments state) |}.

Definition isInitialized (state : State.t) : bool :=
  match State.unifiedIndex state with Some _ => true | None => false end.

End Handlers.

(** ** Key word matching, as the specification words it *)

Module MatchSpec.
Import JS Handlers.

(** The last character of [s], or [prev] when [s] is empty. *)
Fixpoint lastOr (prev : option ascii) (s : string) : option ascii :=
  match s with
  | EmptyString => prev
  | String c s' => lastOr (Some c) s'
  end.

(** [keyword] occurs in [query], up to case, between two word
    boundaries. *)
Definition occursAtBoundaries (query keyword : string) : Prop :=
  exists pre mid post,
    query = pre ++ mid ++ post
    /\ toLowerCase mid = toLowerCase keyword
    /\ isBoundary (lastOr None pre) (firstChar (mid ++ post)) = true
    /\ isBoundary (lastOr None (pre ++ mid)) (firstChar post) = true.

(** [keyword] occurs in [query], up to case, as a whole word: what is
    next to it on either side is not a word character. *)
Definition occursAsWord (query keyword : string) : Prop :=
  exists pre mid post,
    query = pre ++ mid ++ post
    /\ toLowerCase mid = toLowerCase keyword
    /\ wordAt (lastOr None pre) = false
    /\ wordAt (firstChar post) = false.

End MatchSpec.

(** ** The classifier scores, as the specification words them *)

Module ClassifierSpec.
Import JS Tables Handlers.
Local Open Scope Q_scope.

(** The key words of a category that match the query. *)
Definition matched (query : string) (keywords : list KeywordEntry)
  : list KeywordEntry :=
  List.filter (fun e => matchesKeyword (toLowerCase query) (keyword e)) keywords.

(** [m] is the maximum weight among [entries]. *)
Definition isMaxWeight (m : Q) (entries : list KeywordEntry) : Prop :=
  (exists e, In e entries /\ weight e == m)
  /\ (forall e, In e entries -> weight e <= m).

(** The multi-match boost: [min(boostMax, (matchCount - 1) * boostStep)]
    when two or more key words matched. *)
Definition multiMatchBoost (boostMax boostStep : Q) (matchCount : nat) : Q :=
  if (2 <=? matchCount)%nat
  then Qmin boostMax ((inject_Z (Z.of_nat matchCount) - 1) * boostStep)
  else 0.

(** The score of a category: the maximum weight plus the boost, capped at
    1.0. *)
Definition categoryScore (boostMax boostStep : Q) (maxWeight : Q)
    (matchCount : nat) : Q :=
  Qmin 1 (maxWeight + multiMatchBoost boostMax boostStep matchCount).

(** What the outer loop of [scoreCategories] adds for one category. *)
Definition categoryEntry (lowerQuery : string)
    (category : string * list KeywordEntry) : list (string * Q) :=
  let '(maxScore, matchCount) := scanKeywords lowerQuery (snd category) in
  if (0 <? matchCount)%nat
  then [(fst category, finalScore 0.1 0.03 maxScore matchCount)]
  else [].

(** The running maximum of the inner loop of a classifier, started at
    [m]. *)
Definition maxFrom (m : Q) (entries : list KeywordEntry) : Q :=
  fold_left (fun m e => Qmax m (weight e)) entries m.

(** No weight of the table is negative. *)
Definition weightsNonneg (table : list (string * list KeywordEntry)) : bool :=
  forallb (fun c => forallb (fun e => Qle_bool 0 (weight e)) (snd c)) table.

End ClassifierSpec.

(** ** Page intent, as the specification words it *)

Module PageIntentSpec.
Import JS Tables Handlers.
Local Open Scope Q_scope.

(** [x] rounded to two decimals. *)
Definition roundTo2 (x : Q) : Q := inject_Z (round (x * 100)) / 100.

(** The matched weight minus the positional penalty
    [min(0.3, wordPosition * 0.05)], floored at 0.3. *)
Definition penalised (weight : Q) (wordPosition : nat) : Q :=
  Qmax 0.3 (weight - Qmin 0.3 (inject_Z (Z.of_nat wordPosition) * 0.05)).

(** [best] wins among the phrase matches [ms]: none starts earlier, and
    none that starts at the same place weighs more. *)
Definition winsAmong (best : PhraseMatch.t) (ms : list PhraseMatch.t) : Prop :=
  In best ms
  /\ forall m, In m ms ->
       (PhraseMatch.position best <= PhraseMatch.position m)%nat
       /\ (PhraseMatch.position m = PhraseMatch.position best ->
           PhraseMatch.weight m <= PhraseMatch.weight best).

Definition unknownIntent : PageIntentResult.t :=
  {| PageIntentResult.intent := "unknown";
     PageIntentResult.confidence := 0;
     PageIntentResult.matchedKeyword := None;
     PageIntentResult.position := (-1)%Z;
     PageIntentResult.warnings := ["No page intent keywords detected in query"%string] |}.

End PageIntentSpec.

(** ** Validation, as the specification words it *)

Module ValidationSpec.
Import JS Handlers.
Local Open Scope Q_scope.

(** [x] is an integer. *)
Definition isWhole (x : Q) : Prop := exists z : Z, x == inject_Z z.

(** The cases in which the input is refused; the length is that of the
    trimmed query. *)
Definition refused (query : option string) (maxResults : option Q) : Prop :=
  query = None
  \/ (exists q, query = Some q
                /\ (trim q = ""%string \/ (500 < String.length (trim q))%nat))
  \/ (exists m, maxResults = Some m /\ (~ isWhole m \/ m < 1 \/ 50 < m)).

Fixpoint spaces (n : nat) : string :=
  match n with
  | O => ""
  | S n' => String " " (spaces n')
  end.

(** A query of 501 characters, 500 of them trailing spaces. *)
Definition paddedQuery : string := String "a" (spaces 500).

End ValidationSpec.

(** ** Platform boosting, as the specification words it *)

Module BoostSpec.
Import JS Handlers.

Definition platforms : list string :=
  ["web"; "mobile-ios"; "mobile-android"; "mobile-generic"; "cross-platform"].

Definition tags : list string := ["web"; "mobile"; "both"].

Definition isMobile (platform : string) : bool :=
  String.eqb platform "mobile-ios" || String.eqb platform "mobile-android"
  || String.eqb platform "mobile-generic".

(** The tag of a record supports the detected platform. *)
Definition supports (tag platform : string) : bool :=
  String.eqb tag "both"
  || (String.eqb tag "web" && String.eqb platform "web")
  || (String.eqb tag "mobile" && isMobile platform).

(** The factor by which a score is multiplied (default configuration). *)
Definition factor (platform tag : string) : R :=
  if String.eqb platform "cross-platform"
  then if String.eqb tag "both" then 1.5%R
       else if String.eqb tag "mobile" then 1.2%R else 1.0%R
  else if supports tag platform then 1.5%R else 0.5%R.

Definition boosted (platform : string) (r : Scored.t) : Scored.t :=
  {| Scored.data := Scored.data r;
     Scored.score :=
       (Scored.score r * factor platform (platformSupport (Scored.data r)))%R |}.

Definition tagged (tag : string) (score : R) : Scored.t :=
  {| Scored.data := {[ "Platform_Support" := tag ]}; Scored.score := score |}.

(** A record without the tag. *)
Definition untagged (score : R) : Scored.t :=
  {| Scored.data := ∅; Scored.score := score |}.

(** Results of equal score, one per tag and one without a tag. *)
Definition threeTags : list Scored.t :=
  [tagged "web" 2; tagged "mobile" 2; tagged "both" 2; untagged 2].

(** Results of score zero, one per tag. *)
Definition zeroScores : list Scored.t :=
  [tagged "web" 0; tagged "mobile" 0; tagged "both" 0].

End BoostSpec.

(** ** The multiple-domain strategy, as the specification words it *)

Module SearchAllSpec.
Import JS Tables Handlers.

(** The document type of a detected domain. *)
Definition typeOf (d : DomainMatch.t) : option string :=
  lookup domainToTypeMap (DomainMatch.domain d).

(** The partition of a document type: the results of that type, in
    order. *)
Definition ofType (ty : string) (results : list BM25.SearchResult.t)
  : list BM25.SearchResult.t :=
  List.filter (fun r => bool_decide (resultType r = Some ty)) results.

Definition grouped (types : list string) (r : BM25.SearchResult.t) : bool :=
  match resultType r with
  | Some ty => negb (String.length ty =? 0)%nat && bool_decide (ty ∈ types)
  | None => false
  end.

(** The leftover: the results of no matched type. *)
Definition leftover (types : list string) (results : list BM25.SearchResult.t)
  : list BM25.SearchResult.t :=
  List.filter (fun r => negb (grouped types r)) results.

(** The slots of a domain in the code:
    [ceil(max(2, floor(maxResults / domainCount)) * confidence)]. *)
Definition slots (maxResults : Z) (domainCount : nat) (confidence : Q) : Z :=
  ceil (inject_Z (Z.max 2 (maxResults / Z.of_nat domainCount)) * confidence).


(** The merge: every domain takes its slots from its own partition, the
    remaining slots up to [maxResults] are filled from the leftover, and
    the whole is sorted by score and cut to [maxResults]. *)
Definition merged (slotsOf : Z -> nat -> Q -> Z) (domains : list DomainMatch.t)
    (results : list BM25.SearchResult.t) (maxResults : Z)
  : list BM25.SearchResult.t :=
  let types := omap typeOf domains in
  let balanced :=
    flat_map
      (fun d =>
         match typeOf d with
         | Some ty =>
             slice0 (slotsOf maxResults (List.length domains)
                       (DomainMatch.confidence d))
               (ofType ty results)
         | None => []
         end)
      domains in
  let remaining := (maxResults - Z.of_nat (List.length balanced))%Z in
  let filled :=
    if (0 <? remaining)%Z
    then (balanced ++ slice0 remaining (leftover types results))%list
    else balanced in
  slice0 maxResults (sort scoreAfter filled).


End SearchAllSpec.

(** ** The BM25 formula, as the specification words it *)

Module BM25Spec.
Import BM25.

Definition Rsum (l : list R) : R := fold_right Rplus 0%R l.

(** Term frequency: the occurrences of [term] among the tokens of [doc]. *)
Definition tf (doc : Document) (term : string) : nat :=
  count_occ string_dec (tokenize (content doc)) term.

(** Document frequency: the documents in which [term] occurs at least
    once. *)
Definition df (docs : list Document) (term : string) : nat :=
  List.length
    (List.filter (fun d => bool_decide (term ∈ tokenize (content d))) docs).

Definition docLen (doc : Document) : nat :=
  List.length (tokenize (content doc)).

(** Average document length: the sum of the tokenized lengths over the
    document count, 1 if that is zero. *)
Definition avgDocLen (docs : list Document) : R :=
  let total := list_sum (List.map docLen docs) in
  if (total =? 0)%nat then 1%R
  else (INR total / INR (List.length docs))%R.

Definition idf (docs : list Document) (term : string) : R :=
  let N := INR (List.length docs) in
  ln ((N - INR (df docs term) + 0.5) / (INR (df docs term) + 0.5) + 1).

Definition contribution (docs : list Document) (doc : Document)
    (term : string) : R :=
  (idf docs term * (INR (tf doc term) * (1.5 + 1))
   / (INR (tf doc term)
      + 1.5 * (1 - 0.75 + 0.75 * INR (docLen doc) / avgDocLen docs)))%R.

(** The sum over the query terms whose frequency in [doc] is not zero. *)
Definition score (docs : list Document) (queryTokens : list string)
    (doc : Document) : R :=
  Rsum (List.map (contribution docs doc)
          (List.filter (fun term => negb (tf doc term =? 0)%nat) queryTokens)).

(** The sum over all query terms, a term of frequency zero adding 0. *)
Definition scoreAllTerms (docs : list Document) (queryTokens : list string)
    (doc : Document) : R :=
  Rsum (List.map
          (fun term =>
             if (tf doc term =? 0)%nat then 0%R else contribution docs doc term)
          queryTokens).

End BM25Spec.

(** ** [search] by document position

    [search] returns documents; to speak of the order of the documents in
    the index, [ranking] runs the same pipeline on the documents paired
    with their positions. *)

Module Ranking.
Import BM25.

(** The documents of an index, each with its position. *)
Definition indexed (docs : list Document) : list (nat * Document) :=
  combine (seq 0 (List.length docs)) docs.

Definition resultAt (self : t) (queryTokens : list string)
    (p : nat * Document) : SearchResult.t :=
  {| SearchResult.document := snd p;
     SearchResult.score := score self queryTokens (fst p) |}.

(** The positions of the documents [search] returns, in the order of the
    result. *)
Definition ranking (self : t) (query : string) (maxResults : Z)
  : list (nat * Document) :=
  let s i := score self (tokenize query) i in
  JS.slice0 maxResults
    (JS.sort (fun p q => JS.Rgtb (s (fst q) - s (fst p)) 0)
       (List.filter (fun p => JS.Rgtb (s (fst p)) 0) (indexed (documents self)))).

(** Score descending, and document position ascending among equal
    scores. *)
Definition rankedBefore (s : nat -> R) (i j : nat) : Prop :=
  (s i > s j)%R \/ (s i = s j /\ (i < j)%nat).

End Ranking.

(** ** Sample data *)

Module Samples.
Import BM25.

Definition doc (id content : string) (type : string) : Document :=
  {| id := id; content := content; data := {[ "type" := type ]} |}.

(** Two documents with the same text. *)
Definition twoDocs : list Document :=
  [doc "1" "ab cd" "style"; doc "2" "ab cd" "style"].




End Samples.

(** ** Strings, tokens and documents *)

Module StringSpec.
Import JS.

(** The string is not empty. *)
Definition nonEmpty (w : string) : bool := negb (String.length w =? 0)%nat.

(** The string does not start with white space. *)
Definition startsClean (s : string) : Prop :=
  match s with
  | String c _ => isSpaceChar c = false
  | EmptyString => True
  end.

End StringSpec.

(** ** The index, as a user of it sees it *)

Module IndexSpec.
Import BM25.

(** The characters a token can hold: lower-case letters, digits and the
    underscore. *)
Definition isLowerWordChar (c : ascii) : bool :=
  JS.between 97 122 c || JS.between 48 57 c || (JS.code c =? 95)%N.

(** [term] is one of the tokens of [doc]. *)
Definition occursIn (doc : Document) (term : string) : bool :=
  bool_decide (term ∈ tokenize (content doc)).

(** Some token of the query is a token of the document. *)
Definition sharesToken (query : string) (doc : Document) : bool :=
  existsb (occursIn doc) (tokenize query).

End IndexSpec.

(** ** Patterns that stand for themselves *)

Module RegexSpec.
Import Handlers.

(** The syntax characters of the pattern grammar of ECMAScript: the
    characters that do not stand for themselves in a pattern. *)
Definition isSyntaxChar (c : ascii) : bool :=
  existsb (Ascii.eqb c)
    [ "^"%char; "$"%char; backslash; "."%char; "*"%char; "+"%char; "?"%char;
      "("%char; ")"%char; "["%char; "]"%char; "{"%char; "}"%char; "|"%char ].

(** The text that a pattern matches when it is built only of characters
    that stand for themselves and of syntax characters with a backslash in
    front; [None] for any other pattern. *)
Fixpoint literalOf (pattern : string) : option string :=
  match pattern with
  | EmptyString => Some EmptyString
  | String c rest =>
      if Ascii.eqb c backslash
      then match rest with
           | String d rest' =>
               if isSyntaxChar d then option_map (String d) (literalOf rest')
               else None
           | EmptyString => None
           end
      else if isSyntaxChar c then None
      else option_map (String c) (literalOf rest)
  end.

End RegexSpec.

(** ** Query expansion, in closed form *)

Module ExpansionSpec.
Import JS Tables Handlers.

(** The keys of the expansion table, longest first. *)
Definition sortedKeys : list string :=
  sort (fun a b => (String.length a <? String.length b)%nat)
    (List.map fst DOMAIN_EXPANSION).

(** The keys that occur in the lower-cased query, longest first. *)
Definition matchedKeys (query : string) : list string :=
  List.filter (includes (toLowerCase query)) sortedKeys.

(** The terms of a key. *)
Definition termsOf (key : string) : string :=
  default "undefined" (lookup DOMAIN_EXPANSION key).

End ExpansionSpec.

(** ** The records of the search tools *)

Module ToolSpec.
Import JS Handlers.

(** A result of [searchComponents]: a document of the icons index tagged
    [icon], or a document of the charts index tagged [chart]. *)
Definition isComponent (iconsIndex chartsIndex : option BM25.t)
    (item : Tagged.t) : Prop :=
  (Tagged.score item > 0)%R
  /\ exists self doc,
       ((Tagged._domain item = "icon" /\ iconsIndex = Some self)
        \/ (Tagged._domain item = "chart" /\ chartsIndex = Some self))
       /\ In doc (BM25.documents self)
       /\ Tagged.data item = BM25.data doc.

(** A result of [searchPatterns]: a document of the landing index tagged
    [layout], of the UX guidelines index tagged [ux] or of the products
    index tagged [product]. *)
Definition isPattern (landingIndex uxGuidelinesIndex productsIndex
                      : option BM25.t) (item : Tagged.t) : Prop :=
  (Tagged.score item > 0)%R
  /\ exists self doc,
       ((Tagged._domain item = "layout" /\ landingIndex = Some self)
        \/ (Tagged._domain item = "ux" /\ uxGuidelinesIndex = Some self)
        \/ (Tagged._domain item = "product" /\ productsIndex = Some self))
       /\ In doc (BM25.documents self)
       /\ Tagged.data item = BM25.data doc.

(** A result of [searchStyles]: a document of the index of one of the four
    domains, with the name of the domain written into its data. *)
Definition isStyleResult
    (stylesIndex colorsIndex typographyIndex promptsIndex : option BM25.t)
    (item : Scored.t) : Prop :=
  (Scored.score item > 0)%R
  /\ exists d self doc,
       ((d = "style" /\ stylesIndex = Some self)
        \/ (d = "color" /\ colorsIndex = Some self)
        \/ (d = "typography" /\ typographyIndex = Some self)
        \/ (d = "prompt" /\ promptsIndex = Some self))
       /\ In doc (BM25.documents self)
       /\ Scored.data item = <["_domain" := d]> (BM25.data doc).

End ToolSpec.

(** ** Intents and platforms *)

Module IntentSpec.
Import JS Tables Handlers.
Local Open Scope Q_scope.

(** A key word of an intent in the table. *)
Definition isIntentKeyword (intentType keyword : string) (weight : Q) : Prop :=
  exists keywordGroups group,
    In (intentType, keywordGroups) PAGE_INTENT_KEYWORDS
    /\ In group keywordGroups
    /\ In keyword (keywords group)
    /\ weight = groupWeight group.

(** The key words of an intent. *)
Definition intentKeywords (intentType : string) : list string :=
  flat_map keywords (default [] (lookup PAGE_INTENT_KEYWORDS intentType)).

(** The score of an entry of [platformScores]. *)
Definition scoreOf (entry : string * (Q * list string)) : Q := fst (snd entry).

(** The platform parameters that [getDesignSystem] accepts. *)
Definition validPlatforms : list string :=
  [ "web"; "mobile-ios"; "mobile-android"; "mobile"; "react-native";
    "flutter"; "swiftui"; "expo" ]%string.

(** A multi-word phrase of the table that the query contains, with the
    place of its first occurrence. *)
Definition phraseAt (lowerQuery intentType phrase : string) (weight : Q)
    (pos : nat) : Prop :=
  isIntentKeyword intentType phrase weight
  /\ includes phrase " "%string = true
  /\ indexOf lowerQuery phrase = Some pos.

(** A single-word key word that the second phase accepts. *)
Definition singleKeyword (token intentType : string) (weight : Q) : Prop :=
  isIntentKeyword intentType token weight
  /\ includes token " "%string = false
  /\ 0.6 <= weight.

(** The number of words of [s], a word being a maximal run of characters
    that are not white space; [inWord] says that the character before
    [s] belongs to a word. *)
Fixpoint countWords (inWord : bool) (s : string) : nat :=
  match s with
  | EmptyString => 0
  | String c s' =>
      if isSpaceChar c then countWords false s'
      else ((if inWord then 0 else 1) + countWords true s')%nat
  end.

(** The number of words in the first [pos] characters of the query. *)
Definition wordsUpTo (lowerQuery : string) (pos : nat) : nat :=
  countWords false (String.substring 0 pos lowerQuery).

(** The platform argument as [getDesignSystem] reads it: lower-cased, and
    absent when it is empty. *)
Definition givenPlatform (platform : option string) : option string :=
  match platform with
  | Some (String c p) => Some (toLowerCase (String c p))
  | _ => None
  end.

(** The platform parameters that name a cross-platform framework. *)
Definition frameworkParameters : list string :=
  [ "flutter"; "react-native"; "expo" ]%string.

(** The output settings of the web. *)
Definition webOutput : PlatformOutput.t :=
  {| PlatformOutput.safe_area_insets := None;
     PlatformOutput.navigation_type := "page-based"%string;
     PlatformOutput.primary_navigation := "navbar"%string;
     PlatformOutput.touch_target_min := None |}.

(** The output settings of a mobile platform. *)
Definition isMobileOutput (output : PlatformOutput.t) : Prop :=
  PlatformOutput.safe_area_insets output
  = Some "env(safe-area-inset-top), env(safe-area-inset-bottom)"%string
  /\ PlatformOutput.navigation_type output = "stack"%string
  /\ PlatformOutput.touch_target_min output = Some "44px"%string.

(** What [detectPlatformIntent] answers when no key word matches. *)
Definition defaultPlatform : PlatformIntentResult.t :=
  {| PlatformIntentResult.platform := "web"%string;
     PlatformIntentResult.confidence := 0.3;
     PlatformIntentResult.matched_keywords := [];
     PlatformIntentResult.framework := None |}.

End IntentSpec.

(** ** The index state, for the statements about [initializeIndexes] *)

Module StateSpec.
Import Loader Handlers.

Definition documentTypes : list string :=
  [ "style"; "color"; "typography"; "chart"; "ux-guideline"; "icon";
    "landing"; "product"; "prompt"; "stack"; "platform" ].

Definition stackFile (name : string) : string := "stacks/" ++ name ++ ".csv".
Definition platformFile (name : string) : string :=
  "platforms/" ++ name ++ ".csv".

(** A document made of a loaded row: it keeps the columns of the row, and
    its type is the [type] column of the row, if the row has one, and a
    document type otherwise. *)
Definition fromRow (loadCSV : string -> list Row) (doc : BM25.Document)
  : Prop :=
  exists file row type,
    In row (loadCSV file)
    /\ row ⊆ BM25.data doc
    /\ In type documentTypes
    /\ BM25.data doc !! "type" = Some (default type (row !! "type")).

(** The sum of the counts of a statistics object. *)
Definition sumOf (counts : list (string * nat)) : nat :=
  list_sum (List.map snd counts).

Definition counted (stats : DataStats.t) : nat :=
  DataStats.styles stats + DataStats.colors stats
  + DataStats.typography stats + DataStats.charts stats
  + DataStats.uxGuidelines stats + DataStats.icons stats
  + DataStats.landing stats + DataStats.products stats
  + DataStats.prompts stats
  + sumOf (DataStats.stacks stats) + sumOf (DataStats.platforms stats).

(** The entries of the data of the stacks, or of the platforms: the
    names whose file has a row, in order. *)
Definition present (load : string -> list Row) (names : list string)
  : list (string * list Row) :=
  List.filter (fun e => (0 <? List.length (snd e))%nat)
    (List.map (fun name => (name, load name)) names).

(** The nine indexes of one file each, with their files. *)
Definition singleIndexes : list ((State.t -> option BM25.t) * string) :=
  [ (State.stylesIndex, "styles.csv"); (State.colorsIndex, "colors.csv");
    (State.typographyIndex, "typography.csv");
    (State.chartsIndex, "charts.csv");
    (State.uxGuidelinesIndex, "ux-guidelines.csv");
    (State.iconsIndex, "icons.csv"); (State.landingIndex, "landing.csv");
    (State.productsIndex, "products.csv");
    (State.promptsIndex, "prompts.csv") ].

End StateSpec.

(* ================================================================== *)
(** * Part II: the properties *)
(* ================================================================== *)

(** Linear arithmetic over the rationals ([lra] is the one of the reals). *)
Ltac qlra := Lqa.lra.

(** ** Characters and strings *)

Section StringFacts.

Lemma append_cons (c : ascii) (s t : string) :
  String c s ++ t = String c (s ++ t).
Proof. reflexivity. Qed.

Lemma append_nil_l (s : string) : "" ++ s = s.
Proof. reflexivity. Qed.

Lemma append_nil_r (s : string) : s ++ "" = s.
Proof.
  induction s as [|c s IH]; [reflexivity|].
  now rewrite append_cons, IH.
Qed.

Lemma append_assoc (s t u : string) : (s ++ t) ++ u = s ++ (t ++ u).
Proof.
  induction s as [|c s IH]; [reflexivity|].
  now rewrite !append_cons, IH.
Qed.

Lemma length_append (s t : string) :
  String.length (s ++ t) = (String.length s + String.length t)%nat.
Proof.
  induction s as [|c s IH]; [reflexivity|].
  rewrite append_cons. simpl. now rewrite IH.
Qed.

Lemma allChars_append (p : ascii -> bool) (s t : string) :
  JS.allChars p (s ++ t) = JS.allChars p s && JS.allChars p t.
Proof.
  induction s as [|c s IH]; [reflexivity|].
  rewrite append_cons. simpl. now rewrite IH, andb_assoc.
Qed.

Lemma mapChars_id (f : ascii -> ascii) (s : string) :
  JS.allChars (fun c => Ascii.eqb (f c) c) s = true -> JS.mapChars f s = s.
Proof.
  induction s as [|c s IH]; simpl; [reflexivity|].
  intros [Hc Hs]%andb_prop. apply Ascii.eqb_eq in Hc.
  now rewrite Hc, IH.
Qed.

Lemma allChars_impl (p q : ascii -> bool) (s : string) :
  (forall c, p c = true -> q c = true) ->
  JS.allChars p s = true -> JS.allChars q s = true.
Proof.
  intros Hpq. induction s as [|c s IH]; simpl; [reflexivity|].
  intros [Hc Hs]%andb_prop. now rewrite (Hpq _ Hc), IH.
Qed.

End StringFacts.

(** ** Tokenization *)

Section Tokenize.
Import BM25.

Lemma normChar_cases (c : ascii) :
  JS.isSpaceChar (normChar c) = true \/ tokenChar (normChar c) = true.
Proof. destruct c as [[] [] [] [] [] [] [] []]; vm_compute; auto. Qed.

Lemma tokenChar_not_space (c : ascii) :
  tokenChar c = true -> JS.isSpaceChar c = false.
Proof.
  unfold tokenChar. intros [[_ H]%andb_prop _]%andb_prop.
  now apply negb_true_iff.
Qed.

Lemma tokenChar_fixed (c : ascii) : tokenChar c = true -> normChar c = c.
Proof.
  unfold tokenChar. intros [_ H]%andb_prop. now apply Ascii.eqb_eq.
Qed.

Lemma mapChars_compose (f g : ascii -> ascii) (s : string) :
  JS.mapChars g (JS.mapChars f s) = JS.mapChars (fun c => g (f c)) s.
Proof. induction s as [|c s IH]; simpl; [reflexivity | now rewrite IH]. Qed.

(** The pieces cut by [splitGo] are made of the characters of the input
    that are not white space. *)
Lemma splitGo_pieces (p : ascii -> bool) (s : string) :
  JS.allChars (fun c => JS.isSpaceChar c || p c) s = true ->
  forall insep cur, JS.allChars p cur = true ->
  Forall (fun t => JS.allChars p t = true) (JS.splitGo insep cur s).
Proof.
  induction s as [|c s IH]; simpl; intros Hs insep cur Hcur.
  - now constructor.
  - apply andb_prop in Hs as [Hc Hs].
    destruct (JS.isSpaceChar c) eqn:Hsp.
    + destruct insep; [now apply IH | constructor; [assumption | now apply IH]].
    + apply IH; [assumption|].
      rewrite allChars_append, Hcur. simpl in *. now rewrite Hc.
Qed.

Lemma splitGo_token (t rest cur : string) (insep : bool) :
  JS.allChars tokenChar t = true -> t <> "" ->
  JS.splitGo insep cur (t ++ rest) = JS.splitGo false (cur ++ t) rest.
Proof.
  revert cur insep. induction t as [|c t IH]; intros cur insep Ht Hne;
    [congruence|].
  simpl in Ht. apply andb_prop in Ht as [Hc Ht].
  rewrite append_cons. simpl. rewrite (tokenChar_not_space _ Hc).
  destruct t as [|c' t'].
  - now rewrite append_nil_l.
  - rewrite (IH (cur ++ String c "") false Ht) by congruence.
    now rewrite append_assoc.
Qed.

(** Joining clean tokens with single spaces and splitting again gives the
    tokens back. *)
Lemma splitGo_join (insep : bool) (t : string) (ts : list string) :
  Forall (fun t => JS.allChars tokenChar t = true /\ t <> "") (t :: ts) ->
  JS.splitGo insep "" (JS.join " " (t :: ts)) = t :: ts.
Proof.
  unfold JS.join.
  revert t insep. induction ts as [|u ts IH]; intros t insep Hall.
  - apply Forall_cons_1 in Hall as [[Ht Hne] _]. simpl.
    transitivity (JS.splitGo insep "" (t ++ ""));
      [now rewrite append_nil_r|].
    now rewrite splitGo_token.
  - apply Forall_cons_1 in Hall as [[Ht Hne] Hall].
    change (String.concat " " (t :: u :: ts))
      with (t ++ " " ++ String.concat " " (u :: ts)).
    rewrite splitGo_token by assumption.
    rewrite append_cons, append_nil_l, append_nil_l. simpl.
    f_equal. now apply IH.
Qed.

Lemma splitWs_join (ts : list string) :
  Forall (fun t => JS.allChars tokenChar t = true /\ t <> "") ts ->
  List.filter (fun t => (1 <? String.length t)%nat) (JS.splitWs (JS.join " " ts))
  = List.filter (fun t => (1 <? String.length t)%nat) ts.
Proof.
  destruct ts as [|t ts]; [reflexivity|].
  intros Hall. unfold JS.splitWs. now rewrite splitGo_join.
Qed.

(** A joined list of clean tokens passes through lower-casing and
    blanking unchanged. *)
Lemma join_fixed (ts : list string) :
  Forall (fun t => JS.allChars tokenChar t = true) ts ->
  JS.mapChars blankOther (JS.toLowerCase (JS.join " " ts)) = JS.join " " ts.
Proof.
  intros Hall. unfold JS.toLowerCase. rewrite mapChars_compose.
  apply mapChars_id. unfold JS.join.
  set (fixed := fun c => Ascii.eqb (blankOther (JS.toLowerChar c)) c).
  induction Hall as [|t ts Ht Hts IH]; [reflexivity|].
  assert (Hfix : JS.allChars fixed t = true).
  { revert Ht. apply allChars_impl. intros c Hc.
    apply Ascii.eqb_eq. now apply tokenChar_fixed. }
  destruct ts as [|u ts]; [exact Hfix|].
  change (String.concat " " (t :: u :: ts))
    with (t ++ " " ++ String.concat " " (u :: ts)).
  rewrite !allChars_append, Hfix, IH. reflexivity.
Qed.

(** Every token is made of lower-case word characters. *)
Lemma tokenize_clean (x : string) :
  Forall (fun t => JS.allChars tokenChar t = true /\ t <> "") (tokenize x).
Proof.
  unfold tokenize. apply List.Forall_forall. intros t [Hin Hlen]%filter_In.
  split.
  - clear Hlen. revert t Hin. apply List.Forall_forall. unfold JS.splitWs.
    apply splitGo_pieces; [|reflexivity].
    unfold JS.toLowerCase. rewrite mapChars_compose.
    induction x as [|c x IH]; simpl; [reflexivity|].
    rewrite IH, andb_true_r.
    destruct (normChar_cases c) as [H | H]; unfold normChar in H; rewrite H;
      [reflexivity | apply orb_true_r].
  - intros ->. discriminate.
Qed.

Lemma filter_all {A} (p : A -> bool) (l : list A) :
  Forall (fun x => p x = true) l -> List.filter p l = l.
Proof.
  induction 1 as [|x l Hx _ IH]; simpl; [reflexivity|].
  now rewrite Hx, IH.
Qed.

(** C10.  Tokenization is idempotent: joining the tokens of [x] with
    single spaces and tokenizing again gives the tokens of [x]. *)
Theorem tokenize_idempotent (x : string) :
  tokenize (JS.join " " (tokenize x)) = tokenize x.
Proof.
  pose proof (tokenize_clean x) as Hclean.
  unfold tokenize at 1. rewrite join_fixed.
  - rewrite splitWs_join by exact Hclean.
    apply filter_all. unfold tokenize.
    apply List.Forall_forall. now intros t [_ Hlen]%filter_In.
  - revert Hclean. apply List.Forall_impl. now intros t [Ht _].
Qed.

End Tokenize.

(** ** Arrays: [sort] and [slice] *)

Section SortFacts.
Context {A : Type} (after : A -> A -> bool).

Lemma insertSorted_perm (x : A) (a : list A) :
  Permutation (JS.insertSorted after x a) (x :: a).
Proof.
  induction a as [|y a IH]; simpl; [reflexivity|].
  destruct (after x y); [|reflexivity].
  rewrite IH. apply perm_swap.
Qed.

Lemma sort_perm (a : list A) : Permutation (JS.sort after a) a.
Proof.
  induction a as [|x a IH]; simpl; [reflexivity|].
  rewrite insertSorted_perm. now apply perm_skip.
Qed.

Lemma sort_length (a : list A) : List.length (JS.sort after a) = List.length a.
Proof. apply Permutation_length, sort_perm. Qed.

Lemma sort_In (a : list A) (x : A) : In x (JS.sort after a) <-> In x a.
Proof.
  split; apply Permutation_in; [|symmetry]; apply sort_perm.
Qed.

(** The comparator orders the elements: [after] is asymmetric and its
    complement is transitive (the comparator comes from a total
    preorder). *)
Hypothesis after_asym : forall x y, after x y = true -> after y x = false.
Hypothesis notafter_trans :
  forall x y z, after x y = false -> after y z = false -> after x z = false.

(** [before] is the order of the input; the output is sorted by the
    comparator and, among ties, by [before]. *)
Context (before : A -> A -> Prop).
Local Abbreviation sortedStable := (JS.sortedStable after before).

Lemma insertSorted_stable (x : A) (a : list A) :
  Forall (before x) a ->
  StronglySorted sortedStable a ->
  StronglySorted sortedStable (JS.insertSorted after x a).
Proof.
  intros Hx Ha. induction Ha as [|y a Ha IH Hy]; simpl.
  - repeat constructor.
  - apply Forall_cons_1 in Hx as [Hxy Hxa].
    destruct (after x y) eqn:Hafter.
    + constructor; [now apply IH|].
      eapply Permutation_Forall; [symmetry; apply insertSorted_perm|].
      constructor; [|assumption].
      split; [now apply after_asym | congruence].
    + constructor; [now constructor|].
      constructor; [now split|].
      rewrite List.Forall_forall in Hy, Hxa |- *.
      intros z Hz. split; [|intros _; now apply Hxa].
      eapply notafter_trans; [exact Hafter | now apply Hy].
Qed.

Lemma sort_stable (a : list A) :
  StronglySorted before a -> StronglySorted sortedStable (JS.sort after a).
Proof.
  induction 1 as [|x a Ha IH Hx]; simpl; [constructor|].
  apply insertSorted_stable; [|assumption].
  eapply Permutation_Forall; [symmetry; apply sort_perm | assumption].
Qed.

(** An array of ties is left as it is. *)
Lemma sort_ties (a : list A) :
  (forall x y, In x a -> In y a -> after x y = false) -> JS.sort after a = a.
Proof.
  induction a as [|x a IH]; intros Hties; simpl; [reflexivity|].
  rewrite IH by (intros y z Hy Hz; apply Hties; now right).
  destruct a as [|y a]; [reflexivity|]. simpl.
  now rewrite (Hties x y) by (simpl; auto).
Qed.


End SortFacts.

Section SortHead.
Context {A : Type} (after : A -> A -> bool).
Hypothesis after_asym : forall x y, after x y = true -> after y x = false.
Hypothesis notafter_trans :
  forall x y z, after x y = false -> after y z = false -> after x z = false.

Lemma sort_sorted (a : list A) :
  StronglySorted (fun x y => after x y = false) (JS.sort after a).
Proof.
  assert (H : StronglySorted (JS.sortedStable after (fun _ _ => True))
                (JS.sort after a)).
  { apply sort_stable; try assumption.
    clear. induction a; constructor; [assumption|].
    now apply List.Forall_forall. }
  revert H. generalize (JS.sort after a) as l.
  induction 1 as [|x l Hl IH Hx]; constructor; [assumption|].
  revert Hx. apply List.Forall_impl. now intros y [Hxy _].
Qed.

(** The first element of a sorted array comes after no other. *)
Lemma sort_head (a : list A) (x : A) (rest : list A) :
  JS.sort after a = x :: rest ->
  In x a /\ forall y, In y a -> after x y = false.
Proof.
  intros Hsort.
  assert (Hirr : after x x = false).
  { destruct (after x x) eqn:Hxx; [|reflexivity].
    now rewrite (after_asym _ _ Hxx) in Hxx. }
  assert (Hin : forall y, In y a <-> In y (x :: rest))
    by (intros y; now rewrite <- Hsort, sort_In).
  split; [apply Hin; now left|].
  pose proof (sort_sorted a) as Hsorted. rewrite Hsort in Hsorted.
  apply StronglySorted_inv in Hsorted as [_ Hx].
  rewrite List.Forall_forall in Hx.
  intros y [<-|Hy]%Hin; [exact Hirr | now apply Hx].
Qed.

End SortHead.

Section ArrayFacts.
Context {A B : Type}.

Lemma sort_map (f : A -> B) (after : B -> B -> bool) (a : list A) :
  JS.sort after (List.map f a)
  = List.map f (JS.sort (fun x y => after (f x) (f y)) a).
Proof.
  induction a as [|x a IH]; simpl; [reflexivity|].
  rewrite IH. generalize (JS.sort (fun x y => after (f x) (f y)) a) as l.
  induction l as [|y l IHl]; simpl; [reflexivity|].
  destruct (after (f x) (f y)); simpl; [now rewrite IHl | reflexivity].
Qed.

Lemma filter_map (f : A -> B) (p : B -> bool) (a : list A) :
  List.filter p (List.map f a) = List.map f (List.filter (fun x => p (f x)) a).
Proof.
  induction a as [|x a IH]; simpl; [reflexivity|].
  destruct (p (f x)); simpl; now rewrite IH.
Qed.

Lemma slice0_map (f : A -> B) (stop : Z) (a : list A) :
  JS.slice0 stop (List.map f a) = List.map f (JS.slice0 stop a).
Proof. unfold JS.slice0. now rewrite length_map, firstn_map. Qed.

Lemma slice0_length (stop : Z) (a : list A) :
  (0 <= stop)%Z -> (Z.of_nat (List.length (JS.slice0 stop a)) <= stop)%Z.
Proof.
  intros Hstop. unfold JS.slice0.
  destruct (Z.ltb_spec stop 0); [lia|].
  rewrite length_firstn. lia.
Qed.

Lemma In_firstn (n : nat) (a : list A) (x : A) :
  In x (firstn n a) -> In x a.
Proof.
  revert n. induction a as [|y a IH]; intros [|n]; simpl; try tauto.
  intros [->|H]; [now left | right; now apply (IH n)].
Qed.

Lemma slice0_incl (stop : Z) (a : list A) (x : A) :
  In x (JS.slice0 stop a) -> In x a.
Proof. unfold JS.slice0. apply In_firstn. Qed.

Lemma firstn_StronglySorted (R : A -> A -> Prop) (n : nat) (a : list A) :
  StronglySorted R a -> StronglySorted R (firstn n a).
Proof.
  intros Ha. revert n. induction Ha as [|x a Ha IH Hx]; intros [|n]; simpl;
    try constructor; [apply IH|].
  apply List.Forall_forall. intros y Hy%In_firstn.
  rewrite List.Forall_forall in Hx. now apply Hx.
Qed.

Lemma filter_none (p : A -> bool) (a : list A) :
  (forall x, In x a -> p x = false) -> List.filter p a = [].
Proof.
  induction a as [|x a IH]; simpl; intros H; [reflexivity|].
  rewrite (H x) by now left. apply IH. intros y Hy. apply H. now right.
Qed.

Lemma filter_StronglySorted (R : A -> A -> Prop) (p : A -> bool) (a : list A) :
  StronglySorted R a -> StronglySorted R (List.filter p a).
Proof.
  induction 1 as [|x a Ha IH Hx]; simpl; [constructor|].
  destruct (p x); [|assumption].
  constructor; [assumption|].
  apply List.Forall_forall. intros y [Hy _]%filter_In.
  rewrite List.Forall_forall in Hx. now apply Hx.
Qed.

End ArrayFacts.

(** ** The BM25 index *)

Section BM25Facts.
Import BM25.

Lemma countUp_lookup (m : gmap string nat) (token t : string) :
  default 0%nat (countUp m token !! t)
  = (default 0%nat (m !! t) + if string_dec token t then 1 else 0)%nat.
Proof.
  unfold countUp. destruct (string_dec token t) as [->|Hne].
  - now rewrite lookup_insert_eq.
  - rewrite lookup_insert_ne by assumption. lia.
Qed.

Lemma fold_countUp_lookup (tokens : list string) (m : gmap string nat)
    (t : string) :
  default 0%nat (fold_left countUp tokens m !! t)
  = (default 0%nat (m !! t) + count_occ string_dec tokens t)%nat.
Proof.
  revert m. induction tokens as [|token tokens IH]; intros m; simpl; [lia|].
  rewrite IH, countUp_lookup.
  destruct (string_dec token t); lia.
Qed.

Lemma count_occ_NoDup (l : list string) (t : string) :
  List.NoDup l ->
  count_occ string_dec l t = if bool_decide (t ∈ l) then 1%nat else 0%nat.
Proof.
  intros Hnd. case_bool_decide as Hin; rewrite list_elem_of_In in Hin.
  - apply NoDup_count_occ' with (decA := string_dec) in Hin; assumption.
  - now apply count_occ_not_In.
Qed.

Lemma docFrequencies_lookup (tds : list (list string)) (t : string) :
  default 0%nat (calculateDocFrequencies tds !! t)
  = List.length (List.filter (fun tokens => bool_decide (t ∈ tokens)) tds).
Proof.
  unfold calculateDocFrequencies.
  enough (H : forall m,
    default 0%nat
      (fold_left (fun df tokens =>
         fold_left countUp (elements (list_to_set tokens : gset string)) df)
         tds m !! t)
    = (default 0%nat (m !! t)
       + List.length (List.filter (fun tokens => bool_decide (t ∈ tokens)) tds))%nat)
    by (rewrite H, lookup_empty; reflexivity).
  induction tds as [|tokens tds IH]; intros m; simpl; [lia|].
  rewrite IH, fold_countUp_lookup, count_occ_NoDup.
  - assert (Hiff : t ∈ elements (list_to_set tokens : gset string) <-> t ∈ tokens).
    { now rewrite elem_of_elements, elem_of_list_to_set. }
    rewrite (bool_decide_ext _ _ Hiff).
    destruct (bool_decide (t ∈ tokens)); simpl; lia.
  - apply NoDup_ListNoDup, NoDup_elements.
Qed.

Lemma fold_total_length (tds : list (list string)) (n : nat) :
  fold_left (fun sum tokens => (sum + List.length tokens)%nat) tds n
  = (n + list_sum (List.map (@List.length string) tds))%nat.
Proof.
  revert n. induction tds as [|tokens tds IH]; intros n; simpl; [lia|].
  rewrite IH. lia.
Qed.

Lemma avgDocLength_new (docs : list Document) :
  avgDocLength (new docs) = BM25Spec.avgDocLen docs.
Proof.
  unfold new, calculateAvgDocLength, BM25Spec.avgDocLen, BM25Spec.docLen. simpl.
  rewrite fold_total_length, length_map, List.map_map. simpl.
  set (total := list_sum (List.map (fun x => List.length (tokenize (content x))) docs)).
  destruct docs as [|d docs]; [reflexivity|].
  change (List.length (d :: docs) =? 0)%nat with false. cbv iota.
  assert (HN : (INR (List.length (d :: docs)) > 0)%R)
    by (apply lt_0_INR; simpl; lia).
  destruct (Req_dec_T (INR total / INR (List.length (d :: docs))) 0) as [Hz|Hnz].
  - assert (Ht : INR total = 0%R).
    { apply (Rmult_eq_compat_r (INR (List.length (d :: docs)))) in Hz.
      rewrite Rmult_0_l in Hz. rewrite <- Hz. field. lra. }
    change 0%R with (INR 0) in Ht. apply INR_eq in Ht. now rewrite Ht.
  - destruct (Nat.eqb_spec total 0) as [Ht|Ht]; [|reflexivity].
    exfalso. apply Hnz. rewrite Ht. simpl. lra.
Qed.

Lemma avgDocLen_pos (docs : list Document) : (0 < BM25Spec.avgDocLen docs)%R.
Proof.
  unfold BM25Spec.avgDocLen.
  set (total := list_sum (List.map BM25Spec.docLen docs)).
  assert (Hle : (total = 0)%nat \/ (0 < List.length docs)%nat).
  { destruct docs; [now left | right; simpl; lia]. }
  destruct (Nat.eqb_spec total 0) as [Ht|Ht]; [lra|].
  destruct Hle as [Hle|Hle]; [contradiction|].
  apply Rdiv_lt_0_compat; apply lt_0_INR; lia.
Qed.

Lemma df_new (docs : list Document) (term : string) :
  default 0%nat (docFrequencies (new docs) !! term) = BM25Spec.df docs term.
Proof.
  unfold new, BM25Spec.df. simpl.
  now rewrite docFrequencies_lookup, filter_map, length_map.
Qed.

Lemma idf_new (docs : list Document) (term : string) :
  idf (new docs) term = BM25Spec.idf docs term.
Proof. unfold idf, BM25Spec.idf. now rewrite df_new. Qed.

Lemma lookup_map {A B} (f : A -> B) (l : list A) (i : nat) (x : A) :
  l !! i = Some x -> List.map f l !! i = Some (f x).
Proof.
  revert i. induction l as [|y l IH]; intros [|i]; simpl; try discriminate.
  - now intros [= ->].
  - apply IH.
Qed.

Lemma Rsum_app (l1 l2 : list R) :
  BM25Spec.Rsum (l1 ++ l2) = (BM25Spec.Rsum l1 + BM25Spec.Rsum l2)%R.
Proof.
  induction l1 as [|x l1 IH]; simpl; [lra|].
  unfold BM25Spec.Rsum in *. simpl. rewrite IH. lra.
Qed.

(** The loop of [score] adds, to what it has so far, the contributions of
    the terms that occur in the document. *)
Lemma score_loop (docs : list Document) (doc : Document)
    (queryTokens : list string) (acc : R) :
  fold_left
    (fun score term =>
       if (default 0%nat
             (fold_left countUp (tokenize (content doc)) (∅ : gmap string nat)
                !! term) =? 0)%nat
       then score
       else
         (score
          + idf (new docs) term
            * (INR (default 0%nat
                      (fold_left countUp (tokenize (content doc))
                         (∅ : gmap string nat) !! term))
               * (k1 + 1)
               / (INR (default 0%nat
                         (fold_left countUp (tokenize (content doc))
                            (∅ : gmap string nat) !! term))
                  + k1 * (1 - b + b * (INR (List.length (tokenize (content doc)))
                                       / avgDocLength (new docs))))))%R)
    queryTokens acc
  = (acc + BM25Spec.score docs queryTokens doc)%R.
Proof.
  unfold BM25Spec.score. rewrite avgDocLength_new.
  remember (idf (new docs)) as idfOf eqn:Hidf.
  revert acc. induction queryTokens as [|term qs IH]; intros acc; simpl.
  - unfold BM25Spec.Rsum. simpl. lra.
  - rewrite IH. rewrite fold_countUp_lookup, lookup_empty. simpl.
    fold (BM25Spec.tf doc term).
    destruct (BM25Spec.tf doc term =? 0)%nat eqn:Htf; simpl; [reflexivity|].
    unfold BM25Spec.Rsum at 2. simpl. fold BM25Spec.Rsum.
    unfold BM25Spec.contribution at 2.
    rewrite Hidf, idf_new. unfold k1, b, BM25Spec.docLen.
    set (len := INR (List.length (tokenize (content doc)))).
    replace (0.75 * (len / BM25Spec.avgDocLen docs))%R
      with (0.75 * len / BM25Spec.avgDocLen docs)%R by (unfold Rdiv; ring).
    unfold Rdiv, BM25Spec.Rsum. ring.
Qed.

Lemma score_new (docs : list Document) (queryTokens : list string)
    (i : nat) (doc : Document) :
  docs !! i = Some doc ->
  score (new docs) queryTokens i = BM25Spec.score docs queryTokens doc.
Proof.
  intros Hi. unfold score.
  replace (tokenizedDocs (new docs) !! i) with (Some (tokenize (content doc)))
    by (symmetry; apply (lookup_map (fun d => tokenize (content d))), Hi).
  cbn [default]. cbv zeta. unfold Datatypes.id. rewrite score_loop. lra.
Qed.

Lemma score_allTerms (docs : list Document) (queryTokens : list string)
    (doc : Document) :
  BM25Spec.score docs queryTokens doc
  = BM25Spec.scoreAllTerms docs queryTokens doc.
Proof.
  unfold BM25Spec.score, BM25Spec.scoreAllTerms, BM25Spec.Rsum.
  induction queryTokens as [|term qs IH]; simpl; [reflexivity|].
  destruct (BM25Spec.tf doc term =? 0)%nat; simpl; rewrite IH; lra.
Qed.

Lemma df_le (docs : list Document) (term : string) :
  (BM25Spec.df docs term <= List.length docs)%nat.
Proof. unfold BM25Spec.df. apply List.filter_length_le. Qed.

(** Every division of the formula has a positive divisor. *)
Lemma idf_divisor_pos (docs : list Document) (term : string) :
  (0 < INR (BM25Spec.df docs term) + 0.5)%R.
Proof. pose proof (pos_INR (BM25Spec.df docs term)). lra. Qed.

Lemma contribution_divisor_pos (docs : list Document) (doc : Document)
    (term : string) :
  (0 < INR (BM25Spec.tf doc term)
       + 1.5 * (1 - 0.75 + 0.75 * INR (BM25Spec.docLen doc)
                                 / BM25Spec.avgDocLen docs))%R.
Proof.
  pose proof (pos_INR (BM25Spec.tf doc term)) as Htf.
  pose proof (pos_INR (BM25Spec.docLen doc)) as Hlen.
  pose proof (avgDocLen_pos docs) as Havg.
  assert (0 <= 0.75 * INR (BM25Spec.docLen doc) / BM25Spec.avgDocLen docs)%R.
  { apply Rmult_le_pos; [lra|]. left. now apply Rinv_0_lt_compat. }
  lra.
Qed.

Lemma idf_pos (docs : list Document) (term : string) :
  (0 < BM25Spec.idf docs term)%R.
Proof.
  unfold BM25Spec.idf. rewrite <- ln_1. apply ln_increasing; [lra|].
  pose proof (le_INR _ _ (df_le docs term)) as Hle.
  pose proof (idf_divisor_pos docs term) as Hpos.
  assert (0 < (INR (List.length docs) - INR (BM25Spec.df docs term) + 0.5)
              / (INR (BM25Spec.df docs term) + 0.5))%R
    by (apply Rdiv_lt_0_compat; lra).
  lra.
Qed.

Lemma contribution_pos (docs : list Document) (doc : Document) (term : string) :
  BM25Spec.tf doc term <> 0%nat -> (0 < BM25Spec.contribution docs doc term)%R.
Proof.
  intros Htf. unfold BM25Spec.contribution.
  apply Rdiv_lt_0_compat; [|apply contribution_divisor_pos].
  apply Rmult_lt_0_compat; [apply idf_pos|].
  apply Rmult_lt_0_compat; [|lra].
  apply lt_0_INR. lia.
Qed.

Lemma score_nonneg (docs : list Document) (queryTokens : list string)
    (doc : Document) :
  (0 <= BM25Spec.score docs queryTokens doc)%R.
Proof.
  unfold BM25Spec.score, BM25Spec.Rsum.
  induction queryTokens as [|term qs IH]; simpl; [lra|].
  destruct (Nat.eqb_spec (BM25Spec.tf doc term) 0) as [Htf|Htf]; simpl;
    [assumption|].
  pose proof (contribution_pos docs doc term Htf). lra.
Qed.

(** A document scores positive exactly when it contains a query term. *)
Lemma score_pos_iff (docs : list Document) (queryTokens : list string)
    (doc : Document) :
  (0 < BM25Spec.score docs queryTokens doc)%R
  <-> exists term, In term queryTokens /\ BM25Spec.tf doc term <> 0%nat.
Proof.
  unfold BM25Spec.score, BM25Spec.Rsum.
  induction queryTokens as [|term qs IH]; simpl.
  - split; [lra | now intros (t & [] & _)].
  - destruct (Nat.eqb_spec (BM25Spec.tf doc term) 0) as [Htf|Htf]; simpl.
    + rewrite IH. split.
      * intros (t & Hin & Ht). exists t. auto.
      * intros (t & [->|Hin] & Ht); [contradiction | now exists t].
    + split; [intros _; exists term; auto|]. intros _.
      pose proof (contribution_pos docs doc term Htf).
      pose proof (score_nonneg docs qs doc) as Hqs.
      unfold BM25Spec.score, BM25Spec.Rsum in Hqs. lra.
Qed.

Lemma Rgtb_true (x y : R) : JS.Rgtb x y = true <-> (x > y)%R.
Proof. unfold JS.Rgtb. destruct (Rgt_dec x y); split; auto; discriminate. Qed.

Lemma Rgtb_false (x y : R) : JS.Rgtb x y = false <-> (x <= y)%R.
Proof.
  unfold JS.Rgtb. destruct (Rgt_dec x y); split; try lra; try discriminate; auto.
Qed.

End BM25Facts.

(** ** [BM25.search] *)

Section SearchFacts.
Import BM25 Ranking.

Lemma imap_indexed {A B} (f : nat -> A -> B) (l : list A) (k : nat) :
  imap (fun i => f (k + i)%nat) l
  = List.map (fun p => f (fst p) (snd p)) (combine (seq k (List.length l)) l).
Proof.
  revert k. induction l as [|x l IH]; intros k; simpl; [reflexivity|].
  rewrite Nat.add_0_r. f_equal. rewrite <- IH.
  apply imap_ext. intros i y _. simpl. f_equal. lia.
Qed.

Lemma imap_indexed0 {A B} (f : nat -> A -> B) (l : list A) :
  imap f l
  = List.map (fun p => f (fst p) (snd p)) (combine (seq 0 (List.length l)) l).
Proof. rewrite <- imap_indexed. now apply imap_ext. Qed.

Lemma search_ranking (self : t) (query : string) (maxResults : Z) :
  search self query (Some maxResults)
  = List.map (resultAt self (tokenize query)) (ranking self query maxResults).
Proof.
  unfold search, ranking. cbn [default from_option Datatypes.id].
  rewrite imap_indexed0. fold (indexed (documents self)).
  change (fun p : nat * Document =>
            {| SearchResult.document := snd p;
               SearchResult.score := score self (tokenize query) (fst p) |})
    with (resultAt self (tokenize query)).
  now rewrite filter_map, sort_map, slice0_map.
Qed.

Lemma indexed_lookup (docs : list Document) (i : nat) (d : Document) :
  In (i, d) (indexed docs) -> docs !! i = Some d.
Proof.
  unfold indexed.
  assert (H : forall k, In (i, d) (combine (seq k (List.length docs)) docs) ->
                        (k <= i)%nat /\ docs !! (i - k)%nat = Some d).
  { induction docs as [|x docs IH]; intros k; simpl; [tauto|].
    intros [[= <- <-]|Hin].
    - split; [lia|]. now rewrite Nat.sub_diag.
    - apply IH in Hin as [Hle Hlook]. split; [lia|].
      replace (i - k)%nat with (S (i - S k)) by lia. exact Hlook. }
  intros Hin. apply H in Hin as [_ Hlook]. now rewrite Nat.sub_0_r in Hlook.
Qed.

Lemma indexed_sorted (docs : list Document) :
  StronglySorted (fun p q : nat * Document => (fst p < fst q)%nat) (indexed docs).
Proof.
  unfold indexed. generalize 0%nat as k.
  induction docs as [|x docs IH]; intros k; simpl; constructor; [apply IH|].
  apply List.Forall_forall. intros [j d] Hin. simpl.
  apply in_combine_l, in_seq in Hin. lia.
Qed.

Lemma StronglySorted_map_fst {A B} (R : A -> A -> Prop) (l : list (A * B)) :
  StronglySorted (fun p q => R (fst p) (fst q)) l ->
  StronglySorted R (List.map fst l).
Proof.
  induction 1 as [|p l Hl IH Hp]; simpl; constructor; [assumption|].
  apply List.Forall_forall. intros i (q & <- & Hq)%in_map_iff.
  rewrite List.Forall_forall in Hp. now apply Hp.
Qed.

Lemma StronglySorted_impl {A} (R R' : A -> A -> Prop) (l : list A) :
  (forall x y, R x y -> R' x y) -> StronglySorted R l -> StronglySorted R' l.
Proof.
  intros HR. induction 1 as [|x l Hl IH Hx]; constructor; [assumption|].
  revert Hx. apply List.Forall_impl. apply HR.
Qed.

Lemma ranking_incl (self : t) (query : string) (n : Z) (p : nat * Document) :
  In p (ranking self query n) ->
  In p (indexed (documents self))
  /\ (score self (tokenize query) (fst p) > 0)%R.
Proof.
  unfold ranking. intros Hin%slice0_incl%sort_In%filter_In.
  now rewrite Rgtb_true in Hin.
Qed.

Lemma ranking_sorted (self : t) (query : string) (n : Z) :
  StronglySorted (rankedBefore (score self (tokenize query)))
    (List.map fst (ranking self query n)).
Proof.
  apply StronglySorted_map_fst. unfold ranking, JS.slice0.
  apply firstn_StronglySorted.
  eapply StronglySorted_impl; cycle 1.
  - apply sort_stable
      with (before := fun p q : nat * Document => (fst p < fst q)%nat).
    + intros p q. rewrite Rgtb_true, Rgtb_false. lra.
    + intros p q r. rewrite !Rgtb_false. lra.
    + apply filter_StronglySorted, indexed_sorted.
  - intros p q [Hpq Hqp]. rewrite Rgtb_false in Hpq, Hqp.
    unfold rankedBefore.
    destruct (Rle_lt_dec (score self (tokenize query) (fst p))
                (score self (tokenize query) (fst q))) as [Hle|Hlt].
    + right. split; [lra|]. apply Hqp. lra.
    + left. lra.
Qed.

Lemma search_nothing_positive (self : t) (query : string) (maxResults : Z) :
  (forall i, (i < List.length (documents self))%nat ->
             (score self (tokenize query) i <= 0)%R) ->
  search self query (Some maxResults) = [].
Proof.
  intros Hnone. rewrite search_ranking. unfold ranking.
  replace (List.filter _ (indexed (documents self))) with (@nil (nat * Document)).
  - unfold JS.slice0. simpl. now rewrite firstn_nil.
  - symmetry. apply filter_none. intros [i d] Hin. simpl.
    apply Rgtb_false, Hnone.
    apply in_combine_l, in_seq in Hin. lia.
Qed.

Lemma score_no_tokens (self : t) (i : nat) : score self [] i = 0%R.
Proof. reflexivity. Qed.


Lemma slice0_all {A} (stop : Z) (a : list A) :
  (Z.of_nat (List.length a) <= stop)%Z -> JS.slice0 stop a = a.
Proof.
  intros Hlen. unfold JS.slice0.
  destruct (Z.ltb_spec stop 0); [lia|].
  rewrite Z.min_r by assumption. rewrite Nat2Z.id. apply firstn_all.
Qed.

Lemma map_indexed {B} (f : nat -> Document -> B) (g : Document -> B)
    (docs : list Document) :
  (forall i d, docs !! i = Some d -> f i d = g d) ->
  List.map (fun p => f (fst p) (snd p)) (indexed docs) = List.map g docs.
Proof.
  intros Hfg.
  assert (H : forall l : list (nat * Document),
             (forall p, In p l -> In p (indexed docs)) ->
             List.map (fun p => f (fst p) (snd p)) l = List.map g (List.map snd l)).
  { induction l as [|[i d] l IH]; intros Hl; simpl; [reflexivity|].
    rewrite IH by (intros p Hp; apply Hl; now right).
    f_equal. apply Hfg, indexed_lookup, Hl. now left. }
  rewrite H by auto. f_equal. unfold indexed.
  clear. generalize 0%nat. induction docs as [|d docs IH]; intros k; simpl;
    [reflexivity | now rewrite IH].
Qed.


End SearchFacts.

(** ** The scoring formula and the search contract *)

Section BM25Claims.
Import BM25 Ranking.

(** C1.  For an index built over [docs] and a document [doc] at position
    [i], the score of a query is the sum, over the query terms whose term
    frequency in [doc] is not zero, of
    [idf * (tf * (k1 + 1)) / (tf + k1 * (1 - b + b * docLen / avgDocLen))],
    with [idf = ln ((N - df + 0.5) / (df + 0.5) + 1)], [k1 = 1.5] and
    [b = 0.75]; written as a sum over all query terms, a term of frequency
    zero adds exactly 0.  [tf], [df], [docLen] and [avgDocLen] are the
    counts of the specification, not the tables of the index. *)
Theorem bm25_score_formula (docs : list Document) (queryTokens : list string)
    (i : nat) (doc : Document) :
  docs !! i = Some doc ->
  k1 = 1.5%R /\ b = 0.75%R
  /\ (forall term,
        idf (new docs) term
        = ln ((INR (List.length docs) - INR (BM25Spec.df docs term) + 0.5)
              / (INR (BM25Spec.df docs term) + 0.5) + 1))
  /\ score (new docs) queryTokens i = BM25Spec.score docs queryTokens doc
  /\ score (new docs) queryTokens i
     = BM25Spec.scoreAllTerms docs queryTokens doc.
Proof.
  intros Hi. repeat split.
  - intros term. now rewrite idf_new.
  - now apply score_new.
  - rewrite <- score_allTerms. now apply score_new.
Qed.

Lemma bm25_score_formula_witness :
  score (new Samples.twoDocs) ["ab"; "zz"] 1
  = BM25Spec.score Samples.twoDocs ["ab"; "zz"] (Samples.doc "2" "ab cd" "style").
Proof.
  exact (proj1 (proj2 (proj2 (proj2
    (bm25_score_formula Samples.twoDocs ["ab"; "zz"] 1
       (Samples.doc "2" "ab cd" "style") eq_refl))))).
Defined.

(** C2, amended.  For a query [q] and an integer [n >= 0], [search]
    returns documents of the index, each with its BM25 score, which is
    positive; the results are in descending order of score and, among
    equal scores, in the order of the documents in the index; there are at
    most [n] of them; the result is empty when [q] has no token or no
    document scores positive; and no division has a zero divisor. *)
Theorem search_contract (docs : list Document) (q : string) (n : Z) :
  (0 <= n)%Z ->
  let self := new docs in
  let result := search self q (Some n) in
  (exists positions : list nat,
      Forall2 (fun i r =>
                 docs !! i = Some (SearchResult.document r)
                 /\ SearchResult.score r = score self (tokenize q) i
                 /\ SearchResult.score r
                    = BM25Spec.score docs (tokenize q) (SearchResult.document r))
              positions result
      /\ StronglySorted (rankedBefore (score self (tokenize q))) positions)
  /\ Forall (fun r => (SearchResult.score r > 0)%R) result
  /\ (Z.of_nat (List.length result) <= n)%Z
  /\ (tokenize q = [] -> result = [])
  /\ ((forall i, (i < List.length docs)%nat ->
                 (score self (tokenize q) i <= 0)%R) -> result = [])
  /\ (0 < avgDocLength self)%R
  /\ (forall term,
        (0 < INR (default 0%nat (docFrequencies self !! term)) + 0.5)%R)
  /\ (forall tf len : nat,
        (0 < INR tf + k1 * (1 - b + b * (INR len / avgDocLength self)))%R).
Proof.
  intros Hn self result.
  assert (Hres : result = List.map (resultAt self (tokenize q)) (ranking self q n))
    by apply search_ranking.
  assert (Havg : (0 < avgDocLength self)%R)
    by (unfold self; rewrite avgDocLength_new; apply avgDocLen_pos).
  split; [|split; [|split; [|split; [|split; [|split; [|split]]]]]].
  - exists (List.map fst (ranking self q n)). split; [|apply ranking_sorted].
    rewrite Hres.
    assert (Hin : forall p, In p (ranking self q n) -> docs !! fst p = Some (snd p)).
    { intros [i d] Hp. apply ranking_incl in Hp as [Hp _].
      now apply indexed_lookup. }
    clear Hres. revert Hin.
    generalize (ranking self q n) as l. intros l.
    induction l as [|p l IH]; intros Hin; simpl; constructor.
    + pose proof (Hin p (or_introl eq_refl)) as Hp.
      split; [exact Hp|]. split; [reflexivity|].
      simpl. unfold self. now apply score_new.
    + apply IH. intros p' Hp'. apply Hin. now right.
  - rewrite Hres. apply List.Forall_forall.
    intros r (p & <- & Hp)%in_map_iff. now apply ranking_incl in Hp as [_ Hp].
  - unfold result, search. cbn [default from_option Datatypes.id].
    now apply slice0_length.
  - intros Hq. apply search_nothing_positive. intros i _.
    rewrite Hq, score_no_tokens. lra.
  - intros Hnone. now apply search_nothing_positive.
  - exact Havg.
  - intros term. pose proof (pos_INR (default 0%nat (docFrequencies self !! term))).
    lra.
  - intros tf len. unfold k1, b.
    pose proof (pos_INR tf). pose proof (pos_INR len).
    assert (0 <= INR len / avgDocLength self)%R.
    { apply Rmult_le_pos; [assumption|]. left. now apply Rinv_0_lt_compat. }
    lra.
Qed.

Lemma search_contract_witness :
  (Z.of_nat (List.length (search (new Samples.twoDocs) "ab" (Some 1%Z))) <= 1)%Z.
Proof.
  assert (H : (0 <= 1)%Z) by lia.
  exact (proj1 (proj2 (proj2 (search_contract Samples.twoDocs "ab" 1 H)))).
Defined.

Lemma twoDocs_positive (i : nat) (d : Document) :
  In (i, d) (indexed Samples.twoDocs) ->
  (score (new Samples.twoDocs) (tokenize "ab cd") i > 0)%R.
Proof.
  intros Hin. rewrite (score_new _ _ _ _ (indexed_lookup _ _ _ Hin)).
  apply score_pos_iff. exists "ab". split; [now left|].
  destruct Hin as [[= <- <-]|[[= <- <-]|[]]]; vm_compute; discriminate.
Qed.

(** C2, as stated, fails for a negative [n]: [slice(0, -1)] keeps all
    results but the last, so two matching documents give one result. *)
Lemma search_negative_maxResults :
  List.length (search (new Samples.twoDocs) "ab cd" (Some (-1)%Z)) = 1%nat
  /\ ~ (Z.of_nat
          (List.length (search (new Samples.twoDocs) "ab cd" (Some (-1)%Z)))
        <= -1)%Z.
Proof.
  assert (Hlen : List.length (search (new Samples.twoDocs) "ab cd" (Some (-1)%Z))
                 = 1%nat).
  { rewrite search_ranking, length_map. unfold ranking, JS.slice0.
    rewrite length_firstn, sort_length, filter_all; [reflexivity|].
    apply List.Forall_forall. intros [i d] Hin.
    apply Rgtb_true. simpl. now apply (twoDocs_positive i d). }
  split; [exact Hlen | rewrite Hlen; lia].
Qed.

End BM25Claims.

(** ** Key word matching *)

Section MatchFacts.
Import JS Handlers MatchSpec.

Lemma lastOr_append (prev : option ascii) (s t : string) :
  lastOr prev (s ++ t) = lastOr (lastOr prev s) t.
Proof.
  revert prev. induction s as [|c s IH]; intros prev; [reflexivity|].
  rewrite append_cons. simpl. apply IH.
Qed.

Lemma toLowerCase_cons (c : ascii) (s : string) :
  toLowerCase (String c s) = String (toLowerChar c) (toLowerCase s).
Proof. reflexivity. Qed.

Lemma readKeyword_spec (last : option ascii) (keyword s : string)
    (l : option ascii) (rest : string) :
  readKeyword last keyword s = Some (l, rest)
  <-> exists mid, s = mid ++ rest
                  /\ toLowerCase mid = toLowerCase keyword
                  /\ l = lastOr last mid.
Proof.
  revert last s. induction keyword as [|k keyword IH]; intros last s;
    cbn [readKeyword].
  - split.
    + intros [= <- <-]. now exists "".
    + intros (mid & -> & Hmid & ->). destruct mid; [reflexivity | discriminate].
  - destruct s as [|c s].
    + split; [discriminate|].
      intros (mid & Hs & Hmid & _). destruct mid; discriminate.
    + destruct (Ascii.eqb_spec (toLowerChar k) (toLowerChar c)) as [Hkc|Hkc].
      * rewrite IH. split.
        -- intros (mid & -> & Hmid & ->). exists (String c mid).
           repeat split. now rewrite !toLowerCase_cons, Hkc, Hmid.
        -- intros (mid & Hs & Hmid & ->). destruct mid as [|c' mid];
             [discriminate|].
           rewrite append_cons in Hs. injection Hs as <- ->.
           rewrite !toLowerCase_cons in Hmid. injection Hmid as _ Hmid.
           now exists mid.
      * split; [discriminate|].
        intros (mid & Hs & Hmid & _). destruct mid as [|c' mid];
          [discriminate|].
        rewrite append_cons in Hs. injection Hs as <- _.
        rewrite !toLowerCase_cons in Hmid. injection Hmid as Hc _. congruence.
Qed.

Lemma matchHere_spec (prev : option ascii) (keyword s : string) :
  matchHere prev keyword s = true
  <-> exists mid post,
        s = mid ++ post
        /\ toLowerCase mid = toLowerCase keyword
        /\ isBoundary prev (firstChar (mid ++ post)) = true
        /\ isBoundary (lastOr prev mid) (firstChar post) = true.
Proof.
  unfold matchHere. rewrite andb_true_iff. split.
  - intros [Hb Hread].
    destruct (readKeyword prev keyword s) as [[l rest]|] eqn:Hr;
      [|discriminate].
    apply readKeyword_spec in Hr as (mid & -> & Hmid & ->).
    now exists mid, rest.
  - intros (mid & post & -> & Hmid & Hb1 & Hb2). split; [assumption|].
    assert (Hr : readKeyword prev keyword (mid ++ post)
                 = Some (lastOr prev mid, post))
      by (apply readKeyword_spec; now exists mid).
    now rewrite Hr.
Qed.

Lemma regexTest_spec (prev : option ascii) (keyword s : string) :
  regexTest prev keyword s = true
  <-> exists pre mid post,
        s = pre ++ mid ++ post
        /\ toLowerCase mid = toLowerCase keyword
        /\ isBoundary (lastOr prev pre) (firstChar (mid ++ post)) = true
        /\ isBoundary (lastOr prev (pre ++ mid)) (firstChar post) = true.
Proof.
  revert prev. induction s as [|c s IH]; intros prev; simpl;
    rewrite orb_true_iff, matchHere_spec.
  - split.
    + intros [(mid & post & H)|]; [|discriminate]. now exists "", mid, post.
    + intros (pre & mid & post & Hs & H). left.
      destruct pre; [|discriminate]. now exists mid, post.
  - rewrite IH. split.
    + intros [(mid & post & H)|(pre & mid & post & -> & H)].
      * now exists "", mid, post.
      * exists (String c pre), mid, post. now rewrite !append_cons.
    + intros ([|c' pre] & mid & post & Hs & H).
      * left. now exists mid, post.
      * right. rewrite append_cons in Hs. injection Hs as <- ->.
        rewrite append_cons in H. now exists pre, mid, post.
Qed.

Lemma prefix_spec (k s : string) :
  String.prefix k s = true <-> exists post, s = k ++ post.
Proof.
  revert s. induction k as [|c k IH]; intros s.
  - destruct s; simpl; split; eauto.
  - destruct s as [|c' s]; simpl.
    + split; [discriminate | intros [post H]; discriminate].
    + destruct (ascii_dec c c') as [->|Hne].
      * rewrite IH. split; intros [post H]; exists post.
        -- now rewrite append_cons, H.
        -- rewrite append_cons in H. now injection H.
      * split; [discriminate|]. intros [post H].
        rewrite append_cons in H. congruence.
Qed.

(** [includes] is the substring test. *)
Lemma includes_spec (s k : string) :
  includes s k = true <-> exists pre post, s = pre ++ k ++ post.
Proof.
  unfold includes, indexOf. induction s as [|c s IH].
  - simpl. destruct k as [|c k].
    + split; [|reflexivity]. intros _. now exists "", "".
    + split; [discriminate|]. intros ([|] & post & H); discriminate.
  - cbn [String.index].
    destruct (String.prefix k (String c s)) eqn:Hp.
    + split; [|reflexivity]. intros _.
      apply prefix_spec in Hp as [post Hp]. now exists "", post.
    + destruct (String.index 0 k s) as [n|].
      * split; [|reflexivity]. intros _.
        destruct IH as [IH _]. destruct (IH eq_refl) as (pre & post & ->).
        now exists (String c pre), post.
      * split; [discriminate|]. intros ([|c' pre] & post & H).
        -- assert (Hp' : String.prefix k (String c s) = true)
             by (apply prefix_spec; now exists post).
           congruence.
        -- rewrite append_cons in H. injection H as _ ->.
           destruct IH as [_ IH]. discriminate IH. now exists pre, post.
Qed.

Lemma isWordChar_toLowerChar (c : ascii) :
  isWordChar (toLowerChar c) = isWordChar c.
Proof. destruct c as [[] [] [] [] [] [] [] []]; reflexivity. Qed.

Lemma wordAt_case (s t : string) (prev : option ascii) :
  toLowerCase s = toLowerCase t -> s <> "" ->
  allChars isWordChar t = true ->
  wordAt (firstChar s) = true /\ wordAt (lastOr prev s) = true.
Proof.
  revert t prev. induction s as [|c s IH]; intros [|c' t] prev Hst Hne Ht;
    try congruence; try discriminate.
  rewrite !toLowerCase_cons in Hst. injection Hst as Hc Hst.
  simpl in Ht. apply andb_prop in Ht as [Hc' Ht].
  assert (Hw : isWordChar c = true)
    by now rewrite <- isWordChar_toLowerChar, Hc, isWordChar_toLowerChar.
  split; [exact Hw|]. simpl.
  destruct s as [|d s]; [exact Hw|].
  now apply (IH t (Some c)).
Qed.

Lemma firstChar_append (s t : string) :
  s <> "" -> firstChar (s ++ t) = firstChar s.
Proof. destruct s; [congruence | reflexivity]. Qed.

Lemma toLowerCase_nonempty (s t : string) :
  toLowerCase s = toLowerCase t -> t <> "" -> s <> "".
Proof. destruct s, t; try congruence; discriminate. Qed.

(** For a key word made of word characters, the two boundaries say that
    the occurrence is a whole word. *)
Lemma occursAtBoundaries_word (query keyword : string) :
  keyword <> "" -> allChars isWordChar keyword = true ->
  occursAtBoundaries query keyword <-> occursAsWord query keyword.
Proof.
  intros Hne Hword. unfold occursAtBoundaries, occursAsWord, isBoundary.
  split; intros (pre & mid & post & Hq & Hmid & H1 & H2);
    exists pre, mid, post; repeat split; try assumption;
    pose proof (toLowerCase_nonempty _ _ Hmid Hne) as Hmne;
    destruct (wordAt_case mid keyword (lastOr None pre) Hmid Hmne Hword)
      as [Hfirst Hlast];
    rewrite ?firstChar_append, ?lastOr_append, ?Hfirst, ?Hlast in *
      by assumption.
  - now destruct (wordAt (lastOr None pre)).
  - now destruct (wordAt (firstChar post)).
  - now rewrite H1.
  - now rewrite H2.
Qed.

(** C7.  A phrase (a key word with a space) matches when the query
    contains it as a substring; a single word matches only between word
    boundaries, that is, for a key word made of word characters, as a
    whole word.  So "bar" does not match in "sidebar navigation", and the
    query has no chart match, while "bar chart comparison" has one. *)
Theorem keyword_matching :
  (forall query keyword,
      includes keyword " " = true ->
      (matchesKeyword query keyword = true
       <-> exists pre post, query = pre ++ keyword ++ post))
  /\ (forall query keyword,
        includes keyword " " = false ->
        (matchesKeyword query keyword = true
         <-> occursAtBoundaries query keyword))
  /\ (forall query keyword,
        includes keyword " " = false ->
        keyword <> "" -> allChars isWordChar keyword = true ->
        (matchesKeyword query keyword = true <-> occursAsWord query keyword))
  /\ matchesKeyword "sidebar navigation" "bar" = false
  /\ ~ In "chart"
        (List.map DomainMatch.domain (detectDomains "sidebar navigation"))
  /\ matchesKeyword "bar chart comparison" "bar" = true
  /\ In "chart"
       (List.map DomainMatch.domain (detectDomains "bar chart comparison")).
Proof.
  assert (Hsingle : forall query keyword,
             includes keyword " " = false ->
             (matchesKeyword query keyword = true
              <-> occursAtBoundaries query keyword)).
  { intros query keyword Hk. unfold matchesKeyword. rewrite Hk.
    apply regexTest_spec. }
  repeat split.
  - unfold matchesKeyword. rewrite H. apply includes_spec.
  - unfold matchesKeyword. rewrite H. intros Hpp. now apply includes_spec.
  - now apply Hsingle.
  - now apply Hsingle.
  - intros Hm. apply occursAtBoundaries_word; [assumption..|].
    now apply Hsingle.
  - intros Hm. apply Hsingle; [assumption|].
    now apply occursAtBoundaries_word.
  - vm_compute. intros [H|[]]. discriminate.
  - vm_compute. now left.
Qed.

End MatchFacts.

(** ** The domain and stack classifiers *)

Section ClassifierFacts.
Import JS Tables Handlers ClassifierSpec.
Local Open Scope Q_scope.

Lemma Qgeb_true (x y : Q) : Qgeb x y = true <-> y <= x.
Proof. apply Qle_bool_iff. Qed.

Lemma Qgtb_true (x y : Q) : Qgtb x y = true <-> y < x.
Proof.
  unfold Qgtb. rewrite negb_true_iff, <- not_true_iff_false, Qle_bool_iff.
  split; [apply Qnot_le_lt | apply Qlt_not_le].
Qed.

Lemma Qgtb_false (x y : Q) : Qgtb x y = false <-> x <= y.
Proof. unfold Qgtb. now rewrite negb_false_iff, Qle_bool_iff. Qed.

Lemma scanKeywords_from (lowerQuery : string) (keywords : list KeywordEntry)
    (m : Q) (n : nat) :
  fold_left
    (fun '(maxScore, matchCount) entry =>
       if matchesKeyword lowerQuery (keyword entry)
       then (Qmax maxScore (weight entry), S matchCount)
       else (maxScore, matchCount))
    keywords (m, n)
  = (maxFrom m (List.filter (fun e => matchesKeyword lowerQuery (keyword e)) keywords),
     (n + List.length
            (List.filter (fun e => matchesKeyword lowerQuery (keyword e)) keywords))%nat).
Proof.
  revert m n. induction keywords as [|e keywords IH]; intros m n; simpl.
  - now rewrite Nat.add_0_r.
  - destruct (matchesKeyword lowerQuery (keyword e)); rewrite IH; simpl;
      [f_equal; lia | reflexivity].
Qed.

Lemma scanKeywords_matched (query : string) (keywords : list KeywordEntry) :
  scanKeywords (toLowerCase query) keywords
  = (maxFrom 0 (matched query keywords), List.length (matched query keywords)).
Proof. unfold scanKeywords. now rewrite scanKeywords_from. Qed.

Lemma maxFrom_ge (m : Q) (entries : list KeywordEntry) :
  m <= maxFrom m entries
  /\ forall e, In e entries -> weight e <= maxFrom m entries.
Proof.
  revert m. induction entries as [|e entries IH]; intros m; simpl.
  - split; [apply Qle_refl | tauto].
  - destruct (IH (Qmax m (weight e))) as [Hm Hall]. split.
    + eapply Qle_trans; [apply Q.le_max_l | exact Hm].
    + intros e' [<-|Hin]; [|now apply Hall].
      eapply Qle_trans; [apply Q.le_max_r | exact Hm].
Qed.

Lemma maxFrom_attained (m : Q) (entries : list KeywordEntry) :
  maxFrom m entries == m
  \/ exists e, In e entries /\ weight e == maxFrom m entries.
Proof.
  revert m. induction entries as [|e entries IH]; intros m; simpl.
  - left. reflexivity.
  - destruct (IH (Qmax m (weight e))) as [Heq|(e' & Hin & Heq)].
    + destruct (Q.max_spec m (weight e)) as [[Hlt Hmax]|[Hle Hmax]].
      * right. exists e. split; [now left|]. now rewrite Heq, Hmax.
      * left. now rewrite Heq, Hmax.
    + right. exists e'. split; [now right | exact Heq].
Qed.

(** With weights that are not negative, the loop ends on the maximum
    weight among the matches. *)
Lemma maxFrom_isMaxWeight (entries : list KeywordEntry) :
  entries <> [] ->
  Forall (fun e => 0 <= weight e) entries ->
  isMaxWeight (maxFrom 0 entries) entries.
Proof.
  intros Hne Hpos. split; [|apply maxFrom_ge].
  destruct (maxFrom_attained 0 entries) as [Heq|Hex]; [|exact Hex].
  destruct entries as [|e entries]; [congruence|].
  exists e. split; [now left|].
  apply Qle_antisym.
  - apply maxFrom_ge. now left.
  - rewrite Heq. now apply Forall_cons_1 in Hpos as [He _].
Qed.

Lemma isMaxWeight_unique (m m' : Q) (entries : list KeywordEntry) :
  isMaxWeight m entries -> isMaxWeight m' entries -> m == m'.
Proof.
  intros [(e & He & Hm) Hle] [(e' & He' & Hm') Hle'].
  apply Qle_antisym.
  - rewrite <- Hm. now apply Hle'.
  - rewrite <- Hm'. now apply Hle.
Qed.

Lemma scoreCategories_flat_map (table : list (string * list KeywordEntry))
    (lowerQuery : string) :
  scoreCategories table lowerQuery = flat_map (categoryEntry lowerQuery) table.
Proof.
  unfold scoreCategories.
  enough (H : forall acc,
    fold_left
      (fun scores '(category, keywords) =>
         let '(maxScore, matchCount) := scanKeywords lowerQuery keywords in
         if (0 <? matchCount)%nat
         then (scores ++ [(category, finalScore 0.1 0.03 maxScore matchCount)])%list
         else scores)
      table acc
    = (acc ++ flat_map (categoryEntry lowerQuery) table)%list) by apply H.
  induction table as [|[category keywords] table IH]; intros acc; simpl.
  - now rewrite app_nil_r.
  - rewrite IH. unfold categoryEntry at 2. simpl.
    destruct (scanKeywords lowerQuery keywords) as [maxScore matchCount].
    destruct (0 <? matchCount)%nat; [|reflexivity].
    now rewrite <- app_assoc.
Qed.

Lemma multiMatchBoost_code (boostMax boostStep : Q) (n : nat) :
  0 <= boostMax -> (1 <= n)%nat ->
  Qmin boostMax ((inject_Z (Z.of_nat n) - 1) * boostStep)
  == multiMatchBoost boostMax boostStep n.
Proof.
  intros Hmax Hn. unfold multiMatchBoost.
  destruct (Nat.leb_spec 2 n) as [H2|H2]; [reflexivity|].
  assert (n = 1%nat) as -> by lia.
  assert (H0 : (inject_Z (Z.of_nat 1) - 1) * boostStep == 0) by ring.
  destruct (Q.min_spec boostMax ((inject_Z (Z.of_nat 1) - 1) * boostStep))
    as [[Hlt ->]|[Hle ->]]; [|exact H0].
  rewrite H0 in Hlt. exfalso. exact (Qlt_not_le _ _ Hlt Hmax).
Qed.

Lemma finalScore_categoryScore (boostMax boostStep m : Q) (n : nat) :
  0 <= boostMax -> (1 <= n)%nat ->
  finalScore boostMax boostStep m n == categoryScore boostMax boostStep m n.
Proof.
  intros Hmax Hn. unfold finalScore, categoryScore.
  pose proof (multiMatchBoost_code boostMax boostStep n Hmax Hn) as Hb.
  set (x := Qmin boostMax ((inject_Z (Z.of_nat n) - 1) * boostStep)) in *.
  set (y := multiMatchBoost boostMax boostStep n) in *.
  destruct (Q.min_spec 1.0 (m + x)) as [[? ->]|[? ->]];
    destruct (Q.min_spec 1 (m + y)) as [[? ->]|[? ->]]; qlra.
Qed.

(** The confidence bound: a score is never negative and never above 1. *)
Lemma finalScore_bounds (boostMax boostStep m : Q) (n : nat) :
  0 <= boostMax -> 0 <= boostStep -> 0 <= m -> (1 <= n)%nat ->
  0 <= finalScore boostMax boostStep m n <= 1.
Proof.
  intros Hmax Hstep Hm Hn. unfold finalScore.
  split; [|eapply Qle_trans; [apply Q.le_min_l | qlra]].
  assert (Hboost : 0 <= Qmin boostMax ((inject_Z (Z.of_nat n) - 1) * boostStep)).
  { apply Q.min_glb; [assumption|].
    apply Qmult_le_0_compat; [|assumption].
    assert (1 <= inject_Z (Z.of_nat n))
      by (change 1 with (inject_Z 1); rewrite <- Zle_Qle; lia).
    qlra. }
  apply Q.min_glb; qlra.
Qed.

Lemma rankedMatches_In (scores : list (string * Q)) (r : DomainMatch.t) :
  In r (rankedMatches scores)
  <-> In (DomainMatch.domain r, DomainMatch.confidence r) scores.
Proof.
  unfold rankedMatches. rewrite sort_In, in_map_iff. split.
  - now intros ([d c] & <- & Hin).
  - intros Hin. exists (DomainMatch.domain r, DomainMatch.confidence r).
    split; [now destruct r | assumption].
Qed.

Lemma rankedMatches_sorted (scores : list (string * Q)) :
  StronglySorted
    (fun a b => DomainMatch.confidence b <= DomainMatch.confidence a)
    (rankedMatches scores).
Proof.
  unfold rankedMatches.
  eapply StronglySorted_impl; cycle 1.
  - apply sort_stable with (before := fun _ _ => True).
    + intros x y. rewrite Qgtb_true, Qgtb_false. qlra.
    + intros x y z. rewrite !Qgtb_false. qlra.
    + generalize (List.map
        (fun '(domain, confidence) =>
           {| DomainMatch.domain := domain;
              DomainMatch.confidence := confidence |}) scores) as l.
      induction l; constructor; [assumption|].
      now apply List.Forall_forall.
  - intros a b [Hab _]. apply Qgtb_false in Hab. qlra.
Qed.

(** Membership in the list of scores, read through the specification. *)
Lemma scoreCategories_In (table : list (string * list KeywordEntry))
    (query : string) (d : string) (c : Q) :
  In (d, c) (scoreCategories table (toLowerCase query))
  <-> exists keywords,
        In (d, keywords) table
        /\ matched query keywords <> []
        /\ c = finalScore 0.1 0.03 (maxFrom 0 (matched query keywords))
                (List.length (matched query keywords)).
Proof.
  rewrite scoreCategories_flat_map, in_flat_map. split.
  - intros ([d' keywords] & Hin & Hc). unfold categoryEntry in Hc.
    simpl in Hc. rewrite scanKeywords_matched in Hc.
    destruct (matched query keywords) as [|e es] eqn:Hm; [contradiction|].
    simpl in Hc. destruct Hc as [[= <- <-]|[]].
    exists keywords. rewrite Hm. now repeat split.
  - intros (keywords & Hin & Hne & ->). exists (d, keywords).
    split; [assumption|]. unfold categoryEntry. simpl.
    rewrite scanKeywords_matched.
    destruct (matched query keywords) as [|e es]; [congruence|].
    now left.
Qed.

Lemma categoryScore_compat (boostMax boostStep m m' : Q) (n : nat) :
  m == m' ->
  categoryScore boostMax boostStep m n == categoryScore boostMax boostStep m' n.
Proof.
  intros Hm. unfold categoryScore.
  set (x := multiMatchBoost boostMax boostStep n).
  destruct (Q.min_spec 1 (m + x)) as [[? ->]|[? ->]];
    destruct (Q.min_spec 1 (m' + x)) as [[? ->]|[? ->]]; qlra.
Qed.

Lemma keys_unique {V} (table : list (string * V)) (k : string) (v v' : V) :
  List.NoDup (List.map fst table) ->
  In (k, v) table -> In (k, v') table -> v = v'.
Proof.
  induction table as [|[k0 v0] table IH]; simpl; [tauto|].
  intros Hnd. apply NoDup_cons_iff in Hnd as [Hk0 Hnd].
  intros [Heq|Hin] [Heq'|Hin'].
  - congruence.
  - injection Heq as -> ->. exfalso. apply Hk0, in_map_iff. now exists (k, v').
  - injection Heq' as -> ->. exfalso. apply Hk0, in_map_iff. now exists (k, v).
  - now apply IH.
Qed.

Lemma matched_nonneg (table : list (string * list KeywordEntry))
    (d : string) (keywords : list KeywordEntry) (query : string) :
  weightsNonneg table = true -> In (d, keywords) table ->
  Forall (fun e => 0 <= weight e) (matched query keywords).
Proof.
  intros Htable Hin. apply List.Forall_forall. intros e [He _]%filter_In.
  unfold weightsNonneg in Htable. rewrite forallb_forall in Htable.
  specialize (Htable _ Hin). simpl in Htable.
  rewrite forallb_forall in Htable. now apply Qle_bool_iff, Htable.
Qed.

Lemma domainKeys_NoDup : List.NoDup (List.map fst domainKeywordsWeighted).
Proof. apply NoDup_ListNoDup, (bool_decide_unpack _). vm_compute. exact I. Qed.

Lemma domainWeights_nonneg : weightsNonneg domainKeywordsWeighted = true.
Proof. vm_compute. reflexivity. Qed.

(** C4.  [detectDomains] gives every domain with at least one matched key
    word the maximum weight among its matched key words, plus
    [min(0.1, (matchCount - 1) * 0.03)] when two or more matched, capped
    at 1.0; it returns these domains when the score is at least 0.2 and
    no others, in descending order of score; a domain without a matched
    key word is not returned. *)
Theorem detectDomains_scores (query : string) :
  (forall r, In r (detectDomains query) ->
     exists keywords maxWeight,
       In (DomainMatch.domain r, keywords) domainKeywordsWeighted
       /\ matched query keywords <> []
       /\ isMaxWeight maxWeight (matched query keywords)
       /\ DomainMatch.confidence r
          == categoryScore 0.1 0.03 maxWeight
               (List.length (matched query keywords))
       /\ 0.2 <= DomainMatch.confidence r)
  /\ (forall domain keywords maxWeight,
        In (domain, keywords) domainKeywordsWeighted ->
        isMaxWeight maxWeight (matched query keywords) ->
        0.2 <= categoryScore 0.1 0.03 maxWeight
                 (List.length (matched query keywords)) ->
        exists r, In r (detectDomains query)
                  /\ DomainMatch.domain r = domain
                  /\ DomainMatch.confidence r
                     == categoryScore 0.1 0.03 maxWeight
                          (List.length (matched query keywords)))
  /\ (forall domain keywords,
        In (domain, keywords) domainKeywordsWeighted ->
        matched query keywords = [] ->
        ~ In domain (List.map DomainMatch.domain (detectDomains query)))
  /\ StronglySorted
       (fun a b => DomainMatch.confidence b <= DomainMatch.confidence a)
       (detectDomains query).
Proof.
  assert (Hmem : forall r, In r (detectDomains query) <->
            (exists keywords,
                In (DomainMatch.domain r, keywords) domainKeywordsWeighted
                /\ matched query keywords <> []
                /\ DomainMatch.confidence r
                   = finalScore 0.1 0.03 (maxFrom 0 (matched query keywords))
                       (List.length (matched query keywords)))
            /\ 0.2 <= DomainMatch.confidence r).
  { intros r. unfold detectDomains.
    now rewrite filter_In, rankedMatches_In, scoreCategories_In, Qgeb_true. }
  assert (Hscore : forall d keywords,
            In (d, keywords) domainKeywordsWeighted ->
            matched query keywords <> [] ->
            isMaxWeight (maxFrom 0 (matched query keywords)) (matched query keywords)
            /\ finalScore 0.1 0.03 (maxFrom 0 (matched query keywords))
                  (List.length (matched query keywords))
               == categoryScore 0.1 0.03 (maxFrom 0 (matched query keywords))
                    (List.length (matched query keywords))).
  { intros d keywords Hin Hne. split.
    - apply maxFrom_isMaxWeight; [assumption|].
      now apply (matched_nonneg domainKeywordsWeighted d), Hin;
        try apply domainWeights_nonneg.
    - apply finalScore_categoryScore; [qlra|].
      destruct (matched query keywords); [congruence | simpl; lia]. }
  split; [|split; [|split]].
  - intros r [(keywords & Hin & Hne & Hc) H02]%Hmem.
    destruct (Hscore _ _ Hin Hne) as [Hmax Heq].
    exists keywords, (maxFrom 0 (matched query keywords)).
    repeat split; try assumption; try apply Hmax. now rewrite Hc.
  - intros domain keywords maxWeight Hin Hmax H02.
    assert (Hne : matched query keywords <> []).
    { destruct Hmax as [(e & He & _) _]. intros Hnil. now rewrite Hnil in He. }
    destruct (Hscore _ _ Hin Hne) as [Hmax' Heq].
    pose proof (categoryScore_compat 0.1 0.03 _ _
                  (List.length (matched query keywords))
                  (isMaxWeight_unique _ _ _ Hmax' Hmax)) as Hcompat.
    exists {| DomainMatch.domain := domain;
              DomainMatch.confidence :=
                finalScore 0.1 0.03 (maxFrom 0 (matched query keywords))
                  (List.length (matched query keywords)) |}.
    split; [|split; [reflexivity|]]; simpl.
    + apply Hmem. simpl. split; [now exists keywords|].
      rewrite Heq, Hcompat. exact H02.
    + now rewrite Heq, Hcompat.
  - intros domain keywords Hin Hnil (r & <- & Hr)%in_map_iff.
    apply Hmem in Hr as [(keywords' & Hin' & Hne & _) _].
    rewrite (keys_unique _ _ _ _ domainKeys_NoDup Hin Hin') in Hnil.
    contradiction.
  - unfold detectDomains. apply filter_StronglySorted, rankedMatches_sorted.
Qed.

End ClassifierFacts.

(** ** Page intent *)

Section PageIntentFacts.
Import JS Tables Handlers PageIntentSpec IntentSpec.
Local Open Scope Q_scope.

Lemma phraseAfter_false (a b : PhraseMatch.t) :
  phraseAfter a b = false
  <-> (PhraseMatch.position a < PhraseMatch.position b)%nat
      \/ (PhraseMatch.position a = PhraseMatch.position b
          /\ PhraseMatch.weight b <= PhraseMatch.weight a).
Proof.
  unfold phraseAfter.
  destruct (Nat.eqb_spec (PhraseMatch.position a) (PhraseMatch.position b))
    as [Heq|Hne].
  - rewrite Qgtb_false. split.
    + intros H. right. split; [assumption | qlra].
    + intros [Hlt|[_ Hle]]; [lia | qlra].
  - rewrite Nat.ltb_ge. split; [lia|]. intros [Hlt|[Heq _]]; lia.
Qed.

Lemma phraseAfter_asym (a b : PhraseMatch.t) :
  phraseAfter a b = true -> phraseAfter b a = false.
Proof.
  intros Hab. apply phraseAfter_false.
  apply not_false_iff_true in Hab. rewrite phraseAfter_false in Hab.
  destruct (Nat.lt_trichotomy (PhraseMatch.position a) (PhraseMatch.position b))
    as [Hlt|[Heq|Hgt]]; [tauto| |now left].
  right. split; [easy|].
  destruct (Qlt_le_dec (PhraseMatch.weight a) (PhraseMatch.weight b)) as [H|H];
    [qlra | tauto].
Qed.

Lemma phraseAfter_trans (a b c : PhraseMatch.t) :
  phraseAfter a b = false -> phraseAfter b c = false -> phraseAfter a c = false.
Proof.
  rewrite !phraseAfter_false.
  intros [Hab|[Hab Wab]] [Hbc|[Hbc Wbc]]; try (left; lia).
  right. split; [lia | qlra].
Qed.

(** The phrase that [classifyPageIntent] takes is the earliest one, the
    heaviest among the earliest. *)
Lemma best_phrase (ms : list PhraseMatch.t) (best : PhraseMatch.t)
    (rest : list PhraseMatch.t) :
  sort phraseAfter ms = best :: rest -> winsAmong best ms.
Proof.
  intros Hsort.
  apply sort_head in Hsort as [Hin Hmin];
    [|apply phraseAfter_asym | apply phraseAfter_trans].
  split; [assumption|]. intros m Hm.
  apply Hmin, phraseAfter_false in Hm. destruct Hm as [Hlt|[Heq Hle]].
  - split; [lia|]. intros Heq. lia.
  - split; [lia|]. now intros _.
Qed.

Lemma scanTokens_none (tokens : list string) (i : nat) :
  (forall token, In token tokens -> singleWordMatch token = None) ->
  scanTokens i tokens = None.
Proof.
  revert i. induction tokens as [|token tokens IH]; intros i Hnone; simpl;
    [reflexivity|].
  rewrite (Hnone token) by now left.
  apply IH. intros t Ht. apply Hnone. now right.
Qed.

(** The single-word scan stops at the first token that is a key word. *)
Lemma scanTokens_first (tokens : list string) (start i : nat) (token : string)
    (intentType keyword : string) (weight : Q) :
  tokens !! i = Some token ->
  singleWordMatch token = Some (intentType, keyword, weight) ->
  (forall j t, (j < i)%nat -> tokens !! j = Some t -> singleWordMatch t = None) ->
  scanTokens start tokens
  = Some {| PageIntentResult.intent := intentType;
            PageIntentResult.confidence := positionConfidence weight (start + i);
            PageIntentResult.matchedKeyword := Some keyword;
            PageIntentResult.position := Z.of_nat (start + i);
            PageIntentResult.warnings := [] |}.
Proof.
  revert start i. induction tokens as [|t0 tokens IH]; intros start i Hi Hm Hbefore;
    [discriminate|].
  destruct i as [|i]; simpl in *.
  - injection Hi as ->. now rewrite Hm, Nat.add_0_r.
  - rewrite (Hbefore 0%nat t0) by (reflexivity || lia).
    rewrite (IH (S start) i Hi Hm).
    + now replace (S start + i)%nat with (start + S i)%nat by lia.
    + intros j t Hj Ht. apply (Hbefore (S j) t); [lia | exact Ht].
Qed.

(** A single-word match is a key word without a space, equal to the
    token. *)
Lemma singleWordMatch_token (token intentType keyword : string) (weight : Q) :
  singleWordMatch token = Some (intentType, keyword, weight) ->
  keyword = token /\ includes keyword " " = false.
Proof.
  unfold singleWordMatch. intros [_ H]%find_some.
  apply andb_prop in H as [[Hspace Heq]%andb_prop _].
  apply String.eqb_eq in Heq. now apply negb_true_iff in Hspace.
Qed.

(** [roundTo2] is rounding to two decimals: a whole number of hundredths,
    within half a hundredth. *)
Lemma roundTo2_spec (x : Q) :
  (exists k : Z, roundTo2 x == inject_Z k / 100)
  /\ x - 0.005 < roundTo2 x <= x + 0.005.
Proof.
  unfold roundTo2, round. split; [now eexists|].
  pose proof (Qfloor_le (x * 100 + (1 # 2))) as Hle.
  pose proof (Qlt_floor (x * 100 + (1 # 2))) as Hlt.
  rewrite inject_Z_plus in Hlt. change (inject_Z 1) with 1 in Hlt.
  set (k := inject_Z (Qfloor (x * 100 + (1 # 2)))) in *.
  split.
  - apply Qlt_shift_div_l; qlra.
  - apply Qle_shift_div_r; qlra.
Qed.

(** A phrase match is a key word with a space that the query contains,
    with the place of its first occurrence and the weight of its group. *)
Lemma phraseMatches_In (lowerQuery : string) (m : PhraseMatch.t) :
  In m (phraseMatches lowerQuery) ->
  includes (PhraseMatch.phrase m) " " = true
  /\ indexOf lowerQuery (PhraseMatch.phrase m) = Some (PhraseMatch.position m)
  /\ exists keywordGroups group,
       In (PhraseMatch.intent m, keywordGroups) PAGE_INTENT_KEYWORDS
       /\ In group keywordGroups
       /\ In (PhraseMatch.phrase m) (keywords group)
       /\ PhraseMatch.weight m = groupWeight group.
Proof.
  unfold phraseMatches.
  intros ([intentType keywordGroups] & Hi & Hm)%in_flat_map.
  apply in_flat_map in Hm as (group & Hg & Hm).
  apply in_flat_map in Hm as (keyword & Hk & Hm).
  destruct (includes keyword " ") eqn:Hspace; [|contradiction].
  destruct (indexOf lowerQuery keyword) as [pos|] eqn:Hpos; [|contradiction].
  destruct Hm as [<-|[]]. simpl. repeat split; try assumption.
  now exists keywordGroups, group.
Qed.

Lemma countWords_split (s : string) (insep : bool) (cur : string) :
  (insep = true -> cur = ""%string) ->
  List.length
    (List.filter (fun w => (0 <? String.length w)%nat) (splitGo insep cur s))
  = if (0 <? String.length cur)%nat
    then S (countWords true s) else countWords false s.
Proof.
  revert insep cur. induction s as [|c s IH]; intros insep cur Hsep.
  - cbn [splitGo List.filter countWords].
    now destruct (0 <? String.length cur)%nat.
  - cbn [splitGo countWords]. destruct (isSpaceChar c).
    + destruct insep; cbv iota.
      * rewrite (Hsep eq_refl). now apply (IH true ""%string).
      * cbn [List.filter].
        destruct (0 <? String.length cur)%nat; cbn [List.length];
          [f_equal|]; now apply (IH true ""%string).
    + pose proof (IH false (cur ++ String c "")%string
                    ltac:(discriminate)) as Hrest.
      rewrite length_append in Hrest. cbn [String.length] in Hrest.
      replace (0 <? String.length cur + 1)%nat with true in Hrest
        by (symmetry; apply Nat.ltb_lt; lia).
      rewrite Hrest. now destruct (0 <? String.length cur)%nat.
Qed.

Lemma wordsBefore_count (lowerQuery : string) (pos : nat) :
  wordsBefore lowerQuery pos = wordsUpTo lowerQuery pos.
Proof.
  unfold wordsBefore, wordsUpTo, splitWs.
  now rewrite countWords_split by discriminate.
Qed.

(** The phrase matches are the multi-word phrases of the table that the
    query contains, no more and no less. *)
Lemma phraseMatches_phraseAt (lowerQuery : string) (m : PhraseMatch.t) :
  In m (phraseMatches lowerQuery)
  <-> phraseAt lowerQuery (PhraseMatch.intent m) (PhraseMatch.phrase m)
        (PhraseMatch.weight m) (PhraseMatch.position m).
Proof.
  split.
  - intros (Hspace & Hpos & groups & g & Hentry & Hg & Hk & Hw)%phraseMatches_In.
    split; [now exists groups, g|]. now split.
  - intros [(groups & g & Hentry & Hg & Hk & Hw) [Hspace Hpos]].
    unfold phraseMatches. apply in_flat_map.
    exists (PhraseMatch.intent m, groups). split; [assumption|].
    apply in_flat_map. exists g. split; [assumption|].
    apply in_flat_map. exists (PhraseMatch.phrase m). split; [assumption|].
    rewrite Hspace, Hpos. left. destruct m; cbn in *. now rewrite Hw.
Qed.

(** The key words of the table, with their intents and weights, in the
    order of the three loops. *)
Lemma intentEntries_In (intentType keyword : string) (weight : Q) :
  In (intentType, keyword, weight)
    (flat_map
       (fun '(intentType, keywordGroups) =>
          flat_map
            (fun group =>
               List.map (fun keyword => (intentType, keyword, groupWeight group))
                 (keywords group))
            keywordGroups)
       PAGE_INTENT_KEYWORDS)
  <-> isIntentKeyword intentType keyword weight.
Proof.
  split.
  - intros ([intent groups] & Hentry & Hin)%in_flat_map.
    apply in_flat_map in Hin as (g & Hg & Hin).
    apply in_map_iff in Hin as (k & [= <- <- <-] & Hk).
    now exists groups, g.
  - intros (groups & g & Hentry & Hg & Hk & ->).
    apply in_flat_map. exists (intentType, groups). split; [assumption|].
    apply in_flat_map. exists g. split; [assumption|].
    apply in_map_iff. now exists keyword.
Qed.

Lemma NoDup_map_inj {A B} (f : A -> B) (l : list A) (x y : A) :
  List.NoDup (List.map f l) -> In x l -> In y l -> f x = f y -> x = y.
Proof.
  induction l as [|z l IH]; intros Hdup Hx Hy Heq; [contradiction|].
  cbn [List.map] in Hdup. apply List.NoDup_cons_iff in Hdup as [Hz Hdup].
  destruct Hx as [->|Hx], Hy as [->|Hy]; [reflexivity| | |now apply IH].
  - exfalso. apply Hz. rewrite Heq. now apply in_map.
  - exfalso. apply Hz. rewrite <- Heq. now apply in_map.
Qed.

(** No key word is listed twice in the table. *)
Lemma intentKeywords_NoDup :
  List.NoDup
    (List.map (fun e : string * string * Q => snd (fst e))
       (flat_map
          (fun '(intentType, keywordGroups) =>
             flat_map
               (fun group =>
                  List.map
                    (fun keyword => (intentType, keyword, groupWeight group))
                    (keywords group))
               keywordGroups)
          PAGE_INTENT_KEYWORDS)).
Proof. apply NoDup_ListNoDup, (bool_decide_unpack _). vm_compute. exact I. Qed.

(** The second phase accepts a token exactly when it is a single-word key
    word of weight 0.6 or more, with the intent and the weight of the
    table. *)
Lemma singleWordMatch_spec (token : string) :
  (forall intentType weight,
      singleKeyword token intentType weight ->
      singleWordMatch token = Some (intentType, token, weight))
  /\ ((forall intentType weight, ~ singleKeyword token intentType weight) ->
      singleWordMatch token = None).
Proof.
  split.
  - intros intentType weight (Hkey & Hspace & Hweight).
    apply intentEntries_In in Hkey.
    unfold singleWordMatch.
    match goal with |- List.find ?p ?l = _ =>
      destruct (List.find p l) as [[[i k] w]|] eqn:Hfind end.
    + apply find_some in Hfind as [Hin Hp].
      apply andb_prop in Hp as [[_ Hk]%andb_prop _].
      apply String.eqb_eq in Hk. subst k.
      now rewrite (NoDup_map_inj _ _ _ _ intentKeywords_NoDup Hin Hkey eq_refl).
    + apply (find_none _ _ Hfind) in Hkey. cbn beta iota in Hkey.
      rewrite Hspace, String.eqb_refl in Hkey. cbn [negb andb] in Hkey.
      apply not_true_iff_false in Hkey. exfalso. apply Hkey.
      now apply Qgeb_true.
  - intros Hnone. unfold singleWordMatch.
    match goal with |- List.find ?p ?l = _ =>
      destruct (List.find p l) as [[[i k] w]|] eqn:Hfind end; [|reflexivity].
    apply find_some in Hfind as [Hin Hp].
    apply andb_prop in Hp as [[Hspace Hk]%andb_prop Hw].
    apply String.eqb_eq in Hk. subst k.
    exfalso. apply (Hnone i w). split; [now apply intentEntries_In|].
    split; [now apply negb_true_iff in Hspace | now apply Qgeb_true].
Qed.

(** C5.  [classifyPageIntent] looks at the multi-word phrases first and
    at single words only when the query contains no phrase of the table.
    Among the phrases that the query contains the earliest wins, the
    heavier of two at the same place.  The confidence is the matched
    weight minus [min(0.3, wordPosition * 0.05)], floored at 0.3 and
    rounded to two decimals, where [wordPosition] is the number of words
    before the phrase, or the index of the token in the second phase.
    The second phase takes the first token that is a single-word key
    word.  "landing page dashboard" is a landing page, by its phrase.
    When nothing matches the intent is unknown, with confidence 0 and a
    warning. *)
Theorem classifyPageIntent_phases (query : string) :
  let lowerQuery := trim (toLowerCase query) in
  let noPhrase :=
    forall intentType phrase weight pos,
      ~ phraseAt lowerQuery intentType phrase weight pos in
  (forall intentType phrase weight pos,
      phraseAt lowerQuery intentType phrase weight pos ->
      exists bestIntent bestPhrase bestWeight bestPos,
        phraseAt lowerQuery bestIntent bestPhrase bestWeight bestPos
        /\ (forall intentType' phrase' weight' pos',
              phraseAt lowerQuery intentType' phrase' weight' pos' ->
              (bestPos <= pos')%nat
              /\ (pos' = bestPos -> weight' <= bestWeight))
        /\ classifyPageIntent query
           = {| PageIntentResult.intent := bestIntent;
                PageIntentResult.confidence :=
                  roundTo2
                    (penalised bestWeight (wordsUpTo lowerQuery bestPos));
                PageIntentResult.matchedKeyword := Some bestPhrase;
                PageIntentResult.position :=
                  Z.of_nat (wordsUpTo lowerQuery bestPos);
                PageIntentResult.warnings := [] |})
  /\ (noPhrase ->
      forall i token intentType weight,
        splitWs lowerQuery !! i = Some token ->
        singleKeyword token intentType weight ->
        (forall j t, (j < i)%nat -> splitWs lowerQuery !! j = Some t ->
                     forall intentType' weight',
                       ~ singleKeyword t intentType' weight') ->
        classifyPageIntent query
        = {| PageIntentResult.intent := intentType;
             PageIntentResult.confidence := roundTo2 (penalised weight i);
             PageIntentResult.matchedKeyword := Some token;
             PageIntentResult.position := Z.of_nat i;
             PageIntentResult.warnings := [] |})
  /\ (noPhrase ->
      (forall token, In token (splitWs lowerQuery) ->
                     forall intentType weight,
                       ~ singleKeyword token intentType weight) ->
      classifyPageIntent query = unknownIntent)
  /\ (forall x : Q,
        (exists k : Z, roundTo2 x == inject_Z k / 100)
        /\ x - 0.005 < roundTo2 x <= x + 0.005)
  /\ (classifyPageIntent "landing page dashboard"
      = {| PageIntentResult.intent := "landing";
           PageIntentResult.confidence := roundTo2 1;
           PageIntentResult.matchedKeyword := Some "landing page"%string;
           PageIntentResult.position := 0;
           PageIntentResult.warnings := [] |}).
Proof.
  intros lowerQuery noPhrase.
  assert (Hnil : noPhrase -> phraseMatches lowerQuery = []).
  { intros Hno. destruct (phraseMatches lowerQuery) as [|m ms] eqn:Hm;
      [reflexivity|].
    exfalso. eapply Hno. apply phraseMatches_phraseAt. rewrite Hm. now left. }
  split; [|split; [|split; [|split]]].
  - intros intentType phrase weight pos Hat.
    assert (Hin : In {| PhraseMatch.phrase := phrase;
                        PhraseMatch.intent := intentType;
                        PhraseMatch.weight := weight;
                        PhraseMatch.position := pos |}
                    (phraseMatches lowerQuery))
      by now apply phraseMatches_phraseAt.
    unfold classifyPageIntent. fold lowerQuery.
    destruct (sort phraseAfter (phraseMatches lowerQuery)) as [|best rest] eqn:Hsort.
    + exfalso. apply (sort_In phraseAfter) in Hin. now rewrite Hsort in Hin.
    + apply best_phrase in Hsort as [Hbest Hmin].
      exists (PhraseMatch.intent best), (PhraseMatch.phrase best),
        (PhraseMatch.weight best), (PhraseMatch.position best).
      split; [now apply phraseMatches_phraseAt|]. split.
      * intros intentType' phrase' weight' pos' Hat'.
        apply (phraseMatches_phraseAt lowerQuery
                 {| PhraseMatch.phrase := phrase';
                    PhraseMatch.intent := intentType';
                    PhraseMatch.weight := weight';
                    PhraseMatch.position := pos' |}) in Hat'.
        apply Hmin in Hat'. exact Hat'.
      * now rewrite wordsBefore_count.
  - intros Hno i token intentType weight Hi Hkey Hbefore.
    unfold classifyPageIntent. fold lowerQuery. rewrite (Hnil Hno).
    cbn [sort fold_right].
    rewrite (scanTokens_first _ 0 i token intentType token weight Hi).
    + reflexivity.
    + now apply singleWordMatch_spec.
    + intros j t Hj Ht. apply singleWordMatch_spec. now apply (Hbefore j t).
  - intros Hno Hnone. unfold classifyPageIntent. fold lowerQuery.
    rewrite (Hnil Hno). cbn [sort fold_right].
    rewrite scanTokens_none; [reflexivity|].
    intros token Hin. apply singleWordMatch_spec. now apply Hnone.
  - apply roundTo2_spec.
  - vm_compute. reflexivity.
Qed.

End PageIntentFacts.

(** ** The confidence bound *)

Section ConfidenceBound.
Import JS Tables Handlers ClassifierSpec.
Local Open Scope Q_scope.

Lemma scoreCategories_bounds (table : list (string * list KeywordEntry))
    (query : string) (d : string) (c : Q) :
  In (d, c) (scoreCategories table (toLowerCase query)) -> 0 <= c <= 1.
Proof.
  intros (keywords & _ & Hne & ->)%scoreCategories_In.
  apply finalScore_bounds; try qlra.
  - apply maxFrom_ge.
  - destruct (matched query keywords); [congruence | simpl; lia].
Qed.

Lemma scanPlatformKeywords_from (lowerQuery : string)
    (keywords : list KeywordEntry) (m : Q) (ks : list string) :
  fold_left
    (fun '(maxWeight, matchedKeywords) entry =>
       if matchesKeyword lowerQuery (keyword entry)
       then (Qmax maxWeight (weight entry),
             (matchedKeywords ++ [keyword entry])%list)
       else (maxWeight, matchedKeywords))
    keywords (m, ks)
  = (maxFrom m (List.filter (fun e => matchesKeyword lowerQuery (keyword e)) keywords),
     (ks ++ List.map keyword
              (List.filter (fun e => matchesKeyword lowerQuery (keyword e)) keywords))%list).
Proof.
  revert m ks. induction keywords as [|e keywords IH]; intros m ks; simpl.
  - now rewrite app_nil_r.
  - destruct (matchesKeyword lowerQuery (keyword e)); rewrite IH; simpl;
      [now rewrite <- app_assoc | reflexivity].
Qed.

Lemma platformScores_bounds (lowerQuery : string) (p : string)
    (c : Q) (ks : list string) :
  In (p, (c, ks)) (platformScores lowerQuery) -> 0 <= c <= 1.
Proof.
  unfold platformScores. intros ([p' keywords] & Heq & _)%in_map_iff.
  unfold scanPlatformKeywords in Heq. rewrite scanPlatformKeywords_from in Heq.
  simpl in Heq.
  destruct (List.map keyword _) as [|k ks'] eqn:Hks; simpl in Heq;
    injection Heq as _ <- _; [qlra|].
  apply finalScore_bounds; try qlra; [apply maxFrom_ge | lia].
Qed.

Lemma bestPlatform_bounds (scores : list (string * (Q * list string))) :
  (forall p c ks, In (p, (c, ks)) scores -> 0 <= c <= 1) ->
  0 <= snd (fst (bestPlatform scores)) <= 1.
Proof.
  unfold bestPlatform.
  enough (H : forall best : string * Q * list string,
    0 <= snd (fst best) <= 1 ->
    (forall p c ks, In (p, (c, ks)) scores -> 0 <= c <= 1) ->
    0 <= snd (fst (fold_left
      (fun '(bestPlatform, bestScore, bestKeywords) '(platform, (score, keywords)) =>
         if Qgtb score bestScore
         then (platform, score, keywords)
         else (bestPlatform, bestScore, bestKeywords))
      scores best)) <= 1) by (apply H; simpl; qlra).
  induction scores as [|[p [c ks]] scores IH]; intros [[bp bs] bk] Hbest Hall;
    simpl; [exact Hbest|].
  apply IH; [|intros p' c' ks' Hin; apply (Hall p' c' ks'); now right].
  destruct (Qgtb c bs); [|exact Hbest].
  simpl. apply (Hall p c ks). now left.
Qed.

Lemma round_percent_bounds (x : Q) :
  0 <= x <= 1 -> 0 <= inject_Z (round (x * 100)) / 100 <= 1.
Proof.
  intros [H0 H1]. unfold round.
  assert (Hlo : (Qfloor 0 <= Qfloor (x * 100 + (1 # 2)))%Z)
    by (apply Qfloor_resp_le; qlra).
  assert (Hhi : (Qfloor (x * 100 + (1 # 2)) <= Qfloor (100 + (1 # 2)))%Z)
    by (apply Qfloor_resp_le; qlra).
  change (Qfloor 0) with 0%Z in Hlo.
  change (Qfloor (100 + (1 # 2))) with 100%Z in Hhi.
  rewrite Zle_Qle in Hlo, Hhi.
  set (k := inject_Z (Qfloor (x * 100 + (1 # 2)))) in *.
  change (inject_Z 0) with 0 in Hlo. change (inject_Z 100) with 100 in Hhi.
  split; [apply Qle_shift_div_l | apply Qle_shift_div_r]; qlra.
Qed.

(** C9.  Every confidence returned by [detectDomains], [detectStacks] and
    [detectPlatformIntent] lies in [0, 1]; several matched key words raise
    a score, but not above 1.0 (three chart key words match
    "bar chart comparison", for 0.95 + 0.06, and the confidence is 1). *)
Theorem confidence_bound (query : string) :
  (forall r, In r (detectDomains query) ->
             0 <= DomainMatch.confidence r <= 1)
  /\ (forall r, In r (detectStacks query) ->
                0 <= DomainMatch.confidence r <= 1)
  /\ 0 <= PlatformIntentResult.confidence (detectPlatformIntent query) <= 1
  /\ (forall r, In r (detectDomains "bar chart comparison") ->
                DomainMatch.confidence r == 1).
Proof.
  split; [|split; [|split]].
  - intros r [Hr _]%filter_In. apply rankedMatches_In in Hr.
    now apply scoreCategories_bounds in Hr.
  - intros r [Hr _]%filter_In. apply rankedMatches_In in Hr.
    now apply scoreCategories_bounds in Hr.
  - unfold detectPlatformIntent.
    pose proof (bestPlatform_bounds (platformScores (toLowerCase query))
                  (platformScores_bounds (toLowerCase query))) as Hb.
    destruct (bestPlatform (platformScores (toLowerCase query)))
      as [[bp bs] bk]. simpl in Hb.
    destruct (Qeq_bool bs 0); simpl; [qlra|].
    now apply round_percent_bounds.
  - vm_compute. intros r [<-|[]]. reflexivity.
Qed.

End ConfidenceBound.

(** ** Validation *)

Section ValidationFacts.
Import JS Handlers ValidationSpec.
Local Open Scope Q_scope.

Lemma isInteger_spec (x : Q) : isInteger x = true <-> isWhole x.
Proof.
  unfold isInteger, isWhole. rewrite Qeq_bool_iff. split.
  - intros H. now exists (Qfloor x).
  - intros [z Hz]. rewrite Hz at 2. now rewrite Qfloor_Z.
Qed.

Lemma length_zero (s : string) : (String.length s =? 0)%nat = true <-> s = ""%string.
Proof. destruct s; simpl; split; congruence. Qed.

(** A valid result has [maxResults] between 1 and 50. *)
Lemma validateSearchInput_range (query : option string) (maxResults : option Q) :
  ValidationResult.valid (validateSearchInput query maxResults) = true ->
  (1 <= ValidationResult.maxResults (validateSearchInput query maxResults) <= 50)%Z.
Proof.
  unfold validateSearchInput.
  destruct query as [q|]; [|discriminate]. cbv zeta.
  destruct (String.length (trim q) =? 0)%nat; [discriminate|].
  destruct (500 <? String.length (trim q))%nat; [discriminate|].
  destruct maxResults as [m|]; [|simpl; lia].
  destruct (isInteger m) eqn:Hint; [|discriminate]. simpl.
  destruct (Qgtb 1 m) eqn:Hlow; [discriminate|].
  destruct (Qgtb m 50) eqn:Hhigh; [discriminate|]. simpl. intros _.
  apply Qgtb_false in Hlow, Hhigh.
  apply isInteger_spec in Hint as [z Hz].
  assert (Hfloor : inject_Z (Qfloor m) == m)
    by (rewrite Hz at 1; now rewrite Qfloor_Z, Hz).
  split; rewrite Zle_Qle, Hfloor; assumption.
Qed.

(** C8, amended.  [validateSearchInput] refuses the input exactly when
    the query is absent, the trimmed query is empty or longer than 500
    characters, or [maxResults] is given and is not an integer, is below
    1 or is above 50.  A refusal is a result with [valid = false] and an
    error message.  Otherwise the result is valid and carries the trimmed
    query for display, the expanded trimmed query for searching, and
    [maxResults] (3 when absent). *)
Theorem validateSearchInput_cases (query : option string)
    (maxResults : option Q) :
  let r := validateSearchInput query maxResults in
  (ValidationResult.valid r = false <-> refused query maxResults)
  /\ (ValidationResult.valid r = false ->
      exists message, ValidationResult.error r = Some message
                      /\ message <> ""%string)
  /\ (ValidationResult.valid r = true ->
      exists q,
        query = Some q
        /\ ValidationResult.originalQuery r = trim q
        /\ ValidationResult.query r = expandQuery (trim q)
        /\ ValidationResult.error r = None
        /\ (1 <= ValidationResult.maxResults r <= 50)%Z
        /\ match maxResults with
           | None => ValidationResult.maxResults r = 3%Z
           | Some m => inject_Z (ValidationResult.maxResults r) == m
           end).
Proof.
  unfold validateSearchInput, refused.
  destruct query as [q|]; cbv zeta.
  2:{ simpl. repeat split; try discriminate; auto.
      - intros _. eexists. split; [reflexivity | discriminate]. }
  destruct (String.length (trim q) =? 0)%nat eqn:Hempty.
  { apply length_zero in Hempty. simpl. repeat split; try discriminate.
    - intros _. right. left. exists q. auto.
    - intros _. eexists. split; [reflexivity | discriminate]. }
  assert (Hne : trim q <> ""%string)
    by (intros H; apply length_zero in H; congruence).
  destruct (500 <? String.length (trim q))%nat eqn:Hlong.
  { apply Nat.ltb_lt in Hlong. simpl. repeat split; try discriminate.
    - intros _. right. left. exists q. auto.
    - intros _. eexists. split; [reflexivity | discriminate]. }
  apply Nat.ltb_ge in Hlong.
  assert (Hq : forall q', Some q = Some q' ->
               ~ (trim q' = ""%string \/ (500 < String.length (trim q'))%nat)).
  { intros q' [= <-] [H|H]; [contradiction | lia]. }
  destruct maxResults as [m|].
  2:{ simpl. repeat split; try discriminate.
      - intros [H|[(q' & Hq' & H)|(m & H & _)]]; try discriminate.
        now apply Hq in Hq'.
      - intros _. exists q. repeat split; lia. }
  destruct (isInteger m) eqn:Hint; simpl.
  2:{ repeat split; try discriminate.
      - intros _. right. right. exists m. split; [reflexivity|]. left.
        rewrite <- isInteger_spec. congruence.
      - intros _. eexists. split; [reflexivity | discriminate]. }
  apply isInteger_spec in Hint as Hwhole.
  destruct (Qgtb 1 m) eqn:Hlow; simpl.
  { apply Qgtb_true in Hlow. repeat split; try discriminate.
    - intros _. right. right. exists m. auto.
    - intros _. eexists. split; [reflexivity | discriminate]. }
  apply Qgtb_false in Hlow.
  destruct (Qgtb m 50) eqn:Hhigh; simpl.
  { apply Qgtb_true in Hhigh. repeat split; try discriminate.
    - intros _. right. right. exists m. auto.
    - intros _. eexists. split; [reflexivity | discriminate]. }
  apply Qgtb_false in Hhigh.
  assert (Hfloor : inject_Z (Qfloor m) == m).
  { destruct Hwhole as [z Hz]. rewrite Hz at 1. now rewrite Qfloor_Z, Hz. }
  repeat split; try discriminate.
  - intros [H|[(q' & Hq' & H)|(m' & [= <-] & [H|[H|H]])]]; try discriminate.
    + now apply Hq in Hq'.
    + contradiction.
    + qlra.
    + qlra.
  - intros _. exists q. do 4 (split; [reflexivity|]).
    split; [|exact Hfloor].
    split; rewrite Zle_Qle, Hfloor; assumption.
Qed.

(** C8, as stated, fails on a query that is longer than 500 characters
    only through white space at its ends: it is accepted, and the query
    kept for display is the trimmed one. *)
Lemma validateSearchInput_padded :
  (500 < String.length paddedQuery)%nat
  /\ ValidationResult.valid (validateSearchInput (Some paddedQuery) None) = true
  /\ ValidationResult.originalQuery (validateSearchInput (Some paddedQuery) None)
     = "a"%string.
Proof. vm_compute. repeat split. lia. Qed.

End ValidationFacts.

(** ** Platform boosting *)

Section BoostFacts.
Import JS Handlers BoostSpec.

Lemma boostedAfter_asym (a b : Scored.t) :
  boostedAfter a b = true -> boostedAfter b a = false.
Proof. unfold boostedAfter. rewrite Rgtb_true, Rgtb_false. lra. Qed.

Lemma boostedAfter_trans (a b c : Scored.t) :
  boostedAfter a b = false -> boostedAfter b c = false ->
  boostedAfter a c = false.
Proof. unfold boostedAfter. rewrite !Rgtb_false. lra. Qed.

Lemma StronglySorted_after {A} (R : A -> A -> Prop) (l1 l2 : list A) (x : A) :
  StronglySorted R (l1 ++ x :: l2) -> Forall (R x) l2.
Proof.
  induction l1 as [|y l1 IH]; simpl; intros H;
    apply StronglySorted_inv in H as [H Hy]; [assumption | now apply IH].
Qed.

(** With the default configuration, on the platforms and tags of the
    specification, the code multiplies by [factor]. *)
Lemma applyPlatformBoost_default (results : list Scored.t) (platform : string) :
  In platform platforms ->
  Forall (fun r => In (platformSupport (Scored.data r)) tags) results ->
  applyPlatformBoost results platform PartialConfig.empty
  = sort boostedAfter (List.map (boosted platform) results).
Proof.
  intros Hp Htags. unfold applyPlatformBoost. cbn [PartialConfig.boostFactor
    PartialConfig.penaltyFactor PartialConfig.enabled PartialConfig.empty
    default from_option Datatypes.id DEFAULT_PLATFORM_BOOST_CONFIG
    PlatformBoostConfig.boostFactor PlatformBoostConfig.penaltyFactor
    PlatformBoostConfig.enabled negb].
  destruct results as [|r0 results].
  { now rewrite orb_true_r. }
  assert (Hlen : (String.length platform =? 0)%nat = false).
  { unfold platforms in Hp. simpl in Hp.
    destruct Hp as [<-|[<-|[<-|[<-|[<-|[]]]]]]; reflexivity. }
  rewrite Hlen. cbn [orb List.length Nat.eqb]. f_equal.
  apply map_ext_in. intros r Hr.
  rewrite List.Forall_forall in Htags. specialize (Htags r Hr).
  unfold boosted, factor, supports, isMobile. f_equal.
  unfold platforms in Hp. unfold tags in Htags. simpl in Hp, Htags.
  destruct Hp as [<-|[<-|[<-|[<-|[<-|[]]]]]];
    destruct Htags as [<-|[<-|[<-|[]]]]; vm_compute; reflexivity.
Qed.

Lemma platformSupport_absent (data : gmap string string) :
  data !! "Platform_Support" = None -> platformSupport data = "web".
Proof. intros H. unfold platformSupport. now rewrite H. Qed.

(** C6, amended.  With the default configuration, for a detected platform
    and results tagged web, mobile or both (web when the tag is absent),
    [applyPlatformBoost] multiplies every score by 1.5 when the tag
    supports the platform and by 0.5 when it does not, and for a
    cross-platform query by 1.5 (both), 1.2 (mobile) and 1.0 (web); the
    results come back in descending order of the new scores.  For
    mobile-ios, and two results of the same positive score (as the scores
    of [BM25.search] are), one tagged mobile or both and one tagged web,
    the first is above the second in the result. *)
Theorem applyPlatformBoost_factors (results : list Scored.t) (platform : string) :
  In platform platforms ->
  Forall (fun r => In (platformSupport (Scored.data r)) tags) results ->
  let out := applyPlatformBoost results platform PartialConfig.empty in
  (forall data : gmap string string,
      data !! "Platform_Support" = None -> platformSupport data = "web")
  /\ (forall tag,
        In tag tags ->
        factor platform tag
        = if String.eqb platform "cross-platform"
          then if String.eqb tag "both" then 1.5%R
               else if String.eqb tag "mobile" then 1.2%R else 1.0%R
          else if supports tag platform then 1.5%R else 0.5%R)
  /\ Permutation out (List.map (boosted platform) results)
  /\ StronglySorted (fun a b => (Scored.score b <= Scored.score a)%R) out
  /\ (platform = "mobile-ios" ->
      forall w m,
        In w results -> In m results ->
        platformSupport (Scored.data w) = "web" ->
        (platformSupport (Scored.data m) = "mobile"
         \/ platformSupport (Scored.data m) = "both") ->
        Scored.score w = Scored.score m ->
        (0 < Scored.score m)%R ->
        In (boosted platform m) out /\ In (boosted platform w) out
        /\ forall above below,
             out = (above ++ boosted platform w :: below)%list ->
             ~ In (boosted platform m) below).
Proof.
  intros Hp Htags out.
  assert (Hout : out = sort boostedAfter (List.map (boosted platform) results))
    by now apply applyPlatformBoost_default.
  assert (Hsorted : StronglySorted
                      (fun a b => (Scored.score b <= Scored.score a)%R) out).
  { rewrite Hout. eapply StronglySorted_impl; cycle 1.
    - apply sort_sorted; [apply boostedAfter_asym | apply boostedAfter_trans].
    - intros a b Hab. unfold boostedAfter in Hab. apply Rgtb_false in Hab. lra. }
  split; [apply platformSupport_absent|].
  split; [reflexivity|].
  split; [rewrite Hout; apply sort_perm|].
  split; [exact Hsorted|].
  intros -> w m Hw Hm Htw Htm Hscore Hpos.
  assert (Hin : forall r, In r results -> In (boosted "mobile-ios" r) out).
  { intros r Hr. rewrite Hout. apply sort_In. now apply in_map. }
  split; [now apply Hin|]. split; [now apply Hin|].
  intros above below Hsplit Hbelow.
  rewrite Hsplit in Hsorted. apply StronglySorted_after in Hsorted.
  rewrite List.Forall_forall in Hsorted. apply Hsorted in Hbelow.
  unfold boosted in Hbelow. cbn [Scored.score] in Hbelow.
  rewrite Htw, Hscore in Hbelow.
  assert (Hf : factor "mobile-ios" (platformSupport (Scored.data m)) = 1.5%R)
    by (destruct Htm as [-> | ->]; reflexivity).
  rewrite Hf in Hbelow.
  change (factor "mobile-ios" "web") with 0.5%R in Hbelow. lra.
Qed.

Lemma boostedAfter_lt (a b : Scored.t) :
  (Scored.score a < Scored.score b)%R -> boostedAfter a b = true.
Proof. intros H. apply Rgtb_true. lra. Qed.

Lemma boostedAfter_ge (a b : Scored.t) :
  (Scored.score b <= Scored.score a)%R -> boostedAfter a b = false.
Proof. intros H. apply Rgtb_false. lra. Qed.

(** Four results of score 2 on an iOS query: the mobile and both records
    rise to 3, the web record and the record without a tag fall to 1. *)
Example applyPlatformBoost_mobile_ios :
  applyPlatformBoost threeTags "mobile-ios" PartialConfig.empty
  = [ {| Scored.data := {[ "Platform_Support" := "mobile" ]};
         Scored.score := 2 * 1.5 |};
      {| Scored.data := {[ "Platform_Support" := "both" ]};
         Scored.score := 2 * 1.5 |};
      {| Scored.data := {[ "Platform_Support" := "web" ]};
         Scored.score := 2 * 0.5 |};
      {| Scored.data := ∅; Scored.score := 2 * 0.5 |} ].
Proof.
  rewrite applyPlatformBoost_default.
  - assert (Hmap : List.map (boosted "mobile-ios") threeTags
      = [ {| Scored.data := {[ "Platform_Support" := "web" ]};
             Scored.score := 2 * 0.5 |};
          {| Scored.data := {[ "Platform_Support" := "mobile" ]};
             Scored.score := 2 * 1.5 |};
          {| Scored.data := {[ "Platform_Support" := "both" ]};
             Scored.score := 2 * 1.5 |};
          {| Scored.data := ∅; Scored.score := 2 * 0.5 |} ]) by reflexivity.
    rewrite Hmap. cbn [sort fold_right insertSorted].
    repeat (first [ rewrite boostedAfter_lt by (cbn [Scored.score]; lra)
                  | rewrite boostedAfter_ge by (cbn [Scored.score]; lra) ];
            cbn [insertSorted]).
    reflexivity.
  - right. now left.
  - unfold threeTags.
    repeat (apply List.Forall_cons || apply List.Forall_nil); vm_compute; tauto.
Qed.

(** C6, as stated, fails on base scores that are not positive: a score of
    zero is zero after boosting, so the order is the order of the input,
    with the web record above the others. *)
Lemma applyPlatformBoost_zero_scores :
  applyPlatformBoost zeroScores "mobile-ios" PartialConfig.empty
  = [ {| Scored.data := {[ "Platform_Support" := "web" ]};
         Scored.score := 0 * 0.5 |};
      {| Scored.data := {[ "Platform_Support" := "mobile" ]};
         Scored.score := 0 * 1.5 |};
      {| Scored.data := {[ "Platform_Support" := "both" ]};
         Scored.score := 0 * 1.5 |} ].
Proof.
  rewrite applyPlatformBoost_default.
  - assert (Hmap : List.map (boosted "mobile-ios") zeroScores
      = [ {| Scored.data := {[ "Platform_Support" := "web" ]};
             Scored.score := 0 * 0.5 |};
          {| Scored.data := {[ "Platform_Support" := "mobile" ]};
             Scored.score := 0 * 1.5 |};
          {| Scored.data := {[ "Platform_Support" := "both" ]};
             Scored.score := 0 * 1.5 |} ]) by reflexivity.
    rewrite Hmap. apply sort_ties. intros a b Ha Hb.
    apply boostedAfter_ge. simpl in Ha, Hb.
    destruct Ha as [<-|[<-|[<-|[]]]]; destruct Hb as [<-|[<-|[<-|[]]]];
      cbn [Scored.score]; lra.
  - right. now left.
  - unfold zeroScores.
    repeat (apply List.Forall_cons || apply List.Forall_nil); vm_compute; tauto.
Qed.

Lemma applyPlatformBoost_factors_witness :
  Permutation (applyPlatformBoost threeTags "mobile-ios" PartialConfig.empty)
    (List.map (boosted "mobile-ios") threeTags).
Proof.
  assert (Hp : In "mobile-ios" platforms) by (right; now left).
  assert (Htags : Forall (fun r => In (platformSupport (Scored.data r)) tags)
                    threeTags).
  { unfold threeTags.
    repeat (apply List.Forall_cons || apply List.Forall_nil);
      vm_compute; tauto. }
  exact (proj1 (proj2 (proj2
           (applyPlatformBoost_factors threeTags "mobile-ios" Hp Htags)))).
Defined.

End BoostFacts.

(** ** [searchAll]: several domains *)

Section SearchAllFacts.
Import JS Tables Handlers SearchAllSpec.

(** The loop that groups the results, from any state. *)
Lemma groupByDomain_from (types : list string)
    (results : list BM25.SearchResult.t)
    (m0 : gmap string (list BM25.SearchResult.t))
    (o0 : list BM25.SearchResult.t) :
  let '(m, o) :=
    fold_left
      (fun '(resultsByDomain, otherResults) result =>
         match resultType result with
         | Some ty =>
             if negb (String.length ty =? 0)%nat && bool_decide (ty ∈ types)
             then
               let existing := default [] (resultsByDomain !! ty) in
               (<[ty := (existing ++ [result])%list]> resultsByDomain, otherResults)
             else (resultsByDomain, (otherResults ++ [result])%list)
         | None => (resultsByDomain, (otherResults ++ [result])%list)
         end)
      results (m0, o0) in
  (forall ty,
      default [] (m !! ty)
      = (default [] (m0 !! ty)
         ++ List.filter (fun r => grouped types r
                                  && bool_decide (resultType r = Some ty))
              results)%list)
  /\ o = (o0 ++ leftover types results)%list.
Proof.
  revert m0 o0. induction results as [|r results IH]; intros m0 o0; simpl.
  - split; [intros ty|]; now rewrite app_nil_r.
  - unfold leftover, grouped. simpl.
    destruct (resultType r) as [ty0|] eqn:Hty; simpl.
    + destruct (negb (String.length ty0 =? 0)%nat && bool_decide (ty0 ∈ types))
        eqn:Hg; simpl.
      * specialize (IH (<[ty0 := (default [] (m0 !! ty0) ++ [r])%list]> m0) o0).
        destruct (fold_left _ results _) as [m o]. destruct IH as [IHm IHo].
        split; [|exact IHo]. intros ty. rewrite IHm.
        destruct (decide (ty0 = ty)) as [->|Hne].
        -- rewrite lookup_insert_eq. simpl.
           rewrite bool_decide_eq_true_2 by reflexivity.
           now rewrite <- app_assoc.
        -- rewrite lookup_insert_ne by assumption.
           rewrite bool_decide_eq_false_2 by congruence. reflexivity.
      * specialize (IH m0 (o0 ++ [r])%list).
        destruct (fold_left _ results _) as [m o]. destruct IH as [IHm IHo].
        split; [exact IHm|]. rewrite IHo. now rewrite <- app_assoc.
    + specialize (IH m0 (o0 ++ [r])%list).
      destruct (fold_left _ results _) as [m o]. destruct IH as [IHm IHo].
      split; [exact IHm|]. rewrite IHo. now rewrite <- app_assoc.
Qed.

Lemma lookup_In {V} (table : list (string * V)) (key : string) (v : V) :
  lookup table key = Some v -> In v (List.map snd table).
Proof.
  unfold lookup. destruct (List.find _ table) as [[k v']|] eqn:Hfind;
    [|discriminate].
  intros [= <-]. apply find_some in Hfind as [Hin _].
  apply in_map_iff. now exists (k, v').
Qed.

Lemma typeOf_nonempty (d : DomainMatch.t) (ty : string) :
  typeOf d = Some ty -> ty <> "".
Proof.
  intros Hty%lookup_In. simpl in Hty.
  repeat (destruct Hty as [<-|Hty]; [discriminate|]). contradiction.
Qed.

Lemma ofType_grouped (types : list string) (ty : string)
    (results : list BM25.SearchResult.t) :
  ty <> "" -> ty ∈ types ->
  List.filter (fun r => grouped types r && bool_decide (resultType r = Some ty))
    results
  = ofType ty results.
Proof.
  intros Hne Hin. unfold ofType. apply filter_ext. intros r.
  unfold grouped. case_bool_decide as Hty; [|apply andb_false_r].
  rewrite Hty, andb_true_r, bool_decide_eq_true_2 by assumption.
  destruct ty; [congruence | reflexivity].
Qed.

Lemma typeOf_In (domains : list DomainMatch.t) (d : DomainMatch.t) (ty : string) :
  In d domains -> typeOf d = Some ty -> ty ∈ omap typeOf domains.
Proof.
  intros Hd Hty. apply list_elem_of_omap. exists d.
  split; [now apply list_elem_of_In | assumption].
Qed.

Lemma fold_left_app_flat_map {A B} (f : A -> list B) (l : list A) (acc : list B) :
  fold_left (fun acc x => (acc ++ f x)%list) l acc = (acc ++ flat_map f l)%list.
Proof.
  revert acc. induction l as [|x l IH]; intros acc; simpl.
  - now rewrite app_nil_r.
  - now rewrite IH, <- app_assoc.
Qed.

Lemma flat_map_ext_in {A B} (f g : A -> list B) (l : list A) :
  (forall x, In x l -> f x = g x) -> flat_map f l = flat_map g l.
Proof.
  induction l as [|x l IH]; simpl; intros H; [reflexivity|].
  rewrite (H x) by now left. rewrite IH; [reflexivity|].
  intros y Hy. apply H. now right.
Qed.

(** The loops of strategy 2 compute the merge of the specification, with
    the slots of the code. *)
Lemma balance_merged (domains : list DomainMatch.t)
    (results : list BM25.SearchResult.t) (maxResults : Z) :
  balance domains results maxResults = merged slots domains results maxResults.
Proof.
  unfold balance, merged, groupByDomain.
  pose proof (groupByDomain_from (omap
    (fun d => lookup domainToTypeMap (DomainMatch.domain d)) domains)
    results ∅ []) as Hgroup.
  destruct (fold_left _ results (∅, [])) as [byDomain others].
  destruct Hgroup as [Hby ->]. simpl.
  assert (Hbalanced :
    fold_left
      (fun balancedResults domainMatch =>
         (balancedResults
          ++ slice0
               (ceil (inject_Z (Z.max 2 (maxResults / Z.of_nat (List.length domains)))
                      * DomainMatch.confidence domainMatch))
               match lookup domainToTypeMap (DomainMatch.domain domainMatch) with
               | Some targetType => default [] (byDomain !! targetType)
               | None => []
               end)%list)
      domains []
    = flat_map
        (fun d =>
           match typeOf d with
           | Some ty =>
               slice0 (slots maxResults (List.length domains)
                         (DomainMatch.confidence d))
                 (ofType ty results)
           | None => []
           end)
        domains).
  { rewrite fold_left_app_flat_map. simpl.
    apply flat_map_ext_in. intros d Hd. unfold slots.
    fold (typeOf d). destruct (typeOf d) as [ty|] eqn:Hty.
    - rewrite Hby, lookup_empty. simpl. rewrite ofType_grouped; [reflexivity| |].
      + now apply typeOf_nonempty in Hty.
      + now apply (typeOf_In domains d).
    - unfold slice0. simpl. now rewrite firstn_nil. }
  cbv zeta. rewrite Hbalanced. reflexivity.
Qed.







(** When a detected domain has a confidence of 0.7 or more, [searchAll]
    takes the first strategy, whatever the other domains are. *)
Lemma searchAll_high (unifiedIndex : BM25.t) (query : option string)
    (maxResults : option Q) (high : DomainMatch.t) (targetType : string) :
  let validation :=
    validateSearchInput query
      (match maxResults with None => Some 10%Q | m => m end) in
  let detected := detectDomains (ValidationResult.query validation) in
  ValidationResult.valid validation = true ->
  find (fun d => Qgeb (DomainMatch.confidence d) 0.7) detected = Some high ->
  typeOf high = Some targetType ->
  searchAll (Some unifiedIndex) query maxResults
  = Results
      (List.map
         (withMetadata detected
            (detectStacks (ValidationResult.query validation)))
         (prioritize
            (BM25.search unifiedIndex (ValidationResult.query validation)
               (Some (ValidationResult.maxResults validation * 3)%Z))
            targetType
            (ceil (inject_Z (ValidationResult.maxResults validation) * 0.8))
            (ValidationResult.maxResults validation))).
Proof.
  intros validation detected Hvalid Hhigh Hty.
  unfold searchAll. fold validation. rewrite Hvalid.
  cbn [negb]. cbv zeta. fold detected. rewrite Hhigh.
  unfold typeOf in Hty. rewrite Hty.
  assert (Hdetected : (0 <? List.length detected)%nat = true).
  { apply find_some in Hhigh as [Hin _]. destruct detected; [contradiction|].
    reflexivity. }
  now rewrite Hdetected.
Qed.






End SearchAllFacts.

(** ** Further properties: tokens, index and search *)

Section TokenizeMore.
Import BM25 IndexSpec.

Lemma tokenChar_lower (c : ascii) :
  tokenChar c = true -> isLowerWordChar c = true.
Proof. destruct c as [[] [] [] [] [] [] [] []]; vm_compute; auto. Qed.

(** Tokens are words of at least two characters, each a lower-case
    letter, a digit or an underscore. *)
Theorem tokenize_wellformed (text : string) :
  Forall (fun token =>
            (2 <= String.length token)%nat
            /\ JS.allChars isLowerWordChar token = true)
    (tokenize text).
Proof.
  pose proof (tokenize_clean text) as Hclean.
  rewrite List.Forall_forall in *. intros token Hin. split.
  - unfold tokenize in Hin. apply filter_In in Hin as [_ Hlen].
    apply Nat.ltb_lt in Hlen. lia.
  - destruct (Hclean token Hin) as [Hchars _].
    revert Hchars. apply allChars_impl. exact tokenChar_lower.
Qed.

End TokenizeMore.

Section ContentTokens.
Import BM25 Handlers StringSpec.

Lemma splitGo_restart (s : string) :
  List.filter nonEmpty (JS.splitGo true "" s)
  = List.filter nonEmpty (JS.splitGo false "" s).
Proof. destruct s as [|c s]; simpl; [reflexivity|]. now destruct (JS.isSpaceChar c). Qed.

Lemma splitGo_space (u v : string) (sp : ascii) :
  JS.isSpaceChar sp = true ->
  forall insep cur, (insep = true -> cur = "") ->
  List.filter nonEmpty (JS.splitGo insep cur (u ++ String sp v))
  = (List.filter nonEmpty (JS.splitGo insep cur u)
     ++ List.filter nonEmpty (JS.splitWs v))%list.
Proof.
  intros Hsp. induction u as [|c u IH]; intros insep cur Hcur.
  - rewrite append_nil_l. simpl. rewrite Hsp.
    unfold JS.splitWs. rewrite <- splitGo_restart.
    destruct insep; [rewrite Hcur by reflexivity; reflexivity|].
    simpl. now destruct (nonEmpty cur).
  - rewrite append_cons. simpl. destruct (JS.isSpaceChar c).
    + destruct insep.
      * now apply IH.
      * simpl. rewrite IH by reflexivity. now destruct (nonEmpty cur).
    + apply IH. discriminate.
Qed.

Lemma filter_filter_impl {A} (p q : A -> bool) (l : list A) :
  (forall x, p x = true -> q x = true) ->
  List.filter p (List.filter q l) = List.filter p l.
Proof.
  intros Hpq. induction l as [|x l IH]; simpl; [reflexivity|].
  destruct (q x) eqn:Hq; simpl; rewrite IH; [reflexivity|].
  destruct (p x) eqn:Hp; [|reflexivity].
  apply Hpq in Hp. congruence.
Qed.

Lemma mapChars_append (f : ascii -> ascii) (s t : string) :
  JS.mapChars f (s ++ t) = JS.mapChars f s ++ JS.mapChars f t.
Proof.
  induction s as [|c s IH]; [now rewrite !append_nil_l|].
  rewrite append_cons. simpl. now rewrite IH.
Qed.

(** A space between two texts separates their tokens. *)
Lemma tokenize_space (a b : string) :
  tokenize (a ++ " " ++ b) = (tokenize a ++ tokenize b)%list.
Proof.
  unfold tokenize, JS.toLowerCase.
  rewrite !mapChars_compose, !mapChars_append.
  set (long := fun token => (1 <? String.length token)%nat).
  assert (Hlong : forall x, long x = true -> nonEmpty x = true).
  { intros [|c x]; [discriminate | reflexivity]. }
  rewrite <- (filter_filter_impl long nonEmpty _ Hlong).
  change (JS.mapChars (fun c => blankOther (JS.toLowerChar c)) " ") with " ".
  rewrite append_cons, append_nil_l.
  unfold JS.splitWs at 1. rewrite splitGo_space by (reflexivity || discriminate).
  rewrite List.filter_app. fold (JS.splitWs (JS.mapChars (fun c => blankOther (JS.toLowerChar c)) a)).
  now rewrite !(filter_filter_impl long nonEmpty _ Hlong).
Qed.

Lemma tokenize_join (values : list string) :
  tokenize (JS.join " " values) = flat_map tokenize values.
Proof.
  unfold JS.join. induction values as [|a values IH]; [reflexivity|].
  destruct values as [|b values].
  - simpl. now rewrite app_nil_r.
  - change (String.concat " " (a :: b :: values))
      with (a ++ " " ++ String.concat " " (b :: values)).
    rewrite tokenize_space, IH. reflexivity.
Qed.

(** The tokens of the searchable content of a record are the tokens of the
    listed columns, column after column: a token never spans two columns,
    an empty or missing column adds none, and a column listed twice counts
    twice. *)
Theorem content_tokens (row : gmap string string) (names : list string) :
  tokenize (joinColumns row names)
  = flat_map (fun name => tokenize (column row name)) names.
Proof.
  unfold joinColumns. rewrite tokenize_join.
  induction names as [|name names IH]; [reflexivity|].
  simpl. destruct (column row name) as [|c value] eqn:Hvalue; simpl.
  - exact IH.
  - now rewrite IH.
Qed.

End ContentTokens.

Section IndexTables.
Import BM25 IndexSpec.

Lemma countUp_positive (m : gmap string nat) (token : string) :
  (forall t n, m !! t = Some n -> n <> 0%nat) ->
  forall t n, countUp m token !! t = Some n -> n <> 0%nat.
Proof.
  intros Hm t n. unfold countUp.
  destruct (decide (token = t)) as [->|Hne].
  - rewrite lookup_insert_eq. intros [= <-]. lia.
  - rewrite lookup_insert_ne by assumption. apply Hm.
Qed.

Lemma fold_countUp_positive (tokens : list string) (m : gmap string nat) :
  (forall t n, m !! t = Some n -> n <> 0%nat) ->
  forall t n, fold_left countUp tokens m !! t = Some n -> n <> 0%nat.
Proof.
  revert m. induction tokens as [|token tokens IH]; intros m Hm; simpl;
    [assumption|].
  apply IH. now apply countUp_positive.
Qed.

Lemma docFrequencies_positive (tds : list (list string)) (t : string) (n : nat) :
  calculateDocFrequencies tds !! t = Some n -> n <> 0%nat.
Proof.
  unfold calculateDocFrequencies.
  assert (H : forall m : gmap string nat,
    (forall t n, m !! t = Some n -> n <> 0%nat) ->
    forall t n,
      fold_left (fun df tokens =>
         fold_left countUp (elements (list_to_set tokens : gset string)) df)
         tds m !! t = Some n -> n <> 0%nat).
  { induction tds as [|tokens tds IH]; intros m Hm; simpl; [assumption|].
    apply IH. now apply fold_countUp_positive. }
  apply H. intros t' n'. now rewrite lookup_empty.
Qed.

(** The table of document frequencies of an index holds, for every term
    that occurs in some document, the number of documents it occurs in,
    which is at least 1 and at most the number of documents; a term that
    occurs in no document has no entry. *)
Theorem docFrequencies_entries (docs : list Document) (term : string) :
  docFrequencies (new docs) !! term
  = (if (BM25Spec.df docs term =? 0)%nat then None
     else Some (BM25Spec.df docs term))
  /\ (BM25Spec.df docs term <= List.length docs)%nat
  /\ (BM25Spec.df docs term = 0%nat
      <-> forall doc, In doc docs -> occursIn doc term = false).
Proof.
  split; [|split].
  - pose proof (df_new docs term) as Hdf.
    destruct (docFrequencies (new docs) !! term) as [n|] eqn:Hlookup;
      simpl in Hdf; subst.
    + apply docFrequencies_positive in Hlookup.
      destruct (Nat.eqb_spec (BM25Spec.df docs term) 0); [contradiction|].
      reflexivity.
    + rewrite <- Hdf. reflexivity.
  - apply df_le.
  - unfold BM25Spec.df, occursIn. rewrite length_zero_iff_nil. split.
    + intros Hnil doc Hin.
      destruct (bool_decide (term ∈ tokenize (content doc))) eqn:Hocc;
        [|reflexivity].
      assert (Hf : In doc (List.filter
                (fun d => bool_decide (term ∈ tokenize (content d))) docs))
        by (apply filter_In; now split).
      rewrite Hnil in Hf. destruct Hf.
    + intros Hnone. now apply filter_none.
Qed.

End IndexTables.

Section ScoreMore.
Import BM25 IndexSpec.

Lemma tf_occursIn (doc : Document) (term : string) :
  BM25Spec.tf doc term <> 0%nat <-> occursIn doc term = true.
Proof.
  unfold BM25Spec.tf, occursIn. rewrite bool_decide_eq_true, list_elem_of_In.
  rewrite (count_occ_In string_dec). lia.
Qed.

(** The inverse document frequency of a term of an index is positive, and
    a term that occurs in fewer documents weighs at least as much as one
    that occurs in more. *)
Theorem idf_rarer_heavier (docs : list Document) (rare common : string) :
  (0 < idf (new docs) rare)%R
  /\ ((BM25Spec.df docs rare <= BM25Spec.df docs common)%nat ->
      (idf (new docs) common <= idf (new docs) rare)%R).
Proof.
  rewrite !idf_new. split; [apply idf_pos|].
  intros Hle%le_INR. unfold BM25Spec.idf.
  pose proof (le_INR _ _ (df_le docs common)) as Hcommon.
  pose proof (pos_INR (BM25Spec.df docs rare)) as Hrare.
  set (N := INR (List.length docs)) in *.
  set (r := INR (BM25Spec.df docs rare)) in *.
  set (c := INR (BM25Spec.df docs common)) in *.
  assert (Hdiv : ((N - c + 0.5) / (c + 0.5) <= (N - r + 0.5) / (r + 0.5))%R).
  { apply Rmult_le_reg_r with ((c + 0.5) * (r + 0.5))%R; [nra|].
    replace ((N - c + 0.5) / (c + 0.5) * ((c + 0.5) * (r + 0.5)))%R
      with ((N - c + 0.5) * (r + 0.5))%R by (field; lra).
    replace ((N - r + 0.5) / (r + 0.5) * ((c + 0.5) * (r + 0.5)))%R
      with ((N - r + 0.5) * (c + 0.5))%R by (field; lra).
    nra. }
  assert (Hpos : (0 < (N - c + 0.5) / (c + 0.5))%R)
    by (apply Rdiv_lt_0_compat; lra).
  destruct Hdiv as [Hlt|Heq].
  - left. apply ln_increasing; lra.
  - right. now rewrite Heq.
Qed.

(** A document never scores below zero, and it scores above zero exactly
    when one of the query tokens is one of its tokens. *)
Theorem score_positive_iff (docs : list Document) (queryTokens : list string)
    (i : nat) (doc : Document) :
  docs !! i = Some doc ->
  (0 <= score (new docs) queryTokens i)%R
  /\ ((0 < score (new docs) queryTokens i)%R
      <-> exists term, In term queryTokens /\ occursIn doc term = true).
Proof.
  intros Hdoc. rewrite (score_new _ _ _ _ Hdoc). split; [apply score_nonneg|].
  rewrite score_pos_iff. split; intros (term & Hin & Hterm); exists term;
    (split; [assumption|]); now apply tf_occursIn.
Qed.

Lemma score_positive_iff_witness :
  (0 <= score (new Samples.twoDocs) ["ab"] 0)%R
  /\ ((0 < score (new Samples.twoDocs) ["ab"] 0)%R
      <-> exists term,
            In term ["ab"]
            /\ occursIn (Samples.doc "1" "ab cd" "style") term = true).
Proof. apply (score_positive_iff Samples.twoDocs ["ab"] 0). reflexivity. Defined.

(** Term frequency saturates: however often a term occurs in a document,
    it adds less than [k1 + 1 = 2.5] times its inverse document frequency,
    so a score is at most 2.5 times the sum of the inverse document
    frequencies of the query tokens. *)
Theorem score_saturates (docs : list Document) (queryTokens : list string)
    (i : nat) (doc : Document) :
  docs !! i = Some doc ->
  (score (new docs) queryTokens i
   <= 2.5 * BM25Spec.Rsum (List.map (idf (new docs)) queryTokens))%R.
Proof.
  intros Hdoc. rewrite (score_new _ _ _ _ Hdoc).
  unfold BM25Spec.score, BM25Spec.Rsum.
  induction queryTokens as [|term qs IH]; simpl; [lra|].
  rewrite idf_new. pose proof (idf_pos docs term) as Hidf.
  destruct (Nat.eqb_spec (BM25Spec.tf doc term) 0) as [Htf|Htf]; simpl; [lra|].
  enough (BM25Spec.contribution docs doc term <= 2.5 * BM25Spec.idf docs term)%R
    by lra.
  unfold BM25Spec.contribution.
  pose proof (contribution_divisor_pos docs doc term) as Hdiv.
  pose proof (pos_INR (BM25Spec.tf doc term)) as Htf0.
  pose proof (pos_INR (BM25Spec.docLen doc)) as Hlen.
  pose proof (avgDocLen_pos docs) as Havg.
  assert (Hratio : (0 <= 0.75 * INR (BM25Spec.docLen doc)
                        / BM25Spec.avgDocLen docs)%R).
  { apply Rmult_le_pos; [lra|]. left. now apply Rinv_0_lt_compat. }
  set (d := (INR (BM25Spec.tf doc term)
             + 1.5 * (1 - 0.75 + 0.75 * INR (BM25Spec.docLen doc)
                                 / BM25Spec.avgDocLen docs))%R) in *.
  apply Rmult_le_reg_r with d; [assumption|].
  replace (BM25Spec.idf docs term * (INR (BM25Spec.tf doc term) * (1.5 + 1))
           / d * d)%R
    with (BM25Spec.idf docs term * (INR (BM25Spec.tf doc term) * (1.5 + 1)))%R
    by (field; lra).
  assert (INR (BM25Spec.tf doc term) <= d)%R by (unfold d; lra).
  nra.
Qed.

Lemma score_saturates_witness :
  (score (new Samples.twoDocs) ["ab"] 0
   <= 2.5 * BM25Spec.Rsum (List.map (idf (new Samples.twoDocs)) ["ab"]))%R.
Proof. apply (score_saturates Samples.twoDocs ["ab"] 0
           (Samples.doc "1" "ab cd" "style")). reflexivity. Defined.

End ScoreMore.

Section SearchMore.
Import BM25 Ranking IndexSpec.

Lemma sharesToken_score (docs : list Document) (query : string) (i : nat)
    (doc : Document) :
  docs !! i = Some doc ->
  JS.Rgtb (score (new docs) (tokenize query) i) 0 = sharesToken query doc.
Proof.
  intros Hdoc. rewrite (score_new _ _ _ _ Hdoc).
  unfold sharesToken. apply eq_true_iff_eq.
  rewrite Rgtb_true, existsb_exists.
  unfold Rgt. rewrite score_pos_iff.
  split; intros (term & Hin & Hterm); exists term;
    (split; [assumption|]); now apply tf_occursIn.
Qed.

Lemma ranking_documents (docs : list Document) (query : string) :
  List.map snd
    (List.filter
       (fun p => JS.Rgtb (score (new docs) (tokenize query) (fst p)) 0)
       (indexed docs))
  = List.filter (sharesToken query) docs.
Proof.
  rewrite (List.filter_ext_in _ (fun p => sharesToken query (snd p))).
  - rewrite <- filter_map. f_equal.
    rewrite <- (map_id docs) at 2.
    apply (map_indexed (fun _ d => d)). reflexivity.
  - intros [i d] Hin%indexed_lookup. now apply sharesToken_score.
Qed.

Lemma slice0_slice0 {A} (n m : Z) (a : list A) :
  (0 <= n <= m)%Z -> JS.slice0 n (JS.slice0 m a) = JS.slice0 n a.
Proof.
  intros [Hn Hnm]. unfold JS.slice0.
  destruct (Z.ltb_spec n 0); [lia|]. destruct (Z.ltb_spec m 0); [lia|].
  rewrite length_firstn, firstn_firstn. f_equal. lia.
Qed.

(** Asking for fewer results gives a prefix of what asking for more
    gives: the first [n] of the results for a limit [m >= n]. *)
Lemma search_limit_prefix (self : t) (query : string) (n m : Z) :
  (0 <= n <= m)%Z ->
  search self query (Some n)
  = firstn (Z.to_nat n) (search self query (Some m)).
Proof.
  intros Hnm. unfold search. cbn [default from_option]. unfold Datatypes.id.
  rewrite <- (slice0_slice0 n m) by assumption.
  unfold JS.slice0 at 1. destruct (Z.ltb_spec n 0); [lia|].
  rewrite Z2Nat.inj_min, Nat2Z.id.
  destruct (Nat.min_spec (Z.to_nat n)
              (List.length
                 (JS.slice0 m
                    (JS.sort
                       (fun a b =>
                          JS.Rgtb (SearchResult.score b - SearchResult.score a) 0)
                       (List.filter (fun r => JS.Rgtb (SearchResult.score r) 0)
                          (imap (fun index doc =>
                                   {| SearchResult.document := doc;
                                      SearchResult.score :=
                                        score self (tokenize query) index |})
                             (documents self)))))))
    as [[_ ->]|[Hle ->]]; [reflexivity|].
  now rewrite firstn_all, firstn_all2.
Qed.

(** [search] returns only documents of the index that share a token with
    the query, and, when the limit is not below the number of documents,
    all of them, each once.  Asking for fewer results gives a prefix: for
    [0 <= n <= m] the results for the limit [n] are the first [n] of the
    results for the limit [m]. *)
Theorem search_sound_complete (docs : list Document) (query : string) (n : Z) :
  Forall (fun r => In (SearchResult.document r) docs
                   /\ sharesToken query (SearchResult.document r) = true)
    (search (new docs) query (Some n))
  /\ ((Z.of_nat (List.length docs) <= n)%Z ->
      Permutation
        (List.map SearchResult.document (search (new docs) query (Some n)))
        (List.filter (sharesToken query) docs))
  /\ (forall m : Z,
        (0 <= n <= m)%Z ->
        search (new docs) query (Some n)
        = firstn (Z.to_nat n) (search (new docs) query (Some m))).
Proof.
  split; [|split]; [| |intros m Hnm; now apply search_limit_prefix];
    rewrite search_ranking.
  - apply List.Forall_forall. intros r [[i d] [<- Hin]]%in_map_iff.
    apply ranking_incl in Hin as [Hin Hpos]. cbn [resultAt SearchResult.document snd fst] in *.
    pose proof (indexed_lookup _ _ _ Hin) as Hdoc. split.
    + apply list_elem_of_In. now apply list_elem_of_lookup_2 in Hdoc.
    + rewrite <- (sharesToken_score docs query i d Hdoc). now apply Rgtb_true.
  - intros Hn. rewrite List.map_map. cbn [resultAt SearchResult.document].
    rewrite <- ranking_documents. apply Permutation_map.
    unfold ranking. cbn [documents new].
    rewrite slice0_all; [apply sort_perm|].
    rewrite sort_length.
    etransitivity; [|exact Hn]. apply inj_le.
    etransitivity; [apply List.filter_length_le|].
    unfold indexed. rewrite length_combine, length_seq. lia.
Qed.

End SearchMore.

Section EscapeFacts.
Import Handlers RegexSpec.

Lemma isEscaped_syntax (c : ascii) : isEscaped c = isSyntaxChar c.
Proof. destruct c as [[] [] [] [] [] [] [] []]; reflexivity. Qed.

(** [escapeRegex] turns any text into a pattern that stands for exactly
    that text: every syntax character of the result has a backslash in
    front, and reading the pattern gives the text back. *)
Theorem escapeRegex_literal (str : string) :
  literalOf (escapeRegex str) = Some str.
Proof.
  induction str as [|c str IH]; [reflexivity|].
  cbn [escapeRegex]. rewrite isEscaped_syntax.
  destruct (isSyntaxChar c) eqn:Hc.
  - cbn [literalOf]. rewrite Ascii.eqb_refl, Hc, IH. reflexivity.
  - cbn [literalOf]. rewrite Hc.
    destruct (Ascii.eqb c backslash) eqn:Hb.
    + apply Ascii.eqb_eq in Hb. subst c. discriminate.
    + now rewrite IH.
Qed.

End EscapeFacts.

Section ClassifierMore.
Import JS Tables Handlers ClassifierSpec SearchAllSpec.
Local Open Scope Q_scope.

Lemma categoryEntry_keys (lowerQuery : string)
    (table : list (string * list KeywordEntry)) :
  List.NoDup (List.map fst table) ->
  List.NoDup (List.map fst (flat_map (categoryEntry lowerQuery) table)).
Proof.
  induction table as [|[category keywords] table IH]; simpl; [constructor|].
  intros [Hfresh Hnd]%NoDup_cons_iff.
  unfold categoryEntry at 1. simpl.
  destruct (scanKeywords lowerQuery keywords) as [maxScore matchCount].
  destruct (0 <? matchCount)%nat; simpl; [|now apply IH].
  constructor; [|now apply IH].
  intros ([d c] & Hd & Hin)%in_map_iff. simpl in Hd. subst d.
  apply in_flat_map in Hin as ([d' keywords'] & Hin & Hentry).
  unfold categoryEntry in Hentry. simpl in Hentry.
  destruct (scanKeywords lowerQuery keywords') as [m n].
  destruct (0 <? n)%nat; [|contradiction].
  destruct Hentry as [[= -> _]|[]].
  apply Hfresh, in_map_iff. now exists (category, keywords').
Qed.

Lemma filter_map_NoDup {A B} (f : A -> B) (p : A -> bool) (l : list A) :
  List.NoDup (List.map f l) -> List.NoDup (List.map f (List.filter p l)).
Proof.
  induction l as [|x l IH]; simpl; [constructor|].
  intros [Hfresh Hnd]%NoDup_cons_iff.
  destruct (p x); simpl; [|now apply IH].
  constructor; [|now apply IH].
  intros (y & Hy & [Hin _]%filter_In)%in_map_iff.
  apply Hfresh, in_map_iff. now exists y.
Qed.

(** The categories a classifier returns are distinct. *)
Lemma ranked_distinct (table : list (string * list KeywordEntry))
    (lowerQuery : string) (p : DomainMatch.t -> bool) :
  List.NoDup (List.map fst table) ->
  List.NoDup
    (List.map DomainMatch.domain
       (List.filter p (rankedMatches (scoreCategories table lowerQuery)))).
Proof.
  intros Hnd. apply filter_map_NoDup. unfold rankedMatches.
  eapply Permutation_NoDup.
  - apply Permutation_map. symmetry. apply sort_perm.
  - rewrite List.map_map, scoreCategories_flat_map.
    rewrite (List.map_ext _ fst) by now intros [d c].
    now apply categoryEntry_keys.
Qed.

Lemma stackKeys_NoDup : List.NoDup (List.map fst stackKeywordsWeighted).
Proof. apply NoDup_ListNoDup, (bool_decide_unpack _). vm_compute. exact I. Qed.

Lemma stackWeights_nonneg : weightsNonneg stackKeywordsWeighted = true.
Proof. vm_compute. reflexivity. Qed.

(** Every domain that [detectDomains] returns has a document type. *)
Lemma detected_type (query : string) (d : DomainMatch.t) :
  In d (detectDomains query) ->
  exists targetType, typeOf d = Some targetType /\ targetType <> ""%string.
Proof.
  intros Hin. unfold detectDomains in Hin.
  apply filter_In in Hin as [Hin _].
  apply rankedMatches_In, scoreCategories_In in Hin as (keywords & Hin & _).
  assert (Hkey : In (DomainMatch.domain d)
                   (List.map fst domainKeywordsWeighted))
    by (apply in_map_iff; now exists (DomainMatch.domain d, keywords)).
  clear Hin. unfold typeOf.
  cbv [domainKeywordsWeighted List.map fst kw] in Hkey. simpl in Hkey.
  repeat (destruct Hkey as [<-|Hkey];
          [eexists; split; [reflexivity | discriminate]|]).
  destruct Hkey.
Qed.

Lemma stackKeys_available :
  forallb (fun stack => existsb (String.eqb stack) Loader.AVAILABLE_STACKS)
    (List.map fst stackKeywordsWeighted) = true.
Proof. vm_compute. reflexivity. Qed.

(** [detectStacks] gives every stack with a matched key word the maximum
    weight among its matched key words, plus [min(0.1, (n - 1) * 0.03)]
    when [n >= 2] key words matched, capped at 1; it returns exactly the
    stacks whose score is at least 0.3, each once, in descending order of
    score.  Every stack it returns is one of the available stacks, the
    names that [searchStack] accepts. *)
Theorem detectStacks_scores (query : string) :
  (forall r, In r (detectStacks query) ->
     exists keywords maxWeight,
       In (DomainMatch.domain r, keywords) stackKeywordsWeighted
       /\ isMaxWeight maxWeight (matched query keywords)
       /\ DomainMatch.confidence r
          == categoryScore 0.1 0.03 maxWeight
               (List.length (matched query keywords))
       /\ 0.3 <= DomainMatch.confidence r
       /\ In (DomainMatch.domain r) Loader.AVAILABLE_STACKS)
  /\ (forall stack keywords maxWeight,
        In (stack, keywords) stackKeywordsWeighted ->
        isMaxWeight maxWeight (matched query keywords) ->
        0.3 <= categoryScore 0.1 0.03 maxWeight
                 (List.length (matched query keywords)) ->
        In stack (List.map DomainMatch.domain (detectStacks query)))
  /\ List.NoDup (List.map DomainMatch.domain (detectStacks query))
  /\ StronglySorted
       (fun a b => DomainMatch.confidence b <= DomainMatch.confidence a)
       (detectStacks query).
Proof.
  assert (Hmem : forall r, In r (detectStacks query) <->
            (exists keywords,
                In (DomainMatch.domain r, keywords) stackKeywordsWeighted
                /\ matched query keywords <> []
                /\ DomainMatch.confidence r
                   = finalScore 0.1 0.03 (maxFrom 0 (matched query keywords))
                       (List.length (matched query keywords)))
            /\ 0.3 <= DomainMatch.confidence r).
  { intros r. unfold detectStacks.
    now rewrite filter_In, rankedMatches_In, scoreCategories_In, Qgeb_true. }
  assert (Hscore : forall d keywords,
            In (d, keywords) stackKeywordsWeighted ->
            matched query keywords <> [] ->
            isMaxWeight (maxFrom 0 (matched query keywords)) (matched query keywords)
            /\ finalScore 0.1 0.03 (maxFrom 0 (matched query keywords))
                  (List.length (matched query keywords))
               == categoryScore 0.1 0.03 (maxFrom 0 (matched query keywords))
                    (List.length (matched query keywords))).
  { intros d keywords Hin Hne. split.
    - apply maxFrom_isMaxWeight; [assumption|].
      now apply (matched_nonneg stackKeywordsWeighted d), Hin;
        try apply stackWeights_nonneg.
    - apply finalScore_categoryScore; [qlra|].
      destruct (matched query keywords); [congruence | simpl; lia]. }
  split; [|split; [|split]].
  - intros r [(keywords & Hin & Hne & Hc) H03]%Hmem.
    destruct (Hscore _ _ Hin Hne) as [Hmax Heq].
    exists keywords, (maxFrom 0 (matched query keywords)).
    split; [assumption|]. split; [assumption|].
    split; [now rewrite Hc|]. split; [assumption|].
    pose proof stackKeys_available as Havailable.
    rewrite forallb_forall in Havailable.
    assert (Hkey : In (DomainMatch.domain r)
                     (List.map fst stackKeywordsWeighted))
      by (apply in_map_iff; now exists (DomainMatch.domain r, keywords)).
    apply Havailable, existsb_exists in Hkey as (s & Hs & Hsame).
    apply String.eqb_eq in Hsame. now subst s.
  - intros stack keywords maxWeight Hin Hmax H03.
    assert (Hne : matched query keywords <> []).
    { destruct Hmax as [(e & He & _) _]. intros Hnil. now rewrite Hnil in He. }
    destruct (Hscore _ _ Hin Hne) as [Hmax' Heq].
    pose proof (categoryScore_compat 0.1 0.03 _ _
                  (List.length (matched query keywords))
                  (isMaxWeight_unique _ _ _ Hmax' Hmax)) as Hcompat.
    apply in_map_iff.
    exists {| DomainMatch.domain := stack;
              DomainMatch.confidence :=
                finalScore 0.1 0.03 (maxFrom 0 (matched query keywords))
                  (List.length (matched query keywords)) |}.
    split; [reflexivity|].
    apply Hmem. simpl. split; [now exists keywords|].
    rewrite Heq, Hcompat. exact H03.
  - unfold detectStacks. apply ranked_distinct, stackKeys_NoDup.
  - unfold detectStacks. apply filter_StronglySorted, rankedMatches_sorted.
Qed.

(** The domains [detectDomains] returns are distinct, and each has a
    document type in [domainToTypeMap], which is not empty: the strategies
    of [searchAll] always find the type of a detected domain. *)
Theorem detectDomains_typed (query : string) :
  List.NoDup (List.map DomainMatch.domain (detectDomains query))
  /\ Forall (fun r => exists targetType,
                 lookup domainToTypeMap (DomainMatch.domain r) = Some targetType
                 /\ targetType <> ""%string)
       (detectDomains query).
Proof.
  split.
  - unfold detectDomains. apply ranked_distinct, domainKeys_NoDup.
  - apply List.Forall_forall. intros r Hin. now apply (detected_type query).
Qed.

(** The legacy [detectDomain] returns the domain that [detectDomains]
    ranks first, which no other domain beats, when its confidence is at
    least 0.3; it returns nothing exactly when no detected domain reaches
    0.3. *)
Theorem detectDomain_strongest (query : string) :
  match detectDomain query with
  | Some domain =>
      exists m rest,
        detectDomains query = m :: rest
        /\ DomainMatch.domain m = domain
        /\ 0.3 <= DomainMatch.confidence m
        /\ forall m', In m' (detectDomains query) ->
                      DomainMatch.confidence m' <= DomainMatch.confidence m
  | None =>
      forall m, In m (detectDomains query) -> DomainMatch.confidence m < 0.3
  end.
Proof.
  assert (Hsorted : StronglySorted
            (fun a b => DomainMatch.confidence b <= DomainMatch.confidence a)
            (detectDomains query)).
  { unfold detectDomains. apply filter_StronglySorted, rankedMatches_sorted. }
  unfold detectDomain.
  destruct (detectDomains query) as [|m rest]; [intros m []|].
  apply StronglySorted_inv in Hsorted as [_ Hrest].
  rewrite List.Forall_forall in Hrest.
  destruct (Qgeb (DomainMatch.confidence m) 0.3) eqn:Hge.
  - apply Qgeb_true in Hge. exists m, rest. repeat split; try assumption.
    intros m' [<-|Hin]; [qlra | now apply Hrest].
  - assert (Hlt : DomainMatch.confidence m < 0.3).
    { apply Qnot_le_lt. intros Hle. apply Qgeb_true in Hle. congruence. }
    intros m' [<-|Hin]; [assumption|].
    specialize (Hrest _ Hin). qlra.
Qed.

End ClassifierMore.

Section ExpansionFacts.
Import JS Tables Handlers ExpansionSpec.

Lemma expandQuery_loop (lowerQuery : string) (keys : list string)
    (expanded : string) :
  fold_left
    (fun expanded key =>
       if includes lowerQuery key
       then expanded ++ " " ++ default "undefined" (lookup DOMAIN_EXPANSION key)
       else expanded)
    keys expanded
  = expanded
    ++ String.concat ""
         (List.map (fun key => " " ++ termsOf key)
            (List.filter (includes lowerQuery) keys)).
Proof.
  revert expanded. induction keys as [|key keys IH]; intros expanded; simpl.
  - now rewrite append_nil_r.
  - rewrite IH. destruct (includes lowerQuery key); [|reflexivity].
    cbn [List.map]. rewrite append_assoc. f_equal.
    unfold termsOf.
    destruct (List.map (fun key0 => " " ++ default "undefined" (lookup DOMAIN_EXPANSION key0))
                (List.filter (includes lowerQuery) keys)) as [|x xs] eqn:Hrest.
    + simpl. now rewrite append_nil_r.
    + simpl. now rewrite append_nil_l.
Qed.

Lemma append_same (s t : string) : s ++ t = s -> t = "".
Proof.
  intros H. apply (f_equal String.length) in H. rewrite length_append in H.
  destruct t; [reflexivity | simpl in H; lia].
Qed.

Lemma expandQuery_form (query : string) :
  expandQuery query
  = query
    ++ String.concat ""
         (List.map (fun key => " " ++ termsOf key) (matchedKeys query)).
Proof. apply expandQuery_loop. Qed.

End ExpansionFacts.

Section ExpansionScore.
Import JS Tables Handlers ExpansionSpec BM25 IndexSpec.

Lemma tokenize_empty : tokenize "" = [].
Proof. reflexivity. Qed.

Lemma tokenize_expansions (head : string) (keys : list string) :
  tokenize (head ++ String.concat "" (List.map (fun key => " " ++ termsOf key) keys))
  = (tokenize head ++ flat_map (fun key => tokenize (termsOf key)) keys)%list.
Proof.
  revert head. induction keys as [|key keys IH]; intros head.
  - simpl. now rewrite append_nil_r, app_nil_r.
  - assert (Hcat : String.concat ""
                     (List.map (fun key => " " ++ termsOf key) (key :: keys))
                   = (" " ++ termsOf key)
                     ++ String.concat ""
                          (List.map (fun key => " " ++ termsOf key) keys)).
    { cbn [List.map].
      destruct (List.map (fun key => " " ++ termsOf key) keys) eqn:Hrest.
      - simpl. now rewrite append_nil_r.
      - simpl. now rewrite append_nil_l. }
    rewrite Hcat, <- append_assoc, IH.
    rewrite <- (append_assoc head), (append_assoc head " "), tokenize_space.
    simpl. now rewrite <- app_assoc.
Qed.

Lemma expansion_tokens (query : string) :
  tokenize (expandQuery query)
  = (tokenize query
     ++ flat_map (fun key => tokenize (termsOf key)) (matchedKeys query))%list.
Proof. rewrite expandQuery_form. apply tokenize_expansions. Qed.

(** [expandQuery] only appends: the result is the query followed, for
    every key of the table that occurs in the lower-cased query, longest
    key first, by a space and the terms of the key.  The query comes back
    unchanged exactly when no key occurs in it.  The tokens of the result
    are the tokens of the query followed by the tokens of the added terms:
    expansion takes no search term away. *)
Theorem expandQuery_appends (query : string) :
  expandQuery query
  = query
    ++ String.concat ""
         (List.map (fun key => " " ++ termsOf key) (matchedKeys query))
  /\ (expandQuery query = query
      <-> forall key, In key (List.map fst DOMAIN_EXPANSION) ->
                      includes (toLowerCase query) key = false)
  /\ tokenize (expandQuery query)
     = (tokenize query
        ++ flat_map (fun key => tokenize (termsOf key)) (matchedKeys query))%list.
Proof.
  split; [apply expandQuery_form|]. split; [|apply expansion_tokens].
  rewrite expandQuery_form. unfold matchedKeys. split.
  - intros Hsame%append_same key Hkey.
    destruct (includes (toLowerCase query) key) eqn:Hinc; [|reflexivity].
    assert (Hin : In key (List.filter (includes (toLowerCase query)) sortedKeys)).
    { apply filter_In. split; [|assumption]. unfold sortedKeys.
      now apply sort_In. }
    destruct (List.filter (includes (toLowerCase query)) sortedKeys)
      as [|k ks]; [destruct Hin|].
    cbn [List.map] in Hsame.
    destruct (List.map (fun key => " " ++ termsOf key) ks); discriminate.
  - intros Hnone. rewrite filter_none; [apply append_nil_r|].
    intros key Hkey. apply Hnone. unfold sortedKeys in Hkey.
    now apply sort_In in Hkey.
Qed.

Lemma score_app (docs : list Document) (doc : Document) (q1 q2 : list string) :
  BM25Spec.score docs (q1 ++ q2) doc
  = (BM25Spec.score docs q1 doc + BM25Spec.score docs q2 doc)%R.
Proof.
  unfold BM25Spec.score. now rewrite List.filter_app, List.map_app, Rsum_app.
Qed.

(** Expansion never lowers a score: every document scores at least as
    high for the expanded query as for the query itself, so a document
    that the query finds is found by the expanded query. *)
Theorem expandQuery_score (docs : list Document) (query : string) (i : nat)
    (doc : Document) :
  docs !! i = Some doc ->
  (score (new docs) (tokenize query) i
   <= score (new docs) (tokenize (expandQuery query)) i)%R
  /\ (sharesToken query doc = true ->
      sharesToken (expandQuery query) doc = true).
Proof.
  intros Hdoc. rewrite !(score_new _ _ _ _ Hdoc), expansion_tokens. split.
  - rewrite score_app.
    pose proof (score_nonneg docs
      (flat_map (fun key => tokenize (termsOf key)) (matchedKeys query)) doc).
    lra.
  - unfold sharesToken. rewrite expansion_tokens, existsb_app.
    now intros ->.
Qed.

Lemma expandQuery_score_witness :
  (score (new Samples.twoDocs) (tokenize "ab") 0
   <= score (new Samples.twoDocs) (tokenize (expandQuery "ab")) 0)%R
  /\ (sharesToken "ab" (Samples.doc "1" "ab cd" "style") = true ->
      sharesToken (expandQuery "ab") (Samples.doc "1" "ab cd" "style") = true).
Proof.
  apply (expandQuery_score Samples.twoDocs "ab" 0
           (Samples.doc "1" "ab cd" "style")).
  reflexivity.
Defined.

End ExpansionScore.

Section TrimFacts.
Import JS Handlers StringSpec.

Lemma revString_acc (s acc : string) :
  revString acc s = revString "" s ++ acc.
Proof.
  revert acc. induction s as [|c s IH]; intros acc; simpl.
  - now rewrite append_nil_l.
  - rewrite IH, (IH (String c "")), append_assoc.
    now rewrite append_cons, append_nil_l.
Qed.

Lemma revString_append (s t : string) :
  revString "" (s ++ t) = revString "" t ++ revString "" s.
Proof.
  induction s as [|c s IH].
  - now rewrite append_nil_l, append_nil_r.
  - rewrite append_cons. simpl.
    rewrite (revString_acc (s ++ t)), (revString_acc s), IH.
    now rewrite append_assoc.
Qed.

Lemma revString_involutive (s : string) :
  revString "" (revString "" s) = s.
Proof.
  induction s as [|c s IH]; [reflexivity|].
  simpl. rewrite (revString_acc s (String c "")), revString_append, IH.
  simpl. now rewrite append_cons, append_nil_l.
Qed.

Lemma dropSpaces_clean (s : string) : startsClean (dropSpaces s).
Proof.
  induction s as [|c s IH]; simpl; [exact I|].
  destruct (isSpaceChar c) eqn:Hc; [exact IH | exact Hc].
Qed.

Lemma dropSpaces_id (s : string) : startsClean s -> dropSpaces s = s.
Proof. destruct s as [|c s]; simpl; [reflexivity | now intros ->]. Qed.

Lemma dropSpaces_suffix (s : string) : exists p, s = p ++ dropSpaces s.
Proof.
  induction s as [|c s [p IH]]; simpl.
  - now exists "".
  - destruct (isSpaceChar c).
    + exists (String c p). rewrite append_cons. now f_equal.
    + exists "". now rewrite append_nil_l.
Qed.

Lemma startsClean_prefix (s t : string) :
  startsClean (s ++ t) -> startsClean s.
Proof. destruct s as [|c s]; [intros; exact I|]. now rewrite append_cons. Qed.

Lemma trim_clean (s : string) :
  startsClean (trim s) /\ startsClean (revString "" (trim s)).
Proof.
  unfold trim. rewrite revString_involutive. split; [|apply dropSpaces_clean].
  destruct (dropSpaces_suffix (revString "" (dropSpaces s))) as [p Hp].
  apply (f_equal (revString "")) in Hp.
  rewrite revString_involutive, revString_append in Hp.
  apply startsClean_prefix with (revString "" p). rewrite <- Hp.
  apply dropSpaces_clean.
Qed.

Lemma trim_id (s : string) :
  startsClean s -> startsClean (revString "" s) -> trim s = s.
Proof.
  intros Hs Hrev. unfold trim.
  now rewrite (dropSpaces_id s Hs), (dropSpaces_id _ Hrev), revString_involutive.
Qed.

Lemma trim_idempotent (s : string) : trim (trim s) = trim s.
Proof. destruct (trim_clean s). now apply trim_id. Qed.

(** The query that a valid result carries for display neither starts nor
    ends with white space, and validating it again, with the same limit,
    gives the same result. *)
Theorem validateSearchInput_again (query : option string)
    (maxResults : option Q) :
  let r := validateSearchInput query maxResults in
  ValidationResult.valid r = true ->
  startsClean (ValidationResult.originalQuery r)
  /\ startsClean (revString "" (ValidationResult.originalQuery r))
  /\ validateSearchInput (Some (ValidationResult.originalQuery r)) maxResults
     = r.
Proof.
  cbv zeta. destruct query as [q|]; [|discriminate].
  assert (Horig : ValidationResult.valid (validateSearchInput (Some q) maxResults) = true ->
                  ValidationResult.originalQuery
                    (validateSearchInput (Some q) maxResults) = trim q).
  { unfold validateSearchInput.
    destruct (String.length (trim q) =? 0)%nat; [discriminate|].
    destruct (500 <? String.length (trim q))%nat; [discriminate|].
    destruct maxResults as [m|]; [|reflexivity].
    destruct (negb (isInteger m)); [discriminate|].
    destruct (Qgtb 1 m); [discriminate|].
    destruct (Qgtb m 50); [discriminate|]. reflexivity. }
  intros Hvalid. rewrite (Horig Hvalid).
  destruct (trim_clean q) as [Hstart Hend].
  repeat split; try assumption.
  unfold validateSearchInput. now rewrite trim_idempotent.
Qed.

Lemma validateSearchInput_again_witness :
  validateSearchInput
    (Some (ValidationResult.originalQuery
             (validateSearchInput (Some "  bar chart ") (Some 5%Q))))
    (Some 5%Q)
  = validateSearchInput (Some "  bar chart ") (Some 5%Q).
Proof.
  apply (validateSearchInput_again (Some "  bar chart ") (Some 5%Q)).
  reflexivity.
Defined.

End TrimFacts.

Section SearchAllMore.
Import JS Tables Handlers SearchAllSpec.

Lemma search_from_index (self : BM25.t) (query : string) (limit : Z)
    (r : BM25.SearchResult.t) :
  In r (BM25.search self query (Some limit)) ->
  In (BM25.SearchResult.document r) (BM25.documents self)
  /\ (BM25.SearchResult.score r > 0)%R.
Proof.
  rewrite search_ranking. intros [[i d] [<- Hin]]%in_map_iff.
  apply ranking_incl in Hin as [Hin Hpos]. split; [|exact Hpos].
  apply indexed_lookup in Hin. simpl.
  apply list_elem_of_In. now apply list_elem_of_lookup_2 in Hin.
Qed.

Lemma prioritize_incl (results : list BM25.SearchResult.t) (targetType : string)
    (domainSlots maxResults : Z) (r : BM25.SearchResult.t) :
  In r (prioritize results targetType domainSlots maxResults) -> In r results.
Proof.
  unfold prioritize. rewrite partition_as_filter.
  intros [Hin|Hin]%slice0_incl%in_app_or;
    apply slice0_incl in Hin; now apply filter_In in Hin.
Qed.

Lemma prioritize_length (results : list BM25.SearchResult.t)
    (targetType : string) (domainSlots maxResults : Z) :
  (0 <= maxResults)%Z ->
  (Z.of_nat (List.length (prioritize results targetType domainSlots maxResults))
   <= maxResults)%Z.
Proof.
  intros Hmax. unfold prioritize.
  destruct (partition _ results) as [own other]. now apply slice0_length.
Qed.

Lemma balance_incl (domains : list DomainMatch.t)
    (results : list BM25.SearchResult.t) (maxResults : Z)
    (r : BM25.SearchResult.t) :
  In r (balance domains results maxResults) -> In r results.
Proof.
  rewrite balance_merged. unfold merged. intros Hin%slice0_incl%sort_In.
  assert (Hbalanced : forall l, In r
            (flat_map
               (fun d =>
                  match typeOf d with
                  | Some ty =>
                      slice0 (slots maxResults (List.length domains)
                                (DomainMatch.confidence d))
                        (ofType ty results)
                  | None => []
                  end) l) -> In r results).
  { intros l ([d c] & _ & Hd)%in_flat_map.
    destruct (typeOf _); [|destruct Hd].
    apply slice0_incl in Hd. now apply filter_In in Hd. }
  destruct (0 <? _)%Z.
  - apply in_app_or in Hin as [Hin|Hin]; [now apply Hbalanced in Hin|].
    apply slice0_incl in Hin. now apply filter_In in Hin.
  - now apply Hbalanced in Hin.
Qed.

Lemma balance_length (domains : list DomainMatch.t)
    (results : list BM25.SearchResult.t) (maxResults : Z) :
  (0 <= maxResults)%Z ->
  (Z.of_nat (List.length (balance domains results maxResults)) <= maxResults)%Z.
Proof. intros Hmax. rewrite balance_merged. now apply slice0_length. Qed.

Lemma invalid_message (query : option string) (maxResults : option Q) :
  ValidationResult.valid (validateSearchInput query maxResults) = false ->
  exists message,
    ValidationResult.error (validateSearchInput query maxResults) = Some message.
Proof.
  unfold validateSearchInput. destruct query as [q|]; [|now eexists].
  cbv zeta.
  destruct (String.length (trim q) =? 0)%nat; [now eexists|].
  destruct (500 <? String.length (trim q))%nat; [now eexists|].
  destruct maxResults as [m|]; [|discriminate].
  destruct (negb (isInteger m)); [now eexists|].
  destruct (Qgtb 1 m); [now eexists|].
  destruct (Qgtb m 50); [now eexists|]. discriminate.
Qed.

(** [searchAll] answers with an error exactly when the input is refused
    (the message is that of the validation) or the unified index is not
    built.  Otherwise it answers with at most [maxResults] records (10 when
    absent, never more than 50), each the data of a document of the
    unified index with a positive score. *)
Theorem searchAll_bounded (unifiedIndex : option BM25.t)
    (query : option string) (maxResults : option Q) :
  let validation :=
    validateSearchInput query
      (match maxResults with None => Some 10%Q | m => m end) in
  match searchAll unifiedIndex query maxResults with
  | Error message =>
      (ValidationResult.valid validation = false
       /\ ValidationResult.error validation = Some message)
      \/ (ValidationResult.valid validation = true
          /\ unifiedIndex = None
          /\ message = "Unified index not initialized")
  | Results items =>
      ValidationResult.valid validation = true
      /\ (Z.of_nat (List.length items) <= ValidationResult.maxResults validation
          <= 50)%Z
      /\ exists index,
           unifiedIndex = Some index
           /\ Forall (fun item =>
                        (ResultItem.score item > 0)%R
                        /\ exists doc,
                             In doc (BM25.documents index)
                             /\ ResultItem.data item = BM25.data doc)
                items
  end.
Proof.
  intros validation. unfold searchAll. fold validation.
  destruct (ValidationResult.valid validation) eqn:Hvalid; cbn [negb].
  2:{ left. split; [reflexivity|].
      destruct (invalid_message _ _ Hvalid) as [message Hmessage].
      fold validation in Hmessage. now rewrite Hmessage. }
  destruct unifiedIndex as [index|]; [|right; auto].
  pose proof (validateSearchInput_range _ _ Hvalid) as Hrange.
  fold validation in Hrange. cbv zeta.
  set (detected := detectDomains (ValidationResult.query validation)).
  set (stacks := detectStacks (ValidationResult.query validation)).
  set (n := ValidationResult.maxResults validation) in *.
  set (results := BM25.search index (ValidationResult.query validation) _).
  assert (Hshape : forall domains stacks' chosen,
    (forall r, In r chosen -> In r results) ->
    (Z.of_nat (List.length chosen) <= n)%Z ->
    true = true
    /\ (Z.of_nat (List.length (List.map (withMetadata domains stacks') chosen))
        <= n <= 50)%Z
    /\ exists index',
         Some index = Some index'
         /\ Forall (fun item =>
                      (ResultItem.score item > 0)%R
                      /\ exists doc,
                           In doc (BM25.documents index')
                           /\ ResultItem.data item = BM25.data doc)
              (List.map (withMetadata domains stacks') chosen)).
  { intros domains stacks' chosen Hincl Hlen. split; [reflexivity|].
    rewrite length_map. split; [lia|]. exists index. split; [reflexivity|].
    apply List.Forall_forall. intros item (r & <- & Hr)%in_map_iff.
    apply Hincl, search_from_index in Hr as [Hdoc Hpos].
    split; [exact Hpos|]. now exists (BM25.SearchResult.document r). }
  assert (Hprior : forall ty slots,
    true = true
    /\ (Z.of_nat (List.length
          (List.map (withMetadata detected stacks) (prioritize results ty slots n)))
        <= n <= 50)%Z
    /\ exists index',
         Some index = Some index'
         /\ Forall (fun item =>
                      (ResultItem.score item > 0)%R
                      /\ exists doc,
                           In doc (BM25.documents index')
                           /\ ResultItem.data item = BM25.data doc)
              (List.map (withMetadata detected stacks) (prioritize results ty slots n))).
  { intros ty slots. apply Hshape.
    - intros r. apply prioritize_incl.
    - apply prioritize_length. lia. }
  destruct (find _ detected) as [high|].
  - destruct (lookup domainToTypeMap (DomainMatch.domain high)) as [ty|];
      [apply Hprior|].
    destruct (1 <? _)%nat.
    + apply Hshape; [intros r; apply balance_incl | apply balance_length; lia].
    + destruct detected as [|only [|]];
        try (apply Hshape; [intros r; apply slice0_incl | apply slice0_length; lia]).
      destruct (Qgeb _ _);
        [|apply Hshape; [intros r; apply slice0_incl | apply slice0_length; lia]].
      destruct (lookup _ _); [apply Hprior|].
      apply Hshape; [intros r; apply slice0_incl | apply slice0_length; lia].
  - destruct (1 <? _)%nat.
    + apply Hshape; [intros r; apply balance_incl | apply balance_length; lia].
    + destruct detected as [|only [|]];
        try (apply Hshape; [intros r; apply slice0_incl | apply slice0_length; lia]).
      destruct (Qgeb _ _);
        [|apply Hshape; [intros r; apply slice0_incl | apply slice0_length; lia]].
      destruct (lookup _ _); [apply Hprior|].
      apply Hshape; [intros r; apply slice0_incl | apply slice0_length; lia].
Qed.

End SearchAllMore.

Section SearchAllStrategies.
Import JS Tables Handlers SearchAllSpec.

(** Without a detected domain, [searchAll] is the plain search of the
    unified index for the expanded query, cut to [maxResults], and the
    records carry no detection metadata. *)
Theorem searchAll_no_domain (unifiedIndex : BM25.t) (query : option string)
    (maxResults : option Q) :
  let validation :=
    validateSearchInput query
      (match maxResults with None => Some 10%Q | m => m end) in
  ValidationResult.valid validation = true ->
  detectDomains (ValidationResult.query validation) = [] ->
  searchAll (Some unifiedIndex) query maxResults
  = Results
      (List.map (withMetadata [] [])
         (BM25.search unifiedIndex (ValidationResult.query validation)
            (Some (ValidationResult.maxResults validation)))).
Proof.
  intros validation Hvalid Hnone.
  pose proof (validateSearchInput_range _ _ Hvalid) as Hrange.
  fold validation in Hrange.
  unfold searchAll. fold validation. rewrite Hvalid. cbn [negb]. cbv zeta.
  rewrite Hnone. cbn [find List.find List.filter List.length Nat.ltb Nat.leb].
  do 2 f_equal. unfold BM25.search. cbn [default].
  apply slice0_slice0. unfold Datatypes.id. lia.
Qed.

Lemma searchAll_no_domain_witness :
  searchAll (Some (BM25.new Samples.twoDocs)) (Some "zz") None
  = Results
      (List.map (withMetadata [] [])
         (BM25.search (BM25.new Samples.twoDocs)
            (ValidationResult.query
               (validateSearchInput (Some "zz") (Some 10%Q)))
            (Some (ValidationResult.maxResults
                     (validateSearchInput (Some "zz") (Some 10%Q)))))).
Proof.
  apply (searchAll_no_domain (BM25.new Samples.twoDocs) (Some "zz") None);
    vm_compute; reflexivity.
Defined.

(** The two parts of [prioritize]: with [k] the smaller of [domainSlots]
    and the number of results of the target type, the first [k] results
    of the target type come first and the first [maxResults - k] results
    of other types follow. *)
Lemma prioritize_parts (results : list BM25.SearchResult.t)
    (targetType : string) (domainSlots maxResults : Z) :
  (0 <= domainSlots <= maxResults)%Z ->
  let own := ofType targetType results in
  let other :=
    List.filter (fun r => negb (bool_decide (resultType r = Some targetType)))
      results in
  let k := Z.min domainSlots (Z.of_nat (List.length own)) in
  prioritize results targetType domainSlots maxResults
  = (firstn (Z.to_nat k) own ++ firstn (Z.to_nat (maxResults - k)) other)%list.
Proof.
  intros Hslots own other k. unfold prioritize.
  rewrite partition_as_filter. fold (ofType targetType results). fold own other k.
  assert (Hown : slice0 domainSlots own = firstn (Z.to_nat k) own).
  { unfold slice0. destruct (Z.ltb_spec domainSlots 0); [lia | reflexivity]. }
  assert (Hother : slice0 (maxResults - k) other
                   = firstn (Z.to_nat (maxResults - k)) other).
  { unfold slice0. destruct (Z.ltb_spec (maxResults - k) 0); [lia|].
    rewrite Z2Nat.inj_min, Nat2Z.id.
    destruct (Nat.min_spec (Z.to_nat (maxResults - k)) (List.length other))
      as [[_ ->]|[Hle ->]]; [reflexivity|].
    now rewrite firstn_all, firstn_all2. }
  rewrite Hown, Hother. apply slice0_all.
  rewrite length_app, !length_firstn. lia.
Qed.

End SearchAllStrategies.

Section SearchAllSingle.
Import JS Tables Handlers SearchAllSpec.
Local Open Scope Q_scope.

Lemma ceil_fraction (n : Z) (x : Q) :
  (0 <= n)%Z -> 0 <= x <= 1 -> (0 <= ceil (inject_Z n * x) <= n)%Z.
Proof.
  intros Hn [H0 H1]. unfold ceil.
  assert (Hn' : inject_Z 0 <= inject_Z n) by (now rewrite <- Zle_Qle).
  change (inject_Z 0) with 0 in Hn'.
  split.
  - change 0%Z with (Qceiling 0). apply Qceiling_resp_le.
    now apply Qmult_le_0_compat.
  - rewrite <- (Qceiling_Z n) at 2. apply Qceiling_resp_le.
    rewrite <- (Qmult_1_r (inject_Z n)) at 2.
    rewrite !(Qmult_comm (inject_Z n)).
    now apply Qmult_le_compat_r.
Qed.

(** When some detected domain has a confidence of 0.7 or more, [searchAll]
    takes the first such domain, which always has a document type, and
    answers, out of three times [maxResults] results of the unified
    index, with up to [ceil(0.8 * maxResults)] results of that type
    followed by results of other types, [maxResults] in all when there
    are enough. *)
Theorem searchAll_single_domain (unifiedIndex : BM25.t)
    (query : option string) (maxResults : option Q) :
  let validation :=
    validateSearchInput query
      (match maxResults with None => Some 10%Q | m => m end) in
  let detected := detectDomains (ValidationResult.query validation) in
  let n := ValidationResult.maxResults validation in
  let results :=
    BM25.search unifiedIndex (ValidationResult.query validation)
      (Some (n * 3)%Z) in
  ValidationResult.valid validation = true ->
  existsb (fun d => Qgeb (DomainMatch.confidence d) 0.7) detected = true ->
  exists high targetType,
    find (fun d => Qgeb (DomainMatch.confidence d) 0.7) detected = Some high
    /\ typeOf high = Some targetType
    /\ let own := ofType targetType results in
       let other :=
         List.filter
           (fun r => negb (bool_decide (resultType r = Some targetType)))
           results in
       let k := Z.min (ceil (inject_Z n * 0.8)) (Z.of_nat (List.length own)) in
       searchAll (Some unifiedIndex) query maxResults
       = Results
           (List.map
              (withMetadata detected
                 (detectStacks (ValidationResult.query validation)))
              (firstn (Z.to_nat k) own
               ++ firstn (Z.to_nat (n - k)) other)%list).
Proof.
  intros validation detected n results Hvalid Hexists.
  pose proof (validateSearchInput_range _ _ Hvalid) as Hrange.
  fold validation in Hrange. fold n in Hrange.
  destruct (find (fun d => Qgeb (DomainMatch.confidence d) 0.7) detected)
    as [high|] eqn:Hfind.
  2:{ apply existsb_exists in Hexists as (d & Hin & Hd).
      unfold find in Hfind. now rewrite (find_none _ _ Hfind d Hin) in Hd. }
  pose proof (find_some _ _ Hfind) as [Hin _].
  destruct (detected_type _ _ Hin) as (targetType & Htype & _).
  exists high, targetType. split; [reflexivity|]. split; [exact Htype|].
  cbv zeta.
  rewrite (searchAll_high unifiedIndex query maxResults high targetType
             Hvalid Hfind Htype).
  fold validation detected n results. do 2 f_equal.
  apply prioritize_parts. apply ceil_fraction; [lia | qlra].
Qed.

Lemma searchAll_single_domain_witness :
  exists high targetType,
    find (fun d => Qgeb (DomainMatch.confidence d) 0.7)
      (detectDomains
         (ValidationResult.query
            (validateSearchInput (Some "color palette") (Some 10%Q))))
    = Some high
    /\ typeOf high = Some targetType.
Proof.
  pose proof (searchAll_single_domain (BM25.new Samples.twoDocs)
              (Some "color palette") None) as H.
  cbv zeta in H.
  change (match @None Q with Some _ => @None Q | None => Some 10%Q end)
    with (Some 10%Q) in H.
  assert (Hvalid : ValidationResult.valid
            (validateSearchInput (Some "color palette") (Some 10%Q)) = true)
    by (vm_compute; reflexivity).
  assert (Hhigh : existsb (fun d => Qgeb (DomainMatch.confidence d) 0.7)
            (detectDomains
               (ValidationResult.query
                  (validateSearchInput (Some "color palette") (Some 10%Q))))
          = true)
    by (vm_compute; reflexivity).
  specialize (H Hvalid Hhigh).
  destruct H as (high & targetType & Hfind & Htype & _).
  exists high, targetType. split; [exact Hfind | exact Htype].
Defined.

End SearchAllSingle.

Section SearchTools.
Import JS Tables Handlers.

Lemma search_sorted (self : BM25.t) (query : string) (limit : Z) :
  StronglySorted
    (fun a b => (BM25.SearchResult.score b <= BM25.SearchResult.score a)%R)
    (BM25.search self query (Some limit)).
Proof.
  unfold BM25.search, slice0. apply firstn_StronglySorted.
  eapply StronglySorted_impl; [|apply sort_sorted].
  - intros a b Hab. now apply Rgtb_false in Hab; lra.
  - intros a b. rewrite Rgtb_true, Rgtb_false. lra.
  - intros a b c. rewrite !Rgtb_false. lra.
Qed.

Lemma search_length (self : BM25.t) (query : string) (limit : Z) :
  (0 <= limit)%Z ->
  (Z.of_nat (List.length (BM25.search self query (Some limit))) <= limit)%Z.
Proof. intros Hlimit. unfold BM25.search. now apply slice0_length. Qed.

Lemma StronglySorted_map {A B} (R : B -> B -> Prop) (f : A -> B) (l : list A) :
  StronglySorted (fun x y => R (f x) (f y)) l -> StronglySorted R (List.map f l).
Proof.
  induction 1 as [|x l Hl IH Hx]; simpl; constructor; [assumption|].
  apply List.Forall_forall. intros y (z & <- & Hz)%in_map_iff.
  rewrite List.Forall_forall in Hx. now apply Hx.
Qed.

(** The search tools of one index ([searchStylesOnly], [searchColors],
    [searchTypography], [searchCharts], [searchUXGuidelines],
    [searchIcons], [searchLanding], [searchProducts], [searchPrompts])
    answer with the error of the validation when the input is refused,
    and only then with their own message when the index is not built.
    Otherwise they answer with at most [maxResults] records (3 when
    absent, never more than 50) in descending order of score, each the
    data of a document of the index with a positive score. *)
Theorem searchIndex_answer (index : option BM25.t) (notInitialized : string)
    (query : option string) (maxResults : option Q) :
  let validation := validateSearchInput query maxResults in
  match searchIndex index notInitialized query maxResults with
  | Failure error =>
      (ValidationResult.valid validation = false
       /\ ValidationResult.error validation = Some error)
      \/ (ValidationResult.valid validation = true
          /\ index = None /\ error = notInitialized)
  | Hits items =>
      ValidationResult.valid validation = true
      /\ (Z.of_nat (List.length items) <= ValidationResult.maxResults validation
          <= 50)%Z
      /\ StronglySorted (fun a b => (Scored.score b <= Scored.score a)%R) items
      /\ exists self,
           index = Some self
           /\ Forall (fun item =>
                        (Scored.score item > 0)%R
                        /\ exists doc,
                             In doc (BM25.documents self)
                             /\ Scored.data item = BM25.data doc)
                items
  end.
Proof.
  intros validation. unfold searchIndex. fold validation.
  destruct (ValidationResult.valid validation) eqn:Hvalid; cbn [negb].
  2:{ left. split; [reflexivity|].
      destruct (invalid_message _ _ Hvalid) as [message Hmessage].
      fold validation in Hmessage. now rewrite Hmessage. }
  destruct index as [self|]; [|right; auto].
  pose proof (validateSearchInput_range _ _ Hvalid) as Hrange.
  fold validation in Hrange.
  split; [reflexivity|]. rewrite length_map. split; [|split].
  - split; [apply search_length|]; lia.
  - apply StronglySorted_map. apply search_sorted.
  - exists self. split; [reflexivity|].
    apply List.Forall_forall. intros item (r & <- & Hr)%in_map_iff.
    apply search_from_index in Hr as [Hdoc Hpos].
    split; [exact Hpos|]. now exists (BM25.SearchResult.document r).
Qed.

End SearchTools.

Section MergedTools.
Import JS Tables Handlers ToolSpec.

Lemma fold_left_invariant {A B} (P : A -> Prop) (f : A -> B -> A)
    (l : list B) (init : A) :
  P init -> (forall acc x, In x l -> P acc -> P (f acc x)) ->
  P (fold_left f l init).
Proof.
  revert init. induction l as [|x l IH]; intros init Hinit Hstep; simpl;
    [assumption|].
  apply IH.
  - apply Hstep; [now left | assumption].
  - intros acc y Hy. apply Hstep. now right.
Qed.

Lemma taggedAfter_asym (a b : Tagged.t) :
  taggedAfter a b = true -> taggedAfter b a = false.
Proof. unfold taggedAfter. rewrite Rgtb_true, Rgtb_false. lra. Qed.

Lemma taggedAfter_trans (a b c : Tagged.t) :
  taggedAfter a b = false -> taggedAfter b c = false -> taggedAfter a c = false.
Proof. unfold taggedAfter. rewrite !Rgtb_false. lra. Qed.

(** Sorting by score and cutting to the limit. *)
Lemma ranked_tagged (results : list Tagged.t) (limit : Z) (P : Tagged.t -> Prop) :
  (0 <= limit)%Z -> Forall P results ->
  (Z.of_nat (List.length (slice0 limit (sort taggedAfter results))) <= limit)%Z
  /\ StronglySorted (fun a b => (Tagged.score b <= Tagged.score a)%R)
       (slice0 limit (sort taggedAfter results))
  /\ Forall P (slice0 limit (sort taggedAfter results)).
Proof.
  intros Hlimit HP. split; [now apply slice0_length|]. split.
  - unfold slice0. apply firstn_StronglySorted.
    eapply StronglySorted_impl;
      [|apply sort_sorted; [apply taggedAfter_asym | apply taggedAfter_trans]].
    intros a b Hab. now apply Rgtb_false in Hab; lra.
  - rewrite List.Forall_forall in *. intros x Hx%slice0_incl%sort_In.
    now apply HP.
Qed.

Lemma ranked_scored (results : list Scored.t) (limit : Z) (P : Scored.t -> Prop) :
  (0 <= limit)%Z -> Forall P results ->
  (Z.of_nat (List.length (slice0 limit (sort boostedAfter results))) <= limit)%Z
  /\ StronglySorted (fun a b => (Scored.score b <= Scored.score a)%R)
       (slice0 limit (sort boostedAfter results))
  /\ Forall P (slice0 limit (sort boostedAfter results)).
Proof.
  intros Hlimit HP. split; [now apply slice0_length|]. split.
  - unfold slice0. apply firstn_StronglySorted.
    eapply StronglySorted_impl;
      [|apply sort_sorted; [apply boostedAfter_asym | apply boostedAfter_trans]].
    intros a b Hab. now apply Rgtb_false in Hab; lra.
  - rewrite List.Forall_forall in *. intros x Hx%slice0_incl%sort_In.
    now apply HP.
Qed.

Lemma asTagged_from (index : option BM25.t) (self : BM25.t) (query : string)
    (limit : Z) (domainName : string) (P : Tagged.t -> Prop) :
  (forall item doc,
      (Tagged.score item > 0)%R -> Tagged._domain item = domainName ->
      In doc (BM25.documents self) -> Tagged.data item = BM25.data doc ->
      P item) ->
  Forall P (List.map (asTagged domainName) (BM25.search self query (Some limit))).
Proof.
  intros HP. apply List.Forall_forall. intros item (r & <- & Hr)%in_map_iff.
  apply search_from_index in Hr as [Hdoc Hpos].
  now apply (HP _ (BM25.SearchResult.document r)).
Qed.

(** [searchComponents] fails only on a refused input or on a type other
    than [icon] and [chart]; an index that is not built is skipped without
    an error.  Otherwise it answers with at most [maxResults] records (5
    when absent) in descending order of score, each a document of the
    icons index tagged [icon] or of the charts index tagged [chart], with
    a positive score; with a type, only records of that type. *)
Theorem searchComponents_answer (iconsIndex chartsIndex : option BM25.t)
    (query : option string) (type : option string) (maxResults : option Q) :
  let validation :=
    validateSearchInput query
      (match maxResults with None => Some 5%Q | m => m end) in
  match searchComponents iconsIndex chartsIndex query type maxResults with
  | Failure error =>
      (ValidationResult.valid validation = false
       /\ ValidationResult.error validation = Some error)
      \/ (ValidationResult.valid validation = true
          /\ exists t, type = Some t /\ t <> "icon" /\ t <> "chart")
  | Hits items =>
      ValidationResult.valid validation = true
      /\ (type = None \/ type = Some "icon" \/ type = Some "chart")
      /\ (Z.of_nat (List.length items) <= ValidationResult.maxResults validation
          <= 50)%Z
      /\ StronglySorted (fun a b => (Tagged.score b <= Tagged.score a)%R) items
      /\ Forall (isComponent iconsIndex chartsIndex) items
      /\ Forall (fun item => forall t, type = Some t -> Tagged._domain item = t)
           items
  end.
Proof.
  intros validation. unfold searchComponents. fold validation.
  destruct (ValidationResult.valid validation) eqn:Hvalid; cbn [negb].
  2:{ left. split; [reflexivity|].
      destruct (invalid_message _ _ Hvalid) as [message Hmessage].
      fold validation in Hmessage. now rewrite Hmessage. }
  pose proof (validateSearchInput_range _ _ Hvalid) as Hrange.
  fold validation in Hrange. cbv zeta.
  set (n := ValidationResult.maxResults validation) in *.
  assert (Hitems : forall searchTypes limit,
    (forall t, In t searchTypes -> type = None \/ type = Some t) ->
    Forall (fun item =>
              isComponent iconsIndex chartsIndex item
              /\ forall t, type = Some t -> Tagged._domain item = t)
      (fold_left
         (fun results t =>
            let '(index, domainName) :=
              if String.eqb t "icon" then (iconsIndex, "icon")
              else if String.eqb t "chart" then (chartsIndex, "chart")
              else (None, "") in
            match index with
            | None => results
            | Some index =>
                (results
                 ++ List.map (asTagged domainName)
                      (BM25.search index (ValidationResult.query validation)
                         (Some limit)))%list
            end)
         searchTypes [])).
  { intros searchTypes limit Htypes.
    apply fold_left_invariant; [constructor|].
    intros acc t Ht Hacc.
    destruct (String.eqb_spec t "icon") as [->|Hicon].
    - destruct iconsIndex as [self|]; [|assumption].
      apply Forall_app. split; [assumption|].
      apply asTagged_from; [exact (Some self)|].
      intros item doc Hpos Hdom Hdoc Hdata. split.
      + split; [assumption|]. exists self, doc. auto.
      + intros t' Ht'. destruct (Htypes _ Ht) as [Hn|Hs]; congruence.
    - destruct (String.eqb_spec t "chart") as [->|Hchart]; [|assumption].
      destruct chartsIndex as [self|]; [|assumption].
      apply Forall_app. split; [assumption|].
      apply asTagged_from; [exact (Some self)|].
      intros item doc Hpos Hdom Hdoc Hdata. split.
      + split; [assumption|]. exists self, doc. auto.
      + intros t' Ht'. destruct (Htypes _ Ht) as [Hn|Hs]; congruence. }
  assert (Hfinish : forall results : list Tagged.t,
    (type = None \/ type = Some "icon" \/ type = Some "chart") ->
    Forall (fun item =>
              isComponent iconsIndex chartsIndex item
              /\ forall t, type = Some t -> Tagged._domain item = t)
      results ->
    true = true
    /\ (type = None \/ type = Some "icon" \/ type = Some "chart")
    /\ (Z.of_nat (List.length (slice0 n (sort taggedAfter results))) <= n <= 50)%Z
    /\ StronglySorted (fun a b => (Tagged.score b <= Tagged.score a)%R)
         (slice0 n (sort taggedAfter results))
    /\ Forall (isComponent iconsIndex chartsIndex)
         (slice0 n (sort taggedAfter results))
    /\ Forall (fun item => forall t, type = Some t -> Tagged._domain item = t)
         (slice0 n (sort taggedAfter results))).
  { intros results Htype Hall.
    destruct (ranked_tagged results n _ ltac:(lia) Hall)
      as (Hlen & Hsorted & Hall').
    apply Forall_and_inv in Hall' as [Hall1 Hall2].
    repeat split; auto; lia. }
  destruct type as [t|].
  - destruct (String.eqb_spec t "icon") as [->|Hicon];
      [|destruct (String.eqb_spec t "chart") as [->|Hchart]]; cbn [negb andb].
    + apply Hfinish; [auto|]. apply Hitems. intros ? [<-|[]]; auto.
    + apply Hfinish; [auto|]. apply Hitems. intros ? [<-|[]]; auto.
    + right. split; [reflexivity|]. now exists t.
  - apply Hfinish; [auto|]. apply Hitems. intros; now left.
Qed.

End MergedTools.

Section BoostMore.
Import JS Tables Handlers.

Lemma scored_eta (r : Scored.t) :
  {| Scored.data := Scored.data r; Scored.score := (Scored.score r * 1)%R |} = r.
Proof. destruct r as [data score]. simpl. f_equal. ring. Qed.

(** Whatever the platform and the configuration, [applyPlatformBoost]
    keeps every record, multiplies its score by a factor, and permutes. *)
Lemma applyPlatformBoost_shape (results : list Scored.t) (platform : string)
    (config : PartialConfig.t) :
  exists factorOf : Scored.t -> R,
    (forall r, factorOf r = default 1.5%R (PartialConfig.boostFactor config)
               \/ factorOf r = default 0.5%R (PartialConfig.penaltyFactor config)
               \/ factorOf r = 1.2%R \/ factorOf r = 1%R)
    /\ Permutation (applyPlatformBoost results platform config)
         (List.map
            (fun r => {| Scored.data := Scored.data r;
                         Scored.score := (Scored.score r * factorOf r)%R |})
            results).
Proof.
  assert (Hid : Permutation results
            (List.map
               (fun r => {| Scored.data := Scored.data r;
                            Scored.score := (Scored.score r * (fun _ => 1%R) r)%R |})
               results)).
  { rewrite (map_ext _ (fun r => r)) by apply scored_eta.
    now rewrite map_id. }
  unfold applyPlatformBoost.
  cbn [DEFAULT_PLATFORM_BOOST_CONFIG PlatformBoostConfig.boostFactor
       PlatformBoostConfig.penaltyFactor PlatformBoostConfig.enabled].
  destruct (negb (default true (PartialConfig.enabled config))).
  { exists (fun _ => 1%R). split; [auto | exact Hid]. }
  destruct ((String.length platform =? 0)%nat || (List.length results =? 0)%nat).
  { exists (fun _ => 1%R). split; [auto | exact Hid]. }
  set (bf := default 1.5%R (PartialConfig.boostFactor config)).
  set (pf := default 0.5%R (PartialConfig.penaltyFactor config)).
  match goal with
  | |- context [List.map (fun result => {| Scored.data := _;
                                          Scored.score := (_ * @?boost result)%R |})
                  results] =>
      exists boost
  end.
  split; [|apply sort_perm].
  intros r. cbv beta.
  repeat match goal with
         | |- context [if ?c then _ else _] => destruct c
         end; auto; right; right; right; lra.
Qed.

Lemma applyPlatformBoost_default_positive (results : list Scored.t)
    (platform : string) (x : Scored.t) :
  In x (applyPlatformBoost results platform PartialConfig.empty) ->
  exists r, In r results /\ Scored.data x = Scored.data r
            /\ ((Scored.score r > 0)%R -> (Scored.score x > 0)%R).
Proof.
  destruct (applyPlatformBoost_shape results platform PartialConfig.empty)
    as (factorOf & Hfactor & Hperm).
  intros Hx. eapply Permutation_in in Hx; [|exact Hperm].
  apply in_map_iff in Hx as (r & <- & Hr). exists r.
  split; [assumption|]. split; [reflexivity|]. cbn [Scored.score].
  intros Hpos. cbn in Hfactor.
  destruct (Hfactor r) as [-> | [-> | [-> | ->]]]; nra.
Qed.

End BoostMore.

Section BoostPreserves.
Import JS Tables Handlers.

(** [applyPlatformBoost] never drops, adds or changes a record: the result
    is a permutation of the input in which every score is multiplied by
    the boost factor, the penalty factor, 1.2 or 1.  With boosting
    disabled or without a platform the input comes back as it is;
    otherwise the result is in descending order of the new scores. *)
Theorem applyPlatformBoost_preserves (results : list Scored.t)
    (platform : string) (config : PartialConfig.t) :
  let out := applyPlatformBoost results platform config in
  (exists factorOf : Scored.t -> R,
      (forall r,
          factorOf r = default 1.5%R (PartialConfig.boostFactor config)
          \/ factorOf r = default 0.5%R (PartialConfig.penaltyFactor config)
          \/ factorOf r = 1.2%R \/ factorOf r = 1%R)
      /\ Permutation out
           (List.map
              (fun r => {| Scored.data := Scored.data r;
                           Scored.score := (Scored.score r * factorOf r)%R |})
              results))
  /\ Permutation (List.map Scored.data out) (List.map Scored.data results)
  /\ (PartialConfig.enabled config = Some false \/ platform = "" ->
      out = results)
  /\ (PartialConfig.enabled config <> Some false -> platform <> "" ->
      StronglySorted (fun a b => (Scored.score b <= Scored.score a)%R) out).
Proof.
  intros out.
  destruct (applyPlatformBoost_shape results platform config)
    as (factorOf & Hfactor & Hperm).
  split; [now exists factorOf|]. split; [|split].
  - etransitivity; [apply Permutation_map, Hperm|].
    now rewrite List.map_map.
  - unfold out, applyPlatformBoost. intros [->| ->]; [reflexivity|].
    now destruct (negb _).
  - intros Henabled Hplatform. unfold out, applyPlatformBoost.
    assert (Hon : negb (default
                          (PlatformBoostConfig.enabled DEFAULT_PLATFORM_BOOST_CONFIG)
                          (PartialConfig.enabled config)) = false).
    { destruct (PartialConfig.enabled config) as [[|]|]; try reflexivity.
      congruence. }
    rewrite Hon.
    assert (Hlen : (String.length platform =? 0)%nat = false)
      by (destruct platform; [congruence | reflexivity]).
    rewrite Hlen. cbn [orb].
    destruct results as [|r results]; [constructor|]. cbn [List.length Nat.eqb].
    eapply StronglySorted_impl;
      [|apply sort_sorted; [apply boostedAfter_asym | apply boostedAfter_trans]].
    intros a b Hab. now apply Rgtb_false in Hab; lra.
Qed.

End BoostPreserves.

Section PatternsTool.
Import JS Tables Handlers ToolSpec.

(** [searchPatterns] fails only on a refused input or on a type other than
    [layout], [ux] and [product]; an index that is not built is skipped.
    Otherwise it answers with at most [maxResults] records (5 when absent)
    in descending order of score, boosted or not, each a document of the
    index of its type with a positive score. *)
Theorem searchPatterns_answer
    (landingIndex uxGuidelinesIndex productsIndex : option BM25.t)
    (query : option string) (type : option string) (maxResults : option Q) :
  let validation :=
    validateSearchInput query
      (match maxResults with None => Some 5%Q | m => m end) in
  match searchPatterns landingIndex uxGuidelinesIndex productsIndex
          query type maxResults with
  | Failure error =>
      (ValidationResult.valid validation = false
       /\ ValidationResult.error validation = Some error)
      \/ (ValidationResult.valid validation = true
          /\ exists t, type = Some t
                       /\ t <> "layout" /\ t <> "ux" /\ t <> "product")
  | Hits items =>
      ValidationResult.valid validation = true
      /\ (Z.of_nat (List.length items) <= ValidationResult.maxResults validation
          <= 50)%Z
      /\ StronglySorted (fun a b => (Tagged.score b <= Tagged.score a)%R) items
      /\ Forall (isPattern landingIndex uxGuidelinesIndex productsIndex) items
      /\ Forall (fun item => forall t, type = Some t -> Tagged._domain item = t)
           items
  end.
Proof.
  intros validation. unfold searchPatterns. fold validation.
  destruct (ValidationResult.valid validation) eqn:Hvalid; cbn [negb].
  2:{ left. split; [reflexivity|].
      destruct (invalid_message _ _ Hvalid) as [message Hmessage].
      fold validation in Hmessage. now rewrite Hmessage. }
  pose proof (validateSearchInput_range _ _ Hvalid) as Hrange.
  fold validation in Hrange. cbv zeta.
  set (n := ValidationResult.maxResults validation) in *.
  set (platformResult := detectPlatformIntent _).
  assert (Hfrom : forall (self : BM25.t) (index : option BM25.t)
                         (limit cut : Z) (domainName : string) (boost : bool),
    index = Some self ->
    ((domainName = "layout" /\ landingIndex = index)
     \/ (domainName = "ux" /\ uxGuidelinesIndex = index)
     \/ (domainName = "product" /\ productsIndex = index)) ->
    (type = None \/ type = Some domainName) ->
    Forall (fun item =>
              isPattern landingIndex uxGuidelinesIndex productsIndex item
              /\ forall t, type = Some t -> Tagged._domain item = t)
      (if boost
       then List.map
              (fun r => {| Tagged.data := Scored.data r;
                           Tagged.score := Scored.score r;
                           Tagged._domain := domainName |})
              (slice0 cut
                 (applyPlatformBoost
                    (List.map asScored
                       (BM25.search self (ValidationResult.query validation)
                          (Some limit)))
                    (PlatformIntentResult.platform platformResult)
                    PartialConfig.empty))
       else List.map (asTagged domainName)
              (slice0 cut
                 (BM25.search self (ValidationResult.query validation)
                    (Some limit))))).
  { intros self index limit cut domainName boost Hindex Hdomain Htype.
    assert (Hkind : forall item doc,
      (Tagged.score item > 0)%R -> Tagged._domain item = domainName ->
      In doc (BM25.documents self) -> Tagged.data item = BM25.data doc ->
      isPattern landingIndex uxGuidelinesIndex productsIndex item
      /\ forall t, type = Some t -> Tagged._domain item = t).
    { intros item doc Hpos Hdom Hdoc Hdata. split.
      - split; [assumption|]. exists self, doc. rewrite Hdom.
        split; [|auto].
        destruct Hdomain as [[-> ->]|[[-> ->]|[-> ->]]]; auto.
      - intros t Ht. destruct Htype; congruence. }
    apply List.Forall_forall. destruct boost.
    - intros item (x & <- & Hx%slice0_incl)%in_map_iff.
      apply applyPlatformBoost_default_positive in Hx
        as (s & (r & <- & Hr)%in_map_iff & Hdata & Hpos).
      apply search_from_index in Hr as [Hdoc Hscore].
      apply (Hkind _ (BM25.SearchResult.document r)); auto.
    - intros item (r & <- & Hr%slice0_incl)%in_map_iff.
      apply search_from_index in Hr as [Hdoc Hscore].
      apply (Hkind _ (BM25.SearchResult.document r)); auto. }
  assert (Hitems : forall searchTypes limit,
    (forall t, In t searchTypes -> type = None \/ type = Some t) ->
    Forall (fun item =>
              isPattern landingIndex uxGuidelinesIndex productsIndex item
              /\ forall t, type = Some t -> Tagged._domain item = t)
      (fold_left
         (fun results t =>
            let '(index, domainName) :=
              if String.eqb t "layout" then (landingIndex, "layout")
              else if String.eqb t "ux" then (uxGuidelinesIndex, "ux")
              else if String.eqb t "product" then (productsIndex, "product")
              else (None, "") in
            match index with
            | None => results
            | Some index =>
                if String.eqb t "layout"
                   && Qgeb (PlatformIntentResult.confidence platformResult) 0.5
                then
                  (results
                   ++ List.map
                        (fun r => {| Tagged.data := Scored.data r;
                                     Tagged.score := Scored.score r;
                                     Tagged._domain := domainName |})
                        (slice0 limit
                           (applyPlatformBoost
                              (List.map asScored
                                 (BM25.search index
                                    (ValidationResult.query validation)
                                    (Some (limit * 2)%Z)))
                              (PlatformIntentResult.platform platformResult)
                              PartialConfig.empty)))%list
                else
                  (results
                   ++ List.map (asTagged domainName)
                        (slice0 limit
                           (BM25.search index
                              (ValidationResult.query validation)
                              (Some (limit * 2)%Z))))%list
            end)
         searchTypes [])).
  { intros searchTypes limit Htypes.
    apply fold_left_invariant; [constructor|].
    intros acc t Ht Hacc.
    destruct (String.eqb_spec t "layout") as [->|Hlayout].
    - destruct landingIndex as [self|] eqn:Hindex; [|assumption].
      cbn [andb].
      match goal with
      | |- Forall _ (if ?b then _ else _) =>
          replace (if b then _ else _)
            with (acc ++ if b
                         then List.map
              (fun r => {| Tagged.data := Scored.data r;
                           Tagged.score := Scored.score r;
                           Tagged._domain := "layout" |})
              (slice0 limit
                 (applyPlatformBoost
                    (List.map asScored
                       (BM25.search self (ValidationResult.query validation)
                          (Some (limit * 2)%Z)))
                    (PlatformIntentResult.platform platformResult)
                    PartialConfig.empty))
                         else List.map (asTagged "layout")
              (slice0 limit
                 (BM25.search self (ValidationResult.query validation)
                    (Some (limit * 2)%Z))))%list
            by now destruct b
      end.
      apply Forall_app. split; [assumption|].
      apply (Hfrom self (Some self)); auto; destruct (Htypes _ Ht); auto.
    - cbn [andb].
      destruct (String.eqb_spec t "ux") as [->|Hux].
      + destruct uxGuidelinesIndex as [self|] eqn:Hindex; [|assumption].
        apply Forall_app. split; [assumption|].
        apply (Hfrom self (Some self) _ _ "ux" false); auto;
          destruct (Htypes _ Ht); auto.
      + destruct (String.eqb_spec t "product") as [->|Hproduct]; [|assumption].
        destruct productsIndex as [self|] eqn:Hindex; [|assumption].
        apply Forall_app. split; [assumption|].
        apply (Hfrom self (Some self) _ _ "product" false); auto;
          destruct (Htypes _ Ht); auto. }
  assert (Hfinish : forall results : list Tagged.t,
    Forall (fun item =>
              isPattern landingIndex uxGuidelinesIndex productsIndex item
              /\ forall t, type = Some t -> Tagged._domain item = t)
      results ->
    true = true
    /\ (Z.of_nat (List.length (slice0 n (sort taggedAfter results))) <= n <= 50)%Z
    /\ StronglySorted (fun a b => (Tagged.score b <= Tagged.score a)%R)
         (slice0 n (sort taggedAfter results))
    /\ Forall (isPattern landingIndex uxGuidelinesIndex productsIndex)
         (slice0 n (sort taggedAfter results))
    /\ Forall (fun item => forall t, type = Some t -> Tagged._domain item = t)
         (slice0 n (sort taggedAfter results))).
  { intros results Hall.
    destruct (ranked_tagged results n _ ltac:(lia) Hall)
      as (Hlen & Hsorted & Hall').
    apply Forall_and_inv in Hall' as [Hall1 Hall2].
    repeat split; auto; lia. }
  destruct type as [t|].
  - destruct (String.eqb_spec t "layout") as [->|Hlayout];
      [|destruct (String.eqb_spec t "ux") as [->|Hux];
        [|destruct (String.eqb_spec t "product") as [->|Hproduct]]];
      cbn [negb andb].
    + apply Hfinish, Hitems. intros ? [<-|[]]; auto.
    + apply Hfinish, Hitems. intros ? [<-|[]]; auto.
    + apply Hfinish, Hitems. intros ? [<-|[]]; auto.
    + right. split; [reflexivity|]. now exists t.
  - apply Hfinish, Hitems. intros; now left.
Qed.

End PatternsTool.

Section StackTool.
Import JS Tables Handlers.

(** [searchStack] checks the stack name before the query.  It fails, in
    this order, when the name is absent, when the lower-cased and trimmed
    name is not an available stack, when the input is refused, and when
    the stack has no index.  Otherwise it answers from the index of the
    stack with at most [maxResults] records in descending order of score,
    each the data of a document of that index with a positive score. *)
Theorem searchStack_answer (stackIndexes : gmap string BM25.t)
    (stackName : option string) (query : option string)
    (maxResults : option Q) :
  let validation := validateSearchInput query maxResults in
  match searchStack stackIndexes stackName query maxResults with
  | Failure error =>
      (stackName = None /\ error = "Stack name is required")
      \/ exists name,
           stackName = Some name
           /\ ((~ In (trim (toLowerCase name)) Loader.AVAILABLE_STACKS
                /\ error
                   = "Unknown stack: " ++ dquote ++ trim (toLowerCase name)
                     ++ dquote ++ ". Available stacks: "
                     ++ join ", " Loader.AVAILABLE_STACKS)
               \/ (In (trim (toLowerCase name)) Loader.AVAILABLE_STACKS
                   /\ ValidationResult.valid validation = false
                   /\ ValidationResult.error validation = Some error)
               \/ (In (trim (toLowerCase name)) Loader.AVAILABLE_STACKS
                   /\ ValidationResult.valid validation = true
                   /\ stackIndexes !! trim (toLowerCase name) = None
                   /\ error = "Stack index not initialized for: "
                              ++ trim (toLowerCase name)))
  | Hits items =>
      exists name self,
        stackName = Some name
        /\ In (trim (toLowerCase name)) Loader.AVAILABLE_STACKS
        /\ stackIndexes !! trim (toLowerCase name) = Some self
        /\ ValidationResult.valid validation = true
        /\ (Z.of_nat (List.length items)
            <= ValidationResult.maxResults validation <= 50)%Z
        /\ StronglySorted (fun a b => (Scored.score b <= Scored.score a)%R)
             items
        /\ Forall (fun item =>
                     (Scored.score item > 0)%R
                     /\ exists doc,
                          In doc (BM25.documents self)
                          /\ Scored.data item = BM25.data doc)
             items
  end.
Proof.
  intros validation. unfold searchStack.
  destruct stackName as [name|]; [|cbv beta iota; left; auto]. cbv zeta.
  set (stackNameStr := trim (toLowerCase name)).
  destruct (existsb (String.eqb stackNameStr) Loader.AVAILABLE_STACKS)
    eqn:Hknown; cbn [negb].
  2:{ right. exists name. split; [reflexivity|]. left. split; [|reflexivity].
      intros Hin.
      assert (Hex : existsb (String.eqb stackNameStr) Loader.AVAILABLE_STACKS
                    = true).
      { apply existsb_exists. exists stackNameStr. split; [assumption|].
        apply String.eqb_refl. }
      congruence. }
  assert (Hin : In stackNameStr Loader.AVAILABLE_STACKS).
  { apply existsb_exists in Hknown as (s & Hs & Heq).
    apply String.eqb_eq in Heq. now subst s. }
  fold validation.
  destruct (ValidationResult.valid validation) eqn:Hvalid; cbn [negb].
  2:{ right. exists name. split; [reflexivity|]. right. left. split; [assumption|].
      split; [reflexivity|].
      destruct (invalid_message _ _ Hvalid) as [message Hmessage].
      fold validation in Hmessage. now rewrite Hmessage. }
  pose proof (validateSearchInput_range _ _ Hvalid) as Hrange.
  fold validation in Hrange.
  destruct (stackIndexes !! stackNameStr) as [self|] eqn:Hindex.
  2:{ right. exists name. split; [reflexivity|]. right. right. auto. }
  exists name, self. repeat split; try assumption; try lia.
  - rewrite length_map. apply search_length. lia.
  - apply StronglySorted_map, search_sorted.
  - apply List.Forall_forall. intros item (r & <- & Hr)%in_map_iff.
    apply search_from_index in Hr as [Hdoc Hpos].
    split; [exact Hpos|]. now exists (BM25.SearchResult.document r).
Qed.

End StackTool.

Section StylesTool.
Import JS Tables Handlers ToolSpec.

Lemma styles_from (index : option BM25.t) (self : BM25.t) (query : string)
    (limit : Z) (d : string) (P : Scored.t -> Prop) :
  index = Some self ->
  (forall item doc,
      (Scored.score item > 0)%R -> In doc (BM25.documents self) ->
      Scored.data item = <["_domain" := d]> (BM25.data doc) -> P item) ->
  Forall P
    match index with
    | Some index =>
        List.map
          (fun r =>
             {| Scored.data :=
                  <["_domain" := d]> (BM25.data (BM25.SearchResult.document r));
                Scored.score := BM25.SearchResult.score r |})
          (BM25.search index query (Some limit))
    | None => []
    end.
Proof.
  intros -> HP. apply List.Forall_forall.
  intros item (r & <- & Hr)%in_map_iff.
  apply search_from_index in Hr as [Hdoc Hpos].
  now apply (HP _ (BM25.SearchResult.document r)).
Qed.

(** [searchStyles] reads a number in second place as the limit and a
    string as the domain, an empty string as no domain.  It fails only on
    a refused input or on a domain other than [style], [color],
    [typography] and [prompt]; an index that is not built is skipped.
    Otherwise it answers with at most [maxResults] records (5 when absent)
    in descending order of score, each a document of the index of a
    domain, with a positive score and with the domain written into its
    data; with a domain, only records of that domain. *)
Theorem searchStyles_answer
    (stylesIndex colorsIndex typographyIndex promptsIndex : option BM25.t)
    (query : option string) (domainOrMaxResults : option (Q + string))
    (maxResults : option Q) :
  let limit :=
    match domainOrMaxResults with
    | Some (inl number) => Some number
    | _ => match maxResults with None => Some 5%Q | m => m end
    end in
  let domain :=
    match domainOrMaxResults with
    | Some (inr name) => if String.eqb name "" then None else Some name
    | _ => None
    end in
  let validation := validateSearchInput query limit in
  match searchStyles stylesIndex colorsIndex typographyIndex promptsIndex
          query domainOrMaxResults maxResults with
  | Failure error =>
      (ValidationResult.valid validation = false
       /\ ValidationResult.error validation = Some error)
      \/ (ValidationResult.valid validation = true
          /\ exists name,
               domain = Some name
               /\ ~ In name ["style"; "color"; "typography"; "prompt"]
               /\ error
                  = "Invalid domain: " ++ dquote ++ name ++ dquote
                    ++ ". Must be one of: style, color, typography, prompt")
  | Hits items =>
      ValidationResult.valid validation = true
      /\ (Z.of_nat (List.length items) <= ValidationResult.maxResults validation
          <= 50)%Z
      /\ StronglySorted (fun a b => (Scored.score b <= Scored.score a)%R) items
      /\ Forall (isStyleResult stylesIndex colorsIndex typographyIndex
                   promptsIndex) items
      /\ Forall (fun item =>
                   forall name, domain = Some name ->
                                Scored.data item !! "_domain" = Some name)
           items
  end.
Proof.
  intros limit domain validation. unfold searchStyles.
  assert (Hargs :
    (let '(domain0, effectiveMaxResults) :=
       match domainOrMaxResults with
       | Some (inl number) => (None, Some number)
       | Some (inr name) =>
           (Some name, match maxResults with None => Some 5%Q | m => m end)
       | None => (None, match maxResults with None => Some 5%Q | m => m end)
       end in
     effectiveMaxResults = limit
     /\ match domain0 with
        | Some name => if (String.length name =? 0)%nat then None else Some name
        | None => None
        end = domain)).
  { unfold limit, domain. destruct domainOrMaxResults as [[number|name]|]; auto.
    split; [reflexivity|]. now destruct name. }
  cbv zeta.
  destruct (match domainOrMaxResults with
            | Some (inl number) => (None, Some number)
            | Some (inr name) =>
                (Some name, match maxResults with None => Some 5%Q | m => m end)
            | None => (None, match maxResults with None => Some 5%Q | m => m end)
            end) as [domain0 effectiveMaxResults].
  destruct Hargs as [-> Hdomain]. fold validation.
  destruct (ValidationResult.valid validation) eqn:Hvalid; cbn [negb].
  2:{ left. split; [reflexivity|].
      destruct (invalid_message _ _ Hvalid) as [message Hmessage].
      fold validation in Hmessage. now rewrite Hmessage. }
  pose proof (validateSearchInput_range _ _ Hvalid) as Hrange.
  fold validation in Hrange. rewrite Hdomain.
  set (n := ValidationResult.maxResults validation) in *.
  assert (Hfinish : forall results : list Scored.t,
    Forall (fun item =>
              isStyleResult stylesIndex colorsIndex typographyIndex
                promptsIndex item
              /\ forall name, domain = Some name ->
                              Scored.data item !! "_domain" = Some name)
      results ->
    true = true
    /\ (Z.of_nat (List.length (slice0 n (sort boostedAfter results))) <= n <= 50)%Z
    /\ StronglySorted (fun a b => (Scored.score b <= Scored.score a)%R)
         (slice0 n (sort boostedAfter results))
    /\ Forall (isStyleResult stylesIndex colorsIndex typographyIndex
                 promptsIndex)
         (slice0 n (sort boostedAfter results))
    /\ Forall (fun item =>
                 forall name, domain = Some name ->
                              Scored.data item !! "_domain" = Some name)
         (slice0 n (sort boostedAfter results))).
  { intros results Hall.
    destruct (ranked_scored results n _ ltac:(lia) Hall)
      as (Hlen & Hsorted & Hall').
    apply Forall_and_inv in Hall' as [Hall1 Hall2].
    repeat split; auto; lia. }
  assert (Hkind : forall d self item doc,
    ((d = "style" /\ stylesIndex = Some self)
     \/ (d = "color" /\ colorsIndex = Some self)
     \/ (d = "typography" /\ typographyIndex = Some self)
     \/ (d = "prompt" /\ promptsIndex = Some self)) ->
    (domain = None \/ domain = Some d) ->
    (Scored.score item > 0)%R -> In doc (BM25.documents self) ->
    Scored.data item = <["_domain" := d]> (BM25.data doc) ->
    isStyleResult stylesIndex colorsIndex typographyIndex promptsIndex item
    /\ forall name, domain = Some name ->
                    Scored.data item !! "_domain" = Some name).
  { intros d self item doc Hd Hdom Hpos Hdoc Hdata. split.
    - split; [assumption|]. now exists d, self, doc.
    - intros name Hname. rewrite Hdata, lookup_insert_eq.
      destruct Hdom; congruence. }
  destruct domain as [name|] eqn:Hname.
  - destruct (existsb (String.eqb name) ["style"; "color"; "typography"; "prompt"])
      eqn:Hknown; cbn [negb].
    2:{ right. split; [reflexivity|]. exists name. split; [reflexivity|].
        split; [|reflexivity]. intros Hin.
        assert (Hex : existsb (String.eqb name)
                        ["style"; "color"; "typography"; "prompt"] = true).
        { apply existsb_exists. exists name. split; [assumption|].
          apply String.eqb_refl. }
        congruence. }
    apply Hfinish.
    destruct (String.eqb_spec name "style") as [->|Hstyle].
    { destruct stylesIndex as [self|] eqn:Hindex; [|constructor].
      apply (styles_from (Some self) self); [reflexivity|].
      intros item doc. apply (Hkind "style" self); auto. }
    destruct (String.eqb_spec name "color") as [->|Hcolor].
    { destruct colorsIndex as [self|] eqn:Hindex; [|constructor].
      apply (styles_from (Some self) self); [reflexivity|].
      intros item doc. apply (Hkind "color" self); auto. }
    destruct (String.eqb_spec name "typography") as [->|Htypo].
    { destruct typographyIndex as [self|] eqn:Hindex; [|constructor].
      apply (styles_from (Some self) self); [reflexivity|].
      intros item doc. apply (Hkind "typography" self); auto 6. }
    assert (name = "prompt") as ->.
    { apply existsb_exists in Hknown as (s & Hs & Heq).
      apply String.eqb_eq in Heq. subst s.
      destruct Hs as [<-|[<-|[<-|[<-|[]]]]]; congruence. }
    destruct promptsIndex as [self|] eqn:Hindex; [|constructor].
    apply (styles_from (Some self) self); [reflexivity|].
    intros item doc. apply (Hkind "prompt" self); auto 6.
  - apply Hfinish.
    apply fold_left_invariant; [constructor|].
    intros acc d Hd Hacc. apply Forall_app. split; [assumption|].
    destruct Hd as [<-|[<-|[<-|[<-|[]]]]];
      cbn [String.eqb Ascii.eqb Bool.eqb].
    + destruct stylesIndex as [self|] eqn:Hindex; [|constructor].
      apply (styles_from (Some self) self); [reflexivity|].
      intros item doc. apply (Hkind "style" self); auto.
    + destruct colorsIndex as [self|] eqn:Hindex; [|constructor].
      apply (styles_from (Some self) self); [reflexivity|].
      intros item doc. apply (Hkind "color" self); auto.
    + destruct typographyIndex as [self|] eqn:Hindex; [|constructor].
      apply (styles_from (Some self) self); [reflexivity|].
      intros item doc. apply (Hkind "typography" self); auto 6.
    + destruct promptsIndex as [self|] eqn:Hindex; [|constructor].
      apply (styles_from (Some self) self); [reflexivity|].
      intros item doc. apply (Hkind "prompt" self); auto 6.
Qed.

End StylesTool.

Section PlatformsTool.
Import JS Tables Handlers.

Lemma lookup_entry {V} (table : list (string * V)) (key : string) (v : V) :
  lookup table key = Some v -> In (key, v) table.
Proof.
  unfold lookup. destruct (List.find _ table) as [[k v']|] eqn:Hfind;
    [|discriminate].
  intros [= <-]. apply find_some in Hfind as [Hin Heq].
  apply String.eqb_eq in Heq. simpl in Heq. now subst k.
Qed.

(** [searchPlatforms] validates the input before the platform name.  With
    a name it fails when the lower-cased and trimmed name is not an
    available platform or has no index, and otherwise answers from that
    index; without a name it merges the results of all platform indexes
    and writes the name of the platform into the data of every record.
    In both cases the answer has at most [maxResults] records (5 when
    absent) in descending order of score, each from a document of a
    platform index with a positive score. *)
Theorem searchPlatforms_answer (platformIndexes : list (string * BM25.t))
    (query : option string) (platformName : option string)
    (maxResults : option Q) :
  let validation :=
    validateSearchInput query
      (match maxResults with None => Some 5%Q | m => m end) in
  match searchPlatforms platformIndexes query platformName maxResults with
  | Failure error =>
      (ValidationResult.valid validation = false
       /\ ValidationResult.error validation = Some error)
      \/ (ValidationResult.valid validation = true
          /\ exists name,
               platformName = Some name
               /\ ((~ In (trim (toLowerCase name)) Loader.AVAILABLE_PLATFORMS
                    /\ error
                       = "Unknown platform: " ++ dquote
                         ++ trim (toLowerCase name) ++ dquote
                         ++ ". Available platforms: "
                         ++ join ", " Loader.AVAILABLE_PLATFORMS)
                   \/ (In (trim (toLowerCase name)) Loader.AVAILABLE_PLATFORMS
                       /\ lookup platformIndexes (trim (toLowerCase name))
                          = None
                       /\ error = "Platform index not initialized for: "
                                  ++ trim (toLowerCase name))))
  | Hits items =>
      ValidationResult.valid validation = true
      /\ (Z.of_nat (List.length items) <= ValidationResult.maxResults validation
          <= 50)%Z
      /\ StronglySorted (fun a b => (Scored.score b <= Scored.score a)%R) items
      /\ Forall (fun item =>
                   (Scored.score item > 0)%R
                   /\ exists platform self doc,
                        In (platform, self) platformIndexes
                        /\ In doc (BM25.documents self)
                        /\ match platformName with
                           | Some name =>
                               platform = trim (toLowerCase name)
                               /\ In platform Loader.AVAILABLE_PLATFORMS
                               /\ Scored.data item = BM25.data doc
                           | None =>
                               Scored.data item
                               = <["_platform" := platform]> (BM25.data doc)
                           end)
           items
  end.
Proof.
  intros validation. unfold searchPlatforms. fold validation.
  destruct (ValidationResult.valid validation) eqn:Hvalid; cbn [negb].
  2:{ left. split; [reflexivity|].
      destruct (invalid_message _ _ Hvalid) as [message Hmessage].
      fold validation in Hmessage. now rewrite Hmessage. }
  pose proof (validateSearchInput_range _ _ Hvalid) as Hrange.
  fold validation in Hrange. cbv zeta.
  set (n := ValidationResult.maxResults validation) in *.
  destruct platformName as [name|].
  - set (platformNameStr := trim (toLowerCase name)).
    destruct (existsb (String.eqb platformNameStr) Loader.AVAILABLE_PLATFORMS)
      eqn:Hknown; cbn [negb].
    2:{ right. split; [reflexivity|]. exists name. split; [reflexivity|].
        left. split; [|reflexivity]. intros Hin.
        assert (Hex : existsb (String.eqb platformNameStr)
                        Loader.AVAILABLE_PLATFORMS = true).
        { apply existsb_exists. exists platformNameStr. split; [assumption|].
          apply String.eqb_refl. }
        congruence. }
    assert (Hin : In platformNameStr Loader.AVAILABLE_PLATFORMS).
    { apply existsb_exists in Hknown as (s & Hs & Heq).
      apply String.eqb_eq in Heq. now subst s. }
    destruct (lookup platformIndexes platformNameStr) as [self|] eqn:Hindex.
    2:{ right. split; [reflexivity|]. exists name. split; [reflexivity|].
        right. auto. }
    apply lookup_entry in Hindex.
    split; [reflexivity|]. rewrite length_map. split; [|split].
    + split; [apply search_length|]; lia.
    + apply StronglySorted_map, search_sorted.
    + apply List.Forall_forall. intros item (r & <- & Hr)%in_map_iff.
      apply search_from_index in Hr as [Hdoc Hpos].
      split; [exact Hpos|].
      exists platformNameStr, self, (BM25.SearchResult.document r). auto.
  - match goal with
    | |- context [slice0 n (sort boostedAfter ?results)] =>
        assert (Hall : Forall
          (fun item =>
             (Scored.score item > 0)%R
             /\ exists platform self doc,
                  In (platform, self) platformIndexes
                  /\ In doc (BM25.documents self)
                  /\ Scored.data item
                     = <["_platform" := platform]> (BM25.data doc))
          results)
    end.
    { apply fold_left_invariant; [constructor|].
      intros acc [platform self] Hentry Hacc.
      apply Forall_app. split; [assumption|].
      apply List.Forall_forall. intros item (r & <- & Hr)%in_map_iff.
      apply search_from_index in Hr as [Hdoc Hpos].
      split; [exact Hpos|].
      now exists platform, self, (BM25.SearchResult.document r). }
    destruct (ranked_scored _ n _ ltac:(lia) Hall) as (Hlen & Hsorted & Hall').
    repeat split; auto; lia.
Qed.

End PlatformsTool.

Section PageIntentMore.
Import JS Tables Handlers PageIntentSpec IntentSpec.
Local Open Scope Q_scope.

Lemma splitGo_substring (s : string) :
  forall insep cur t,
    In t (splitGo insep cur s) ->
    exists head tail, (cur ++ s = head ++ t ++ tail)%string.
Proof.
  induction s as [|c s IH]; intros insep cur t; simpl.
  - intros [<-|[]]. exists ""%string, ""%string.
    now rewrite append_nil_l, !append_nil_r.
  - destruct (isSpaceChar c).
    + assert (Hrest : In t (splitGo true "" s) ->
                exists head tail,
                  (cur ++ String c s = head ++ t ++ tail)%string).
      { intros (head & tail & Heq)%IH. rewrite append_nil_l in Heq.
        exists (cur ++ String c head)%string, tail.
        rewrite Heq, append_assoc. f_equal; try now rewrite append_cons. }
      destruct insep; [exact Hrest|].
      intros [<-|Hin]; [|now apply Hrest].
      exists ""%string, (String c s). now rewrite append_nil_l.
    + intros (head & tail & Heq)%IH. exists head, tail.
      rewrite <- Heq, append_assoc. f_equal;
        try now rewrite append_cons, append_nil_l.
Qed.

Lemma splitWs_includes (s t : string) :
  In t (splitWs s) -> includes s t = true.
Proof.
  intros (head & tail & Heq)%splitGo_substring.
  rewrite append_nil_l in Heq. apply includes_spec. now exists head, tail.
Qed.

Lemma intent_table :
  Forall (fun entry =>
            In (fst entry) ["landing"; "dashboard"; "page"]%string
            /\ Forall (fun g => 0 <= groupWeight g <= 1) (snd entry))
    PAGE_INTENT_KEYWORDS.
Proof.
  repeat (apply List.Forall_cons || apply List.Forall_nil); split;
    try (simpl; tauto);
    repeat (apply List.Forall_cons || apply List.Forall_nil);
    split; unfold Qle; simpl; lia.
Qed.

Lemma positionConfidence_bounds (weight : Q) (wordPosition : nat) :
  weight <= 1 -> 0.3 <= positionConfidence weight wordPosition <= 1.
Proof.
  intros Hw. unfold positionConfidence, round.
  set (penalty := Qmin 0.3 (inject_Z (Z.of_nat wordPosition) * 0.05)).
  assert (Hpenalty : 0 <= penalty).
  { unfold penalty. apply Q.min_glb; [qlra|].
    apply Qmult_le_0_compat; [|qlra].
    change 0 with (inject_Z 0). rewrite <- Zle_Qle. lia. }
  set (x := Qmax 0.3 (weight - penalty)).
  assert (Hx : 0.3 <= x <= 1).
  { unfold x. split; [apply Q.le_max_l|]. apply Q.max_lub; qlra. }
  assert (Hlo : (Qfloor 30 <= Qfloor (x * 100 + (1 # 2)))%Z)
    by (apply Qfloor_resp_le; qlra).
  assert (Hhi : (Qfloor (x * 100 + (1 # 2)) <= Qfloor (100 + (1 # 2)))%Z)
    by (apply Qfloor_resp_le; qlra).
  change (Qfloor 30) with 30%Z in Hlo.
  change (Qfloor (100 + (1 # 2))) with 100%Z in Hhi.
  rewrite Zle_Qle in Hlo, Hhi.
  set (k := inject_Z (Qfloor (x * 100 + (1 # 2)))) in *.
  change (inject_Z 30) with 30 in Hlo. change (inject_Z 100) with 100 in Hhi.
  split; [apply Qle_shift_div_l | apply Qle_shift_div_r]; qlra.
Qed.

Lemma isIntentKeyword_table (intentType keyword : string) (weight : Q) :
  isIntentKeyword intentType keyword weight ->
  In intentType ["landing"; "dashboard"; "page"]%string /\ weight <= 1.
Proof.
  intros (groups & g & Hentry & Hg & _ & ->).
  pose proof intent_table as Htable. rewrite List.Forall_forall in Htable.
  destruct (Htable _ Hentry) as [Hintent Hgroups]. simpl in *.
  rewrite List.Forall_forall in Hgroups. split; [assumption|].
  now apply Hgroups.
Qed.

Lemma singleWordMatch_table (token intentType keyword : string) (weight : Q) :
  singleWordMatch token = Some (intentType, keyword, weight) ->
  isIntentKeyword intentType keyword weight.
Proof.
  unfold singleWordMatch. intros [Hin _]%find_some.
  apply in_flat_map in Hin as ([intent groups] & Hentry & Hin).
  apply in_flat_map in Hin as (g & Hg & Hin).
  apply in_map_iff in Hin as (k & [= <- <- <-] & Hk).
  now exists groups, g.
Qed.

Lemma scanTokens_result (tokens : list string) (i : nat)
    (result : PageIntentResult.t) :
  scanTokens i tokens = Some result ->
  exists keyword weight,
    PageIntentResult.matchedKeyword result = Some keyword
    /\ In keyword tokens
    /\ isIntentKeyword (PageIntentResult.intent result) keyword weight
    /\ 0.3 <= PageIntentResult.confidence result <= 1
    /\ (0 <= PageIntentResult.position result)%Z
    /\ PageIntentResult.warnings result = [].
Proof.
  revert i. induction tokens as [|token tokens IH]; intros i; simpl;
    [discriminate|].
  destruct (singleWordMatch token) as [[[intentType keyword] weight]|] eqn:Hm.
  - intros [= <-]. simpl.
    pose proof (singleWordMatch_table _ _ _ _ Hm) as Hkey.
    destruct (isIntentKeyword_table _ _ _ Hkey) as [_ Hweight].
    destruct (singleWordMatch_token _ _ _ _ Hm) as [-> _].
    exists token, weight. split; [reflexivity|]. split; [now left|].
    split; [assumption|]. split; [now apply positionConfidence_bounds|].
    split; [lia | reflexivity].
  - intros (keyword & weight & H1 & H2 & H3)%IH.
    exists keyword, weight. split; [assumption|]. split; [now right|].
    assumption.
Qed.

(** The answers of [classifyPageIntent]: the unknown intent, or a key word
    of the table that occurs in the trimmed lower-cased query. *)
Lemma classifyPageIntent_cases (query : string) :
  classifyPageIntent query = unknownIntent
  \/ exists keyword weight,
       PageIntentResult.matchedKeyword (classifyPageIntent query) = Some keyword
       /\ includes (trim (toLowerCase query)) keyword = true
       /\ isIntentKeyword (PageIntentResult.intent (classifyPageIntent query))
            keyword weight
       /\ 0.3 <= PageIntentResult.confidence (classifyPageIntent query) <= 1
       /\ (0 <= PageIntentResult.position (classifyPageIntent query))%Z
       /\ PageIntentResult.warnings (classifyPageIntent query) = [].
Proof.
  unfold classifyPageIntent.
  set (lowerQuery := trim (toLowerCase query)).
  destruct (sort phraseAfter (phraseMatches lowerQuery)) as [|best rest] eqn:Hsort.
  - destruct (scanTokens 0 (splitWs lowerQuery)) as [result|] eqn:Hscan;
      [|now left].
    right. apply scanTokens_result in Hscan
      as (keyword & weight & H1 & H2 & H3).
    exists keyword, weight. split; [assumption|].
    split; [now apply splitWs_includes | assumption].
  - right. cbn [PageIntentResult.intent PageIntentResult.confidence
                PageIntentResult.position PageIntentResult.warnings
                PageIntentResult.matchedKeyword].
    assert (Hin : In best (phraseMatches lowerQuery)).
    { apply (sort_In phraseAfter). rewrite Hsort. now left. }
    apply phraseMatches_In in Hin
      as (_ & Hpos & groups & g & Hentry & Hg & Hk & Hweight).
    assert (Hkey : isIntentKeyword (PhraseMatch.intent best)
                     (PhraseMatch.phrase best) (PhraseMatch.weight best))
      by now exists groups, g.
    destruct (isIntentKeyword_table _ _ _ Hkey) as [_ Hle].
    exists (PhraseMatch.phrase best), (PhraseMatch.weight best).
    split; [reflexivity|].
    split; [unfold includes; now rewrite Hpos|].
    split; [assumption|]. split; [now apply positionConfidence_bounds|].
    split; [lia | reflexivity].
Qed.

(** Whatever the query, [classifyPageIntent] either reports the unknown
    intent (confidence 0, no key word, position -1, one warning) or one of
    the intents landing, dashboard and page, with a confidence between 0.3
    and 1, a position that is not negative, no warning, and a matched key
    word that occurs in the trimmed lower-cased query. *)
Theorem classifyPageIntent_result (query : string) :
  let r := classifyPageIntent query in
  r = unknownIntent
  \/ (In (PageIntentResult.intent r) ["landing"; "dashboard"; "page"]%string
      /\ 0.3 <= PageIntentResult.confidence r <= 1
      /\ (0 <= PageIntentResult.position r)%Z
      /\ PageIntentResult.warnings r = []
      /\ exists keyword,
           PageIntentResult.matchedKeyword r = Some keyword
           /\ includes (trim (toLowerCase query)) keyword = true).
Proof.
  cbv zeta.
  destruct (classifyPageIntent_cases query)
    as [Hunknown|(keyword & weight & H1 & H2 & H3 & H4 & H5 & H6)];
    [now left|].
  right. destruct (isIntentKeyword_table _ _ _ H3) as [Hintent _].
  split; [assumption|]. split; [assumption|]. split; [assumption|].
  split; [assumption|]. now exists keyword.
Qed.

End PageIntentMore.

Section PlatformIntentMore.
Import JS Tables Handlers ClassifierSpec PageIntentSpec IntentSpec.
Local Open Scope Q_scope.

Lemma bestPlatform_snoc (scores : list (string * (Q * list string)))
    (entry : string * (Q * list string)) :
  bestPlatform (scores ++ [entry])
  = let '(bestPlatform, bestScore, bestKeywords) := bestPlatform scores in
    if Qgtb (scoreOf entry) bestScore
    then (fst entry, scoreOf entry, snd (snd entry))
    else (bestPlatform, bestScore, bestKeywords).
Proof.
  unfold bestPlatform. rewrite fold_left_app. simpl.
  destruct (fold_left _ scores _) as [[bp bs] bk].
  now destruct entry as [p [s k]].
Qed.

(** The loop that finds the highest scoring platform: the first entry
    with the highest score, when that score is positive. *)
Lemma bestPlatform_first (scores : list (string * (Q * list string))) :
  (forall entry, In entry scores -> 0 <= scoreOf entry) ->
  let '(platform, score, keywords) := bestPlatform scores in
  (forall entry, In entry scores -> scoreOf entry <= score)
  /\ ((score == 0 /\ platform = "web"%string /\ keywords = [])
      \/ (0 < score
          /\ exists before after,
               scores = (before ++ (platform, (score, keywords)) :: after)%list
               /\ forall entry, In entry before -> scoreOf entry < score)).
Proof.
  induction scores as [|entry scores IH] using rev_ind; intros Hnonneg.
  - simpl. split; [intros entry []|]. left. repeat split; qlra.
  - rewrite bestPlatform_snoc.
    assert (Hscores : forall e, In e scores -> 0 <= scoreOf e)
      by (intros e He; apply Hnonneg, in_or_app; now left).
    specialize (IH Hscores).
    destruct (bestPlatform scores) as [[bp bs] bk].
    destruct IH as [Hmax Hbest].
    assert (Hbs : 0 <= bs).
    { destruct Hbest as [[Hzero _]|[Hpos _]]; qlra. }
    destruct (Qgtb (scoreOf entry) bs) eqn:Hgt.
    + apply Qgtb_true in Hgt. split.
      * intros e [He|[<-|[]]]%in_app_or; [|qlra].
        specialize (Hmax e He). qlra.
      * right. split; [qlra|]. exists scores, []. split.
        -- now destruct entry as [p [s k]].
        -- intros e He. specialize (Hmax e He). qlra.
    + apply Qgtb_false in Hgt. split.
      * intros e [He|[<-|[]]]%in_app_or; [now apply Hmax | assumption].
      * destruct Hbest as [Hzero|(Hpos & before & after & -> & Hbefore)];
          [now left|].
        right. split; [assumption|].
        exists before, (after ++ [entry])%list.
        split; [|assumption]. now rewrite <- app_assoc.
Qed.


Lemma platformWeights_positive :
  forallb (fun c => forallb (fun e => Qgtb (weight e) 0) (snd c))
    PLATFORM_KEYWORDS = true.
Proof. vm_compute. reflexivity. Qed.

Lemma maxFrom_positive (entries : list KeywordEntry) :
  entries <> [] -> Forall (fun e => 0 < weight e) entries ->
  0 < maxFrom 0 entries.
Proof.
  intros Hne Hpos. destruct entries as [|e entries]; [congruence|].
  apply Forall_cons_1 in Hpos as [He _].
  destruct (maxFrom_ge 0 (e :: entries)) as [_ Hge].
  specialize (Hge e (or_introl eq_refl)). qlra.
Qed.

Lemma finalScore_positive (m : Q) (n : nat) :
  0 < m -> (1 <= n)%nat -> 0 < finalScore 0.15 0.05 m n.
Proof.
  intros Hm Hn. unfold finalScore.
  assert (Hboost : 0 <= Qmin 0.15 ((inject_Z (Z.of_nat n) - 1) * 0.05)).
  { apply Q.min_glb; [qlra|]. apply Qmult_le_0_compat; [|qlra].
    assert (inject_Z 1 <= inject_Z (Z.of_nat n)) by (rewrite <- Zle_Qle; lia).
    change (inject_Z 1) with 1 in *. qlra. }
  apply Q.min_glb_lt; qlra.
Qed.

(** The scores of the platforms: the platforms of the table in order, each
    with a positive score and its matched key words when one of its key
    words matches, and with score 0 and no key word otherwise. *)
Lemma platformScores_entry (query : string) (entry : string * (Q * list string)) :
  In entry (platformScores (toLowerCase query)) ->
  exists keywords,
    In (fst entry, keywords) PLATFORM_KEYWORDS
    /\ snd (snd entry) = List.map keyword (matched query keywords)
    /\ 0 <= scoreOf entry
    /\ (matched query keywords = [] -> scoreOf entry == 0)
    /\ (matched query keywords <> [] -> 0 < scoreOf entry).
Proof.
  unfold platformScores. intros ([p keywords] & <- & Hin)%in_map_iff.
  exists keywords. unfold scanPlatformKeywords.
  rewrite scanPlatformKeywords_from. fold (matched query keywords).
  cbn [app]. rewrite length_map.
  assert (Hweights : Forall (fun e => 0 < weight e) (matched query keywords)).
  { apply List.Forall_forall. intros e [He _]%filter_In.
    pose proof platformWeights_positive as Htable.
    rewrite forallb_forall in Htable. specialize (Htable _ Hin).
    simpl in Htable. rewrite forallb_forall in Htable.
    now apply Qgtb_true, Htable. }
  destruct (matched query keywords) as [|e es] eqn:Hm;
    cbn [List.map List.length Nat.ltb Nat.leb fst snd].
  - unfold scoreOf. cbn [fst snd].
    split; [assumption|]. split; [reflexivity|]. split; [qlra|].
    split; [intros _; qlra | congruence].
  - unfold scoreOf. cbn [fst snd].
    assert (Hpos : 0 < finalScore 0.15 0.05 (maxFrom 0 (e :: es))
                         (S (List.length es))).
    { apply finalScore_positive; [|lia].
      apply maxFrom_positive; [discriminate | assumption]. }
    split; [assumption|]. split; [reflexivity|]. split; [qlra|].
    split; [discriminate | intros _; exact Hpos].
Qed.



(** Without a matched key word [detectPlatformIntent] gives the default. *)
Lemma detectPlatformIntent_default (query : string) :
  (forall platform keywords,
      In (platform, keywords) PLATFORM_KEYWORDS ->
      matched query keywords = []) ->
  detectPlatformIntent query = defaultPlatform.
Proof.
  intros Hnone.
  set (scores := platformScores (toLowerCase query)).
  assert (Hentries : forall entry, In entry scores -> 0 <= scoreOf entry).
  { intros entry (keywords & _ & _ & H & _)%platformScores_entry. exact H. }
  pose proof (bestPlatform_first scores Hentries) as Hbest.
  unfold detectPlatformIntent. fold scores.
  destruct (bestPlatform scores) as [[bp bs] bk].
  destruct Hbest as [_ Hbest].
  destruct (Qeq_bool bs 0) eqn:Hzero; [reflexivity|].
  exfalso.
  assert (Hnz : ~ bs == 0).
  { intros H. apply Qeq_bool_iff in H. congruence. }
  destruct Hbest as [[H _]|(Hpos & before & after & Hsplit & _)];
    [contradiction|].
  assert (Hin : In (bp, (bs, bk)) scores)
    by (rewrite Hsplit; apply in_or_app; right; now left).
  apply platformScores_entry in Hin as (keywords & Hkeys & _ & _ & Hzero' & _).
  cbn [fst snd scoreOf] in *. apply Hnz, Hzero'. now apply (Hnone bp).
Qed.


End PlatformIntentMore.

Section ConflictingIntents.
Import JS Tables Handlers PageIntentSpec ExpansionSpec IntentSpec.

Lemma mentions_spec (normalizedQuery : string) (groups : list IntentGroup) :
  mentions normalizedQuery groups = true
  <-> exists keyword,
        In keyword (flat_map keywords groups)
        /\ includes normalizedQuery keyword = true.
Proof.
  unfold mentions. rewrite existsb_exists. split.
  - intros (g & Hg & (keyword & Hk & Hinc)%existsb_exists).
    exists keyword. split; [|assumption]. apply in_flat_map. now exists g.
  - intros (keyword & (g & Hg & Hk)%in_flat_map & Hinc).
    exists g. split; [assumption|]. apply existsb_exists. now exists keyword.
Qed.

Lemma includes_append (s t k : string) :
  includes s k = true -> includes (s ++ t) k = true.
Proof.
  rewrite !includes_spec. intros (head & tail & ->).
  exists head, (tail ++ t)%string. now rewrite !append_assoc.
Qed.

Lemma includes_within (s head tail k : string) :
  includes s k = true -> includes (head ++ s ++ tail) k = true.
Proof.
  rewrite !includes_spec. intros (h & t & ->).
  exists (head ++ h)%string, (t ++ tail)%string. now rewrite !append_assoc.
Qed.

Lemma trim_within (s : string) :
  exists head tail, (s = head ++ trim s ++ tail)%string.
Proof.
  destruct (dropSpaces_suffix s) as [head Hhead].
  destruct (dropSpaces_suffix (revString "" (dropSpaces s))) as [p Hp].
  apply (f_equal (revString "")) in Hp.
  rewrite revString_involutive, revString_append in Hp.
  exists head, (revString "" p). unfold trim. now rewrite <- Hp.
Qed.

Lemma toLowerCase_append (s t : string) :
  toLowerCase (s ++ t) = (toLowerCase s ++ toLowerCase t)%string.
Proof. apply mapChars_append. Qed.

Lemma isIntentKeyword_listed (intentType keyword : string) (weight : Q) :
  In intentType ["landing"; "dashboard"]%string ->
  isIntentKeyword intentType keyword weight ->
  In keyword (intentKeywords intentType).
Proof.
  intros Hname (groups & g & Hentry & Hg & Hk & _).
  unfold intentKeywords. apply in_flat_map. exists g. split; [|assumption].
  assert (Hlookup : lookup PAGE_INTENT_KEYWORDS intentType = Some groups).
  { destruct (lookup PAGE_INTENT_KEYWORDS intentType) as [groups'|] eqn:Hl.
    - apply lookup_entry in Hl. f_equal.
      eapply keys_unique; [|exact Hl | exact Hentry].
      apply NoDup_ListNoDup, (bool_decide_unpack _). vm_compute. exact I.
    - destruct Hname as [<-|[<-|[]]]; discriminate. }
  now rewrite Hlookup.
Qed.

(** [hasConflictingIntents] holds exactly when some landing key word and
    some dashboard key word both occur, as substrings, in the lower-cased
    query.  A conflict of the query is still there after expansion, and
    whenever [classifyPageIntent] finds a landing (or dashboard) intent, a
    landing (dashboard) key word occurs in the query. *)
Theorem hasConflictingIntents_spec (query : string) :
  (hasConflictingIntents query = true
   <-> (exists landing,
           In landing (intentKeywords "landing")
           /\ includes (toLowerCase query) landing = true)
       /\ (exists dashboard,
              In dashboard (intentKeywords "dashboard")
              /\ includes (toLowerCase query) dashboard = true))
  /\ (hasConflictingIntents query = true ->
      hasConflictingIntents (expandQuery query) = true)
  /\ (forall intentType,
        In intentType ["landing"; "dashboard"]%string ->
        PageIntentResult.intent (classifyPageIntent query) = intentType ->
        exists keyword,
          In keyword (intentKeywords intentType)
          /\ includes (toLowerCase query) keyword = true).
Proof.
  assert (Hspec : forall q,
    hasConflictingIntents q = true
    <-> (exists landing,
            In landing (intentKeywords "landing")
            /\ includes (toLowerCase q) landing = true)
        /\ (exists dashboard,
               In dashboard (intentKeywords "dashboard")
               /\ includes (toLowerCase q) dashboard = true)).
  { intros q. unfold hasConflictingIntents.
    now rewrite andb_true_iff, !mentions_spec. }
  split; [apply Hspec|]. split.
  - rewrite !Hspec, expandQuery_form.
    rewrite toLowerCase_append.
    intros [(l & Hl & Hlinc) (d & Hd & Hdinc)]. split.
    + exists l. split; [assumption|]. now apply includes_append.
    + exists d. split; [assumption|]. now apply includes_append.
  - intros intentType Hname Hintent.
    destruct (classifyPageIntent_cases query)
      as [Hunknown|(keyword & weight & _ & Hinc & Hkey & _)].
    { rewrite Hunknown in Hintent. simpl in Hintent. subst intentType.
      destruct Hname as [H|[H|[]]]; discriminate. }
    rewrite Hintent in Hkey. exists keyword.
    split; [now apply (isIntentKeyword_listed _ _ weight)|].
    destruct (trim_within (toLowerCase query)) as (head & tail & Heq).
    rewrite Heq. now apply includes_within.
Qed.

End ConflictingIntents.

Section ContrastFacts.
Import JS Tables Handlers.
Local Open Scope Q_scope.

Lemma hexDigit_plain (c : ascii) (d : Z) :
  hexDigit c = Some d ->
  isSpaceChar c = false
  /\ c <> "-"%char /\ c <> "+"%char /\ c <> "x"%char /\ c <> "X"%char
  /\ (0 <= d <= 15)%Z.
Proof.
  destruct c as [[] [] [] [] [] [] [] []]; vm_compute; intros [= <-];
    repeat split; congruence.
Qed.

(** Two hexadecimal digits read as a number. *)
Lemma parseInt16_pair (hi lo : ascii) (h l : Z) :
  hexDigit hi = Some h -> hexDigit lo = Some l ->
  parseInt16 (String hi (String lo "")) = Some (16 * h + l)%Z.
Proof.
  intros Hhi Hlo.
  destruct (hexDigit_plain _ _ Hhi) as (Hspace & Hminus & Hplus & _ & _ & Hh).
  destruct (hexDigit_plain _ _ Hlo) as (_ & _ & _ & Hx & HX & _).
  unfold parseInt16. simpl dropSpaces. rewrite Hspace.
  assert (Hsign : match String hi (String lo "") with
                  | String "-"%char s' => ((-1)%Z, s')
                  | String "+"%char s' => (1%Z, s')
                  | _ => (1%Z, String hi (String lo ""))
                  end = (1%Z, String hi (String lo ""))).
  { destruct hi as [[] [] [] [] [] [] [] []]; try reflexivity; congruence. }
  rewrite Hsign.
  assert (Hprefix : match String hi (String lo "") with
                    | String "0"%char (String x s') =>
                        if Ascii.eqb x "x"%char || Ascii.eqb x "X"%char
                        then s' else String hi (String lo "")
                    | _ => String hi (String lo "")
                    end = String hi (String lo "")).
  { destruct (Ascii.eqb_spec lo "x"%char); [contradiction|].
    destruct (Ascii.eqb_spec lo "X"%char); [contradiction|].
    destruct hi as [[] [] [] [] [] [] [] []]; reflexivity. }
  rewrite Hprefix. simpl. rewrite Hhi. simpl. rewrite Hlo. simpl.
  f_equal. lia.
Qed.

(** [calculateContrastText] answers with one of two colours.  For a colour
    of six hexadecimal digits it answers with the dark text when
    [299 r + 587 g + 114 b] is above 127500 (a luminance above 0.5) and
    with the white text when it is below.  A colour of three digits is
    read as the colour of six digits with every digit doubled, and a text
    that does not start with [#] gets the dark text. *)
Theorem calculateContrastText_luminance :
  (forall bgColor,
      calculateContrastText bgColor = "#0F172A"%string
      \/ calculateContrastText bgColor = "#FFFFFF"%string)
  /\ (forall c1 c2 c3 c4 c5 c6 d1 d2 d3 d4 d5 d6,
        hexDigit c1 = Some d1 -> hexDigit c2 = Some d2 ->
        hexDigit c3 = Some d3 -> hexDigit c4 = Some d4 ->
        hexDigit c5 = Some d5 -> hexDigit c6 = Some d6 ->
        let weighted :=
          (299 * (16 * d1 + d2) + 587 * (16 * d3 + d4)
           + 114 * (16 * d5 + d6))%Z in
        let bgColor :=
          String "#"
            (String c1 (String c2 (String c3 (String c4 (String c5
               (String c6 ""))))))%string in
        ((127500 < weighted)%Z ->
         calculateContrastText bgColor = "#0F172A"%string)
        /\ ((weighted < 127500)%Z ->
            calculateContrastText bgColor = "#FFFFFF"%string))
  /\ (forall c1 c2 c3,
        calculateContrastText (String "#" (String c1 (String c2 (String c3 ""))))
        = calculateContrastText
            (String "#"
               (String c1 (String c1 (String c2 (String c2 (String c3
                  (String c3 ""))))))))
  /\ (forall c rest,
        c <> "#"%char ->
        calculateContrastText (String c rest) = "#0F172A"%string)
  /\ calculateContrastText "" = "#0F172A"%string.
Proof.
  split; [|split; [|split; [|split]]].
  - intros bgColor. unfold calculateContrastText.
    destruct bgColor as [|c hex]; [now left|].
    destruct (Ascii.eqb_spec c "#"%char) as [->|Hc].
    + destruct (parseInt16 _) as [r|]; [|now right].
      destruct (parseInt16 _) as [g|]; [|now right].
      destruct (parseInt16 _) as [b|]; [|now right].
      destruct (Qgtb _ _); auto.
    + left. destruct c as [[] [] [] [] [] [] [] []]; try reflexivity.
      congruence.
  - intros c1 c2 c3 c4 c5 c6 d1 d2 d3 d4 d5 d6 H1 H2 H3 H4 H5 H6
           weighted bgColor.
    unfold bgColor, calculateContrastText.
    cbn [String.length Nat.eqb String.substring].
    rewrite (parseInt16_pair _ _ _ _ H1 H2), (parseInt16_pair _ _ _ _ H3 H4),
      (parseInt16_pair _ _ _ _ H5 H6).
    set (r := (16 * d1 + d2)%Z). set (g := (16 * d3 + d4)%Z).
    set (b := (16 * d5 + d6)%Z). fold r g b in weighted.
    assert (Hlum : (0.299 * inject_Z r + 0.587 * inject_Z g + 0.114 * inject_Z b)
                   / 255
                   == inject_Z weighted / 255000).
    { unfold weighted. rewrite !inject_Z_plus, !inject_Z_mult. field. }
    split; intros Hw.
    + assert (Hgt : Qgtb ((0.299 * inject_Z r + 0.587 * inject_Z g
                           + 0.114 * inject_Z b) / 255) 0.5 = true).
      { apply Qgtb_true. rewrite Hlum. apply Qlt_shift_div_l; [reflexivity|].
        assert (inject_Z 127500 < inject_Z weighted) by (now rewrite <- Zlt_Qlt).
        change (inject_Z 127500) with 127500 in *. qlra. }
      now rewrite Hgt.
    + assert (Hle : Qgtb ((0.299 * inject_Z r + 0.587 * inject_Z g
                           + 0.114 * inject_Z b) / 255) 0.5 = false).
      { apply Qgtb_false. rewrite Hlum. apply Qle_shift_div_r; [reflexivity|].
        assert (inject_Z weighted < inject_Z 127500) by (now rewrite <- Zlt_Qlt).
        change (inject_Z 127500) with 127500 in *. qlra. }
      now rewrite Hle.
  - reflexivity.
  - intros c rest Hc. unfold calculateContrastText.
    destruct c as [[] [] [] [] [] [] [] []]; try reflexivity. congruence.
  - reflexivity.
Qed.

End ContrastFacts.

Section PlatformParameter.
Import JS Tables Handlers ClassifierSpec IntentSpec.
Local Open Scope Q_scope.

Lemma givenPlatform_code (platform : option string) :
  match platform with
  | Some platform =>
      if (0 <? String.length platform)%nat
      then Some (toLowerCase platform) else None
  | None => None
  end = givenPlatform platform.
Proof. now destruct platform as [[|c p]|]. Qed.

Lemma output_settings (resolved : string) :
  (resolved = "web"%string -> getPlatformSpecificOutput resolved = webOutput)
  /\ (resolved <> "web"%string ->
      isMobileOutput (getPlatformSpecificOutput resolved)).
Proof.
  unfold getPlatformSpecificOutput, isMobileOutput. split.
  - now intros ->.
  - intros Hne. destruct (String.eqb_spec resolved "web"); [contradiction|].
    cbn. tauto.
Qed.

(** The platform argument of [getDesignSystem].  It is refused exactly
    when it is not empty and, lower-cased, is none of the eight platform
    parameters.  A parameter that names a cross-platform framework
    (flutter, react-native, expo) sets the framework only: the platform
    and its confidence stay those of the key word detection, so that with
    a query without platform key word the platform is the web, with
    confidence 0.3 and the output settings of the web.  Any other
    parameter replaces the detected platform by web, mobile-ios,
    mobile-android or mobile-generic, with confidence 1.  Without a
    parameter everything is as detected.  The output settings are those
    of the web for the web and those of a mobile platform otherwise, and
    the parameter is added to the key words unless it is one of them. *)
Theorem platformParameter_resolved (platform : option string)
    (autoDetected : PlatformIntentResult.t) :
  let answer := platformMeta platform autoDetected in
  ((exists error, answer = Rejected error)
   <-> exists p, givenPlatform platform = Some p /\ ~ In p validPlatforms)
  /\ (forall meta,
        answer = Resolved meta ->
        PlatformMeta.specified_platform meta = givenPlatform platform
        /\ PlatformMeta.resolved_platform meta
           = PlatformMeta.detected_platform meta
        /\ (PlatformMeta.resolved_platform meta = "web"%string ->
            PlatformMeta.platform_output meta = webOutput)
        /\ (PlatformMeta.resolved_platform meta <> "web"%string ->
            isMobileOutput (PlatformMeta.platform_output meta))
        /\ (givenPlatform platform = None ->
            PlatformMeta.resolved_platform meta
            = PlatformIntentResult.platform autoDetected
            /\ PlatformMeta.platform_confidence meta
               = PlatformIntentResult.confidence autoDetected
            /\ PlatformMeta.detected_framework meta
               = PlatformIntentResult.framework autoDetected
            /\ PlatformMeta.platform_keywords meta
               = PlatformIntentResult.matched_keywords autoDetected)
        /\ (forall p,
              givenPlatform platform = Some p ->
              PlatformMeta.platform_keywords meta
              = (PlatformIntentResult.matched_keywords autoDetected
                 ++ (if bool_decide
                          (p ∈ PlatformIntentResult.matched_keywords
                                  autoDetected)
                     then [] else [p]))%list
              /\ (In p frameworkParameters ->
                  PlatformMeta.resolved_platform meta
                  = PlatformIntentResult.platform autoDetected
                  /\ PlatformMeta.platform_confidence meta
                     = PlatformIntentResult.confidence autoDetected
                  /\ PlatformMeta.detected_framework meta
                     = Some (if String.eqb p "flutter"
                             then "flutter"%string else "react-native"%string))
              /\ (~ In p frameworkParameters ->
                  In (PlatformMeta.resolved_platform meta)
                    [ "web"; "mobile-ios"; "mobile-android";
                      "mobile-generic" ]%string
                  /\ (PlatformMeta.resolved_platform meta = "web"%string
                      <-> p = "web"%string)
                  /\ PlatformMeta.platform_confidence meta = 1.0
                  /\ PlatformMeta.detected_framework meta
                     = (if String.eqb p "swiftui" then Some "swiftui"%string
                        else PlatformIntentResult.framework autoDetected))))
  /\ (forall query p,
        givenPlatform platform = Some p ->
        In p frameworkParameters ->
        (forall name keywords,
            In (name, keywords) PLATFORM_KEYWORDS ->
            matched query keywords = []) ->
        platformMeta platform (detectPlatformIntent query)
        = Resolved
            {| PlatformMeta.detected_platform := "web";
               PlatformMeta.platform_confidence := 0.3;
               PlatformMeta.platform_keywords := [p];
               PlatformMeta.detected_framework :=
                 Some (if String.eqb p "flutter"
                       then "flutter"%string else "react-native"%string);
               PlatformMeta.specified_platform := Some p;
               PlatformMeta.resolved_platform := "web";
               PlatformMeta.platform_output := webOutput |}).
Proof.
  cbv zeta. unfold platformMeta. rewrite !givenPlatform_code.
  destruct (givenPlatform platform) as [p|] eqn:Hgiven.
  - destruct (existsb (String.eqb p) _) eqn:Hvalid; cbn [negb].
    + assert (Hin : In p validPlatforms).
      { apply existsb_exists in Hvalid as (x & Hx & ->%String.eqb_eq).
        exact Hx. }
      split; [|split].
      * split; [intros [error [=]]|]. intros (q & [= <-] & Hq). contradiction.
      * intros meta [= <-].
        cbn [PlatformMeta.specified_platform PlatformMeta.resolved_platform
             PlatformMeta.detected_platform PlatformMeta.platform_output
             PlatformMeta.platform_confidence PlatformMeta.platform_keywords
             PlatformMeta.detected_framework].
        split; [reflexivity|]. split; [reflexivity|].
        split; [apply output_settings|]. split; [apply output_settings|].
        split; [discriminate|].
        intros q [= <-]. split.
        { f_equal.
          destruct (bool_decide_reflect
                      (p ∈ PlatformIntentResult.matched_keywords autoDetected))
            as [Hel|Hel].
          - replace (existsb (String.eqb p) _) with true; [reflexivity|].
            symmetry. apply existsb_exists. exists p.
            split; [now apply list_elem_of_In|apply String.eqb_refl].
          - replace (existsb (String.eqb p) _) with false; [reflexivity|].
            symmetry. apply not_true_iff_false.
            intros (x & Hx & ->%String.eqb_eq)%existsb_exists.
            apply Hel. now apply list_elem_of_In. }
        unfold validPlatforms in Hin. cbn [In] in Hin.
        destruct Hin as [<-|[<-|[<-|[<-|[<-|[<-|[<-|[<-|[]]]]]]]]];
          (split;
           [intros Hfw; try (exfalso; cbn in Hfw;
                             intuition discriminate);
            repeat split
           |intros Hfw; try (exfalso; apply Hfw; cbn; tauto);
            cbn; repeat split; try tauto; try congruence;
            try (intros [= ]); try discriminate]).
      * intros query q [= <-] Hfw Hnone.
        rewrite (detectPlatformIntent_default query Hnone).
        cbn in Hfw. destruct Hfw as [<-|[<-|[<-|[]]]]; reflexivity.
    + split; [|split].
      * split; [|intros _; now eexists].
        intros _. exists p. split; [reflexivity|].
        intros Hin. apply not_true_iff_false in Hvalid. apply Hvalid.
        apply existsb_exists. exists p. split; [exact Hin|apply String.eqb_refl].
      * intros meta [=].
      * intros query q [= <-] Hfw _. exfalso.
        apply not_true_iff_false in Hvalid. apply Hvalid.
        apply existsb_exists. exists p. split; [|apply String.eqb_refl].
        cbn in Hfw. cbn. tauto.
  - split; [|split].
    + split; [intros [error [=]]|intros (p & [=] & _)].
    + intros meta [= <-]. cbn.
      split; [reflexivity|]. split; [reflexivity|].
      split; [apply output_settings|]. split; [apply output_settings|].
      split; [tauto|]. intros p [=].
    + intros query p [=].
Qed.

End PlatformParameter.

(** ** The index state *)

Section StateFacts.
Import Loader Handlers StateSpec.

Lemma mapSet_fresh {V} (m : list (string * V)) (key : string) (value : V) :
  ~ In key (List.map fst m) -> mapSet m key value = (m ++ [(key, value)])%list.
Proof.
  induction m as [|[k v] m IH]; intros Hfresh; [reflexivity|].
  cbn [mapSet]. cbn [List.map fst In] in Hfresh.
  destruct (String.eqb_spec k key) as [->|_]; [tauto|].
  cbn [app]. f_equal. apply IH. tauto.
Qed.

Lemma lookup_mapSet {V} (m : list (string * V)) (key name : string) (value : V) :
  Tables.lookup (mapSet m key value) name
  = if String.eqb key name then Some value else Tables.lookup m name.
Proof.
  unfold Tables.lookup.
  induction m as [|[k v] m IH]; cbn [mapSet List.find].
  - cbn [fst]. now destruct (String.eqb key name).
  - destruct (String.eqb_spec k key) as [->|Hk]; cbn [List.find fst].
    + now destruct (String.eqb key name).
    + destruct (String.eqb_spec k name) as [->|Hn].
      * destruct (String.eqb_spec key name) as [->|_]; [congruence|reflexivity].
      * exact IH.
Qed.

(** The data of the stacks or of the platforms: the files with a row, in
    the order of the names. *)
Lemma loadAll_form (load : string -> list Row) (names : list string)
    (acc : list (string * list Row)) :
  List.NoDup names ->
  (forall name, In name names -> ~ In name (List.map fst acc)) ->
  fold_left
    (fun all name =>
       let data := load name in
       if (0 <? List.length data)%nat then mapSet all name data else all)
    names acc
  = (acc ++ List.filter (fun e => (0 <? List.length (snd e))%nat)
              (List.map (fun name => (name, load name)) names))%list.
Proof.
  revert acc. induction names as [|name names IH]; intros acc Hdup Hfresh.
  - cbn. now rewrite app_nil_r.
  - apply List.NoDup_cons_iff in Hdup as [Hname Hdup].
    cbn [fold_left List.map List.filter snd]. cbv zeta.
    destruct (0 <? List.length (load name))%nat eqn:Hdata.
    + rewrite mapSet_fresh by (apply Hfresh; now left).
      rewrite IH; [now rewrite <- app_assoc|assumption|].
      intros other Hin. rewrite List.map_app, in_app_iff.
      cbn [List.map fst In]. intros [Hacc|[->|[]]]; [|tauto].
      apply (Hfresh other); [now right|assumption].
    + apply IH; [assumption|]. intros other Hin. apply Hfresh. now right.
Qed.

Lemma loadStack_available (loadCSV : string -> list Row) (name : string) :
  In name AVAILABLE_STACKS -> loadStack loadCSV name = loadCSV (stackFile name).
Proof.
  intros Hin. unfold loadStack, stackFile.
  repeat (destruct Hin as [<-|Hin]; [reflexivity|]); try contradiction.
Qed.

Lemma loadPlatform_available (loadCSV : string -> list Row) (name : string) :
  In name AVAILABLE_PLATFORMS ->
  loadPlatform loadCSV name = loadCSV (platformFile name).
Proof.
  intros Hin. unfold loadPlatform, platformFile.
  repeat (destruct Hin as [<-|Hin]; [reflexivity|]); try contradiction.
Qed.

Lemma stacks_NoDup : List.NoDup AVAILABLE_STACKS.
Proof. apply NoDup_ListNoDup, (bool_decide_unpack _). vm_compute. exact I. Qed.

Lemma platforms_NoDup : List.NoDup AVAILABLE_PLATFORMS.
Proof. apply NoDup_ListNoDup, (bool_decide_unpack _). vm_compute. exact I. Qed.

Lemma loadAllStacks_form (loadCSV : string -> list Row) :
  loadAllStacks loadCSV
  = present (fun name => loadCSV (stackFile name)) AVAILABLE_STACKS.
Proof.
  unfold loadAllStacks. rewrite loadAll_form; [|apply stacks_NoDup|tauto].
  cbn [app]. unfold present.
  rewrite (List.map_ext_in _ (fun name => (name, loadCSV (stackFile name))));
    [reflexivity|].
  intros name Hin. now rewrite loadStack_available.
Qed.

Lemma loadAllPlatforms_form (loadCSV : string -> list Row) :
  loadAllPlatforms loadCSV
  = present (fun name => loadCSV (platformFile name)) AVAILABLE_PLATFORMS.
Proof.
  unfold loadAllPlatforms. rewrite loadAll_form; [|apply platforms_NoDup|tauto].
  cbn [app]. unfold present.
  rewrite (List.map_ext_in _ (fun name => (name, loadCSV (platformFile name))));
    [reflexivity|].
  intros name Hin. now rewrite loadPlatform_available.
Qed.

Lemma present_In (load : string -> list Row) (names : list string)
    (name : string) (rows : list Row) :
  In (name, rows) (present load names)
  <-> In name names /\ rows = load name /\ rows <> [].
Proof.
  unfold present. rewrite List.filter_In, in_map_iff. cbn [snd]. split.
  - intros [(n & [= <- <-] & Hin) Hlen]. split; [assumption|].
    split; [reflexivity|]. intros Hnil. now rewrite Hnil in Hlen.
  - intros (Hin & -> & Hrows). split; [now exists name|].
    destruct (load name); [congruence|reflexivity].
Qed.

Lemma present_keys (load : string -> list Row) (names : list string) :
  List.NoDup names -> List.NoDup (List.map fst (present load names)).
Proof.
  intros Hdup. unfold present.
  induction names as [|name names IH]; [constructor|].
  apply List.NoDup_cons_iff in Hdup as [Hname Hdup].
  cbn [List.map List.filter snd].
  assert (Hsub : forall n, In n (List.map fst
              (List.filter (fun e : string * list Row => (0 <? List.length (snd e))%nat)
                 (List.map (fun name => (name, load name)) names))) -> In n names).
  { intros n [[n' r] [<- [Hin _]%List.filter_In]]%in_map_iff.
    apply in_map_iff in Hin as (n'' & [= <- <-] & Hin). exact Hin. }
  destruct (0 <? List.length (load name))%nat; [|now apply IH].
  cbn [List.map fst]. apply List.NoDup_cons_iff. split; [|now apply IH].
  intros Hin. apply Hname. now apply Hsub.
Qed.


Lemma documentsOf_length (prefix : string) (create : Row -> string)
    (fields : gmap string string) (rows : list Row) :
  List.length (documentsOf prefix create fields rows) = List.length rows.
Proof. unfold documentsOf. apply length_imap. Qed.

Lemma documentsOf_In (prefix : string) (create : Row -> string)
    (fields : gmap string string) (rows : list Row) (doc : BM25.Document) :
  In doc (documentsOf prefix create fields rows) ->
  exists row, In row rows /\ BM25.data doc = row ∪ fields.
Proof.
  unfold documentsOf. intros Hin%list_elem_of_In.
  apply list_elem_of_lookup_1 in Hin as [i Hi].
  rewrite list_lookup_imap in Hi.
  destruct (rows !! i) as [row|] eqn:Hrow; [|discriminate].
  injection Hi as <-. exists row. split; [|reflexivity].
  apply list_elem_of_In. now apply list_elem_of_lookup_2 in Hrow.
Qed.

(** The type of a document made of a row. *)
Lemma row_type (row fields : gmap string string) (type : string) :
  fields !! "type" = Some type ->
  row ⊆ row ∪ fields
  /\ (row ∪ fields) !! "type" = Some (default type (row !! "type")).
Proof.
  intros Hfield. split; [apply map_union_subseteq_l|].
  rewrite lookup_union, Hfield. now destruct (row !! "type").
Qed.

Lemma documentsOf_fromRow (loadCSV : string -> list Row) (file type : string)
    (prefix : string) (create : Row -> string) (fields : gmap string string) :
  In type documentTypes ->
  fields !! "type" = Some type ->
  Forall (fromRow loadCSV) (documentsOf prefix create fields (loadCSV file)).
Proof.
  intros Htype Hfield. apply List.Forall_forall.
  intros doc (row & Hrow & Hdata)%documentsOf_In.
  destruct (row_type row fields type Hfield) as [Hsub Hty].
  exists file, row, type. now rewrite Hdata.
Qed.

Lemma built_Some (docs : list BM25.Document) (index : option BM25.t) :
  is_Some (built docs index) <-> is_Some index \/ (0 < List.length docs)%nat.
Proof.
  unfold built. destruct (Nat.ltb_spec 0 (List.length docs)).
  - split; [now right|]. intros _. now eexists.
  - split; [now left|]. intros [Hsome|Hlen]; [assumption|lia].
Qed.

Lemma built_built (docs : list BM25.Document) (index : option BM25.t) :
  built docs (built docs index) = built docs index.
Proof. unfold built. now destruct (0 <? List.length docs)%nat. Qed.

(** *** The loops over the stacks and over the platforms *)

Lemma indexStacks_form (data : list (string * list Row)) :
  (forall name,
      is_Some (fst (indexStacks data) !! name)
      <-> exists rows, In (name, rows) data /\ rows <> [])
  /\ snd (indexStacks data)
     = flat_map
         (fun e =>
            documentsOf ("stack-" ++ fst e) createStackContent
              (<["type" := "stack"]> {[ "stackName" := fst e ]}) (snd e))
         data.
Proof.
  unfold indexStacks.
  match goal with |- context [fold_left ?f _ _] => set (step := f) end.
  assert (Hgen : forall data (indexes : gmap string BM25.t) docs,
    (forall name,
        is_Some (fst (fold_left step data (indexes, docs)) !! name)
        <-> is_Some (indexes !! name)
            \/ exists rows, In (name, rows) data /\ rows <> [])
    /\ snd (fold_left step data (indexes, docs))
       = (docs
          ++ flat_map
               (fun e =>
                  documentsOf ("stack-" ++ fst e) createStackContent
                    (<["type" := "stack"]> {[ "stackName" := fst e ]})
                    (snd e))
               data)%list).
  { clear data.
    induction data as [|[name rows] data IH]; intros indexes docs.
    - cbn [fold_left fst snd flat_map]. rewrite app_nil_r. split; [|reflexivity].
      intros name. split; [now left|]. now intros [H|(rows & [] & _)].
    - cbn [fold_left flat_map fst snd].
      destruct rows as [|row rows].
      + change (step (indexes, docs) (name, [])) with (indexes, docs).
        destruct (IH indexes docs) as [Hidx Hdocs].
        split.
        * intros key. rewrite Hidx. split.
          -- intros [H|(rs & Hin & Hrs)]; [now left|].
             right. exists rs. split; [now right|assumption].
          -- intros [H|(rs & [[= <- <-]|Hin] & Hrs)]; [now left|congruence|].
             right. now exists rs.
        * rewrite Hdocs. reflexivity.
      + set (stackDocs :=
               documentsOf ("stack-" ++ name) createStackContent
                 (<["type" := "stack"]> {[ "stackName" := name ]}) (row :: rows)).
        change (step (indexes, docs) (name, row :: rows))
          with (<[name := BM25.new stackDocs]> indexes, (docs ++ stackDocs)%list).
        destruct (IH (<[name := BM25.new stackDocs]> indexes)
                    (docs ++ stackDocs)%list) as [Hidx Hdocs].
        split.
        * intros key. rewrite Hidx. split.
          -- intros [H|(rs & Hin & Hrs)].
             ++ destruct (decide (name = key)) as [<-|Hne].
                ** right. exists (row :: rows). split; [now left|discriminate].
                ** left. now rewrite lookup_insert_ne in H.
             ++ right. exists rs. split; [now right|assumption].
          -- intros [H|(rs & [[= <- <-]|Hin] & Hrs)].
             ++ left. destruct (decide (name = key)) as [<-|Hne].
                ** rewrite lookup_insert_eq. now eexists.
                ** now rewrite lookup_insert_ne.
             ++ left. rewrite lookup_insert_eq. now eexists.
             ++ right. now exists rs.
        * rewrite Hdocs, <- app_assoc. reflexivity.
  }
  destruct (Hgen data ∅ []) as [Hidx Hdocs]. split; [|exact Hdocs].
  intros name. rewrite Hidx. split; [|now right].
  intros [[? Hnone]|H]; [discriminate Hnone|exact H].
Qed.

Lemma indexPlatforms_form (data : list (string * list Row)) :
  (forall name,
      is_Some (Tables.lookup (fst (indexPlatforms data)) name)
      <-> exists rows, In (name, rows) data /\ rows <> [])
  /\ snd (indexPlatforms data)
     = flat_map
         (fun e =>
            documentsOf ("platform-" ++ fst e) createPlatformContent
              (<["type" := "platform"]> {[ "platformName" := fst e ]}) (snd e))
         data.
Proof.
  unfold indexPlatforms.
  match goal with |- context [fold_left ?f _ _] => set (step := f) end.
  assert (Hgen : forall data (indexes : list (string * BM25.t)) docs,
    (forall name,
        is_Some (Tables.lookup (fst (fold_left step data (indexes, docs))) name)
        <-> is_Some (Tables.lookup (indexes) name)
            \/ exists rows, In (name, rows) data /\ rows <> [])
    /\ snd (fold_left step data (indexes, docs))
       = (docs
          ++ flat_map
               (fun e =>
                  documentsOf ("platform-" ++ fst e) createPlatformContent
                    (<["type" := "platform"]> {[ "platformName" := fst e ]})
                    (snd e))
               data)%list).
  { clear data.
    induction data as [|[name rows] data IH]; intros indexes docs.
    - cbn [fold_left fst snd flat_map]. rewrite app_nil_r. split; [|reflexivity].
      intros name. split; [now left|]. now intros [H|(rows & [] & _)].
    - cbn [fold_left flat_map fst snd].
      destruct rows as [|row rows].
      + change (step (indexes, docs) (name, [])) with (indexes, docs).
        destruct (IH indexes docs) as [Hidx Hdocs].
        split.
        * intros key. rewrite Hidx. split.
          -- intros [H|(rs & Hin & Hrs)]; [now left|].
             right. exists rs. split; [now right|assumption].
          -- intros [H|(rs & [[= <- <-]|Hin] & Hrs)]; [now left|congruence|].
             right. now exists rs.
        * rewrite Hdocs. reflexivity.
      + set (platformDocs :=
               documentsOf ("platform-" ++ name) createPlatformContent
                 (<["type" := "platform"]> {[ "platformName" := name ]})
                 (row :: rows)).
        change (step (indexes, docs) (name, row :: rows))
          with (mapSet indexes name (BM25.new platformDocs), (docs ++ platformDocs)%list).
        destruct (IH (mapSet indexes name (BM25.new platformDocs))
                    (docs ++ platformDocs)%list) as [Hidx Hdocs].
        split.
        * intros key. rewrite Hidx, lookup_mapSet. split.
          -- intros [H|(rs & Hin & Hrs)].
             ++ destruct (String.eqb_spec name key) as [Heq|Hne].
                ** right. exists (row :: rows). rewrite <- Heq.
                   split; [now left|discriminate].
                ** now left.
             ++ right. exists rs. split; [now right|assumption].
          -- intros [H|(rs & [[= <- <-]|Hin] & Hrs)].
             ++ left. destruct (String.eqb name key); [now eexists|assumption].
             ++ left. rewrite String.eqb_refl. now eexists.
             ++ right. now exists rs.
        * rewrite Hdocs, <- app_assoc. reflexivity.
  }
  destruct (Hgen data [] []) as [Hidx Hdocs]. split; [|exact Hdocs].
  intros name. rewrite Hidx. split; [|now right].
  intros [[? Hnone]|H]; [discriminate Hnone|exact H].
Qed.

Lemma flat_map_length_sum {A B} (f : A -> list B) (l : list A) :
  List.length (flat_map f l) = list_sum (List.map (fun x => List.length (f x)) l).
Proof.
  induction l as [|x l IH]; [reflexivity|].
  cbn [flat_map List.map list_sum]. now rewrite length_app, IH.
Qed.

(** The statistics of the stacks or of the platforms: one count for each
    entry of the data. *)
Lemma stats_acc (data : list (string * list Row)) (acc : list (string * nat)) :
  List.NoDup (List.map fst data) ->
  (forall name, In name (List.map fst data) -> ~ In name (List.map fst acc)) ->
  fold_left
    (fun stats '(name, rows) => mapSet stats name (List.length rows))
    data acc
  = (acc ++ List.map (fun e => (fst e, List.length (snd e))) data)%list.
Proof.
  revert acc. induction data as [|[name rows] data IH]; intros acc Hdup Hfresh.
  - cbn. now rewrite app_nil_r.
  - cbn [List.map fst] in Hdup, Hfresh.
    apply List.NoDup_cons_iff in Hdup as [Hname Hdup].
    cbn [fold_left List.map fst snd].
    rewrite mapSet_fresh by (apply Hfresh; now left).
    rewrite IH; [now rewrite <- app_assoc|assumption|].
    intros other Hin. rewrite List.map_app, in_app_iff.
    cbn [List.map fst In]. intros [Hacc|[->|[]]]; [|tauto].
    apply (Hfresh other); [now right|assumption].
Qed.

Lemma sumOf_stats (data : list (string * list Row)) :
  List.NoDup (List.map fst data) ->
  sumOf (fold_left
           (fun stats '(name, rows) => mapSet stats name (List.length rows))
           data [])
  = list_sum (List.map (fun e => List.length (snd e)) data).
Proof.
  intros Hdup. rewrite stats_acc; [|assumption|tauto].
  cbn [app]. unfold sumOf. rewrite List.map_map. reflexivity.
Qed.


Lemma indexStacks_docs (loadCSV : string -> list Row) :
  Forall (fromRow loadCSV) (snd (indexStacks (loadAllStacks loadCSV)))
  /\ List.length (snd (indexStacks (loadAllStacks loadCSV)))
     = list_sum (List.map (fun e => List.length (snd e)) (loadAllStacks loadCSV)).
Proof.
  destruct (indexStacks_form (loadAllStacks loadCSV)) as [_ ->]. split.
  - apply List.Forall_forall. intros doc [[name rows] [Hin Hdoc]]%in_flat_map.
    cbn [fst snd] in Hdoc. rewrite loadAllStacks_form in Hin.
    apply present_In in Hin as (_ & -> & _). revert doc Hdoc.
    apply List.Forall_forall, (documentsOf_fromRow _ _ "stack");
      [cbn; tauto|reflexivity].
  - rewrite flat_map_length_sum. f_equal. apply List.map_ext.
    intros e. apply documentsOf_length.
Qed.

Lemma indexPlatforms_docs (loadCSV : string -> list Row) :
  Forall (fromRow loadCSV) (snd (indexPlatforms (loadAllPlatforms loadCSV)))
  /\ List.length (snd (indexPlatforms (loadAllPlatforms loadCSV)))
     = list_sum
         (List.map (fun e => List.length (snd e)) (loadAllPlatforms loadCSV)).
Proof.
  destruct (indexPlatforms_form (loadAllPlatforms loadCSV)) as [_ ->]. split.
  - apply List.Forall_forall. intros doc [[name rows] [Hin Hdoc]]%in_flat_map.
    cbn [fst snd] in Hdoc. rewrite loadAllPlatforms_form in Hin.
    apply present_In in Hin as (_ & -> & _). revert doc Hdoc.
    apply List.Forall_forall, (documentsOf_fromRow _ _ "platform");
      [cbn; tauto|reflexivity].
  - rewrite flat_map_length_sum. f_equal. apply List.map_ext.
    intros e. apply documentsOf_length.
Qed.

Lemma indexStacks_lookup (loadCSV : string -> list Row) (name : string) :
  is_Some (fst (indexStacks (loadAllStacks loadCSV)) !! name)
  <-> In name AVAILABLE_STACKS /\ loadCSV (stackFile name) <> [].
Proof.
  destruct (indexStacks_form (loadAllStacks loadCSV)) as [-> _].
  rewrite loadAllStacks_form. split.
  - intros (rows & Hin & _).
    apply present_In in Hin as (Hname & -> & Hrows). now split.
  - intros [Hname Hrows]. exists (loadCSV (stackFile name)).
    split; [now apply present_In|assumption].
Qed.

Lemma indexPlatforms_lookup (loadCSV : string -> list Row) (name : string) :
  is_Some (Tables.lookup (fst (indexPlatforms (loadAllPlatforms loadCSV))) name)
  <-> In name AVAILABLE_PLATFORMS /\ loadCSV (platformFile name) <> [].
Proof.
  destruct (indexPlatforms_form (loadAllPlatforms loadCSV)) as [-> _].
  rewrite loadAllPlatforms_form. split.
  - intros (rows & Hin & _).
    apply present_In in Hin as (Hname & -> & Hrows). now split.
  - intros [Hname Hrows]. exists (loadCSV (platformFile name)).
    split; [now apply present_In|assumption].
Qed.

Lemma built_rows (prefix : string) (create : Row -> string)
    (fields : gmap string string) (rows : list Row) (index : option BM25.t) :
  is_Some (built (documentsOf prefix create fields rows) index)
  <-> is_Some index \/ rows <> [].
Proof.
  rewrite built_Some, documentsOf_length.
  destruct rows; cbn [List.length]; split; intros [H|H]; auto;
    try lia; try congruence.
Qed.

Ltac open_state :=
  unfold initializeIndexes; cbv zeta;
  destruct (indexStacks _), (indexPlatforms _).

Lemma initialized_Some (state : State.t) :
  isInitialized state = true <-> is_Some (State.unifiedIndex state).
Proof.
  unfold isInitialized. destruct (State.unifiedIndex state); split; intros H;
    try reflexivity; try discriminate; [now eexists|now destruct H].
Qed.

(** After [initializeIndexes]: the statistics add up; the unified index is
    there exactly when it was there before or a row was loaded, and it
    holds all documents when a row was loaded; each of the nine indexes
    of one file is there exactly when it was there before or its file has
    a row; a stack or a platform has an index exactly when it is an
    available one whose file has a row; every document is made of a
    loaded row, keeps the columns of the row and has a type; and a second
    run over the same files changes nothing. *)
Theorem initializeIndexes_state (loadCSV : string -> list Row)
    (previous : State.t) :
  let state := initializeIndexes loadCSV previous in
  let stats := getDataStats state in
  DataStats.total stats = counted stats
  /\ (isInitialized state = true
      <-> isInitialized previous = true \/ (0 < DataStats.total stats)%nat)
  /\ ((0 < DataStats.total stats)%nat ->
      State.unifiedIndex state = Some (BM25.new (State.allDocuments state)))
  /\ Forall (fun '(index, file) =>
               is_Some (index state)
               <-> is_Some (index previous) \/ loadCSV file <> [])
       singleIndexes
  /\ (forall name,
        is_Some (State.stackIndexes state !! name)
        <-> In name AVAILABLE_STACKS /\ loadCSV (stackFile name) <> [])
  /\ (forall name,
        is_Some (Tables.lookup (State.platformIndexes state) name)
        <-> In name AVAILABLE_PLATFORMS /\ loadCSV (platformFile name) <> [])
  /\ Forall (fromRow loadCSV) (State.allDocuments state)
  /\ initializeIndexes loadCSV state = state.
Proof.
  cbv zeta.
  pose proof (indexStacks_docs loadCSV) as [HstackRows HstackLen].
  pose proof (indexPlatforms_docs loadCSV) as [HplatformRows HplatformLen].
  pose proof (indexStacks_lookup loadCSV) as HstackIdx.
  pose proof (indexPlatforms_lookup loadCSV) as HplatformIdx.
  assert (HstackSum :
            sumOf (DataStats.stacks
                     (getDataStats (initializeIndexes loadCSV previous)))
            = list_sum (List.map (fun e => List.length (snd e))
                          (loadAllStacks loadCSV))).
  { open_state.
    cbn [getDataStats DataStats.stacks State.stacksData].
    apply sumOf_stats. rewrite loadAllStacks_form.
    apply present_keys, stacks_NoDup. }
  assert (HplatformSum :
            sumOf (DataStats.platforms
                     (getDataStats (initializeIndexes loadCSV previous)))
            = list_sum (List.map (fun e => List.length (snd e))
                          (loadAllPlatforms loadCSV))).
  { open_state.
    cbn [getDataStats DataStats.platforms State.platformsData].
    apply sumOf_stats. rewrite loadAllPlatforms_form.
    apply present_keys, platforms_NoDup. }
  assert (Htotal :
            DataStats.total (getDataStats (initializeIndexes loadCSV previous))
            = counted (getDataStats (initializeIndexes loadCSV previous))).
  { unfold counted. rewrite HstackSum, HplatformSum.
    rewrite <- HstackLen, <- HplatformLen.
    open_state.
    cbn [getDataStats DataStats.total DataStats.styles DataStats.colors
         DataStats.typography DataStats.charts DataStats.uxGuidelines
         DataStats.icons DataStats.landing DataStats.products
         DataStats.prompts State.allDocuments State.stylesData
         State.colorsData State.typographyData State.chartsData
         State.uxGuidelinesData State.iconsData State.landingData
         State.productsData State.promptsData snd].
    rewrite !length_app, !documentsOf_length. lia. }
  split; [exact Htotal|].
  clear HstackLen HplatformLen HstackSum HplatformSum Htotal.
  split; [|split; [|split; [|split; [|split; [|split]]]]].
  - rewrite !initialized_Some. open_state.
    cbn [State.unifiedIndex getDataStats DataStats.total State.allDocuments].
    apply built_Some.
  - open_state.
    cbn [State.unifiedIndex getDataStats DataStats.total State.allDocuments].
    intros Hpos. unfold built. now apply Nat.ltb_lt in Hpos as ->.
  - open_state. unfold singleIndexes.
    repeat (apply List.Forall_cons;
            [cbn [State.stylesIndex State.colorsIndex State.typographyIndex
                  State.chartsIndex State.uxGuidelinesIndex State.iconsIndex
                  State.landingIndex State.productsIndex State.promptsIndex];
             apply built_rows|]).
    constructor.
  - intros name. rewrite <- HstackIdx. open_state. reflexivity.
  - intros name. rewrite <- HplatformIdx. open_state. reflexivity.
  - revert HstackRows HplatformRows. open_state.
    cbn [snd State.allDocuments]. intros HstackRows HplatformRows.
    repeat (apply List.Forall_app; split); try assumption;
      (eapply documentsOf_fromRow; cycle 1; [reflexivity|cbn; tauto]).
  - open_state.
    cbn [State.stylesIndex State.colorsIndex State.typographyIndex
         State.chartsIndex State.uxGuidelinesIndex State.iconsIndex
         State.landingIndex State.productsIndex State.promptsIndex
         State.unifiedIndex].
    now rewrite !built_built.
Qed.

End StateFacts.
